(** * Team role assignment: a shallow embedding of the assignment pipeline

    The development follows the TypeScript sources of the repository:
    [lib/assigner.ts] (optimal matching), [lib/scorer.ts] and
    [lib/justifier.ts] (the two oracle clients with their retry loops),
    [lib/teamManager.ts] (the in-memory store) and the API handlers
    [pages/api/assignTeam.ts] and [pages/api/assignTeamsBatch.ts].

    Conventions of the embedding:
    - a JavaScript [number] is a rational, one of the two infinities, or NaN;
      comparisons are the IEEE ones (every comparison with NaN is false) and
      arithmetic on finite values is exact;
    - a [Date] is a number of milliseconds ([Z]);
    - a string holds the UTF-8 bytes of its text; [JSString.length] counts
      its UTF-16 code units, as [length] does in the code;
    - the calls that leave the process ([fetch], [uuidv4], [new Date()])
      appear as explicit arguments, and so does the binding of [munkres],
      of which [Assigner.importedMunkres] is the one in force;
    - a JavaScript [Map] is an association list in insertion order. *)

From Stdlib Require Import ZArith QArith Lqa List String Ascii Lia.
From Stdlib Require Import Sorted.
From stdpp Require Import base option list gmap sets strings pretty.
From Equations Require Import Equations.
From Equations.Prop Require Import Logic.
Import ListNotations.

Set Warnings "-register-all".

Local Open Scope string_scope.
Local Open Scope list_scope.
Local Open Scope Z_scope.

(** ** JavaScript numbers *)

Inductive number : Type :=
| Finite (q : Q)
| PosInfinity
| NegInfinity
| NaN.

Definition Qlt_bool (x y : Q) : bool := negb (Qle_bool y x).

(** [a < b] *)
Definition js_lt (a b : number) : bool :=
  match a, b with
  | NaN, _ | _, NaN => false
  | Finite x, Finite y => Qlt_bool x y
  | _, NegInfinity => false
  | NegInfinity, _ => true
  | PosInfinity, _ => false
  | Finite _, PosInfinity => true
  end.

(** [a <= b] *)
Definition js_le (a b : number) : bool :=
  match a, b with
  | NaN, _ | _, NaN => false
  | Finite x, Finite y => Qle_bool x y
  | NegInfinity, _ => true
  | _, PosInfinity => true
  | _, _ => false
  end.

Definition js_gt (a b : number) : bool := js_lt b a.
Definition js_ge (a b : number) : bool := js_le b a.

Definition js_neg (a : number) : number :=
  match a with
  | Finite x => Finite (- x)
  | PosInfinity => NegInfinity
  | NegInfinity => PosInfinity
  | NaN => NaN
  end.

(** [a + b] *)
Definition js_add (a b : number) : number :=
  match a, b with
  | NaN, _ | _, NaN => NaN
  | Finite x, Finite y => Finite (x + y)
  | PosInfinity, NegInfinity | NegInfinity, PosInfinity => NaN
  | PosInfinity, _ | _, PosInfinity => PosInfinity
  | NegInfinity, _ | _, NegInfinity => NegInfinity
  end.

(** [a - b] *)
Definition js_sub (a b : number) : number := js_add a (js_neg b).

(** [a * b] *)
Definition js_mul (a b : number) : number :=
  match a, b with
  | NaN, _ | _, NaN => NaN
  | Finite x, Finite y => Finite (x * y)
  | Finite x, PosInfinity | PosInfinity, Finite x =>
      if Qeq_bool x 0 then NaN
      else if Qlt_bool 0 x then PosInfinity else NegInfinity
  | Finite x, NegInfinity | NegInfinity, Finite x =>
      if Qeq_bool x 0 then NaN
      else if Qlt_bool 0 x then NegInfinity else PosInfinity
  | PosInfinity, PosInfinity | NegInfinity, NegInfinity => PosInfinity
  | PosInfinity, NegInfinity | NegInfinity, PosInfinity => NaN
  end.

(** [a / b]. The zero of the embedding is the positive one, as the zero of
    a length or of a count is: all the divisors in the code are such. *)
Definition js_div (a b : number) : number :=
  match a, b with
  | NaN, _ | _, NaN => NaN
  | Finite x, Finite y =>
      if Qeq_bool y 0 then
        if Qeq_bool x 0 then NaN
        else if Qlt_bool 0 x then PosInfinity else NegInfinity
      else Finite (x / y)
  | Finite _, _ => Finite 0
  | PosInfinity, Finite y => if Qlt_bool y 0 then NegInfinity else PosInfinity
  | NegInfinity, Finite y => if Qlt_bool y 0 then PosInfinity else NegInfinity
  | _, _ => NaN
  end.

(** A length or a count as a number. *)
Definition js_count (n : nat) : number := Finite (inject_Z (Z.of_nat n)).

(** [Math.min(...scores)] and [Math.max(...scores)]: the infinities for the
    empty list, NaN as soon as one argument is NaN. *)
Definition Math_min (scores : list number) : number :=
  foldl
    (fun least score =>
       match least, score with
       | NaN, _ | _, NaN => NaN
       | _, _ => if js_lt score least then score else least
       end)
    PosInfinity scores.

Definition Math_max (scores : list number) : number :=
  foldl
    (fun greatest score =>
       match greatest, score with
       | NaN, _ | _, NaN => NaN
       | _, _ => if js_gt score greatest then score else greatest
       end)
    NegInfinity scores.

(** The sign of a number as [Array.prototype.sort] reads the result of a
    comparator: NaN counts as zero. *)
Definition js_sign (a : number) : Z :=
  match a with
  | Finite q => Z.sgn (Qnum q)
  | PosInfinity => 1
  | NegInfinity => -1
  | NaN => 0
  end.

Definition Date : Type := Z.

(** ** The result objects [{ success, <payload>?, error? }] *)

Inductive Outcome (A : Type) : Type :=
| Success (payload : A)
| Failure (error : string).
Arguments Success {A} payload.
Arguments Failure {A} error.

(** ** types/index.ts *)

Module Applicant.
Record t : Type := mk {
  id : string;
  name : string;
  occupation : string;
  skills : list string;
  personalityTraits : list string;
  submittedAt : Date
}.
End Applicant.

Module Team.
Record t : Type := mk {
  id : string;
  name : string;
  applicants : list Applicant.t;
  createdAt : Date;
  isComplete : bool;
  sessionId : string
}.
End Team.

Module RoleDefinition.
Record t : Type := mk {
  id : string;
  name : string;
  description : option string
}.
End RoleDefinition.

Module ScoreMatrix.
Record t : Type := mk {
  teamId : string;
  scores : list (list number);
  generatedAt : Date
}.
End ScoreMatrix.

Module Assignment.
Record t : Type := mk {
  applicantId : string;
  roleId : string;
  score : number;
  justification : option string
}.
End Assignment.

Module TeamAssignment.
Record t : Type := mk {
  teamId : string;
  assignments : list Assignment.t;
  totalScore : number;
  generatedAt : Date;
  justificationsGenerated : bool
}.
End TeamAssignment.

(** ** lib/assigner.ts *)

(** What the call [munkres(costMatrix)] can yield: an exception, a falsy
    value, or an array of [[row, column]] pairs. *)
Inductive MunkresResult : Type :=
| MunkresThrows (message : string)
| MunkresFalsy
| MunkresPairs (pairs : list (Z * Z)).

Module Assigner.

(** The binding of [munkres] in force. Line 1 is
    [import { munkres } from 'munkres-js'], a named import; the package
    exports the solver function itself, whose members are [Munkres],
    [make_cost_matrix], [format_matrix] and [version], and has no member
    [munkres]. The name is bound to [undefined], and the call at line 31
    throws a [TypeError], which the [catch] of [assignRoles] receives;
    [message] is the text the engine gives that error. *)
Definition importedMunkres (message : string) (costMatrix : list (list number))
    : MunkresResult :=
  MunkresThrows message.

(** The three ways out of the [for ... of hungarianResult] loop. *)
Inductive LoopOutcome : Type :=
| Returned (error : string)
| Thrown (message : string)
| Finished (assignments : list Assignment.t) (totalScore : number).

Definition costMatrix (scores : list (list number)) : list (list number) :=
  map (fun row => map (fun score => js_sub (Finite 100) score) row) scores.

Definition setSize (ids : list string) : nat :=
  size (list_to_set ids : gset string).

Section WithSolver.
Variable munkres : list (list number) -> MunkresResult.

Fixpoint buildAssignments (team : Team.t) (roles : list RoleDefinition.t)
    (scoreMatrix : ScoreMatrix.t) (hungarianResult : list (Z * Z))
    (assignments : list Assignment.t) (totalScore : number) : LoopOutcome :=
  match hungarianResult with
  | [] => Finished assignments totalScore
  | (applicantIndex, roleIndex) :: rest =>
      if (applicantIndex <? 0) || (applicantIndex >=? 10)
         || (roleIndex <? 0) || (roleIndex >=? 10)
      then Returned ("Invalid assignment indices: [" +:+ pretty applicantIndex
                     +:+ ", " +:+ pretty roleIndex +:+ "]")
      else
        let applicant := Team.applicants team !! Z.to_nat applicantIndex in
        let role := roles !! Z.to_nat roleIndex in
        match ScoreMatrix.scores scoreMatrix !! Z.to_nat applicantIndex with
        | None => Thrown "Cannot read properties of undefined"
        | Some row =>
            (* a missing cell cannot occur: the rows were checked to have
               length 10 and roleIndex is below 10 *)
            let score := default NaN (row !! Z.to_nat roleIndex) in
            match applicant with
            | None => Returned ("Applicant not found at index "
                                +:+ pretty applicantIndex)
            | Some applicant =>
                match role with
                | None => Returned ("Role not found at index "
                                    +:+ pretty roleIndex)
                | Some role =>
                    buildAssignments team roles scoreMatrix rest
                      (assignments ++
                         [Assignment.mk (Applicant.id applicant)
                            (RoleDefinition.id role) score None])
                      (js_add totalScore score)
                end
            end
        end
  end.

(** [Assigner.assignRoles]; [now] is the value of [new Date()]. *)
Definition assignRoles (now : Date) (team : Team.t)
    (roles : list RoleDefinition.t) (scoreMatrix : ScoreMatrix.t)
    : Outcome TeamAssignment.t :=
  if negb (length (Team.applicants team) =? 10)%nat then
    Failure "Team must have exactly 10 applicants"
  else if negb (length roles =? 10)%nat then
    Failure "Must have exactly 10 roles"
  else if negb (length (ScoreMatrix.scores scoreMatrix) =? 10)%nat
          || negb (forallb (fun row => (length row =? 10)%nat)
                     (ScoreMatrix.scores scoreMatrix)) then
    Failure "Score matrix must be 10x10"
  else
    match munkres (costMatrix (ScoreMatrix.scores scoreMatrix)) with
    | MunkresThrows message => Failure ("Assignment failed: " +:+ message)
    | MunkresFalsy =>
        Failure "Hungarian algorithm failed to find valid assignment"
    | MunkresPairs hungarianResult =>
        if negb (length hungarianResult =? 10)%nat then
          Failure "Hungarian algorithm failed to find valid assignment"
        else
          match buildAssignments team roles scoreMatrix hungarianResult
                  [] (Finite 0) with
          | Returned error => Failure error
          | Thrown message => Failure ("Assignment failed: " +:+ message)
          | Finished assignments totalScore =>
              if negb (setSize (map Assignment.applicantId assignments)
                       =? 10)%nat then
                Failure "Not all applicants were assigned uniquely"
              else if negb (setSize (map Assignment.roleId assignments)
                            =? 10)%nat then
                Failure "Not all roles were assigned uniquely"
              else
                Success (TeamAssignment.mk (Team.id team) assignments
                           totalScore now false)
          end
    end.
End WithSolver.

(** [Assigner.getAssignmentStats] *)

Record ScoreRange : Type := mkRange {
  range : string;
  min : Q;
  max : Q
}.

Definition ranges : list ScoreRange :=
  [ mkRange "90-100" 90 100; mkRange "80-89" 80 89; mkRange "70-79" 70 79;
    mkRange "60-69" 60 69; mkRange "50-59" 50 59; mkRange "0-49" 0 49 ].

(** The elements are the [{ range, count }] objects. *)
Definition calculateScoreDistribution (scores : list number)
    : list (string * nat) :=
  map
    (fun r =>
       (range r,
        length
          (List.filter
             (fun score =>
                js_ge score (Finite (min r)) && js_le score (Finite (max r)))
             scores)))
    ranges.

Record AssignmentStats : Type := mkStats {
  totalScore : number;
  averageScore : number;
  minScore : number;
  maxScore : number;
  scoreDistribution : list (string * nat)
}.

Definition getAssignmentStats (assignment : TeamAssignment.t)
    : AssignmentStats :=
  let scores := map Assignment.score (TeamAssignment.assignments assignment) in
  mkStats (TeamAssignment.totalScore assignment)
    (js_div (TeamAssignment.totalScore assignment)
       (js_count (length (TeamAssignment.assignments assignment))))
    (Math_min scores) (Math_max scores) (calculateScoreDistribution scores).

(** [Assigner.validateAssignment]; the result is [(valid, errors)].
    [showNumber] is the text of a number in a template literal. *)
Definition validateAssignment (showNumber : number -> string) (team : Team.t)
    (roles : list RoleDefinition.t) (assignment : TeamAssignment.t)
    : bool * list string :=
  let assignments := TeamAssignment.assignments assignment in
  let assignedApplicants := map Assignment.applicantId assignments in
  let assignedRoles := map Assignment.roleId assignments in
  let errors :=
    (if negb (String.eqb (TeamAssignment.teamId assignment) (Team.id team))
     then ["Assignment team ID does not match provided team"] else [])
    ++ (if negb (length assignments =? 10)%nat
        then ["Expected 10 assignments, got " +:+ pretty (length assignments)]
        else [])
    ++ (if negb (setSize assignedApplicants =? length assignedApplicants)%nat
        then ["Duplicate applicant assignments found"] else [])
    ++ (if negb (setSize assignedRoles =? length assignedRoles)%nat
        then ["Duplicate role assignments found"] else [])
    ++ flat_map
         (fun assign =>
            if existsb
                 (fun a =>
                    String.eqb (Applicant.id a) (Assignment.applicantId assign))
                 (Team.applicants team)
            then []
            else ["Applicant " +:+ Assignment.applicantId assign
                  +:+ " not found in team"])
         assignments
    ++ flat_map
         (fun assign =>
            if existsb
                 (fun r =>
                    String.eqb (RoleDefinition.id r) (Assignment.roleId assign))
                 roles
            then []
            else ["Role " +:+ Assignment.roleId assign
                  +:+ " not found in roles list"])
         assignments
    ++ flat_map
         (fun assign =>
            if js_lt (Assignment.score assign) (Finite 0)
               || js_gt (Assignment.score assign) (Finite 100)
            then ["Invalid score " +:+ showNumber (Assignment.score assign)
                  +:+ " for assignment " +:+ Assignment.applicantId assign
                  +:+ " -> " +:+ Assignment.roleId assign]
            else [])
         assignments in
  (match errors with [] => true | _ => false end, errors).

(** Vocabulary for the statement about the distribution: how many of the
    six ranges hold a score. *)
Definition rangesHolding (score : number) : nat :=
  length
    (List.filter
       (fun r => js_ge score (Finite (min r)) && js_le score (Finite (max r)))
       ranges).

(** Vocabulary for the statements about [assignRoles]. *)

(** [scores[i][j]] *)
Definition cell (scores : list (list number)) (i j : Z) : number :=
  match scores !! Z.to_nat i with
  | Some row => default NaN (row !! Z.to_nat j)
  | None => NaN
  end.

(** The cells of the chosen pairs, added up from 0 in the order of the
    pairs, as the loop does. *)
Definition sumCells (scores : list (list number)) (pairs : list (Z * Z))
    : number :=
  fold_left (fun acc p => js_add acc (cell scores p.1 p.2)) pairs (Finite 0).

(** [a] is the pairing built for the solver's pair [p]. *)
Definition pairedWith (team : Team.t) (roles : list RoleDefinition.t)
    (scoreMatrix : ScoreMatrix.t) (p : Z * Z) (a : Assignment.t) : Prop :=
  exists applicant role,
    Team.applicants team !! Z.to_nat p.1 = Some applicant /\
    roles !! Z.to_nat p.2 = Some role /\
    a = Assignment.mk (Applicant.id applicant) (RoleDefinition.id role)
          (cell (ScoreMatrix.scores scoreMatrix) p.1 p.2) None.

Definition inRange (p : Z * Z) : Prop :=
  0 <= p.1 < 10 /\ 0 <= p.2 < 10.

(** A bijection between the ten applicant indices and the ten role
    indices, as a list of pairs. *)
Definition perfectMatching (pairs : list (Z * Z)) : Prop :=
  length pairs = 10%nat /\ Forall inRange pairs /\
  NoDup pairs.*1 /\ NoDup pairs.*2.

(** What [munkres-js] computes on a square matrix: a perfect matching of
    least total cost. *)
Definition minCostMatching (cost : list (list number))
    (pairs : list (Z * Z)) : Prop :=
  perfectMatching pairs /\
  forall other, perfectMatching other ->
    js_le (sumCells cost pairs) (sumCells cost other) = true.

(** A 10 x 10 matrix of finite numbers in [0, 100]. *)
Definition validCell (c : number) : Prop :=
  exists q, c = Finite q /\ (0 <= q <= 100)%Q.

Definition validScores (scores : list (list number)) : Prop :=
  length scores = 10%nat /\
  Forall (fun row => length row = 10%nat /\ Forall validCell row) scores.

(** The rational a finite number stands for. *)
Definition valueOf (n : number) : Q :=
  match n with Finite q => q | _ => 0%Q end.

Definition sumValues (m : list (list number)) (pairs : list (Z * Z)) : Q :=
  foldr (fun p acc => (valueOf (cell m p.1 p.2) + acc)%Q) 0%Q pairs.

End Assigner.

(** ** JavaScript strings *)

Module JSString.

(** [String.prototype.toLowerCase] on the letters A to Z, the only code
    points below U+0080 it changes; what it does to the letters outside
    ASCII is not modelled, they are left as they are. *)
Definition lowerChar (c : ascii) : ascii :=
  let n := nat_of_ascii c in
  if ((65 <=? n) && (n <=? 90))%nat then ascii_of_nat (n + 32) else c.

Fixpoint toLowerCase (s : string) : string :=
  match s with
  | EmptyString => EmptyString
  | String c rest => String (lowerChar c) (toLowerCase rest)
  end.

(** [haystack.includes(needle)] *)
Fixpoint includes (haystack needle : string) : bool :=
  String.prefix needle haystack
  || match haystack with
     | EmptyString => false
     | String _ rest => includes rest needle
     end.

(** A string holds the UTF-8 bytes of its text. [s.length] counts UTF-16
    code units: a code point below U+10000 takes one to three bytes and is
    one unit (so is a lone surrogate, held in the three bytes of its
    code), a code point from U+10000 on takes four bytes and is two units.
    The first byte of a code point tells which: below 128 or from 192 to
    239 it starts a code point of one unit, from 240 on one of two units;
    the bytes from 128 to 191 continue a code point. *)
Definition codeUnits (c : ascii) : nat :=
  let n := nat_of_ascii c in
  if (n <? 128)%nat then 1%nat
  else if (n <? 192)%nat then 0%nat
  else if (n <? 240)%nat then 1%nat
  else 2%nat.

Fixpoint length (s : string) : nat :=
  match s with
  | EmptyString => 0%nat
  | String c rest => (codeUnits c + length rest)%nat
  end.

(** Every code point of the string is below U+0080. *)
Fixpoint isASCII (s : string) : bool :=
  match s with
  | EmptyString => true
  | String c rest => (nat_of_ascii c <? 128)%nat && isASCII rest
  end.

(** The white space [trim] removes is the WhiteSpace and the LineTerminator
    of ECMAScript. Of one byte: U+0009 to U+000D and U+0020. *)
Definition isWhiteSpace (c : ascii) : bool :=
  let n := nat_of_ascii c in
  ((9 <=? n) && (n <=? 13) || (n =? 32))%nat.

(** Of two bytes: U+00A0 (C2 A0). *)
Definition isWhiteSpace2 (c0 c1 : ascii) : bool :=
  ((nat_of_ascii c0 =? 194) && (nat_of_ascii c1 =? 160))%nat.

(** Of three bytes: U+1680 (E1 9A 80), U+2000 to U+200A (E2 80 80 to
    E2 80 8A), U+2028 and U+2029 (E2 80 A8, E2 80 A9), U+202F (E2 80 AF),
    U+205F (E2 81 9F), U+3000 (E3 80 80) and U+FEFF (EF BB BF). *)
Definition isWhiteSpace3 (c0 c1 c2 : ascii) : bool :=
  let b0 := nat_of_ascii c0 in
  let b1 := nat_of_ascii c1 in
  let b2 := nat_of_ascii c2 in
  ((b0 =? 225) && (b1 =? 154) && (b2 =? 128)
   || (b0 =? 226) && (b1 =? 128)
      && ((128 <=? b2) && (b2 <=? 138) || (b2 =? 168) || (b2 =? 169)
          || (b2 =? 175))
   || (b0 =? 226) && (b1 =? 129) && (b2 =? 159)
   || (b0 =? 227) && (b1 =? 128) && (b2 =? 128)
   || (b0 =? 239) && (b1 =? 187) && (b2 =? 191))%nat.

Fixpoint trimStart (s : string) : string :=
  match s with
  | EmptyString => EmptyString
  | String c0 rest0 =>
      if isWhiteSpace c0 then trimStart rest0
      else
        match rest0 with
        | EmptyString => s
        | String c1 rest1 =>
            if isWhiteSpace2 c0 c1 then trimStart rest1
            else
              match rest1 with
              | EmptyString => s
              | String c2 rest2 =>
                  if isWhiteSpace3 c0 c1 c2 then trimStart rest2 else s
              end
        end
  end.

Definition isEmpty (s : string) : bool :=
  match s with EmptyString => true | String _ _ => false end.

(** [trimEnd] cuts the string where what is left is white space
    throughout. No byte that continues a code point starts a white space,
    so the cut never falls inside a code point. *)
Fixpoint trimEnd (s : string) : string :=
  match s with
  | EmptyString => EmptyString
  | String c rest =>
      if isEmpty (trimStart (String c rest)) then EmptyString
      else String c (trimEnd rest)
  end.

Definition trim (s : string) : string := trimEnd (trimStart s).

End JSString.

(** ** JSON values, as [JSON.parse] returns them: the fields of an object
    have distinct keys *)

Inductive json : Type :=
| JNull
| JBool (b : bool)
| JNumber (n : number)
| JString (s : string)
| JArray (items : list json)
| JObject (fields : list (string * json)).

Module JS.

(** [!!v] *)
Definition truthy (v : option json) : bool :=
  match v with
  | None | Some JNull => false
  | Some (JBool b) => b
  | Some (JNumber (Finite q)) => negb (Qeq_bool q 0)
  | Some (JNumber NaN) => false
  | Some (JNumber _) => true
  | Some (JString s) => negb (JSString.isEmpty s)
  | Some (JArray _) | Some (JObject _) => true
  end.

Fixpoint lookupField (key : string) (fields : list (string * json))
    : option json :=
  match fields with
  | [] => None
  | (k, v) :: rest => if String.eqb k key then Some v else lookupField key rest
  end.

(** [items.slice(start, end)] for whole [start] and [end]: a negative index
    counts from the end, and both are clamped to the array. *)
Definition slice {A} (items : list A) (start finish : Z) : list A :=
  let len := Z.of_nat (length items) in
  let first := if start <? 0 then Z.max (len + start) 0 else Z.min start len in
  let final :=
    if finish <? 0 then Z.max (len + finish) 0 else Z.min finish len in
  take (Z.to_nat (final - first)) (drop (Z.to_nat first) items).

(** [items.findIndex(test)], with [None] for [-1]. *)
Fixpoint findIndex {A} (test : A -> bool) (items : list A) : option nat :=
  match items with
  | [] => None
  | item :: rest =>
      if test item then Some 0%nat else S <$> findIndex test rest
  end.

End JS.

(** ** The body of a [try] block: it returns a value or throws *)

Inductive Completion (A : Type) : Type :=
| Return (value : A)
| Throw (message : string).
Arguments Return {A} value.
Arguments Throw {A} message.

(** What the retry loops do besides computing: they start attempts and they
    sleep. *)
Inductive Event : Type :=
| Attempt (retryCount : nat)
| Delay (ms : Z).

(** Vocabulary for the statements about the retry loops. *)
Module Retry.

(** The effects of a run that started at [retryCount = first] and ended
    with attempt [n]: the attempts [first .. n], with the delay
    [base * 2 ^ k] after the failed attempt [k]. *)
Definition logFrom (base : Z) (first n : nat) : list Event :=
  flat_map (fun k => [Attempt k; Delay (base * 2 ^ Z.of_nat k)])
    (seq first (n - first))
  ++ [Attempt n].

Definition log (base : Z) (n : nat) : list Event := logFrom base 0 n.

Definition attempts (log : list Event) : nat :=
  length (List.filter (fun e => match e with Attempt _ => true | _ => false end)
            log).

(** The policy of a unit of oracle work with retry ceiling 3: [attempt k] is
    what the [k]-th attempt does, [run] the result and the effects of the
    whole unit. *)
Definition policy {A} (base : Z) (isRetryableError : string -> bool)
    (failureMessage : nat -> string -> string)
    (attempt : nat -> Completion (Outcome A))
    (run : Outcome A * list Event) : Prop :=
  (* the attempts 0 .. n are made, n <= 3, each but the last failed with a
     retryable error, and the last one decides the result *)
  (exists n,
     (n <= 3)%nat /\
     run.2 = log base n /\
     attempts run.2 = S n /\
     (forall k, (k < n)%nat ->
        exists message,
          attempt k = Throw message /\ isRetryableError message = true) /\
     match attempt n with
     | Return result => run.1 = result
     | Throw message =>
         (isRetryableError message = false \/ n = 3%nat) /\
         run.1 = Failure (failureMessage n message)
     end) /\
  (* a first failure classified terminal: one attempt, no delay *)
  (forall message,
     attempt 0%nat = Throw message ->
     isRetryableError message = false ->
     run = (Failure (failureMessage 0%nat message), [Attempt 0%nat])) /\
  (* retryable failures only: three retries, then the failure is reported *)
  (forall m0 m1 m2 m3,
     attempt 0%nat = Throw m0 -> attempt 1%nat = Throw m1 ->
     attempt 2%nat = Throw m2 -> attempt 3%nat = Throw m3 ->
     isRetryableError m0 = true ->
     isRetryableError m1 = true ->
     isRetryableError m2 = true ->
     run = (Failure (failureMessage 3%nat m3),
            [Attempt 0%nat; Delay base; Attempt 1%nat; Delay (base * 2);
             Attempt 2%nat; Delay (base * 4); Attempt 3%nat])).

End Retry.

(** ** The round trip to the oracle, common to both clients

    One [fetch] and the reading of its response, up to and including
    [JSON.parse] of the first bracketed substring of the reply. *)
Module OpenRouter.

Inductive Reply : Type :=
| FetchRejects (message : string)
| HttpError (status : Z) (errorText : string)
| BodyUnreadable (message : string)
| NoContent
| NoJsonArray
| JsonSyntaxError (parseError : string)
| Parsed (value : json).

Definition readReply (reply : Reply) : Completion json :=
  match reply with
  | FetchRejects message => Throw message
  | HttpError status errorText =>
      Throw ("OpenRouter API error: " +:+ pretty status +:+ " - " +:+ errorText)
  | BodyUnreadable message => Throw message
  | NoContent => Throw "No response content from LLM"
  | NoJsonArray =>
      Throw "Failed to parse LLM response: Error: No JSON array found in response"
  | JsonSyntaxError parseError =>
      Throw ("Failed to parse LLM response: " +:+ parseError)
  | Parsed value => Return value
  end.

(** [JSON.parse] yields finite numbers and, for literals that overflow,
    the infinities; it never yields NaN. *)
Fixpoint nanFree (v : json) : bool :=
  match v with
  | JNumber NaN => false
  | JArray items => forallb nanFree items
  | JObject fields => forallb (fun kv => nanFree kv.2) fields
  | _ => true
  end.

Definition wellFormed (reply : Reply) : bool :=
  match reply with
  | Parsed value => nanFree value
  | _ => true
  end.

End OpenRouter.

(** ** The batch code that lib/scorer.ts and lib/justifier.ts share

    The two clients process their batches with the same code, of which each
    file has its own copy: [createBatches], the results
    [{ teamId, success, <payload>?, error? }], the pass that writes the
    outcomes of the retried units over the failed results, and the summary. *)

Module Batch.

(** The loop of [createBatches] from index [i] on. [fuel] bounds the number
    of iterations; [None] is a loop that has not ended within the bound. *)
Fixpoint createBatchesFrom {T} (fuel : nat) (items : list T) (batchSize i : Z)
    (batches : list (list T)) : option (list (list T)) :=
  if negb (i <? Z.of_nat (length items)) then Some batches
  else
    match fuel with
    | O => None
    | S fuel =>
        createBatchesFrom fuel items batchSize (i + batchSize)
          (batches ++ [JS.slice items i (i + batchSize)])
    end.

(** One iteration for each item is enough whenever the loop ends at all. *)
Definition createBatches {T} (items : list T) (batchSize : Z)
    : option (list (list T)) :=
  createBatchesFrom (length items) items batchSize 0 [].

Record Result (A : Type) : Type := mkResult {
  teamId : string;
  outcome : Outcome A
}.
Arguments mkResult {A} teamId outcome.
Arguments teamId {A} _.
Arguments outcome {A} _.

(** [r.success] *)
Definition succeeded {A} (r : Result A) : bool :=
  match outcome r with
  | Success _ => true
  | Failure _ => false
  end.

Record Summary : Type := mkSummary {
  total : nat;
  successful : nat;
  failed : nat
}.

Record t (A : Type) : Type := mk {
  success : bool;
  results : list (Result A);
  summary : Summary
}.
Arguments mk {A} success results summary.
Arguments success {A} _.
Arguments results {A} _.
Arguments summary {A} _.

(** "Update results with retry outcomes": [retryResults.forEach], over the
    failed results and the outcomes of their retries. *)
Definition applyRetries {A} (allResults : list (Result A))
    (failedResults retryResults : list (Result A)) : list (Result A) :=
  foldl
    (fun allResults retried =>
       match JS.findIndex
               (fun r => String.eqb (teamId r) (teamId retried.1)) allResults
       with
       | Some originalIndex => <[originalIndex := retried.2]> allResults
       | None => allResults
       end)
    allResults (zip failedResults retryResults).

(** The object the batch functions return. *)
Definition summarize {A} (allResults : list (Result A)) : t A :=
  let successful := length (List.filter succeeded allResults) in
  let failed := (length allResults - successful)%nat in
  mk (0 <? successful)%nat allResults
    (mkSummary (length allResults) successful failed).

(** Vocabulary for the statements about the batches: the items cut into
    runs of [n], the last one shorter when [n] does not divide their
    number. *)
Fixpoint chunksFrom {T} (fuel n : nat) (items : list T) : list (list T) :=
  match fuel with
  | O => []
  | S fuel =>
      match items with
      | [] => []
      | _ => take n items :: chunksFrom fuel n (drop n items)
      end
  end.

Definition chunks {T} (n : nat) (items : list T) : list (list T) :=
  chunksFrom (length items) n items.

(** The results after the pass over the failed ones: a result that
    succeeded stays, and the [f]-th of the failed results gives way to
    [retry f] of it. *)
Fixpoint retriedBy {A} (retry : nat -> Result A -> Result A)
    (allResults : list (Result A)) : list (Result A) :=
  match allResults with
  | [] => []
  | r :: rest =>
      if succeeded r then r :: retriedBy retry rest
      else retry 0%nat r :: retriedBy (fun f => retry (S f)) rest
  end.

End Batch.

(** ** lib/scorer.ts *)

Module Scorer.

Definition MAX_RETRIES : nat := 3.
Definition RETRY_DELAY : Z := 1000.

Definition isRetryableError (message : string) : bool :=
  let errorMessage := JSString.toLowerCase message in
  let isNetworkError :=
    JSString.includes errorMessage "network"
    || JSString.includes errorMessage "timeout"
    || JSString.includes errorMessage "fetch" in
  let isRateLimited :=
    JSString.includes errorMessage "rate limit"
    || JSString.includes errorMessage "429"
    || JSString.includes errorMessage "too many requests" in
  let isServerError :=
    JSString.includes errorMessage "500"
    || JSString.includes errorMessage "502"
    || JSString.includes errorMessage "503"
    || JSString.includes errorMessage "504" in
  isNetworkError || isRateLimited || isServerError.

(** The two messages that carry indices. *)
Definition invalidScoreMessage (i j : nat) : string :=
  "Invalid score at [" +:+ pretty i +:+ "][" +:+ pretty j
  +:+ "]: must be number between 0-100".

Definition rowMessage (i : nat) : string :=
  "Row " +:+ pretty i +:+ " must have exactly 10 scores".

(** The inner loop over [j]: the cells of row [i] from column [j] on. *)
Fixpoint checkCells (i j : nat) (cells : list json)
    : Completion (list number) :=
  match cells with
  | [] => Return []
  | score :: rest =>
      match score with
      | JNumber n =>
          if js_lt n (Finite 0) || js_gt n (Finite 100) then
            Throw (invalidScoreMessage i j)
          else
            match checkCells i (S j) rest with
            | Return ns => Return (n :: ns)
            | Throw message => Throw message
            end
      | _ => Throw (invalidScoreMessage i j)
      end
  end.

(** The outer loop over [i]: the rows from row [i] on. *)
Fixpoint checkRows (i : nat) (rows : list json)
    : Completion (list (list number)) :=
  match rows with
  | [] => Return []
  | row :: rest =>
      match row with
      | JArray cells =>
          if negb (length cells =? 10)%nat then Throw (rowMessage i)
          else
            match checkCells i 0 cells with
            | Throw message => Throw message
            | Return ns =>
                match checkRows (S i) rest with
                | Return nss => Return (ns :: nss)
                | Throw message => Throw message
                end
            end
      | _ => Throw (rowMessage i)
      end
  end.

(** "Validate the matrix dimensions and values" *)
Definition checkParsedScores (parsedScores : json)
    : Completion (list (list number)) :=
  match parsedScores with
  | JArray rows =>
      if negb (length rows =? 10)%nat then Throw "Score matrix must be 10x10"
      else checkRows 0 rows
  | _ => Throw "Score matrix must be 10x10"
  end.

(** The [try] block of [generateScoreMatrixWithRetry]. *)
Definition attempt (team : Team.t) (roles : list RoleDefinition.t)
    (reply : OpenRouter.Reply) (now : Date)
    : Completion (Outcome ScoreMatrix.t) :=
  if negb (length (Team.applicants team) =? 10)%nat then
    Return (Failure "Team must have exactly 10 applicants")
  else if negb (length roles =? 10)%nat then
    Return (Failure "Must have exactly 10 roles")
  else
    match OpenRouter.readReply reply with
    | Throw message => Throw message
    | Return parsedScores =>
        match checkParsedScores parsedScores with
        | Throw message => Throw message
        | Return scores =>
            Return (Success (ScoreMatrix.mk (Team.id team) scores now))
        end
    end.

(** [oracle k] is the reply to the request of the attempt with
    [retryCount = k], [clock k] the time read in that attempt. *)
Equations? generateScoreMatrixWithRetry (team : Team.t)
    (roles : list RoleDefinition.t) (oracle : nat -> OpenRouter.Reply)
    (clock : nat -> Date) (retryCount : nat)
    : Outcome ScoreMatrix.t * list Event
    by wf (MAX_RETRIES - retryCount)%nat lt :=
  generateScoreMatrixWithRetry team roles oracle clock retryCount
    with attempt team roles (oracle retryCount) (clock retryCount) => {
    | Return result => (result, [Attempt retryCount]);
    | Throw message with inspect (isRetryableError message
                               && (retryCount <? MAX_RETRIES)%nat) => {
        | exist _ true Hretry =>
            let delay := RETRY_DELAY * 2 ^ Z.of_nat retryCount in
            let rest :=
              generateScoreMatrixWithRetry team roles oracle clock
                (S retryCount) in
            (rest.1, Attempt retryCount :: Delay delay :: rest.2);
        | exist _ false _ =>
            (Failure ("Scoring failed after " +:+ pretty retryCount
                      +:+ " retries: " +:+ message),
             [Attempt retryCount]) } }.
Proof.
  apply andb_true_iff in Hretry as [_ Hlt]. apply Nat.ltb_lt in Hlt.
  unfold MAX_RETRIES in *. lia.
Qed.

Definition generateScoreMatrix (team : Team.t)
    (roles : list RoleDefinition.t) (oracle : nat -> OpenRouter.Reply)
    (clock : nat -> Date) : Outcome ScoreMatrix.t * list Event :=
  generateScoreMatrixWithRetry team roles oracle clock 0.

(** [Scorer.validateScoreMatrix] *)
Definition validateScoreMatrix (scores : json) : bool :=
  match scores with
  | JArray rows =>
      (length rows =? 10)%nat
      && forallb
           (fun row =>
              match row with
              | JArray cells =>
                  (length cells =? 10)%nat
                  && forallb
                       (fun score =>
                          match score with
                          | JNumber n =>
                              js_ge n (Finite 0) && js_le n (Finite 100)
                          | _ => false
                          end)
                       cells
              | _ => false
              end)
           rows
  | _ => false
  end.

(** The call [generateScoreMatrixWithRetry(team, roles, key, 0)] of a unit
    of a batch, with its [.then]; [roles] is [None] when the index is past
    the end of the array it is read from, which makes the unit fail on
    [roles.length]. *)
Definition scoreUnit (oracle : nat -> OpenRouter.Reply) (clock : nat -> Date)
    (team : Team.t) (roles : option (list RoleDefinition.t))
    : Batch.Result ScoreMatrix.t :=
  Batch.mkResult (Team.id team)
    match roles with
    | Some roles => (generateScoreMatrixWithRetry team roles oracle clock 0).1
    | None =>
        Failure "Scoring failed after 0 retries: Cannot read properties of undefined (reading 'length')"
    end.

(** "Process batches sequentially": the loop over the batches from batch
    [i] on. The unit at position [k] of [teams] talks to [oracle k]. The
    caller has checked that the teams and the roles are as many, so
    [rolesBatches[i]] is there for every batch of teams; the default below
    is never read. *)
Fixpoint scoreBatches (oracle : nat -> nat -> OpenRouter.Reply)
    (clock : nat -> nat -> Date) (batches : list (list Team.t))
    (rolesBatches : list (list (list RoleDefinition.t))) (i : nat)
    (allResults : list (Batch.Result ScoreMatrix.t))
    : list (Batch.Result ScoreMatrix.t) :=
  match batches with
  | [] => allResults
  | batch :: rest =>
      let rolesBatch := default [] (rolesBatches !! i) in
      let batchResults :=
        imap
          (fun index team =>
             let position := (length allResults + index)%nat in
             scoreUnit (oracle position) (clock position) team
               (rolesBatch !! index))
          batch in
      scoreBatches oracle clock rest rolesBatches (S i)
        (allResults ++ batchResults)
  end.

(** The retry of one failed result: [failedResults.map(async (failedResult)
    => ...)]. A result whose team is not found stays as it is. *)
Definition retryUnit (teams : list Team.t)
    (rolesArray : list (list RoleDefinition.t))
    (retryOracle : nat -> nat -> OpenRouter.Reply)
    (retryClock : nat -> nat -> Date) (f : nat)
    (failedResult : Batch.Result ScoreMatrix.t)
    : Batch.Result ScoreMatrix.t :=
  match find
          (fun t => String.eqb (Team.id t) (Batch.teamId failedResult)) teams,
        JS.findIndex
          (fun t => String.eqb (Team.id t) (Batch.teamId failedResult)) teams
  with
  | Some team, Some rolesIndex =>
      scoreUnit (retryOracle f) (retryClock f) team (rolesArray !! rolesIndex)
  | _, _ => failedResult
  end.

(** [Scorer.generateScoreMatricesBatch]. [None] is a call that does not
    return. The [f]-th of the failed results is retried against
    [retryOracle f]. *)
Definition generateScoreMatricesBatch (teams : list Team.t)
    (rolesArray : list (list RoleDefinition.t)) (maxConcurrency : option Z)
    (retryFailedRequests : option bool)
    (oracle : nat -> nat -> OpenRouter.Reply) (clock : nat -> nat -> Date)
    (retryOracle : nat -> nat -> OpenRouter.Reply)
    (retryClock : nat -> nat -> Date)
    : option (Batch.t ScoreMatrix.t) :=
  let maxConcurrency := default 10 maxConcurrency in
  let retryFailedRequests := default true retryFailedRequests in
  if negb (length teams =? length rolesArray)%nat then
    Some (Batch.mk false [] (Batch.mkSummary 0 0 0))
  else
    match Batch.createBatches teams maxConcurrency,
          Batch.createBatches rolesArray maxConcurrency with
    | Some batches, Some rolesBatches =>
        let allResults := scoreBatches oracle clock batches rolesBatches 0 [] in
        let allResults :=
          if retryFailedRequests then
            let failedResults :=
              List.filter (fun r => negb (Batch.succeeded r)) allResults in
            let retryResults :=
              imap (retryUnit teams rolesArray retryOracle retryClock)
                failedResults in
            Batch.applyRetries allResults failedResults retryResults
          else allResults in
        Some (Batch.summarize allResults)
    | _, _ => None
    end.

(** Vocabulary for the batch: the first pass over the teams, one unit for
    each team, the unit at position [k] with the roles at position [k]. *)
Definition firstPass (oracle : nat -> nat -> OpenRouter.Reply)
    (clock : nat -> nat -> Date) (teams : list Team.t)
    (rolesArray : list (list RoleDefinition.t))
    : list (Batch.Result ScoreMatrix.t) :=
  imap
    (fun k team => scoreUnit (oracle k) (clock k) team (rolesArray !! k))
    teams.

(** Vocabulary for the statements about the scorer. *)

(** [parsed] is a 10 x 10 nested array of finite numbers in [0, 100], and
    [scores] are its cells. *)
Definition validReply (parsed : json) (scores : list (list number)) : Prop :=
  exists rows,
    parsed = JArray rows /\ length rows = 10%nat /\
    Forall2
      (fun row ns =>
         exists cells,
           row = JArray cells /\ length cells = 10%nat /\
           Forall2 (fun c n => c = JNumber n /\ Assigner.validCell n) cells ns)
      rows scores.

(** The error of a run that gave up in the attempt [retryCount]. *)
Definition failureMessage (retryCount : nat) (message : string) : string :=
  "Scoring failed after " +:+ pretty retryCount +:+ " retries: " +:+ message.

End Scorer.

(** ** lib/justifier.ts *)

Module Justifier.

Definition MAX_RETRIES : nat := 3.
Definition RETRY_DELAY : Z := 1000.

Definition isRetryableError (message : string) : bool :=
  let errorMessage := JSString.toLowerCase message in
  let isNetworkError :=
    JSString.includes errorMessage "network"
    || JSString.includes errorMessage "timeout"
    || JSString.includes errorMessage "fetch" in
  let isRateLimited :=
    JSString.includes errorMessage "rate limit"
    || JSString.includes errorMessage "429"
    || JSString.includes errorMessage "too many requests" in
  let isServerError :=
    JSString.includes errorMessage "500"
    || JSString.includes errorMessage "502"
    || JSString.includes errorMessage "503"
    || JSString.includes errorMessage "504" in
  isNetworkError || isRateLimited || isServerError.

(** [buildJustificationPrompt] throws when a pairing names an applicant
    or a role that is not there; the text it builds does not matter to
    what follows. *)
Definition resolves (team : Team.t) (roles : list RoleDefinition.t)
    (assign : Assignment.t) : bool :=
  existsb (fun a => String.eqb (Applicant.id a) (Assignment.applicantId assign))
    (Team.applicants team)
  && existsb (fun r => String.eqb (RoleDefinition.id r) (Assignment.roleId assign))
       roles.

Definition buildJustificationPrompt (team : Team.t)
    (roles : list RoleDefinition.t) (assignment : TeamAssignment.t)
    : Completion unit :=
  if forallb (resolves team roles) (TeamAssignment.assignments assignment)
  then Return tt
  else Throw "Invalid assignment: applicant or role not found".

(** [v.key]: [undefined] on everything but an object that has the key. *)
Definition property (v : json) (key : string) : option json :=
  match v with
  | JObject fields => JS.lookupField key fields
  | _ => None
  end.

(** The loop that fills [justificationMap]. An [applicantId] that is not a
    string is stored under a key that no applicant id (a string) is ever
    looked up with, so only the string keys are kept. *)
Fixpoint collectJustifications (parsedJustifications : list json)
    (justificationMap : gmap string string)
    : Completion (gmap string string) :=
  match parsedJustifications with
  | [] => Return justificationMap
  | justification :: rest =>
      match justification with
      | JNull =>
          Throw "Cannot read properties of null (reading 'applicantId')"
      | _ =>
          let applicantId := property justification "applicantId" in
          let text := property justification "justification" in
          if negb (JS.truthy applicantId) || negb (JS.truthy text) then
            Throw "Invalid justification format: missing applicantId or justification"
          else
            match text with
            | Some (JString s) =>
                if (500 <? JSString.length s)%nat then
                  Throw "Justification must be a string under 500 characters"
                else
                  collectJustifications rest
                    match applicantId with
                    | Some (JString key) =>
                        <[key := JSString.trim s]> justificationMap
                    | _ => justificationMap
                    end
            | _ => Throw "Justification must be a string under 500 characters"
            end
      end
  end.

Definition withJustification (assign : Assignment.t) (justification : string)
    : Assignment.t :=
  Assignment.mk (Assignment.applicantId assign) (Assignment.roleId assign)
    (Assignment.score assign) (Some justification).

(** [assignment.assignments.map(assign => ...)] *)
Fixpoint updateAssignments (assignments : list Assignment.t)
    (justificationMap : gmap string string)
    : Completion (list Assignment.t) :=
  match assignments with
  | [] => Return []
  | assign :: rest =>
      match justificationMap !! Assignment.applicantId assign with
      | Some (String c s) =>
          match updateAssignments rest justificationMap with
          | Return updated =>
              Return (withJustification assign (String c s) :: updated)
          | Throw message => Throw message
          end
      | _ =>
          Throw ("No justification found for applicant "
                 +:+ Assignment.applicantId assign)
      end
  end.

(** The [try] block of [generateJustificationsWithRetry]. *)
Definition attempt (team : Team.t) (roles : list RoleDefinition.t)
    (assignment : TeamAssignment.t) (reply : OpenRouter.Reply)
    : Completion TeamAssignment.t :=
  if negb (length (TeamAssignment.assignments assignment) =? 10)%nat then
    Throw "Assignment must have exactly 10 assignments"
  else
    match buildJustificationPrompt team roles assignment with
    | Throw message => Throw message
    | Return _ =>
        match OpenRouter.readReply reply with
        | Throw message => Throw message
        | Return (JArray parsedJustifications) =>
            if negb (length parsedJustifications =? 10)%nat then
              Throw "Must have exactly 10 justifications"
            else
              match collectJustifications parsedJustifications ∅ with
              | Throw message => Throw message
              | Return justificationMap =>
                  match updateAssignments
                          (TeamAssignment.assignments assignment)
                          justificationMap with
                  | Throw message => Throw message
                  | Return updatedAssignments =>
                      Return (TeamAssignment.mk
                                (TeamAssignment.teamId assignment)
                                updatedAssignments
                                (TeamAssignment.totalScore assignment)
                                (TeamAssignment.generatedAt assignment)
                                true)
                  end
              end
        | Return _ => Throw "Must have exactly 10 justifications"
        end
    end.

Equations? generateJustificationsWithRetry (team : Team.t)
    (roles : list RoleDefinition.t) (assignment : TeamAssignment.t)
    (oracle : nat -> OpenRouter.Reply) (retryCount : nat)
    : Outcome TeamAssignment.t * list Event
    by wf (MAX_RETRIES - retryCount)%nat lt :=
  generateJustificationsWithRetry team roles assignment oracle retryCount
    with attempt team roles assignment (oracle retryCount) => {
    | Return updatedAssignment =>
        (Success updatedAssignment, [Attempt retryCount]);
    | Throw message with inspect (isRetryableError message
                               && (retryCount <? MAX_RETRIES)%nat) => {
        | exist _ true Hretry =>
            let delay := RETRY_DELAY * 2 ^ Z.of_nat retryCount in
            let rest :=
              generateJustificationsWithRetry team roles assignment oracle
                (S retryCount) in
            (rest.1, Attempt retryCount :: Delay delay :: rest.2);
        | exist _ false _ =>
            (Failure ("Justification generation failed after "
                      +:+ pretty retryCount +:+ " retries: " +:+ message),
             [Attempt retryCount]) } }.
Proof.
  apply andb_true_iff in Hretry as [_ Hlt]. apply Nat.ltb_lt in Hlt.
  unfold MAX_RETRIES in *. lia.
Qed.

Definition generateJustifications (team : Team.t)
    (roles : list RoleDefinition.t) (assignment : TeamAssignment.t)
    (oracle : nat -> OpenRouter.Reply)
    : Outcome TeamAssignment.t * list Event :=
  generateJustificationsWithRetry team roles assignment oracle 0.

(** Vocabulary for the statements about the justifier. *)

(** The error of a run that gave up in the attempt [retryCount]. *)
Definition failureMessage (retryCount : nat) (message : string) : string :=
  "Justification generation failed after " +:+ pretty retryCount
  +:+ " retries: " +:+ message.

(** An attempt that returns has succeeded. *)
Definition attemptOutcome (team : Team.t) (roles : list RoleDefinition.t)
    (assignment : TeamAssignment.t) (reply : OpenRouter.Reply)
    : Completion (Outcome TeamAssignment.t) :=
  match attempt team roles assignment reply with
  | Return updatedAssignment => Return (Success updatedAssignment)
  | Throw message => Throw message
  end.

(** [entry] is an object whose [applicantId] is the string [id] and whose
    [justification] is the string [text]. *)
Definition names (entry : json) (id text : string) : Prop :=
  exists fields,
    entry = JObject fields /\
    JS.lookupField "applicantId" fields = Some (JString id) /\
    JS.lookupField "justification" fields = Some (JString text).

(** [entry] is an [{applicantId, justification}] object with a non-empty
    justification string of at most 500 characters (UTF-16 code units, as
    [length] counts them). *)
Definition validEntry (entry : json) : Prop :=
  exists fields applicantId text,
    entry = JObject fields /\
    JS.lookupField "applicantId" fields = Some applicantId /\
    JS.truthy (Some applicantId) = true /\
    JS.lookupField "justification" fields = Some (JString text) /\
    text <> "" /\ (JSString.length text <= 500)%nat.

(** The reply is an array of exactly ten valid entries, and every applicant
    of the assignment is named by an entry whose text is not blank. *)
Definition acceptable (assignment : TeamAssignment.t) (parsed : json) : Prop :=
  exists entries,
    parsed = JArray entries /\ length entries = 10%nat /\
    Forall validEntry entries /\
    Forall
      (fun assign =>
         exists entry text,
           entry ∈ entries /\
           names entry (Assignment.applicantId assign) text /\
           JSString.trim text <> "")
      (TeamAssignment.assignments assignment).

End Justifier.

(** ** JavaScript [Map]s with string keys, in insertion order *)

Module JSMap.

Definition t (V : Type) : Type := list (string * V).

Fixpoint get {V} (key : string) (m : t V) : option V :=
  match m with
  | [] => None
  | (k, v) :: rest => if String.eqb k key then Some v else get key rest
  end.

(** [m.set(key, value)]: an existing key keeps its place. *)
Fixpoint set {V} (key : string) (value : V) (m : t V) : t V :=
  match m with
  | [] => [(key, value)]
  | (k, v) :: rest =>
      if String.eqb k key then (key, value) :: rest
      else (k, v) :: set key value rest
  end.

Definition delete {V} (key : string) (m : t V) : t V :=
  List.filter (fun kv => negb (String.eqb kv.1 key)) m.

Definition values {V} (m : t V) : list V := map snd m.
Definition entries {V} (m : t V) : list (string * V) := m.

(** A [Map] holds each key once. *)
Definition wellFormed {V} (m : t V) : Prop := NoDup (map fst m).

End JSMap.

(** [Array.prototype.sort] with a comparator: a stable sort. *)
Module JSArray.

Fixpoint insertSorted {A} (compare : A -> A -> Z) (x : A) (l : list A)
    : list A :=
  match l with
  | [] => [x]
  | y :: rest =>
      if compare x y <=? 0 then x :: y :: rest
      else y :: insertSorted compare x rest
  end.

Definition sort {A} (compare : A -> A -> Z) (l : list A) : list A :=
  foldr (insertSorted compare) [] l.

End JSArray.

(** ** lib/assigner.ts: the details of an assignment *)

Module AssignmentDetail.

Record Person : Type := mkPerson {
  id : string;
  name : string;
  occupation : string;
  skills : list string;
  personalityTraits : list string
}.

Record t : Type := mk {
  applicant : Person;
  role : RoleDefinition.t;
  score : number;
  justification : option string
}.

(** The detail of one pairing, when its applicant and its role are found. *)
Definition detailOf (team : Team.t) (roles : list RoleDefinition.t)
    (assign : Assignment.t) : Outcome t :=
  match find (fun a => String.eqb (Applicant.id a) (Assignment.applicantId assign))
          (Team.applicants team),
        find (fun r => String.eqb (RoleDefinition.id r) (Assignment.roleId assign))
          roles with
  | None, _ =>
      Failure ("Applicant with ID " +:+ Assignment.applicantId assign
               +:+ " not found")
  | Some _, None =>
      Failure ("Role with ID " +:+ Assignment.roleId assign +:+ " not found")
  | Some a, Some r =>
      Success
        (mk (mkPerson (Applicant.id a) (Applicant.name a)
               (Applicant.occupation a) (Applicant.skills a)
               (Applicant.personalityTraits a))
           (RoleDefinition.mk (RoleDefinition.id r) (RoleDefinition.name r)
              (RoleDefinition.description r))
           (Assignment.score assign) (Assignment.justification assign))
  end.

(** The loop over [assignment.assignments]. *)
Fixpoint collectDetails (team : Team.t) (roles : list RoleDefinition.t)
    (assignments : list Assignment.t) (details : list t) : Outcome (list t) :=
  match assignments with
  | [] => Success details
  | assign :: rest =>
      match detailOf team roles assign with
      | Failure error => Failure error
      | Success detail => collectDetails team roles rest (details ++ [detail])
      end
  end.

(** [Assigner.getAssignmentDetails]. The comparator [b.score - a.score] is
    consistent as long as no score is NaN; with a NaN among the scores the
    order [sort] leaves is left open by the language, and what is given here
    is one of the orders it allows. *)
Definition getAssignmentDetails (team : Team.t) (roles : list RoleDefinition.t)
    (assignment : TeamAssignment.t) : Outcome (list t) :=
  match collectDetails team roles (TeamAssignment.assignments assignment) []
  with
  | Failure error => Failure error
  | Success details =>
      Success
        (JSArray.sort (fun a b => js_sign (js_sub (score b) (score a)))
           details)
  end.

End AssignmentDetail.

(** ** More of types/index.ts *)

Inductive Phase : Type := part1 | part2.

Inductive Status : Type := pending | scoring | assigning | justifying | complete.

Module AssignmentSession.
Record t : Type := mk {
  id : string;
  teamId : string;
  phase : Phase;
  roles : list RoleDefinition.t;
  scoreMatrix : option ScoreMatrix.t;
  assignment : option TeamAssignment.t;
  status : Status;
  createdAt : Date
}.

Definition withStatus (s : t) (status' : Status) : t :=
  mk (id s) (teamId s) (phase s) (roles s) (scoreMatrix s) (assignment s)
    status' (createdAt s).
Definition withScoreMatrix (s : t) (m : ScoreMatrix.t) : t :=
  mk (id s) (teamId s) (phase s) (roles s) (Some m) (assignment s)
    (status s) (createdAt s).
Definition withAssignment (s : t) (a : TeamAssignment.t) : t :=
  mk (id s) (teamId s) (phase s) (roles s) (scoreMatrix s) (Some a)
    (status s) (createdAt s).
End AssignmentSession.

Inductive SessionStatus : Type := active | ended | archived.

Module SessionSettings.
Record t : Type := mk {
  maxTeams : option Z;
  maxApplicantsPerTeam : Z;
  allowSelfRegistration : bool;
  enablePart2 : bool;
  autoEndAfterAllComplete : bool;
  sessionCode : option string
}.
End SessionSettings.

Module SessionStats.
Record t : Type := mk {
  totalTeams : nat;
  completeTeams : nat;
  totalApplicants : nat;
  assignedTeams : nat;
  lastActivity : Date
}.
End SessionStats.

Module Session.
Record t : Type := mk {
  id : string;
  name : string;
  description : option string;
  status : SessionStatus;
  createdAt : Date;
  endedAt : option Date;
  createdBy : string;
  settings : SessionSettings.t;
  stats : SessionStats.t
}.

Definition withStats (s : t) (stats' : SessionStats.t) : t :=
  mk (id s) (name s) (description s) (status s) (createdAt s) (endedAt s)
    (createdBy s) (settings s) stats'.
End Session.

(** ** lib/schema.ts *)

Definition DEFAULT_ROLES : list string :=
  [ "Team Leader"; "Technical Specialist"; "Creative Director";
    "Strategy Advisor"; "Data Analyst"; "Project Coordinator";
    "Quality Assurance"; "Communications Lead"; "Resource Manager";
    "Innovation Driver" ].

(** ** The module-level maps of lib/teamManager.ts and lib/sessionManager.ts *)

Module Store.
Record t : Type := mk {
  teams : JSMap.t Team.t;
  (** the [sessions] of teamManager.ts *)
  sessions : JSMap.t AssignmentSession.t;
  (** the [sessions] of sessionManager.ts *)
  groups : JSMap.t Session.t
}.

Definition withTeams (st : t) (teams' : JSMap.t Team.t) : t :=
  mk teams' (sessions st) (groups st).
Definition withSessions (st : t) (sessions' : JSMap.t AssignmentSession.t)
    : t :=
  mk (teams st) sessions' (groups st).
Definition withGroups (st : t) (groups' : JSMap.t Session.t) : t :=
  mk (teams st) (sessions st) groups'.
End Store.

(** An element of [SessionSummary.teams]. *)
Module TeamSummary.
Record t : Type := mk {
  teamId : string;
  teamName : string;
  memberCount : nat;
  isComplete : bool;
  hasAssignment : bool;
  assignmentScore : option number
}.
End TeamSummary.

Module SessionSummary.
Record t : Type := mk {
  sessionId : string;
  sessionName : string;
  teams : list TeamSummary.t;
  totalParticipants : nat;
  averageTeamScore : option number;
  completionRate : number
}.
End SessionSummary.

(** [Omit<Applicant, 'id' | 'submittedAt'>] *)
Module ApplicantData.
Record t : Type := mk {
  name : string;
  occupation : string;
  skills : list string;
  personalityTraits : list string
}.
End ApplicantData.

(** ** lib/teamManager.ts, with the two functions of lib/sessionManager.ts
       it calls (the two files import each other) *)

Module TeamManager.

Definition getTeam (st : Store.t) (teamId : string) : option Team.t :=
  JSMap.get teamId (Store.teams st).

Definition getTeamsForSession (st : Store.t) (sessionId : string)
    : list Team.t :=
  List.filter (fun team => String.eqb (Team.sessionId team) sessionId)
    (JSMap.values (Store.teams st)).

Definition getAssignmentSession (st : Store.t) (sessionId : string)
    : option AssignmentSession.t :=
  JSMap.get sessionId (Store.sessions st).

Definition getLatestSessionForTeam (st : Store.t) (teamId : string)
    : option AssignmentSession.t :=
  let teamSessions :=
    JSArray.sort
      (fun a b => AssignmentSession.createdAt b - AssignmentSession.createdAt a)
      (List.filter (fun s => String.eqb (AssignmentSession.teamId s) teamId)
         (JSMap.values (Store.sessions st))) in
  head teamSessions.

Definition getSessionStats (st : Store.t) (sessionId : string) (now : Date)
    : SessionStats.t :=
  let sessionTeams := getTeamsForSession st sessionId in
  let completeTeams := length (List.filter Team.isComplete sessionTeams) in
  let totalApplicants :=
    foldl (fun sum team => (sum + length (Team.applicants team))%nat) 0%nat
      sessionTeams in
  let assignedTeams :=
    length
      (List.filter
         (fun team =>
            match getLatestSessionForTeam st (Team.id team) with
            | Some latestSession =>
                match AssignmentSession.assignment latestSession with
                | Some _ => true
                | None => false
                end
            | None => false
            end)
         sessionTeams) in
  SessionStats.mk (length sessionTeams) completeTeams totalApplicants
    assignedTeams now.

Module SessionManager.

Definition statusName (status : SessionStatus) : string :=
  match status with
  | active => "active"
  | ended => "ended"
  | archived => "archived"
  end.

(** [{ valid: true }] is [Success tt]. *)
Definition validateActiveSession (st : Store.t) (sessionId : string)
    : Outcome unit :=
  match JSMap.get sessionId (Store.groups st) with
  | None => Failure "Session not found"
  | Some session =>
      match Session.status session with
      | active => Success tt
      | status =>
          Failure ("Session is " +:+ statusName status
                   +:+ " and cannot accept new operations")
      end
  end.

Definition updateSessionStats (st : Store.t) (sessionId : string)
    (now : Date) : Store.t * Outcome unit :=
  match JSMap.get sessionId (Store.groups st) with
  | None => (st, Failure "Session not found")
  | Some session =>
      let currentStats := getSessionStats st sessionId now in
      (Store.withGroups st
         (JSMap.set sessionId (Session.withStats session currentStats)
            (Store.groups st)),
       Success tt)
  end.

End SessionManager.

(** [uuid k] is what the [k]-th call of [uuidv4()] returns, [now] the
    value of [new Date()]. *)
Definition createAssignmentSession (uuid : nat -> string) (now : Date)
    (st : Store.t) (teamId : string) (phase : Phase)
    (customRoles : option (list string))
    : Store.t * Outcome AssignmentSession.t :=
  match JSMap.get teamId (Store.teams st) with
  | None => (st, Failure "Team not found")
  | Some team =>
      match SessionManager.validateActiveSession st (Team.sessionId team) with
      | Failure error => (st, Failure ("Cannot create assignment: " +:+ error))
      | Success _ =>
          if negb (Team.isComplete team) then
            (st, Failure "Team must have exactly 10 applicants before assignment")
          else
            let roles : Outcome (list RoleDefinition.t) :=
              match phase, customRoles with
              | part2, Some customRoles =>
                  if negb (length customRoles =? 10)%nat then
                    Failure "Must provide exactly 10 custom roles for part 2"
                  else
                    Success
                      (imap
                         (fun index name =>
                            RoleDefinition.mk (uuid index)
                              (if JSString.isEmpty (JSString.trim name)
                               then "Role #" +:+ pretty (index + 1)%nat
                               else JSString.trim name)
                              None)
                         customRoles)
              | _, _ =>
                  Success
                    (imap
                       (fun index name =>
                          RoleDefinition.mk (uuid index) name None)
                       DEFAULT_ROLES)
              end in
            match roles with
            | Failure error => (st, Failure error)
            | Success roles =>
                let session :=
                  AssignmentSession.mk (uuid 10%nat) teamId phase roles
                    None None pending now in
                (Store.withSessions st
                   (JSMap.set (AssignmentSession.id session) session
                      (Store.sessions st)),
                 Success session)
            end
      end
  end.

Definition updateSessionStatus (st : Store.t) (sessionId : string)
    (status : Status) : Store.t * Outcome unit :=
  match JSMap.get sessionId (Store.sessions st) with
  | None => (st, Failure "Session not found")
  | Some session =>
      (Store.withSessions st
         (JSMap.set sessionId (AssignmentSession.withStatus session status)
            (Store.sessions st)),
       Success tt)
  end.

(** An assignment to a field of a session object held by a caller: the
    object is the one the map holds under [sessionId]. *)
Definition mutateSession (st : Store.t) (sessionId : string)
    (f : AssignmentSession.t -> AssignmentSession.t) : Store.t :=
  match JSMap.get sessionId (Store.sessions st) with
  | None => st
  | Some session =>
      Store.withSessions st
        (JSMap.set sessionId (f session) (Store.sessions st))
  end.

Definition resetTeam (now : Date) (st : Store.t) (teamId : string)
    : Store.t * Outcome unit :=
  match JSMap.get teamId (Store.teams st) with
  | None => (st, Failure "Team not found")
  | Some team =>
      match SessionManager.validateActiveSession st (Team.sessionId team) with
      | Failure error => (st, Failure ("Cannot reset team: " +:+ error))
      | Success _ =>
          let team' :=
            Team.mk (Team.id team) (Team.name team) [] (Team.createdAt team)
              false (Team.sessionId team) in
          let st1 := Store.withTeams st (JSMap.set teamId team' (Store.teams st)) in
          let teamSessions :=
            List.filter
              (fun entry =>
                 String.eqb (AssignmentSession.teamId entry.2) teamId)
              (JSMap.entries (Store.sessions st1)) in
          let st2 :=
            Store.withSessions st1
              (foldl (fun sessions entry => JSMap.delete entry.1 sessions)
                 (Store.sessions st1) teamSessions) in
          ((SessionManager.updateSessionStats st2 (Team.sessionId team) now).1,
           Success tt)
      end
  end.

(** [uuid] is the value of [uuidv4()], [now] that of [new Date()] for
    [createdAt] and [statsNow] that of the [new Date()] in
    [updateSessionStats]. *)
Definition createTeam (uuid : string) (now statsNow : Date) (st : Store.t)
    (name sessionId : string) : Store.t * Outcome Team.t :=
  match SessionManager.validateActiveSession st sessionId with
  | Failure error => (st, Failure error)
  | Success _ =>
      let team := Team.mk uuid name [] now false sessionId in
      let st1 :=
        Store.withTeams st (JSMap.set (Team.id team) team (Store.teams st)) in
      ((SessionManager.updateSessionStats st1 sessionId statsNow).1,
       Success team)
  end.

Definition getAllTeams (st : Store.t) (sessionId : option string)
    : list Team.t :=
  let allTeams := JSMap.values (Store.teams st) in
  match sessionId with
  | Some (String c id) =>
      List.filter (fun team => String.eqb (Team.sessionId team) (String c id))
        allTeams
  | _ => allTeams
  end.

Definition addApplicant (uuid : string) (now statsNow : Date) (st : Store.t)
    (teamId : string) (applicantData : ApplicantData.t)
    : Store.t * Outcome Applicant.t :=
  match JSMap.get teamId (Store.teams st) with
  | None => (st, Failure "Team not found")
  | Some team =>
      match SessionManager.validateActiveSession st (Team.sessionId team) with
      | Failure error => (st, Failure ("Cannot add applicant: " +:+ error))
      | Success _ =>
          if (10 <=? length (Team.applicants team))%nat then
            (st, Failure "Team is already full (10 applicants maximum)")
          else if existsb
                    (fun a =>
                       String.eqb (JSString.toLowerCase (Applicant.name a))
                         (JSString.toLowerCase
                            (ApplicantData.name applicantData)))
                    (Team.applicants team) then
            (st,
             Failure "An applicant with this name already exists in the team")
          else
            let applicant :=
              Applicant.mk uuid (ApplicantData.name applicantData)
                (ApplicantData.occupation applicantData)
                (ApplicantData.skills applicantData)
                (ApplicantData.personalityTraits applicantData) now in
            let applicants := Team.applicants team ++ [applicant] in
            let team' :=
              Team.mk (Team.id team) (Team.name team) applicants
                (Team.createdAt team) (length applicants =? 10)%nat
                (Team.sessionId team) in
            let st1 :=
              Store.withTeams st (JSMap.set teamId team' (Store.teams st)) in
            ((SessionManager.updateSessionStats st1 (Team.sessionId team)
                statsNow).1,
             Success applicant)
      end
  end.

(** [applicants.splice(applicantIndex, 1)] for the index [findIndex] gave:
    the first applicant with the id goes, [None] when there is none. *)
Fixpoint spliceApplicant (applicantId : string) (applicants : list Applicant.t)
    : option (list Applicant.t) :=
  match applicants with
  | [] => None
  | a :: rest =>
      if String.eqb (Applicant.id a) applicantId then Some rest
      else
        match spliceApplicant applicantId rest with
        | Some rest' => Some (a :: rest')
        | None => None
        end
  end.

Definition removeApplicant (statsNow : Date) (st : Store.t)
    (teamId applicantId : string) : Store.t * Outcome unit :=
  match JSMap.get teamId (Store.teams st) with
  | None => (st, Failure "Team not found")
  | Some team =>
      match SessionManager.validateActiveSession st (Team.sessionId team) with
      | Failure error => (st, Failure ("Cannot remove applicant: " +:+ error))
      | Success _ =>
          match spliceApplicant applicantId (Team.applicants team) with
          | None => (st, Failure "Applicant not found in team")
          | Some applicants =>
              let team' :=
                Team.mk (Team.id team) (Team.name team) applicants
                  (Team.createdAt team) (length applicants =? 10)%nat
                  (Team.sessionId team) in
              let st1 :=
                Store.withTeams st
                  (JSMap.set teamId team' (Store.teams st)) in
              ((SessionManager.updateSessionStats st1 (Team.sessionId team)
                  statsNow).1,
               Success tt)
          end
      end
  end.

Definition deleteTeam (statsNow : Date) (st : Store.t) (teamId : string)
    : Store.t * Outcome unit :=
  match JSMap.get teamId (Store.teams st) with
  | None => (st, Failure "Team not found")
  | Some team =>
      match SessionManager.validateActiveSession st (Team.sessionId team) with
      | Failure error => (st, Failure ("Cannot delete team: " +:+ error))
      | Success _ =>
          let st1 :=
            Store.withTeams st (JSMap.delete teamId (Store.teams st)) in
          let teamSessions :=
            List.filter
              (fun entry =>
                 String.eqb (AssignmentSession.teamId entry.2) teamId)
              (JSMap.entries (Store.sessions st1)) in
          let st2 :=
            Store.withSessions st1
              (foldl (fun sessions entry => JSMap.delete entry.1 sessions)
                 (Store.sessions st1) teamSessions) in
          ((SessionManager.updateSessionStats st2 (Team.sessionId team)
              statsNow).1,
           Success tt)
      end
  end.

(** The payload is [cleared]: the numbers of teams and of assignment
    sessions removed. *)
Definition clearSessionData (st : Store.t) (sessionId : string)
    : Store.t * Outcome (nat * nat) :=
  let sessionTeams :=
    List.filter (fun entry => String.eqb (Team.sessionId entry.2) sessionId)
      (JSMap.entries (Store.teams st)) in
  let teamIds := map fst sessionTeams in
  let teams' :=
    foldl (fun teams teamId => JSMap.delete teamId teams) (Store.teams st)
      teamIds in
  let assignmentSessionsToRemove :=
    List.filter
      (fun entry =>
         existsb (String.eqb (AssignmentSession.teamId entry.2)) teamIds)
      (JSMap.entries (Store.sessions st)) in
  let sessions' :=
    foldl (fun sessions entry => JSMap.delete entry.1 sessions)
      (Store.sessions st) assignmentSessionsToRemove in
  (Store.mk teams' sessions' (Store.groups st),
   Success (length teamIds, length assignmentSessionsToRemove)).

(** [{ valid: true }] is [Success tt]. *)
Definition validateTeamSession (st : Store.t) (teamId expectedSessionId : string)
    : Outcome unit :=
  match JSMap.get teamId (Store.teams st) with
  | None => Failure "Team not found"
  | Some team =>
      if negb (String.eqb (Team.sessionId team) expectedSessionId) then
        Failure "Team does not belong to the specified session"
      else Success tt
  end.

Definition getSessionSummaryData (st : Store.t) (sessionId : string)
    : list TeamSummary.t :=
  map
    (fun team =>
       let latestAssignment := getLatestSessionForTeam st (Team.id team) in
       TeamSummary.mk (Team.id team) (Team.name team)
         (length (Team.applicants team)) (Team.isComplete team)
         match latestAssignment with
         | Some session =>
             match AssignmentSession.assignment session with
             | Some _ => true
             | None => false
             end
         | None => false
         end
         match latestAssignment with
         | Some session =>
             TeamAssignment.totalScore <$> AssignmentSession.assignment session
         | None => None
         end)
    (getTeamsForSession st sessionId).

(** Vocabulary for the statements about the store. *)

(** A team is stored under its own id, has at most ten applicants, is
    marked complete exactly when it has ten, and no two of its applicants
    have the same name up to the case of the letters. *)
Definition teamInvariant (entry : string * Team.t) : Prop :=
  entry.1 = Team.id entry.2 /\
  (length (Team.applicants entry.2) <= 10)%nat /\
  Team.isComplete entry.2 = (length (Team.applicants entry.2) =? 10)%nat /\
  NoDup (map (fun a => JSString.toLowerCase (Applicant.name a))
           (Team.applicants entry.2)).

(** An assignment session is stored under its own id and its team is in
    the store. *)
Definition sessionInvariant (st : Store.t)
    (entry : string * AssignmentSession.t) : Prop :=
  entry.1 = AssignmentSession.id entry.2 /\
  is_Some (JSMap.get (AssignmentSession.teamId entry.2) (Store.teams st)).

Definition invariant (st : Store.t) : Prop :=
  JSMap.wellFormed (Store.teams st) /\
  JSMap.wellFormed (Store.sessions st) /\
  Forall teamInvariant (JSMap.entries (Store.teams st)) /\
  Forall (sessionInvariant st) (JSMap.entries (Store.sessions st)).

(** The calls that change the store, with the values they read from
    outside. *)
Inductive Command : Type :=
| CreateTeam (uuid : string) (now statsNow : Date) (name sessionId : string)
| AddApplicant (uuid : string) (now statsNow : Date) (teamId : string)
    (applicantData : ApplicantData.t)
| RemoveApplicant (statsNow : Date) (teamId applicantId : string)
| ResetTeam (statsNow : Date) (teamId : string)
| DeleteTeam (statsNow : Date) (teamId : string)
| ClearSessionData (sessionId : string)
| CreateAssignmentSession (uuid : nat -> string) (now : Date)
    (teamId : string) (phase : Phase) (customRoles : option (list string))
| UpdateSessionStatus (sessionId : string) (status : Status).

Definition exec (st : Store.t) (command : Command) : Store.t :=
  match command with
  | CreateTeam uuid now statsNow name sessionId =>
      (createTeam uuid now statsNow st name sessionId).1
  | AddApplicant uuid now statsNow teamId applicantData =>
      (addApplicant uuid now statsNow st teamId applicantData).1
  | RemoveApplicant statsNow teamId applicantId =>
      (removeApplicant statsNow st teamId applicantId).1
  | ResetTeam statsNow teamId => (resetTeam statsNow st teamId).1
  | DeleteTeam statsNow teamId => (deleteTeam statsNow st teamId).1
  | ClearSessionData sessionId => (clearSessionData st sessionId).1
  | CreateAssignmentSession uuid now teamId phase customRoles =>
      (createAssignmentSession uuid now st teamId phase customRoles).1
  | UpdateSessionStatus sessionId status =>
      (updateSessionStatus st sessionId status).1
  end.

End TeamManager.

(** ** lib/sessionManager.ts *)

(** [Partial<SessionSettings>]: [None] is a key that is not there. *)
Module PartialSettings.
Record t : Type := mk {
  maxTeams : option Z;
  maxApplicantsPerTeam : option Z;
  allowSelfRegistration : option bool;
  enablePart2 : option bool;
  autoEndAfterAllComplete : option bool;
  sessionCode : option string
}.
End PartialSettings.

Module Sessions.

(** The store together with the [sessionCodes] map of sessionManager.ts,
    from session codes to session ids. *)
Record State : Type := mkState {
  store : Store.t;
  sessionCodes : JSMap.t string
}.

(** [{ ...settings, ...updates }] *)
Definition spread (settings : SessionSettings.t) (updates : PartialSettings.t)
    : SessionSettings.t :=
  SessionSettings.mk
    match PartialSettings.maxTeams updates with
    | Some maxTeams => Some maxTeams
    | None => SessionSettings.maxTeams settings
    end
    (default (SessionSettings.maxApplicantsPerTeam settings)
       (PartialSettings.maxApplicantsPerTeam updates))
    (default (SessionSettings.allowSelfRegistration settings)
       (PartialSettings.allowSelfRegistration updates))
    (default (SessionSettings.enablePart2 settings)
       (PartialSettings.enablePart2 updates))
    (default (SessionSettings.autoEndAfterAllComplete settings)
       (PartialSettings.autoEndAfterAllComplete updates))
    match PartialSettings.sessionCode updates with
    | Some sessionCode => Some sessionCode
    | None => SessionSettings.sessionCode settings
    end.

Definition getSession (state : State) (sessionId : string) : option Session.t :=
  JSMap.get sessionId (Store.groups (store state)).

Definition getSessionByCode (state : State) (sessionCode : string)
    : option Session.t :=
  match JSMap.get sessionCode (sessionCodes state) with
  | Some (String c id) => JSMap.get (String c id) (Store.groups (store state))
  | _ => None
  end.

Definition getAllSessions (state : State) : list Session.t :=
  JSArray.sort (fun a b => Session.createdAt b - Session.createdAt a)
    (JSMap.values (Store.groups (store state))).

Definition getActiveSessions (state : State) : list Session.t :=
  List.filter
    (fun s => match Session.status s with active => true | _ => false end)
    (getAllSessions state).

(** The loop over [sessionCodes.entries()] that deletes the first code of
    the session and stops. *)
Definition forgetCode (sessionId : string) (codes : JSMap.t string)
    : JSMap.t string :=
  match find (fun entry => String.eqb entry.2 sessionId) codes with
  | Some (code, _) => JSMap.delete code codes
  | None => codes
  end.

Record SessionUpdates : Type := mkUpdates {
  name : option string;
  description : option string;
  settings : option PartialSettings.t
}.

(** [a !== b] for a string and a value that is a string or [undefined] *)
Definition differs (a : string) (b : option string) : bool :=
  match b with
  | Some b => negb (String.eqb a b)
  | None => true
  end.

Definition updateSession (state : State) (sessionId : string)
    (updates : SessionUpdates) : State * Outcome Session.t :=
  match JSMap.get sessionId (Store.groups (store state)) with
  | None => (state, Failure "Session not found")
  | Some session =>
      match Session.status session with
      | ended => (state, Failure "Cannot update ended session")
      | _ =>
          let name' :=
            match name updates with
            | Some (String c rest) => String c rest
            | _ => Session.name session
            end in
          let description' :=
            match description updates with
            | Some description => Some description
            | None => Session.description session
            end in
          let settings' :=
            match settings updates with
            | Some settings => spread (Session.settings session) settings
            | None => Session.settings session
            end in
          let sessionCodes' :=
            match settings updates with
            | Some settings =>
                match PartialSettings.sessionCode settings with
                | Some (String c rest) =>
                    if differs (String c rest)
                         (SessionSettings.sessionCode settings') then
                      JSMap.set (String c rest) sessionId
                        (forgetCode sessionId (sessionCodes state))
                    else sessionCodes state
                | _ => sessionCodes state
                end
            | None => sessionCodes state
            end in
          let session' :=
            Session.mk (Session.id session) name' description'
              (Session.status session) (Session.createdAt session)
              (Session.endedAt session) (Session.createdBy session)
              settings' (Session.stats session) in
          (mkState
             (Store.withGroups (store state)
                (JSMap.set sessionId session' (Store.groups (store state))))
             sessionCodes',
           Success session')
      end
  end.

(** [score || 0] *)
Definition orZero (score : option number) : number :=
  match score with
  | Some (Finite q) => if Qeq_bool q 0 then Finite 0 else Finite q
  | Some NaN | None => Finite 0
  | Some infinite => infinite
  end.

(** The statistics are those of [TeamManager.getSessionStats], whose
    [lastActivity] is not read here. *)
Definition generateSessionSummary (st : Store.t) (sessionId : string)
    : Outcome SessionSummary.t :=
  match JSMap.get sessionId (Store.groups st) with
  | None => Failure "Session not found"
  | Some session =>
      let teamSummaryData := TeamManager.getSessionSummaryData st sessionId in
      let sessionStats := TeamManager.getSessionStats st sessionId 0 in
      let teamsWithScores :=
        List.filter
          (fun team =>
             match TeamSummary.assignmentScore team with
             | Some _ => true
             | None => false
             end)
          teamSummaryData in
      let averageTeamScore :=
        if (0 <? length teamsWithScores)%nat then
          Some
            (js_div
               (foldl
                  (fun sum team =>
                     js_add sum (orZero (TeamSummary.assignmentScore team)))
                  (Finite 0) teamsWithScores)
               (js_count (length teamsWithScores)))
        else None in
      Success
        (SessionSummary.mk (Session.id session) (Session.name session)
           teamSummaryData (SessionStats.totalApplicants sessionStats)
           averageTeamScore
           (if (0 <? SessionStats.totalTeams sessionStats)%nat then
              js_mul
                (js_div (js_count (SessionStats.completeTeams sessionStats))
                   (js_count (SessionStats.totalTeams sessionStats)))
                (Finite 100)
            else Finite 0))
  end.

(** [now] is the value of [new Date()]; the payload is [sessionSummary],
    which is [undefined] when the summary could not be made. *)
Definition endSession (now : Date) (state : State) (sessionId : string)
    (clearMemory : bool) : State * Outcome (option SessionSummary.t) :=
  match JSMap.get sessionId (Store.groups (store state)) with
  | None => (state, Failure "Session not found")
  | Some session =>
      match Session.status session with
      | ended => (state, Failure "Session already ended")
      | _ =>
          let sessionSummary :=
            match generateSessionSummary (store state) sessionId with
            | Success summary => Some summary
            | Failure _ => None
            end in
          let session' :=
            Session.mk (Session.id session) (Session.name session)
              (Session.description session) ended (Session.createdAt session)
              (Some now) (Session.createdBy session)
              (Session.settings session) (Session.stats session) in
          let st1 :=
            Store.withGroups (store state)
              (JSMap.set sessionId session' (Store.groups (store state))) in
          let sessionCodes' := forgetCode sessionId (sessionCodes state) in
          let st2 :=
            if clearMemory then (TeamManager.clearSessionData st1 sessionId).1
            else st1 in
          (mkState st2 sessionCodes', Success sessionSummary)
      end
  end.

Definition archiveSession (state : State) (sessionId : string)
    : State * Outcome unit :=
  match JSMap.get sessionId (Store.groups (store state)) with
  | None => (state, Failure "Session not found")
  | Some session =>
      match Session.status session with
      | active =>
          (state, Failure "Cannot archive active session. End it first.")
      | _ =>
          let session' :=
            Session.mk (Session.id session) (Session.name session)
              (Session.description session) archived
              (Session.createdAt session) (Session.endedAt session)
              (Session.createdBy session) (Session.settings session)
              (Session.stats session) in
          (mkState
             (Store.withGroups (store state)
                (JSMap.set sessionId session' (Store.groups (store state))))
             (sessionCodes state),
           Success tt)
      end
  end.

Definition deleteSession (state : State) (sessionId : string)
    : State * Outcome unit :=
  match JSMap.get sessionId (Store.groups (store state)) with
  | None => (state, Failure "Session not found")
  | Some session =>
      let st1 := (TeamManager.clearSessionData (store state) sessionId).1 in
      let sessionCodes' := forgetCode sessionId (sessionCodes state) in
      (mkState
         (Store.withGroups st1 (JSMap.delete sessionId (Store.groups st1)))
         sessionCodes',
       Success tt)
  end.

(** The payload of [{ shouldEnd, reason? }]: the reason when [shouldEnd]. *)
Definition checkAutoEndCondition (state : State) (sessionId : string)
    : option string :=
  match JSMap.get sessionId (Store.groups (store state)) with
  | Some session =>
      match Session.status session with
      | active =>
          if negb (SessionSettings.autoEndAfterAllComplete
                     (Session.settings session)) then None
          else if (0 <? SessionStats.totalTeams (Session.stats session))%nat
                  && (SessionStats.totalTeams (Session.stats session)
                      <=? SessionStats.assignedTeams (Session.stats session))%nat
          then Some "All teams have been assigned roles"
          else None
      | _ => None
      end
  | None => None
  end.

(** The test of [cleanupOldSessions]: the session is ended, and was ended
    before [cutoffDate]. *)
Definition isOld (cutoffDate : Date) (session : Session.t) : bool :=
  match Session.status session, Session.endedAt session with
  | ended, Some endedAt => endedAt <? cutoffDate
  | _, _ => false
  end.

(** [cleanupOldSessions]; [cutoffDate] is the date [daysToKeep] days before
    the call. The loop goes over the entries of the map; a call of
    [deleteSession] takes away the entry of the turn and no other, so every
    entry is there when its turn comes. The payload is [cleaned]. *)
Definition cleanupOldSessions (cutoffDate : Date) (state : State)
    : State * nat :=
  foldl
    (fun progress entry =>
       if isOld cutoffDate entry.2 then
         ((deleteSession progress.1 entry.1).1, S progress.2)
       else progress)
    (state, 0%nat) (JSMap.entries (Store.groups (store state))).

(** [chars] of [generateSessionCode] *)
Definition chars : string := "ABCDEFGHIJKLMNOPQRSTUVWXYZ0123456789".

(** [s.charAt(index)]: the empty string past the end. *)
Definition charAt (s : string) (index : nat) : string :=
  match String.get index s with
  | Some c => String c EmptyString
  | None => EmptyString
  end.

(** One round of the loop of [generateSessionCode]: six characters, the
    [i]-th at the index [draw i] that
    [Math.floor(Math.random() * chars.length)] gave. *)
Definition drawCode (draw : nat -> nat) : string :=
  foldl (fun code i => code +:+ charAt chars (draw i)) EmptyString (seq 0 6).

(** [generateSessionCode] from round [round] on; [draw round] are the
    indices drawn in that round. [fuel] bounds the number of rounds, and
    [None] is a loop that has not ended within the bound. *)
Fixpoint generateSessionCode (fuel : nat) (draw : nat -> nat -> nat)
    (round : nat) (codes : JSMap.t string) : option string :=
  match fuel with
  | O => None
  | S fuel =>
      let code := drawCode (draw round) in
      match JSMap.get code codes with
      | Some _ => generateSessionCode fuel draw (S round) codes
      | None => Some code
      end
  end.

(** The loop of [createTeamsForSession] from team [i] on, with [count]
    teams to go. Team [i] takes its id from [uuid i] and its two dates from
    [now (2 * i)] and [now (2 * i + 1)]. *)
Fixpoint createTeamsFrom (uuid : nat -> string) (now : nat -> Date)
    (st : Store.t) (sessionId : string) (i count : nat) : Store.t :=
  match count with
  | O => st
  | S count =>
      let st :=
        (TeamManager.createTeam (uuid i) (now (2 * i)%nat)
           (now (2 * i + 1)%nat) st ("Team " +:+ pretty i) sessionId).1 in
      createTeamsFrom uuid now st sessionId (S i) count
  end.

Definition createTeamsForSession (uuid : nat -> string) (now : nat -> Date)
    (st : Store.t) (sessionId : string) (maxTeams : Z) : Store.t :=
  createTeamsFrom uuid now st sessionId 1 (Z.to_nat maxTeams).

(** [settings.maxTeams || 10] *)
Definition teamsToCreate (settings : PartialSettings.t) : Z :=
  match PartialSettings.maxTeams settings with
  | Some maxTeams => if maxTeams =? 0 then 10 else maxTeams
  | None => 10
  end.

(** [{}] *)
Definition noSettings : PartialSettings.t :=
  PartialSettings.mk None None None None None None.

(** [SessionManager.createSession]. [uuid k] is the value of the [k]-th call
    of [uuidv4()] and [now k] that of the [k]-th [new Date()], both counted
    from 0; a parameter that is [None] takes its default. The session that
    is returned is the object the map holds, with the statistics that the
    creation of the teams has written to it. [None] is a call that does not
    return, the loop of [generateSessionCode] not ending. *)
Definition createSession (uuid : nat -> string) (now : nat -> Date)
    (fuel : nat) (draw : nat -> nat -> nat) (state : State) (name : string)
    (description createdBy : option string)
    (settings : option PartialSettings.t) : option (State * Session.t) :=
  let description := default EmptyString description in
  let createdBy := default "admin" createdBy in
  let settings := default noSettings settings in
  let defaultSettings :=
    spread (SessionSettings.mk None 10 true true false None) settings in
  let sessionCode :=
    match PartialSettings.sessionCode settings with
    | Some (String c code) => Some (String c code)
    | _ => generateSessionCode fuel draw 0 (sessionCodes state)
    end in
  match sessionCode with
  | None => None
  | Some sessionCode =>
      let session :=
        Session.mk (uuid 0%nat) name (Some description) active (now 0%nat)
          None createdBy
          (SessionSettings.mk (SessionSettings.maxTeams defaultSettings)
             (SessionSettings.maxApplicantsPerTeam defaultSettings)
             (SessionSettings.allowSelfRegistration defaultSettings)
             (SessionSettings.enablePart2 defaultSettings)
             (SessionSettings.autoEndAfterAllComplete defaultSettings)
             (Some sessionCode))
          (SessionStats.mk 0 0 0 0 (now 1%nat)) in
      let st :=
        Store.withGroups (store state)
          (JSMap.set (Session.id session) session
             (Store.groups (store state))) in
      let sessionCodes' :=
        if JSString.isEmpty sessionCode then sessionCodes state
        else JSMap.set sessionCode (Session.id session) (sessionCodes state) in
      let st :=
        createTeamsForSession uuid now st (Session.id session)
          (teamsToCreate settings) in
      Some
        (mkState st sessionCodes',
         default session (JSMap.get (Session.id session) (Store.groups st)))
  end.

(** Vocabulary for the statements about session codes: a capital letter
    or a digit. *)
Definition codeChar (c : ascii) : bool :=
  let n := nat_of_ascii c in
  ((65 <=? n) && (n <=? 90) || (48 <=? n) && (n <=? 57))%nat.

(** The teams of a new session: [count] empty teams from number [i] on. *)
Definition teamsCreated (uuid : nat -> string) (now : nat -> Date)
    (sessionId : string) (i count : nat) : list Team.t :=
  map
    (fun j =>
       Team.mk (uuid j) ("Team " +:+ pretty j) [] (now (2 * j)%nat) false
         sessionId)
    (seq i count).

(** The commands of the life cycle of a session, for the statements about
    sequences of calls. *)
Inductive Command : Type :=
| UpdateSession (sessionId : string) (updates : SessionUpdates)
| EndSession (now : Date) (sessionId : string) (clearMemory : bool)
| ArchiveSession (sessionId : string)
| UpdateSessionStats (sessionId : string) (now : Date)
| Teams (command : TeamManager.Command).

Definition exec (state : State) (command : Command) : State :=
  match command with
  | UpdateSession sessionId updates => (updateSession state sessionId updates).1
  | EndSession now sessionId clearMemory =>
      (endSession now state sessionId clearMemory).1
  | ArchiveSession sessionId => (archiveSession state sessionId).1
  | UpdateSessionStats sessionId now =>
      mkState
        (TeamManager.SessionManager.updateSessionStats (store state) sessionId
           now).1
        (sessionCodes state)
  | Teams command =>
      mkState (TeamManager.exec (store state) command) (sessionCodes state)
  end.

End Sessions.

(** ** pages/api/assignTeam.ts *)

Module AssignTeam.

(** What the handler reads from outside the store. *)
Record Env : Type := mkEnv {
  (** [process.env.OPENROUTER_API_KEY] *)
  openRouterApiKey : option string;
  (** the stream of [uuidv4()] values *)
  uuid : nat -> string;
  (** [new Date()] in [createAssignmentSession] and in [assignRoles] *)
  sessionCreatedAt : Date;
  assignedAt : Date;
  (** the scoring oracle and the clock of the scoring attempts *)
  scoringOracle : nat -> OpenRouter.Reply;
  scoringClock : nat -> Date;
  munkres : list (list number) -> MunkresResult
}.

Record AssignTeamRequest : Type := mkBody {
  teamId : string;
  phase : Phase;
  customRoles : option (list string)
}.

(** [validation] is the result of [validateRequest(AssignTeamSchema, req.body)]. *)
Record Request : Type := mkRequest {
  method : string;
  validation : Outcome AssignTeamRequest
}.

Record ResponseData : Type := mkData {
  sessionId : string;
  assignment : TeamAssignment.t;
  justificationsPending : bool
}.

Record Response : Type := mkResponse {
  statusCode : Z;
  success : bool;
  data : option ResponseData;
  error : option string;
  message : option string
}.

Definition errorResponse (code : Z) (error : string) : Response :=
  mkResponse code false None (Some error) None.

(** The arguments of the call of [generateJustificationsBackground] that
    the handler starts and does not await. *)
Record BackgroundJob : Type := mkJob {
  jobSessionId : string;
  jobTeam : Team.t;
  jobRoles : list RoleDefinition.t;
  jobAssignment : TeamAssignment.t
}.

Definition isBlank (key : option string) : bool :=
  match key with
  | None => true
  | Some k => JSString.isEmpty k
  end.

Definition handler (env : Env) (st : Store.t) (req : Request)
    : Store.t * Response * option BackgroundJob :=
  if negb (String.eqb (method req) "POST") then
    (st, errorResponse 405 "Method Not Allowed", None)
  else if isBlank (openRouterApiKey env) then
    (st, errorResponse 500 "OpenRouter API key not configured", None)
  else
    match validation req with
    | Failure error => (st, errorResponse 400 error, None)
    | Success body =>
        match TeamManager.getTeam st (teamId body) with
        | None => (st, errorResponse 404 "Team not found", None)
        | Some team =>
            if negb (Team.isComplete team) then
              (st,
               errorResponse 400
                 "Team must have exactly 10 applicants before assignment",
               None)
            else
              match TeamManager.createAssignmentSession (uuid env)
                      (sessionCreatedAt env) st (teamId body) (phase body)
                      (customRoles body) with
              | (st, Failure error) => (st, errorResponse 400 error, None)
              | (st, Success session) =>
                  let id := AssignmentSession.id session in
                  let st :=
                    (TeamManager.updateSessionStatus st id scoring).1 in
                  let scoringResult :=
                    (Scorer.generateScoreMatrix team
                       (AssignmentSession.roles session)
                       (scoringOracle env) (scoringClock env)).1 in
                  match scoringResult with
                  | Failure error =>
                      let st :=
                        (TeamManager.updateSessionStatus st id pending).1 in
                      (st,
                       errorResponse 500 ("Scoring failed: " +:+ error),
                       None)
                  | Success scoreMatrix =>
                      let st :=
                        TeamManager.mutateSession st id
                          (fun s =>
                             AssignmentSession.withScoreMatrix s scoreMatrix) in
                      let st :=
                        (TeamManager.updateSessionStatus st id assigning).1 in
                      let assignmentResult :=
                        Assigner.assignRoles (munkres env) (assignedAt env)
                          team (AssignmentSession.roles session)
                          scoreMatrix in
                      match assignmentResult with
                      | Failure error =>
                          let st :=
                            (TeamManager.updateSessionStatus st id pending).1 in
                          (st,
                           errorResponse 500
                             ("Assignment failed: " +:+ error),
                           None)
                      | Success assignment =>
                          let st :=
                            TeamManager.mutateSession st id
                              (fun s =>
                                 AssignmentSession.withAssignment s assignment) in
                          let st :=
                            (TeamManager.updateSessionStatus st id
                               justifying).1 in
                          (st,
                           mkResponse 200 true
                             (Some (mkData id assignment true)) None
                             (Some "Team assigned successfully! AI justifications are being generated..."),
                           Some (mkJob id team
                                   (AssignmentSession.roles session)
                                   assignment))
                      end
                  end
              end
        end
    end.

(** [generateJustificationsBackground]; it runs on the store as it is when
    the oracle has answered. *)
Definition generateJustificationsBackground (st : Store.t)
    (job : BackgroundJob) (oracle : nat -> OpenRouter.Reply) : Store.t :=
  let justificationResult :=
    (Justifier.generateJustifications (jobTeam job) (jobRoles job)
       (jobAssignment job) oracle).1 in
  match justificationResult with
  | Success updatedAssignment =>
      match TeamManager.getAssignmentSession st (jobSessionId job) with
      | Some session =>
          let st :=
            TeamManager.mutateSession st (jobSessionId job)
              (fun s => AssignmentSession.withAssignment s updatedAssignment) in
          (TeamManager.updateSessionStatus st (jobSessionId job) complete).1
      | None => st
      end
  | Failure error =>
      (TeamManager.updateSessionStatus st (jobSessionId job) complete).1
  end.

(** The guard the specification asks of an implementer, for the solver
    binding in force: while the latest session of a team is not [complete],
    a trigger on that team is rejected or queued and not started. It
    launches no background job, it leaves the sessions of the store as they
    are, and a session it adds is one the pipeline has not run on: its
    status is [pending] and it has no score matrix. *)
Definition rejectsWhileInFlight : Prop :=
  forall message env st req body latest,
    munkres env = Assigner.importedMunkres message ->
    validation req = Success body ->
    TeamManager.getLatestSessionForTeam st (teamId body) = Some latest ->
    AssignmentSession.status latest <> complete ->
    let '(st', response, job) := handler env st req in
    job = None /\
    forall id session,
      TeamManager.getAssignmentSession st' id = Some session ->
      TeamManager.getAssignmentSession st id = Some session \/
      (TeamManager.getAssignmentSession st id = None /\
       AssignmentSession.status session = pending /\
       AssignmentSession.scoreMatrix session = None).

(** Vocabulary for the statement about the triggers: the request is a
    POST with a valid body, the API key is configured, and the body names a
    complete team of an active group, with exactly ten custom roles when
    part 2 supplies them. *)
Definition triggers (env : Env) (st : Store.t) (req : Request)
    (body : AssignTeamRequest) (team : Team.t) : Prop :=
  method req = "POST" /\
  isBlank (openRouterApiKey env) = false /\
  validation req = Success body /\
  TeamManager.getTeam st (teamId body) = Some team /\
  TeamManager.SessionManager.validateActiveSession st (Team.sessionId team)
  = Success tt /\
  Team.isComplete team = true /\
  (forall names,
     phase body = part2 -> customRoles body = Some names ->
     length names = 10%nat).

End AssignTeam.

(** ** pages/api/resetTeam.ts *)

Module ResetTeam.

(** The request as the handler reads it: the method, [req.body.teamId], a
    string or missing, and whether [req.body.confirmReset] is truthy; the
    body is an object. *)
Record Request : Type := mkRequest {
  method : string;
  teamId : option string;
  confirmReset : bool
}.

Record ResponseData : Type := mkData {
  dataTeamId : string;
  dataMessage : string
}.

Record Response : Type := mkResponse {
  statusCode : Z;
  success : bool;
  data : option ResponseData;
  error : option string;
  message : option string
}.

Definition errorResponse (code : Z) (error : string) : Response :=
  mkResponse code false None (Some error) None.

Definition quote : string := String "034"%char EmptyString.

(** [now] is the value of the [new Date()] of [updateSessionStats]. *)
Definition handler (now : Date) (st : Store.t) (req : Request)
    : Store.t * Response :=
  if negb (String.eqb (method req) "POST") then
    (st, errorResponse 405 "Method Not Allowed")
  else
    match teamId req with
    | Some (String c id) =>
        let teamId := String c id in
        if negb (confirmReset req) then
          (st,
           errorResponse 400
             "Reset confirmation required. Set confirmReset: true to proceed.")
        else
          match TeamManager.getTeam st teamId with
          | None => (st, errorResponse 404 "Team not found")
          | Some team =>
              let applicantCount := length (Team.applicants team) in
              let teamName := Team.name team in
              match TeamManager.resetTeam now st teamId with
              | (st, Failure error) =>
                  (st,
                   errorResponse 500
                     (if JSString.isEmpty error then "Failed to reset team"
                      else error))
              | (st, Success _) =>
                  (st,
                   mkResponse 200 true
                     (Some
                        (mkData teamId
                           ("Team " +:+ quote +:+ teamName +:+ quote
                            +:+ " has been reset. Removed "
                            +:+ pretty applicantCount
                            +:+ " applicants and all assignment sessions.")))
                     None (Some "Team reset successfully"))
              end
          end
    | _ => (st, errorResponse 400 "Team ID is required")
    end.

End ResetTeam.

(** ** pages/api/submitApplicant.ts *)

Module SubmitApplicant.

Record SubmitApplicantRequest : Type := mkBody {
  sessionId : string;
  teamId : string;
  applicant : ApplicantData.t
}.

(** [validation] is the result of
    [validateRequest(SubmitApplicantSchema, req.body)]. *)
Record Request : Type := mkRequest {
  method : string;
  validation : Outcome SubmitApplicantRequest
}.

Record ResponseData : Type := mkData {
  dataApplicant : Applicant.t;
  teamComplete : bool
}.

Record Response : Type := mkResponse {
  statusCode : Z;
  success : bool;
  data : option ResponseData;
  error : option string;
  message : option string
}.

Definition errorResponse (code : Z) (error : string) : Response :=
  mkResponse code false None (Some error) None.

(** [uuid] is the value of [uuidv4()], [now] and [statsNow] those of the
    two [new Date()] of [addApplicant]. *)
Definition handler (uuid : string) (now statsNow : Date) (st : Store.t)
    (req : Request) : Store.t * Response :=
  if negb (String.eqb (method req) "POST") then
    (st, errorResponse 405 "Method Not Allowed")
  else
    match validation req with
    | Failure error => (st, errorResponse 400 error)
    | Success body =>
        match TeamManager.getTeam st (teamId body) with
        | None => (st, errorResponse 404 "Team not found")
        | Some _ =>
            match TeamManager.addApplicant uuid now statsNow st (teamId body)
                    (applicant body) with
            | (st, Failure error) => (st, errorResponse 400 error)
            | (st, Success added) =>
                let updatedTeam := TeamManager.getTeam st (teamId body) in
                let isComplete :=
                  match updatedTeam with
                  | Some team => Team.isComplete team
                  | None => false
                  end in
                (st,
                 mkResponse 201 true (Some (mkData added isComplete)) None
                   (Some
                      (if isComplete then
                         "Applicant added successfully. Team is now complete and ready for assignment!"
                       else
                         "Applicant added successfully. Team has "
                         +:+ pretty
                               match updatedTeam with
                               | Some team => length (Team.applicants team)
                               | None => 0%nat
                               end
                         +:+ "/10 members.")))
            end
        end
    end.

(** Vocabulary for the statements about the handler: the session of the
    team is active, the team has room, and none of its applicants has the
    name, up to the case of the letters. *)
Definition accepts (st : Store.t) (team : Team.t)
    (applicantData : ApplicantData.t) : Prop :=
  TeamManager.SessionManager.validateActiveSession st (Team.sessionId team)
  = Success tt /\
  (length (Team.applicants team) < 10)%nat /\
  Forall
    (fun a =>
       JSString.toLowerCase (Applicant.name a)
       <> JSString.toLowerCase (ApplicantData.name applicantData))
    (Team.applicants team).

(** The names the handler compares are ASCII: the name submitted and the
    names of the applicants of the team the body names. On such names
    [toLowerCase] changes the letters A to Z and nothing else. *)
Definition asciiNames (st : Store.t) (req : Request) : Prop :=
  forall body,
    validation req = Success body ->
    JSString.isASCII (ApplicantData.name (applicant body)) = true /\
    forall team,
      TeamManager.getTeam st (teamId body) = Some team ->
      Forall (fun a => JSString.isASCII (Applicant.name a) = true)
        (Team.applicants team).

End SubmitApplicant.

(** ** pages/api/sessions/join.ts *)

Module JoinSession.

Record JoinSessionRequest : Type := mkBody {
  sessionCode : option string;
  sessionId : option string
}.

(** [validation] is the result of
    [validateRequest(JoinSessionSchema, req.body)]. *)
Record Request : Type := mkRequest {
  method : string;
  validation : Outcome JoinSessionRequest
}.

Record Response : Type := mkResponse {
  statusCode : Z;
  success : bool;
  data : option Session.t;
  error : option string;
  message : option string
}.

Definition errorResponse (code : Z) (error : string) : Response :=
  mkResponse code false None (Some error) None.

(** The end of the handler, for the session that was found. *)
Definition answer (session : Session.t) : Response :=
  match Session.status session with
  | active =>
      mkResponse 200 true (Some session) None
        (Some ("Successfully joined session: " +:+ Session.name session))
  | status =>
      errorResponse 400
        ("Session is " +:+ TeamManager.SessionManager.statusName status
         +:+ " and not accepting new participants")
  end.

(** With neither a code nor an id the handler reads the status of [null],
    and the [catch] answers. *)
Definition handler (state : Sessions.State) (req : Request) : Response :=
  if negb (String.eqb (method req) "POST") then
    errorResponse 405 ("Method " +:+ method req +:+ " not allowed")
  else
    match validation req with
    | Failure error => errorResponse 400 error
    | Success body =>
        match sessionCode body, sessionId body with
        | Some (String c code), _ =>
            match Sessions.getSessionByCode state (String c code) with
            | None => errorResponse 404 "Invalid session code"
            | Some session => answer session
            end
        | _, Some (String c id) =>
            match Sessions.getSession state (String c id) with
            | None => errorResponse 404 "Session not found"
            | Some session => answer session
            end
        | _, _ => errorResponse 500 "Internal server error"
        end
    end.

End JoinSession.

(** ** pages/api/getAssignments.ts *)

Module GetAssignments.

(** [teamId] and [sessionId], each a string or missing. *)
Record Params : Type := mkParams {
  teamId : option string;
  sessionId : option string
}.

(** The handler reads the two from [req.query] for a GET and from
    [req.body], an object, for a POST. *)
Record Request : Type := mkRequest {
  method : string;
  query : Params;
  body : Params
}.

Record GetAssignmentsResponse : Type := mkData {
  session : AssignmentSession.t;
  assignmentDetails : option (list AssignmentDetail.t);
  stats : option Assigner.AssignmentStats
}.

Record Response : Type := mkResponse {
  statusCode : Z;
  success : bool;
  data : option GetAssignmentsResponse;
  error : option string;
  message : option string
}.

Definition errorResponse (code : Z) (error : string) : Response :=
  mkResponse code false None (Some error) None.

(** "Determine appropriate message based on status" *)
Definition statusMessage (session : AssignmentSession.t) : string :=
  match AssignmentSession.status session with
  | pending => "Assignment session created but not started"
  | scoring =>
      "AI is analyzing applicants and generating compatibility scores..."
  | assigning => "Optimizing role assignments using Hungarian Algorithm..."
  | justifying => "Assignment complete! Generating AI justifications..."
  | complete =>
      let hasJustifications :=
        match AssignmentSession.assignment session with
        | Some assignment => TeamAssignment.justificationsGenerated assignment
        | None => false
        end in
      if hasJustifications then "Assignment complete with AI justifications!"
      else "Assignment complete! (Justifications may still be processing)"
  end.

(** The end of the handler, for the team and the session that were
    found. *)
Definition answer (team : Team.t) (session : AssignmentSession.t) : Response :=
  let detailed :=
    match AssignmentSession.assignment session,
          AssignmentSession.status session with
    | Some _, pending | None, _ => None
    | Some assignment, _ =>
        match AssignmentDetail.getAssignmentDetails team
                (AssignmentSession.roles session) assignment with
        | Success details =>
            Some (details, Assigner.getAssignmentStats assignment)
        | Failure _ => None
        end
    end in
  mkResponse 200 true
    (Some (mkData session (fst <$> detailed) (snd <$> detailed))) None
    (Some (statusMessage session)).

Definition handler (st : Store.t) (req : Request) : Response :=
  if negb (String.eqb (method req) "GET")
     && negb (String.eqb (method req) "POST") then
    errorResponse 405 "Method Not Allowed"
  else
    let params :=
      if String.eqb (method req) "GET" then query req else body req in
    match teamId params with
    | Some (String c id) =>
        let teamId := String c id in
        match TeamManager.getTeam st teamId with
        | None => errorResponse 404 "Team not found"
        | Some team =>
            match sessionId params with
            | Some (String c' id') =>
                match TeamManager.getAssignmentSession st (String c' id') with
                | Some session =>
                    if negb (String.eqb (AssignmentSession.teamId session)
                               teamId) then
                      errorResponse 404 "Assignment session not found"
                    else answer team session
                | None => errorResponse 404 "Assignment session not found"
                end
            | _ =>
                match TeamManager.getLatestSessionForTeam st teamId with
                | Some session => answer team session
                | None =>
                    errorResponse 404
                      "No assignment sessions found for this team"
                end
            end
        end
    | _ => errorResponse 400 "Team ID is required"
    end.

End GetAssignments.

(** ** pages/api/assignTeamsBatch.ts *)

Module AssignTeamsBatch.

Record TeamWithAssignment : Type := mkEntry {
  team : Team.t;
  roles : list RoleDefinition.t;
  assignment : TeamAssignment.t;
  sessionId : string
}.

(** An element of [justificationResult.results]. *)
Record JustificationResult : Type := mkResult {
  teamId : string;
  success : bool;
  updatedAssignment : option TeamAssignment.t;
  error : option string
}.

(** The body of the loop "Update sessions with justified assignments". *)
Definition updateSession (results : list JustificationResult)
    (st : Store.t) (entry : TeamWithAssignment) : Store.t :=
  let result :=
    find (fun r => String.eqb (teamId r) (Team.id (team entry))) results in
  match TeamManager.getAssignmentSession st (sessionId entry) with
  | Some session =>
      match result with
      | Some (mkResult _ true (Some updated) _) =>
          let st :=
            TeamManager.mutateSession st (sessionId entry)
              (fun s => AssignmentSession.withAssignment s updated) in
          (TeamManager.updateSessionStatus st (sessionId entry) complete).1
      | _ =>
          (TeamManager.updateSessionStatus st (sessionId entry) complete).1
      end
  | None => st
  end.

(** [generateBatchJustificationsBackground]; [justificationResult] is what
    the awaited [Justifier.generateJustificationsBatch] call gives: its
    results, or an exception. *)
Definition generateBatchJustificationsBackground (st : Store.t)
    (teamsWithAssignments : list TeamWithAssignment)
    (justificationResult : Completion (list JustificationResult))
    : Store.t :=
  match justificationResult with
  | Return results => foldl (updateSession results) st teamsWithAssignments
  | Throw _ =>
      foldl
        (fun st entry =>
           (TeamManager.updateSessionStatus st (sessionId entry) complete).1)
        st teamsWithAssignments
  end.

(** The assignment the batch result holds for an entry: the
    [updatedAssignment] of the first result with the entry's team id, when
    that result is a success; none when the batch call threw. *)
Definition justified (justificationResult : Completion (list JustificationResult))
    (entry : TeamWithAssignment) : option TeamAssignment.t :=
  match justificationResult with
  | Throw _ => None
  | Return results =>
      match find (fun r => String.eqb (teamId r) (Team.id (team entry)))
              results with
      | Some (mkResult _ true (Some updated) _) => Some updated
      | _ => None
      end
  end.

End AssignTeamsBatch.

(** *** The handler of assignTeamsBatch.ts *)

Module BatchAssign.

(** [req.body.options], each key there or not. *)
Record Options : Type := mkOptions {
  maxConcurrency : option Z;
  includeJustifications : option bool;
  retryFailedRequests : option bool
}.

(** [req.body], which the handler reads as it comes: [teamIds] is [None]
    when it is missing or not an array. *)
Record BatchAssignRequest : Type := mkBody {
  teamIds : option (list string);
  phase : option Phase;
  customRolesArray : option (list (list string));
  options : option Options
}.

Record Request : Type := mkRequest {
  method : string;
  body : BatchAssignRequest
}.

(** What the handler reads from outside the store. Team [i] of the request
    takes its ids from [uuid i] and its dates from [sessionCreatedAt i] and
    [assignedAt i]; [processingTime] is [Date.now() - startTime]. *)
Record Env : Type := mkEnv {
  openRouterApiKey : option string;
  uuid : nat -> nat -> string;
  sessionCreatedAt : nat -> Date;
  assignedAt : nat -> Date;
  oracle : nat -> nat -> OpenRouter.Reply;
  clock : nat -> nat -> Date;
  retryOracle : nat -> nat -> OpenRouter.Reply;
  retryClock : nat -> nat -> Date;
  munkres : list (list number) -> MunkresResult;
  elapsed : Z
}.

Record BatchAssignResult : Type := mkResult {
  teamId : string;
  sessionId : string;
  succeeded : bool;
  resultError : option string;
  assignment : option TeamAssignment.t;
  justificationsPending : option bool
}.

Record Summary : Type := mkSummary {
  total : nat;
  successful : nat;
  failed : nat;
  withJustifications : nat
}.

Record BatchAssignResponse : Type := mkData {
  results : list BatchAssignResult;
  summary : Summary;
  processingTime : Z
}.

Record Response : Type := mkResponse {
  statusCode : Z;
  success : bool;
  data : option BatchAssignResponse;
  error : option string;
  message : option string
}.

Definition errorResponse (code : Z) (error : string) : Response :=
  mkResponse code false None (Some error) None.

(** The call of [generateBatchJustificationsBackground] that the handler
    starts and does not await. *)
Record BackgroundJob : Type := mkJob {
  teamsWithAssignments : list AssignTeamsBatch.TeamWithAssignment;
  jobMaxConcurrency : Z;
  jobRetryFailedRequests : bool
}.

(** "Step 1: Validate all teams and create sessions", from team [i] on. The
    outcome is the answer that ends the handler, or the teams with their
    sessions. *)
Fixpoint createSessions (env : Env) (phase : Phase)
    (customRolesArray : option (list (list string))) (st : Store.t)
    (teamIds : list string) (i : nat)
    (created : list (Team.t * AssignmentSession.t))
    : Store.t * (Response + list (Team.t * AssignmentSession.t)) :=
  match teamIds with
  | [] => (st, inr created)
  | teamId :: rest =>
      match TeamManager.getTeam st teamId with
      | None => (st, inl (errorResponse 404 ("Team not found: " +:+ teamId)))
      | Some team =>
          if negb (Team.isComplete team) then
            (st,
             inl
               (errorResponse 400
                  ("Team " +:+ teamId
                   +:+ " must have exactly 10 applicants before assignment")))
          else
            let customRoles :=
              match customRolesArray with
              | Some customRolesArray => customRolesArray !! i
              | None => None
              end in
            match TeamManager.createAssignmentSession (uuid env i)
                    (sessionCreatedAt env i) st teamId phase customRoles with
            | (st, Failure error) =>
                (st,
                 inl
                   (errorResponse 400
                      ("Failed to create session for team " +:+ teamId
                       +:+ ": " +:+ error)))
            | (st, Success session) =>
                createSessions env phase customRolesArray st rest (S i)
                  (created ++ [(team, session)])
            end
      end
  end.

(** The state of the loop of step 3. *)
Record Progress : Type := mkProgress {
  store : Store.t;
  assignmentResults : list BatchAssignResult;
  pendingJustifications : list AssignTeamsBatch.TeamWithAssignment
}.

(** The body of the loop "Step 3: Process assignments for successful
    scorings", for the team at position [i]. The session of the team is the
    object the map holds under its id, the ids of the sessions of a request
    being different. *)
Definition processTeam (env : Env) (includeJustifications : bool)
    (scoringResults : list (Batch.Result ScoreMatrix.t)) (progress : Progress)
    (i : nat) (entry : Team.t * AssignmentSession.t) : Progress :=
  let team := entry.1 in
  let session := entry.2 in
  let id := AssignmentSession.id session in
  let roles := AssignmentSession.roles session in
  let st := store progress in
  let scoringData :=
    find (fun r => String.eqb (Batch.teamId r) (Team.id team)) scoringResults in
  match Batch.outcome <$> scoringData with
  | Some (Success scoreMatrix) =>
      let st :=
        TeamManager.mutateSession st id
          (fun s => AssignmentSession.withScoreMatrix s scoreMatrix) in
      let st := (TeamManager.updateSessionStatus st id assigning).1 in
      match Assigner.assignRoles (munkres env) (assignedAt env i) team roles
              scoreMatrix with
      | Success assigned =>
          let st :=
            TeamManager.mutateSession st id
              (fun s => AssignmentSession.withAssignment s assigned) in
          let st :=
            (TeamManager.updateSessionStatus st id
               (if includeJustifications then justifying else complete)).1 in
          mkProgress st
            (assignmentResults progress
             ++ [mkResult (Team.id team) id true None (Some assigned)
                   (Some includeJustifications)])
            (if includeJustifications then
               pendingJustifications progress
               ++ [AssignTeamsBatch.mkEntry team roles assigned id]
             else pendingJustifications progress)
      | Failure error =>
          mkProgress (TeamManager.updateSessionStatus st id pending).1
            (assignmentResults progress
             ++ [mkResult (Team.id team) id false
                   (Some ("Assignment failed: " +:+ error)) None None])
            (pendingJustifications progress)
      end
  | other =>
      mkProgress (TeamManager.updateSessionStatus st id pending).1
        (assignmentResults progress
         ++ [mkResult (Team.id team) id false
               (Some
                  ("Scoring failed: "
                   +:+ match other with
                       | Some (Failure (String c error)) => String c error
                       | _ => "Unknown error"
                       end))
               None None])
        (pendingJustifications progress)
  end.

Fixpoint processTeams (env : Env) (includeJustifications : bool)
    (scoringResults : list (Batch.Result ScoreMatrix.t)) (progress : Progress)
    (i : nat) (entries : list (Team.t * AssignmentSession.t)) : Progress :=
  match entries with
  | [] => progress
  | entry :: rest =>
      processTeams env includeJustifications scoringResults
        (processTeam env includeJustifications scoringResults progress i entry)
        (S i) rest
  end.

(** The handler. [None] is a request that is never answered, the scoring
    of the batch not returning. *)
Definition handler (env : Env) (st : Store.t) (req : Request)
    : option (Store.t * Response * option BackgroundJob) :=
  if negb (String.eqb (method req) "POST") then
    Some (st, errorResponse 405 "Method Not Allowed", None)
  else if AssignTeam.isBlank (openRouterApiKey env) then
    Some (st, errorResponse 500 "OpenRouter API key not configured", None)
  else
    let phase := default part1 (phase (body req)) in
    let options := default (mkOptions None None None) (options (body req)) in
    let maxConcurrency := default 10 (maxConcurrency options) in
    let includeJustifications :=
      default true (includeJustifications options) in
    let retryFailedRequests := default true (retryFailedRequests options) in
    match teamIds (body req) with
    | None | Some [] =>
        Some
          (st,
           errorResponse 400 "teamIds array is required and must not be empty",
           None)
    | Some teamIds =>
        if (100 <? length teamIds)%nat then
          Some
            (st,
             errorResponse 400
               "Maximum 100 teams can be processed in a single batch",
             None)
        else
          match createSessions env phase (customRolesArray (body req)) st
                  teamIds 0 [] with
          | (st, inl response) => Some (st, response, None)
          | (st, inr created) =>
              let st :=
                foldl
                  (fun st entry =>
                     (TeamManager.updateSessionStatus st
                        (AssignmentSession.id entry.2) scoring).1)
                  st created in
              match Scorer.generateScoreMatricesBatch (map fst created)
                      (map (fun entry => AssignmentSession.roles entry.2)
                         created)
                      (Some maxConcurrency) (Some retryFailedRequests)
                      (oracle env) (clock env) (retryOracle env)
                      (retryClock env) with
              | None => None
              | Some scoringResult =>
                  let progress :=
                    processTeams env includeJustifications
                      (Batch.results scoringResult) (mkProgress st [] []) 0
                      created in
                  let assignmentResults := assignmentResults progress in
                  let job :=
                    if includeJustifications
                       && (0 <? length (pendingJustifications progress))%nat
                    then
                      Some
                        (mkJob (pendingJustifications progress) maxConcurrency
                           retryFailedRequests)
                    else None in
                  let successful :=
                    length (List.filter succeeded assignmentResults) in
                  let failed := (length assignmentResults - successful)%nat in
                  let withJustifications :=
                    if includeJustifications then
                      length (pendingJustifications progress)
                    else 0%nat in
                  Some
                    (store progress,
                     mkResponse 200 (0 <? successful)%nat
                       (Some
                          (mkData assignmentResults
                             (mkSummary (length assignmentResults) successful
                                failed withJustifications)
                             (elapsed env)))
                       None
                       (Some
                          ("Batch assignment completed: " +:+ pretty successful
                           +:+ "/" +:+ pretty (length assignmentResults)
                           +:+ " teams assigned successfully"
                           +:+ (if includeJustifications then
                                  ". Justifications are being generated in background."
                                else "."))),
                     job)
              end
          end
    end.

(** Vocabulary for the statements about the handler: the id names a team
    that is complete and in an active session. *)
Definition ready (st : Store.t) (teamId : string) : Prop :=
  exists team,
    TeamManager.getTeam st teamId = Some team /\
    Team.isComplete team = true /\
    TeamManager.SessionManager.validateActiveSession st (Team.sessionId team)
    = Success tt.

(** Where step 3 leaves the session of a team: with the assignment of the
    result and on its way to the justifications, or [pending] and without
    an assignment. *)
Definition settled (includeJustifications : bool) (st : Store.t)
    (teamId : string) (result : BatchAssignResult) : Prop :=
  exists session,
    TeamManager.getAssignmentSession st (sessionId result) = Some session /\
    AssignmentSession.teamId session = teamId /\
    if succeeded result then
      AssignmentSession.status session
      = (if includeJustifications then justifying else complete) /\
      is_Some (assignment result) /\
      AssignmentSession.assignment session = assignment result
    else
      AssignmentSession.status session = pending /\
      AssignmentSession.assignment session = None /\
      is_Some (resultError result).

End BatchAssign.

(** ** Data for the examples *)

Module Examples.

Definition applicant (k : nat) : Applicant.t :=
  Applicant.mk ("applicant-" +:+ pretty k) ("Person " +:+ pretty k)
    "Engineer" ["typescript"] ["calm"] 0.

Definition team : Team.t :=
  Team.mk "team-1" "Team 1" (map applicant (seq 0 10)) 0 true "group-1".

Definition roles : list RoleDefinition.t :=
  imap (fun index name => RoleDefinition.mk ("role-" +:+ pretty index) name None)
    DEFAULT_ROLES.

(** [score[i][i] = 100], every other cell 0. *)
Definition identityFavoring : list (list number) :=
  map (fun i =>
         map (fun j => if (i =? j)%nat then Finite 100 else Finite 0)
           (seq 0 10))
    (seq 0 10).

Definition diagonal : list (Z * Z) :=
  map (fun i => (Z.of_nat i, Z.of_nat i)) (seq 0 10).

(** What a solver answers on the identity-favoring matrix, whose only
    minimum-cost matching is the diagonal; it stands for a binding of
    [munkres] that works, which [Assigner.importedMunkres] is not. *)
Definition diagonalSolver (cost : list (list number)) : MunkresResult :=
  MunkresPairs diagonal.

Definition scoreMatrix : ScoreMatrix.t :=
  ScoreMatrix.mk "team-1" identityFavoring 0.

Definition asJson (scores : list (list number)) : json :=
  JArray (map (fun row => JArray (map JNumber row)) scores).

(** A reply with nine rows of ten scores. *)
Definition nineByTen : json := asJson (take 9 identityFavoring).

Definition tenByTen : json := asJson identityFavoring.

(** The assignment [assignRoles] computes for the team on the
    identity-favoring matrix, at time 7. *)
Definition assignment : TeamAssignment.t :=
  TeamAssignment.mk "team-1"
    (imap
       (fun index role =>
          Assignment.mk ("applicant-" +:+ pretty index) (RoleDefinition.id role)
            (Finite 100) None)
       roles)
    (Finite 1000) 7 false.

(** A reply of the justification oracle: one entry per applicant, the text
    padded with white space. *)
Definition justificationEntry (k : nat) : json :=
  JObject [("applicantId", JString ("applicant-" +:+ pretty k));
           ("justification", JString ("  Fits role " +:+ pretty k +:+ ". "))].

Definition justifications : json := JArray (map justificationEntry (seq 0 10)).

(** The same reply with the entry of applicant 9 missing. *)
Definition nineJustifications : json :=
  JArray (map justificationEntry (seq 0 9)).

(** A store with the team in an active group and no assignment session. *)
Definition group : Session.t :=
  Session.mk "group-1" "Workshop" None active 0 None "admin"
    (SessionSettings.mk None 10 true true false None)
    (SessionStats.mk 1 1 10 0 0).

Definition store : Store.t :=
  Store.mk [("team-1", team)] [] [("group-1", group)].

Definition env (scoringOracle : nat -> OpenRouter.Reply) : AssignTeam.Env :=
  AssignTeam.mkEnv (Some "sk-or-test") (fun k => "uuid-" +:+ pretty k) 1 7
    scoringOracle (fun _ => 5) diagonalSolver.

Definition request : AssignTeam.Request :=
  AssignTeam.mkRequest "POST"
    (Success (AssignTeam.mkBody "team-1" part1 None)).

(** The store after a successful run of the handler, and the background job
    the run starts. *)
Definition justifyingStore : Store.t :=
  (AssignTeam.handler (env (fun _ => OpenRouter.Parsed tenByTen)) store
     request).1.1.

(** The store while the first run awaits the scoring oracle: its session
    has status [scoring]. *)
Definition scoringStore : Store.t :=
  (TeamManager.updateSessionStatus
     (TeamManager.createAssignmentSession (fun k => "uuid-" +:+ pretty k) 1
        store "team-1" part1 None).1
     "uuid-10" scoring).1.

(** The text of the [TypeError] of the call of the undefined [munkres], as
    a V8 engine words it for the bundled module. *)
Definition notAFunction : string :=
  "(0 , munkres_js__WEBPACK_IMPORTED_MODULE_0__.munkres) is not a function".

(** The environment of a second trigger, with the solver binding in force. *)
Definition importedEnv : AssignTeam.Env :=
  AssignTeam.mkEnv (Some "sk-or-test") (fun k => "second-" +:+ pretty k) 2 8
    (fun _ => OpenRouter.Parsed tenByTen) (fun _ => 6)
    (Assigner.importedMunkres notAFunction).

Definition job : AssignTeam.BackgroundJob :=
  AssignTeam.mkJob "uuid-10" team
    (imap (fun index name => RoleDefinition.mk ("uuid-" +:+ pretty index) name None)
       DEFAULT_ROLES)
    (TeamAssignment.mk "team-1"
       (imap
          (fun index name =>
             Assignment.mk ("applicant-" +:+ pretty index)
               ("uuid-" +:+ pretty index) (Finite 100) None)
          DEFAULT_ROLES)
       (Finite 1000) 7 false).

(** The store after the background job has filled the justifications: the
    session of the team is [complete]. *)
Definition completeStore : Store.t :=
  AssignTeam.generateJustificationsBackground justifyingStore job
    (fun _ => OpenRouter.Parsed
                (JArray
                   (map
                      (fun k =>
                         JObject
                           [("applicantId", JString ("applicant-" +:+ pretty k));
                            ("justification",
                             JString ("Fits role " +:+ pretty k +:+ "."))])
                      (seq 0 10)))).

(** A reply of the justification oracle in which the text for applicant 0
    has 501 characters. *)
Definition longJustifications : json :=
  JArray
    (JObject [("applicantId", JString "applicant-0");
              ("justification", JString (String.concat "" (repeat "a" 501)))]
     :: map justificationEntry (seq 1 9)).

(** Texts outside ASCII, by their UTF-8 bytes: the letter e with acute
    accent (U+00E9, C3 A9), the emoji U+1F600 (F0 9F 98 80), the no-break
    space (U+00A0, C2 A0) and the byte order mark (U+FEFF, EF BB BF). *)
Definition eAcute : string :=
  String (ascii_of_nat 195) (String (ascii_of_nat 169) EmptyString).

Definition grin : string :=
  String (ascii_of_nat 240)
    (String (ascii_of_nat 159)
       (String (ascii_of_nat 152) (String (ascii_of_nat 128) EmptyString))).

Definition noBreakSpace : string :=
  String (ascii_of_nat 194) (String (ascii_of_nat 160) EmptyString).

Definition byteOrderMark : string :=
  String (ascii_of_nat 239)
    (String (ascii_of_nat 187) (String (ascii_of_nat 191) EmptyString)).

(** A reply of the justification oracle in which the text for applicant 0
    is 251 accented letters between two no-break spaces. *)
Definition accentedEntries : list json :=
  JObject [("applicantId", JString "applicant-0");
           ("justification",
            JString (noBreakSpace +:+ String.concat "" (repeat eAcute 251)
                     +:+ noBreakSpace))]
  :: map justificationEntry (seq 1 9).

Definition accentedJustifications : json := JArray accentedEntries.

(** A reply of the justification oracle whose justifications are numbers. *)
Definition numericJustifications : json :=
  JArray
    (map
       (fun k =>
          JObject [("applicantId", JString ("applicant-" +:+ pretty k));
                   ("justification", JNumber (Finite 5))])
       (seq 0 10)).

End Examples.

(** ** Data for the examples of the store and of the sessions *)

Module Scenarios.

Definition commands : list TeamManager.Command :=
  [ TeamManager.RemoveApplicant 3 "team-1" "applicant-4";
    TeamManager.AddApplicant "applicant-10" 4 5 "team-1"
      (ApplicantData.mk "PERSON 3" "Designer" ["figma"] ["curious"]);
    TeamManager.AddApplicant "applicant-11" 6 7 "team-1"
      (ApplicantData.mk "Person 10" "Designer" ["figma"] ["curious"]);
    TeamManager.CreateAssignmentSession (fun k => "uuid-" +:+ pretty k) 8
      "team-1" part1 None;
    TeamManager.CreateTeam "team-2" 9 10 "Team 2" "group-1";
    TeamManager.DeleteTeam 11 "team-1" ].

(** The example store after applicant 4 has left the team. *)
Definition nineStore : Store.t :=
  TeamManager.exec Examples.store
    (TeamManager.RemoveApplicant 3 "team-1" "applicant-4").

Definition nineTeam : Team.t :=
  Team.mk "team-1" "Team 1"
    (map Examples.applicant [0; 1; 2; 3; 5; 6; 7; 8; 9]%nat) 0 false "group-1".

(** ... and after a tenth member has joined again. *)
Definition tenAgain : Store.t :=
  TeamManager.exec nineStore
    (TeamManager.AddApplicant "applicant-10" 4 5 "team-1"
       (ApplicantData.mk "Person 10" "Designer" ["figma"] ["curious"])).

(** The example store with the code of its session. *)
Definition state : Sessions.State :=
  Sessions.mkState Examples.store [("ABC123", "group-1")].

Definition endedState : Sessions.State :=
  (Sessions.endSession 20 state "group-1" false).1.

Definition afterTheEnd : list Sessions.Command :=
  [ Sessions.UpdateSession "group-1"
      (Sessions.mkUpdates (Some "Workshop, again") None None);
    Sessions.ArchiveSession "group-1";
    Sessions.Teams (TeamManager.ResetTeam 25 "team-1");
    Sessions.EndSession 30 "group-1" false;
    Sessions.UpdateSessionStats "group-1" 31 ].

(** An assignment of the example team with scores of all kinds, one of
    them between two ranges of the distribution. *)
Definition rankedScores : list Q :=
  [55; 90; 179 # 2; 70; 100; 0; 49; 50; 80; 60]%Q.

Definition ranked : TeamAssignment.t :=
  TeamAssignment.mk "team-1"
    (imap
       (fun index score =>
          Assignment.mk ("applicant-" +:+ pretty index)
            ("role-" +:+ pretty index) (Finite score) None)
       rankedScores)
    (Finite (1287 # 2)) 7 false.

(** A batch of three teams with the roles of each. In the first pass the
    oracle answers the first and the third team with a matrix and the
    second with nine rows; in the pass over the failed results it answers
    with a matrix. *)
Definition teamOf (k : nat) : Team.t :=
  Team.mk ("team-" +:+ pretty k) ("Team " +:+ pretty k)
    (map Examples.applicant (seq 0 10)) 0 true "group-1".

Definition teams : list Team.t := map teamOf [1; 2; 3]%nat.

Definition rolesArray : list (list RoleDefinition.t) :=
  [Examples.roles; Examples.roles; Examples.roles].

Definition firstOracle (k attempt : nat) : OpenRouter.Reply :=
  if (k =? 1)%nat then OpenRouter.Parsed Examples.nineByTen
  else OpenRouter.Parsed Examples.tenByTen.

Definition secondOracle (f attempt : nat) : OpenRouter.Reply :=
  OpenRouter.Parsed Examples.tenByTen.

Definition firstClock (k attempt : nat) : Date := 7.

Definition secondClock (f attempt : nat) : Date := 9.

(** The creation of a session with three teams under the code of the
    example session. *)
Definition uuids (k : nat) : string := "uuid-" +:+ pretty k.

Definition threeTeams : PartialSettings.t :=
  PartialSettings.mk (Some 3) None None None None (Some "ABC123").

Definition created : option (Sessions.State * Session.t) :=
  Sessions.createSession uuids Z.of_nat 0 (fun _ _ => 0%nat) state "Second"
    None None (Some threeTeams).

Definition createdState : Sessions.State :=
  match created with
  | Some (state', _) => state'
  | None => state
  end.

Definition createdSession : Session.t :=
  match created with
  | Some (_, session) => session
  | None => Examples.group
  end.

(** A store with two complete teams in the example session, and a batch
    request for them. The scoring oracle answers the first team with a
    matrix and the second with nine rows. *)
Definition twoTeams : Store.t :=
  Store.mk [("team-1", teamOf 1); ("team-2", teamOf 2)] []
    [("group-1", Examples.group)].

Definition batchEnv : BatchAssign.Env :=
  BatchAssign.mkEnv (Some "sk-or-test")
    (fun i k => "uuid-" +:+ pretty i +:+ "-" +:+ pretty k) Z.of_nat
    (fun _ => 7) firstOracle firstClock secondOracle secondClock
    Examples.diagonalSolver 1200.

Definition batchRequest (teamIds : list string) (maxConcurrency : Z)
    (retryFailedRequests : bool) : BatchAssign.Request :=
  BatchAssign.mkRequest "POST"
    (BatchAssign.mkBody (Some teamIds) None None
       (Some
          (BatchAssign.mkOptions (Some maxConcurrency) None
             (Some retryFailedRequests)))).

(** Three sessions: one active, one ended at time 5 with a team, and one
    archived that was ended at time 1. *)
Definition sessionIn (id : string) (status : SessionStatus)
    (endedAt : option Date) : Session.t :=
  Session.mk id "Workshop" None status 0 endedAt "admin"
    (SessionSettings.mk None 10 true true false None)
    (SessionStats.mk 0 0 0 0 0).

Definition threeSessions : Sessions.State :=
  Sessions.mkState
    (Store.mk
       [("team-1", Examples.team);
        ("team-2", Team.mk "team-2" "Team 2" [] 0 false "group-2")]
       []
       [("group-1", Examples.group);
        ("group-2", sessionIn "group-2" ended (Some 5));
        ("group-3", sessionIn "group-3" archived (Some 1))])
    [("ABC123", "group-1"); ("DEF456", "group-2")].

(** Requests of the handlers on the examples. *)
Definition resetRequest : ResetTeam.Request :=
  ResetTeam.mkRequest "POST" (Some "team-1") true.

Definition submitRequest (sessionId : string) : SubmitApplicant.Request :=
  SubmitApplicant.mkRequest "POST"
    (Success
       (SubmitApplicant.mkBody sessionId "team-1"
          (ApplicantData.mk "Person 10" "Designer" ["figma"] ["curious"]))).

Definition pollRequest : GetAssignments.Request :=
  GetAssignments.mkRequest "GET"
    (GetAssignments.mkParams (Some "team-1") (Some "uuid-10"))
    (GetAssignments.mkParams None None).

Definition joinByCode : JoinSession.Request :=
  JoinSession.mkRequest "POST"
    (Success (JoinSession.mkBody (Some "ABC123") None)).

Definition joinById : JoinSession.Request :=
  JoinSession.mkRequest "POST"
    (Success (JoinSession.mkBody None (Some "uuid-0"))).

(** Rounds of [generateSessionCode] that draw the same letter six times:
    [AAAAAA] in round 0, [BBBBBB] in round 1, and so on. *)
Definition sameLetter (round i : nat) : nat := (round mod 36)%nat.

End Scenarios.

(** * Properties *)

(** ** Lists and sets *)

Lemma setSize_le (l : list string) : (Assigner.setSize l <= length l)%nat.
Proof.
  unfold Assigner.setSize. induction l as [|x l IH].
  - rewrite list_to_set_nil, size_empty. simpl. lia.
  - rewrite list_to_set_cons, length_cons. destruct (decide (x ∈ l)) as [Hin|Hin].
    + rewrite (subseteq_union_1_L {[x]} (list_to_set l : gset string)).
      * lia.
      * apply singleton_subseteq_l, elem_of_list_to_set, Hin.
    + rewrite size_union by set_solver. rewrite size_singleton. lia.
Qed.

Lemma setSize_length_NoDup (l : list string) :
  Assigner.setSize l = length l -> NoDup l.
Proof.
  induction l as [|x l IH]; intros Hsz; [constructor|].
  unfold Assigner.setSize in *.
  rewrite list_to_set_cons, length_cons in Hsz.
  destruct (decide (x ∈ l)) as [Hin|Hin].
  - rewrite (subseteq_union_1_L {[x]} (list_to_set l : gset string)) in Hsz
      by apply singleton_subseteq_l, elem_of_list_to_set, Hin.
    pose proof (setSize_le l) as Hle.
    unfold Assigner.setSize in Hle. lia.
  - rewrite size_union in Hsz by set_solver. rewrite size_singleton in Hsz.
    constructor; [exact Hin|]. apply IH. lia.
Qed.

Lemma NoDup_setSize (l : list string) :
  NoDup l -> Assigner.setSize l = length l.
Proof. intros H. unfold Assigner.setSize. by apply size_list_to_set. Qed.

(** A duplicate-free list of [n] indices below [n] lists every index. *)
Lemma indices_Permutation (n : nat) (l : list nat) :
  NoDup l -> Forall (fun i => (i < n)%nat) l -> length l = n ->
  l ≡ₚ seq 0 n.
Proof.
  intros Hnd Hlt Hlen. apply submseteq_length_Permutation.
  - apply NoDup_submseteq; [exact Hnd|]. intros i Hi.
    rewrite Forall_forall in Hlt. apply elem_of_seq. specialize (Hlt i Hi). lia.
  - rewrite length_seq. lia.
Qed.

Lemma map_lookup_seq {A B} (f : A -> B) (d : B) (l : list A) :
  map (fun i => default d (f <$> l !! i)) (seq 0 (length l)) = map f l.
Proof.
  apply list_eq. intros i.
  change (map ?g ?k) with (g <$> k). rewrite !list_lookup_fmap.
  destruct (decide (i < length l)%nat) as [Hlt|Hge].
  - rewrite lookup_seq_lt by exact Hlt. simpl.
    destruct (l !! i) eqn:E; [done|].
    apply lookup_ge_None in E. lia.
  - rewrite lookup_seq_ge by lia. rewrite (lookup_ge_None_2 l i) by lia. done.
Qed.

(** ** The optimal assigner *)

Lemma buildAssignments_Finished team roles sm hr acc tot asg total :
  Assigner.buildAssignments team roles sm hr acc tot
    = Assigner.Finished asg total ->
  Forall Assigner.inRange hr /\
  exists new,
    asg = acc ++ new /\
    Forall2 (Assigner.pairedWith team roles sm) hr new /\
    total = fold_left
              (fun acc p =>
                 js_add acc (Assigner.cell (ScoreMatrix.scores sm) p.1 p.2))
              hr tot.
Proof.
  revert acc tot.
  induction hr as [|[ai ri] hr IH]; intros acc tot H;
    cbn [Assigner.buildAssignments] in H.
  - inversion H; subst. split; [constructor|].
    exists []. rewrite app_nil_r. repeat split. constructor.
  - destruct ((ai <? 0) || (ai >=? 10) || (ri <? 0) || (ri >=? 10)) eqn:Hrange;
      [discriminate|].
    destruct (ScoreMatrix.scores sm !! Z.to_nat ai) as [row|] eqn:Hrow;
      [|discriminate].
    destruct (Team.applicants team !! Z.to_nat ai) as [applicant|] eqn:Hap;
      [|discriminate].
    destruct (roles !! Z.to_nat ri) as [role|] eqn:Hrole; [|discriminate].
    apply IH in H as (Hr & new & -> & HF & ->).
    assert (Assigner.cell (ScoreMatrix.scores sm) ai ri
            = default NaN (row !! Z.to_nat ri)) as Hcell
      by (unfold Assigner.cell; rewrite Hrow; reflexivity).
    split.
    + constructor; [|exact Hr]. unfold Assigner.inRange. simpl. lia.
    + eexists (_ :: new). rewrite <- app_assoc. split; [reflexivity|].
      split.
      * constructor; [|exact HF]. exists applicant, role.
        cbn [fst snd]. rewrite Hcell. auto.
      * cbn [fold_left fst snd]. rewrite Hcell. reflexivity.
Qed.

Lemma pairedWith_applicantIds team roles sm hr asg :
  Forall2 (Assigner.pairedWith team roles sm) hr asg ->
  map Assignment.applicantId asg
  = map (fun i => default "" (Applicant.id <$> Team.applicants team !! i))
      (map (fun p => Z.to_nat p.1) hr).
Proof.
  induction 1 as [|p a hr asg (ap & r & Hap & Hr & ->) _ IH]; simpl;
    [reflexivity|].
  rewrite Hap. simpl. by rewrite IH.
Qed.

Lemma pairedWith_roleIds team roles sm hr asg :
  Forall2 (Assigner.pairedWith team roles sm) hr asg ->
  map Assignment.roleId asg
  = map (fun i => default "" (RoleDefinition.id <$> roles !! i))
      (map (fun p => Z.to_nat p.2) hr).
Proof.
  induction 1 as [|p a hr asg (ap & r & Hap & Hr & ->) _ IH]; simpl;
    [reflexivity|].
  rewrite Hr. simpl. by rewrite IH.
Qed.

(** The ids read through ten duplicate-free indices below ten are the ids of
    the whole array, each once. *)
Lemma ids_Permutation {A} (f : A -> string) (l : list A) (idx : list nat) :
  length l = 10%nat -> length idx = 10%nat ->
  Forall (fun i => (i < 10)%nat) idx ->
  NoDup (map (fun i => default "" (f <$> l !! i)) idx) ->
  map (fun i => default "" (f <$> l !! i)) idx ≡ₚ map f l.
Proof.
  intros Hl Hidx Hlt Hnd.
  rewrite <- (map_lookup_seq f "" l). rewrite Hl.
  apply Permutation_map. apply indices_Permutation; [|exact Hlt|exact Hidx].
  exact (NoDup_fmap_1 _ _ Hnd).
Qed.

(** What a successful run of [assignRoles] went through. *)
Lemma assignRoles_Success munkres now team roles sm a :
  Assigner.assignRoles munkres now team roles sm = Success a ->
  length (Team.applicants team) = 10%nat /\
  length roles = 10%nat /\
  exists pairs,
    munkres (Assigner.costMatrix (ScoreMatrix.scores sm)) = MunkresPairs pairs /\
    length pairs = 10%nat /\
    Forall Assigner.inRange pairs /\
    Forall2 (Assigner.pairedWith team roles sm) pairs
      (TeamAssignment.assignments a) /\
    NoDup (map Assignment.applicantId (TeamAssignment.assignments a)) /\
    NoDup (map Assignment.roleId (TeamAssignment.assignments a)) /\
    a = TeamAssignment.mk (Team.id team) (TeamAssignment.assignments a)
          (Assigner.sumCells (ScoreMatrix.scores sm) pairs) now false.
Proof.
  unfold Assigner.assignRoles. intros H.
  destruct (length (Team.applicants team) =? 10)%nat eqn:Hta; [|discriminate].
  destruct (length roles =? 10)%nat eqn:Hro; [|discriminate].
  simpl in H.
  destruct (negb (length (ScoreMatrix.scores sm) =? 10)%nat
            || negb (forallb (fun row => (length row =? 10)%nat)
                       (ScoreMatrix.scores sm))) eqn:Hdim; [discriminate|].
  destruct (munkres _) as [?| |pairs] eqn:Hm; try discriminate.
  destruct (length pairs =? 10)%nat eqn:Hlen; [|discriminate]. simpl in H.
  destruct (Assigner.buildAssignments _ _ _ _ _ _) as [?|?|asg total] eqn:Hb;
    try discriminate.
  destruct (Assigner.setSize (map Assignment.applicantId asg) =? 10)%nat
    eqn:Hsa; [|discriminate].
  destruct (Assigner.setSize (map Assignment.roleId asg) =? 10)%nat
    eqn:Hsr; [|discriminate].
  simpl in H. inversion H; subst a; clear H. simpl.
  apply Nat.eqb_eq in Hta, Hro, Hlen, Hsa, Hsr.
  apply buildAssignments_Finished in Hb as (Hr & new & Hasg & HF & Htot).
  simpl in Hasg. subst new.
  assert (length asg = 10%nat) as Hla
    by (rewrite <- (Forall2_length _ _ _ HF); exact Hlen).
  split; [exact Hta|]. split; [exact Hro|].
  exists pairs. split; [reflexivity|]. split; [exact Hlen|].
  split; [exact Hr|]. split; [exact HF|].
  split; [apply setSize_length_NoDup; rewrite length_map; lia|].
  split; [apply setSize_length_NoDup; rewrite length_map; lia|].
  unfold Assigner.sumCells. by rewrite Htot.
Qed.

(** C1. Whenever [assignRoles] succeeds, the result holds exactly ten
    pairings, the applicant ids of the pairings are the applicant ids of the
    team, each once, the role ids are the ids of the roles, each once, and
    [totalScore] is the sum of [score[i][j]] over the chosen pairs [(i, j)]. *)
Theorem C1_assignRoles_bijection munkres now team roles sm a :
  Assigner.assignRoles munkres now team roles sm = Success a ->
  length (TeamAssignment.assignments a) = 10%nat /\
  NoDup (map Assignment.applicantId (TeamAssignment.assignments a)) /\
  map Assignment.applicantId (TeamAssignment.assignments a)
    ≡ₚ map Applicant.id (Team.applicants team) /\
  NoDup (map Assignment.roleId (TeamAssignment.assignments a)) /\
  map Assignment.roleId (TeamAssignment.assignments a)
    ≡ₚ map RoleDefinition.id roles /\
  exists pairs,
    munkres (Assigner.costMatrix (ScoreMatrix.scores sm)) = MunkresPairs pairs /\
    Forall2 (Assigner.pairedWith team roles sm) pairs
      (TeamAssignment.assignments a) /\
    TeamAssignment.totalScore a
      = Assigner.sumCells (ScoreMatrix.scores sm) pairs.
Proof.
  intros H.
  apply assignRoles_Success in H
    as (Hta & Hro & pairs & Hm & Hlen & Hr & HF & Hnda & Hndr & Ha).
  assert (length (TeamAssignment.assignments a) = 10%nat) as Hla
    by (rewrite <- (Forall2_length _ _ _ HF); exact Hlen).
  split; [exact Hla|]. split; [exact Hnda|]. split.
  { rewrite (pairedWith_applicantIds _ _ _ _ _ HF) in Hnda |- *.
    apply ids_Permutation; [exact Hta|by rewrite length_map| |exact Hnda].
    apply Forall_forall. intros i Hi. apply list_elem_of_In, in_map_iff in Hi.
    destruct Hi as (p & <- & Hp). rewrite Forall_forall in Hr.
    apply list_elem_of_In, Hr in Hp. destruct Hp as [Hp _]. lia. }
  split; [exact Hndr|]. split.
  { rewrite (pairedWith_roleIds _ _ _ _ _ HF) in Hndr |- *.
    apply ids_Permutation; [exact Hro|by rewrite length_map| |exact Hndr].
    apply Forall_forall. intros i Hi. apply list_elem_of_In, in_map_iff in Hi.
    destruct Hi as (p & <- & Hp). rewrite Forall_forall in Hr.
    apply list_elem_of_In, Hr in Hp. destruct Hp as [_ Hp]. lia. }
  exists pairs. split; [exact Hm|]. split; [exact HF|].
  rewrite Ha. reflexivity.
Qed.

Lemma C1_assignRoles_bijection_witness :
  exists a,
    Assigner.assignRoles Examples.diagonalSolver 7 Examples.team Examples.roles
      Examples.scoreMatrix = Success a /\
    length (TeamAssignment.assignments a) = 10%nat /\
    map Assignment.applicantId (TeamAssignment.assignments a)
      ≡ₚ map Applicant.id (Team.applicants Examples.team).
Proof.
  eexists. split; [vm_compute; reflexivity|].
  pose proof (C1_assignRoles_bijection Examples.diagonalSolver 7 Examples.team
                Examples.roles Examples.scoreMatrix _ eq_refl)
    as (Hlen & _ & Hperm & _).
  split; [exact Hlen|exact Hperm].
Defined.

(** The clock is the only thing [assignRoles] reads besides its arguments:
    the result at time [now] is the result at time 0 with the timestamp
    replaced. *)
Lemma assignRoles_now munkres now team roles sm :
  Assigner.assignRoles munkres now team roles sm
  = match Assigner.assignRoles munkres 0 team roles sm with
    | Success a =>
        Success (TeamAssignment.mk (TeamAssignment.teamId a)
                   (TeamAssignment.assignments a) (TeamAssignment.totalScore a)
                   now (TeamAssignment.justificationsGenerated a))
    | Failure error => Failure error
    end.
Proof.
  unfold Assigner.assignRoles.
  repeat match goal with
         | |- context [if ?c then _ else _] => destruct c; try reflexivity
         | |- context [match ?x with _ => _ end] =>
             destruct x; try reflexivity
         end.
Qed.

(** With a binding of [munkres] that answers, two invocations on the same
    team, roles and matrix at the times [now1] and [now2] both succeed or
    both fail with the same error, and two results differ in [generatedAt]
    at most, which is the time of the invocation. *)
Lemma assignRoles_same_up_to_timestamp munkres now1 now2 team roles sm :
  match Assigner.assignRoles munkres now1 team roles sm,
        Assigner.assignRoles munkres now2 team roles sm with
  | Success a1, Success a2 =>
      TeamAssignment.teamId a1 = TeamAssignment.teamId a2 /\
      TeamAssignment.assignments a1 = TeamAssignment.assignments a2 /\
      TeamAssignment.totalScore a1 = TeamAssignment.totalScore a2 /\
      TeamAssignment.justificationsGenerated a1
        = TeamAssignment.justificationsGenerated a2 /\
      TeamAssignment.generatedAt a1 = now1 /\
      TeamAssignment.generatedAt a2 = now2
  | Failure error1, Failure error2 => error1 = error2
  | _, _ => False
  end.
Proof.
  rewrite (assignRoles_now munkres now1), (assignRoles_now munkres now2).
  destruct (Assigner.assignRoles munkres 0 team roles sm); simpl; auto 10.
Qed.

(** [generatedAt: new Date()] is reached only after the solver has answered:
    with a solver that answers, invocations at different times return
    different results. *)
Example assignRoles_timestamp_with_a_solver :
  Assigner.assignRoles Examples.diagonalSolver 1 Examples.team Examples.roles
    Examples.scoreMatrix
  <> Assigner.assignRoles Examples.diagonalSolver 2 Examples.team
       Examples.roles Examples.scoreMatrix.
Proof. vm_compute. discriminate. Qed.

(** *** The binding of the solver in force *)

(** With the imported binding [assignRoles] never succeeds: it fails at one
    of the three checks of the sizes, or at the call of [munkres]. *)
Lemma assignRoles_imported message now team roles sm :
  Assigner.assignRoles (Assigner.importedMunkres message) now team roles sm
  = if negb (length (Team.applicants team) =? 10)%nat then
      Failure "Team must have exactly 10 applicants"
    else if negb (length roles =? 10)%nat then
      Failure "Must have exactly 10 roles"
    else if negb (length (ScoreMatrix.scores sm) =? 10)%nat
            || negb (forallb (fun row => (length row =? 10)%nat)
                       (ScoreMatrix.scores sm)) then
      Failure "Score matrix must be 10x10"
    else Failure ("Assignment failed: " +:+ message).
Proof. reflexivity. Qed.

(** C2. The code does not reach the matching. For a team of ten
    applicants, ten roles and a 10 x 10 matrix, whatever its scores,
    [assignRoles] returns the failure of the call of the undefined
    [munkres] and no assignment; so it does on the identity-favoring
    matrix, where the claim has applicant [i] on role [i] and a total of
    1000. *)
Theorem C2_assignRoles_fails_at_the_solver message now :
  (forall team roles sm,
     length (Team.applicants team) = 10%nat ->
     length roles = 10%nat ->
     length (ScoreMatrix.scores sm) = 10%nat ->
     Forall (fun row => length row = 10%nat) (ScoreMatrix.scores sm) ->
     Assigner.assignRoles (Assigner.importedMunkres message) now team roles sm
     = Failure ("Assignment failed: " +:+ message)) /\
  Assigner.assignRoles (Assigner.importedMunkres message) now Examples.team
    Examples.roles Examples.scoreMatrix
  = Failure ("Assignment failed: " +:+ message) /\
  ScoreMatrix.scores Examples.scoreMatrix = Examples.identityFavoring.
Proof.
  split; [|split; reflexivity].
  intros team roles sm Hteam Hroles Hrows Hcolumns.
  rewrite assignRoles_imported, Hteam, Hroles, Hrows. cbn [Nat.eqb negb orb].
  replace (forallb (fun row => (length row =? 10)%nat) (ScoreMatrix.scores sm))
    with true; [reflexivity|].
  symmetry. apply forallb_forall. intros row Hrow.
  rewrite Forall_forall in Hcolumns. apply Nat.eqb_eq, Hcolumns.
  by apply list_elem_of_In.
Qed.


(** *** Optimality *)

Lemma cell_costMatrix m i j :
  Assigner.cell (Assigner.costMatrix m) i j
  = js_sub (Finite 100) (Assigner.cell m i j).
Proof.
  unfold Assigner.cell, Assigner.costMatrix.
  change (map ?f m) with (f <$> m). rewrite list_lookup_fmap.
  destruct (m !! Z.to_nat i) as [row|]; simpl; [|reflexivity].
  change (map ?f row) with (f <$> row). rewrite list_lookup_fmap.
  destruct (row !! Z.to_nat j); reflexivity.
Qed.

Lemma validScores_cell m p :
  Assigner.validScores m -> Assigner.inRange p ->
  Assigner.validCell (Assigner.cell m p.1 p.2).
Proof.
  intros [Hlen Hrows] [Hi Hj]. unfold Assigner.cell.
  destruct (m !! Z.to_nat p.1) as [row|] eqn:Hrow.
  - rewrite Forall_forall in Hrows.
    destruct (Hrows row) as [Hrl Hcells];
      [by eapply list_elem_of_lookup_2|].
    destruct (row !! Z.to_nat p.2) as [c|] eqn:Hc.
    + rewrite Forall_forall in Hcells. apply Hcells.
      by eapply list_elem_of_lookup_2.
    + apply lookup_ge_None in Hc. lia.
  - apply lookup_ge_None in Hrow. lia.
Qed.

Lemma fold_cells_Finite m pairs a :
  Forall (fun p => exists q, Assigner.cell m p.1 p.2 = Finite q) pairs ->
  exists t,
    fold_left (fun acc p => js_add acc (Assigner.cell m p.1 p.2)) pairs
      (Finite a) = Finite t /\
    (t == a + Assigner.sumValues m pairs)%Q.
Proof.
  intros H. revert a. induction H as [|p pairs [q Hq] _ IH]; intros a.
  - exists a. split; [reflexivity|]. simpl. lra.
  - cbn [fold_left]. rewrite Hq. cbn [js_add].
    destruct (IH (a + q)%Q) as (t & Ht & Heq).
    exists t. split; [exact Ht|].
    unfold Assigner.sumValues in *. cbn [foldr]. rewrite Hq. cbn [Assigner.valueOf].
    lra.
Qed.

Lemma sumCells_Finite m pairs :
  Forall (fun p => exists q, Assigner.cell m p.1 p.2 = Finite q) pairs ->
  exists t,
    Assigner.sumCells m pairs = Finite t /\
    (t == Assigner.sumValues m pairs)%Q.
Proof.
  intros H. destruct (fold_cells_Finite m pairs 0 H) as (t & Ht & Heq).
  exists t. split; [exact Ht|]. lra.
Qed.

Lemma sumValues_costMatrix m pairs :
  Forall (fun p => exists q, Assigner.cell m p.1 p.2 = Finite q) pairs ->
  (Assigner.sumValues (Assigner.costMatrix m) pairs
   == 100 * inject_Z (Z.of_nat (length pairs)) - Assigner.sumValues m pairs)%Q.
Proof.
  induction 1 as [|p pairs [q Hq] _ IH].
  - unfold Assigner.sumValues. cbn [foldr length].
    change (inject_Z (Z.of_nat 0)) with 0%Q. lra.
  - unfold Assigner.sumValues in *. cbn [foldr]. rewrite IH.
    rewrite cell_costMatrix, Hq. cbn [js_sub js_neg js_add Assigner.valueOf].
    rewrite length_cons, Nat2Z.inj_succ. unfold Z.succ.
    rewrite inject_Z_plus. change (inject_Z 1) with 1%Q.
    generalize (inject_Z (Z.of_nat (length pairs))).
    generalize (foldr (fun p acc => (Assigner.valueOf (Assigner.cell m p.1 p.2)
                                     + acc)%Q) 0%Q pairs).
    intros s n. ring.
Qed.

Lemma costMatrix_cells_Finite m pairs :
  Forall (fun p => exists q, Assigner.cell m p.1 p.2 = Finite q) pairs ->
  Forall (fun p => exists q,
            Assigner.cell (Assigner.costMatrix m) p.1 p.2 = Finite q) pairs.
Proof.
  intros H. eapply Forall_impl; [exact H|].
  intros p [q Hq]. rewrite cell_costMatrix, Hq. eexists. reflexivity.
Qed.

Lemma validScores_cells_Finite m pairs :
  Assigner.validScores m -> Forall Assigner.inRange pairs ->
  Forall (fun p => exists q, Assigner.cell m p.1 p.2 = Finite q) pairs.
Proof.
  intros Hv Hr. eapply Forall_impl; [exact Hr|]. intros p Hp.
  destruct (validScores_cell m p Hv Hp) as (q & Hq & _). eauto.
Qed.

(** A matching of least cost on [100 - score] is a matching of greatest
    score. *)
Lemma minCost_maxScore m pairs other :
  Assigner.validScores m ->
  Assigner.perfectMatching pairs -> Assigner.perfectMatching other ->
  js_le (Assigner.sumCells (Assigner.costMatrix m) pairs)
        (Assigner.sumCells (Assigner.costMatrix m) other) = true ->
  js_le (Assigner.sumCells m other) (Assigner.sumCells m pairs) = true.
Proof.
  intros Hv (Hlp & Hrp & _) (Hlo & Hro & _) Hle.
  pose proof (validScores_cells_Finite m pairs Hv Hrp) as Hfp.
  pose proof (validScores_cells_Finite m other Hv Hro) as Hfo.
  destruct (sumCells_Finite _ _ (costMatrix_cells_Finite _ _ Hfp))
    as (cp & Hcp & Ecp).
  destruct (sumCells_Finite _ _ (costMatrix_cells_Finite _ _ Hfo))
    as (co & Hco & Eco).
  destruct (sumCells_Finite _ _ Hfp) as (sp & Hsp & Esp).
  destruct (sumCells_Finite _ _ Hfo) as (so & Hso & Eso).
  rewrite Hcp, Hco in Hle. rewrite Hsp, Hso. cbn [js_le] in *.
  apply Qle_bool_iff in Hle. apply Qle_bool_iff.
  rewrite (sumValues_costMatrix _ _ Hfp) in Ecp.
  rewrite (sumValues_costMatrix _ _ Hfo) in Eco.
  rewrite Hlp in Ecp. rewrite Hlo in Eco. lra.
Qed.

(** *** When the solver returns a perfect matching, [assignRoles] succeeds *)

Lemma buildAssignments_total team roles sm hr acc tot :
  Forall Assigner.inRange hr ->
  length (Team.applicants team) = 10%nat ->
  length roles = 10%nat ->
  length (ScoreMatrix.scores sm) = 10%nat ->
  exists asg total,
    Assigner.buildAssignments team roles sm hr acc tot
    = Assigner.Finished asg total.
Proof.
  intros Hr Hta Hro Hsc. revert acc tot.
  induction Hr as [|[ai ri] hr [Hi Hj] _ IH]; intros acc tot;
    cbn [Assigner.buildAssignments]; [eauto|].
  cbn [fst snd] in Hi, Hj.
  assert ((ai <? 0) || (ai >=? 10) || (ri <? 0) || (ri >=? 10) = false) as ->.
  { rewrite !orb_false_iff, !Z.ltb_ge, !Z.geb_leb, !Z.leb_gt. lia. }
  destruct (lookup_lt_is_Some_2 (ScoreMatrix.scores sm) (Z.to_nat ai))
    as [row ->]; [lia|].
  destruct (lookup_lt_is_Some_2 (Team.applicants team) (Z.to_nat ai))
    as [applicant ->]; [lia|].
  destruct (lookup_lt_is_Some_2 roles (Z.to_nat ri)) as [role ->]; [lia|].
  apply IH.
Qed.

Lemma NoDup_to_nat (l : list Z) :
  Forall (fun i => 0 <= i) l -> NoDup l -> NoDup (map Z.to_nat l).
Proof.
  intros Hnn Hnd. apply NoDup_fmap_2_strong; [|exact Hnd].
  rewrite Forall_forall in Hnn. intros x y Hx Hy Heq.
  apply Hnn in Hx, Hy. lia.
Qed.

Lemma NoDup_read_ids {A} (f : A -> string) (l : list A) (idx : list nat) :
  NoDup (map f l) -> NoDup idx ->
  Forall (fun i => (i < length l)%nat) idx ->
  NoDup (map (fun i => default "" (f <$> l !! i)) idx).
Proof.
  intros Hids Hidx Hlt. apply NoDup_fmap_2_strong; [|exact Hidx].
  rewrite Forall_forall in Hlt. intros i j Hi Hj Heq.
  destruct (lookup_lt_is_Some_2 l i (Hlt i Hi)) as [x Hx].
  destruct (lookup_lt_is_Some_2 l j (Hlt j Hj)) as [y Hy].
  rewrite Hx, Hy in Heq. simpl in Heq.
  eapply (proj1 (NoDup_alt (map f l)) Hids i j (f x)).
  - change (map f l) with (f <$> l). by rewrite list_lookup_fmap, Hx.
  - change (map f l) with (f <$> l). rewrite list_lookup_fmap, Hy. simpl.
    by rewrite Heq.
Qed.

Lemma perfectMatching_rows pairs :
  Assigner.perfectMatching pairs ->
  length (map (fun p : Z * Z => Z.to_nat p.1) pairs) = 10%nat /\
  Forall (fun i => (i < 10)%nat) (map (fun p : Z * Z => Z.to_nat p.1) pairs) /\
  NoDup (map (fun p : Z * Z => Z.to_nat p.1) pairs).
Proof.
  intros (Hlen & Hr & Hnd1 & _). split; [by rewrite length_map|]. split.
  - apply Forall_forall. intros i Hi. apply list_elem_of_In, in_map_iff in Hi.
    destruct Hi as (p & <- & Hp). rewrite Forall_forall in Hr.
    apply list_elem_of_In, Hr in Hp. destruct Hp as [Hp _]. lia.
  - assert (map (fun p : Z * Z => Z.to_nat p.1) pairs = map Z.to_nat pairs.*1)
      as -> by (symmetry; apply map_map).
    apply NoDup_to_nat; [|exact Hnd1].
    apply Forall_forall. intros i Hi. apply list_elem_of_fmap in Hi.
    destruct Hi as (p & -> & Hp). rewrite Forall_forall in Hr.
    apply Hr in Hp. destruct Hp as [Hp _]. lia.
Qed.

Lemma perfectMatching_columns pairs :
  Assigner.perfectMatching pairs ->
  length (map (fun p : Z * Z => Z.to_nat p.2) pairs) = 10%nat /\
  Forall (fun i => (i < 10)%nat) (map (fun p : Z * Z => Z.to_nat p.2) pairs) /\
  NoDup (map (fun p : Z * Z => Z.to_nat p.2) pairs).
Proof.
  intros (Hlen & Hr & _ & Hnd2). split; [by rewrite length_map|]. split.
  - apply Forall_forall. intros i Hi. apply list_elem_of_In, in_map_iff in Hi.
    destruct Hi as (p & <- & Hp). rewrite Forall_forall in Hr.
    apply list_elem_of_In, Hr in Hp. destruct Hp as [_ Hp]. lia.
  - assert (map (fun p : Z * Z => Z.to_nat p.2) pairs = map Z.to_nat pairs.*2)
      as -> by (symmetry; apply map_map).
    apply NoDup_to_nat; [|exact Hnd2].
    apply Forall_forall. intros i Hi. apply list_elem_of_fmap in Hi.
    destruct Hi as (p & -> & Hp). rewrite Forall_forall in Hr.
    apply Hr in Hp. destruct Hp as [_ Hp]. lia.
Qed.

Lemma assignRoles_succeeds munkres now team roles sm pairs :
  length (Team.applicants team) = 10%nat ->
  length roles = 10%nat ->
  NoDup (map Applicant.id (Team.applicants team)) ->
  NoDup (map RoleDefinition.id roles) ->
  length (ScoreMatrix.scores sm) = 10%nat ->
  Forall (fun row => length row = 10%nat) (ScoreMatrix.scores sm) ->
  munkres (Assigner.costMatrix (ScoreMatrix.scores sm)) = MunkresPairs pairs ->
  Assigner.perfectMatching pairs ->
  exists a, Assigner.assignRoles munkres now team roles sm = Success a.
Proof.
  intros Hta Hro Hida Hidr Hsc Hrows Hm Hpm.
  destruct (perfectMatching_rows pairs Hpm) as (_ & Hlt1 & Hnd1).
  destruct (perfectMatching_columns pairs Hpm) as (_ & Hlt2 & Hnd2).
  destruct Hpm as (Hlen & Hr & _ & _).
  unfold Assigner.assignRoles.
  rewrite Hta, Hro, Hsc, Hm, Hlen. cbn [Nat.eqb negb orb].
  assert (forallb (fun row => (length row =? 10)%nat) (ScoreMatrix.scores sm)
          = true) as ->.
  { apply forallb_forall. intros row Hrow. rewrite Forall_forall in Hrows.
    apply list_elem_of_In, Hrows in Hrow. by apply Nat.eqb_eq. }
  cbn [negb].
  destruct (buildAssignments_total team roles sm pairs [] (Finite 0)
              Hr Hta Hro Hsc) as (asg & total & Hb).
  rewrite Hb.
  apply buildAssignments_Finished in Hb as (_ & new & Hasg & HF & _).
  simpl in Hasg. subst new.
  assert (length asg = 10%nat) as Hla
    by (rewrite <- (Forall2_length _ _ _ HF); exact Hlen).
  rewrite (NoDup_setSize (map Assignment.applicantId asg)).
  2:{ rewrite (pairedWith_applicantIds _ _ _ _ _ HF).
      apply NoDup_read_ids; [exact Hida|exact Hnd1|by rewrite Hta]. }
  rewrite (NoDup_setSize (map Assignment.roleId asg)).
  2:{ rewrite (pairedWith_roleIds _ _ _ _ _ HF).
      apply NoDup_read_ids; [exact Hidr|exact Hnd2|by rewrite Hro]. }
  rewrite !length_map, Hla. cbn [Nat.eqb negb]. eauto.
Qed.

(** *** The identity-favoring matrix *)

Lemma identityFavoring_cell p :
  Assigner.inRange p ->
  Assigner.cell Examples.identityFavoring p.1 p.2
  = if p.1 =? p.2 then Finite 100 else Finite 0.
Proof.
  intros [Hi Hj]. unfold Assigner.cell, Examples.identityFavoring.
  change (map ?f ?l) with (f <$> l). rewrite list_lookup_fmap.
  rewrite lookup_seq_lt by lia. cbn [fmap option_fmap option_map].
  change (map ?f ?l) with (f <$> l). rewrite list_lookup_fmap.
  rewrite lookup_seq_lt by lia. cbn [fmap option_fmap option_map default].
  cbn [Nat.add].
  destruct (Z.eqb_spec p.1 p.2) as [Heq|Hne].
  - rewrite Heq, Nat.eqb_refl. reflexivity.
  - destruct (Nat.eqb_spec (Z.to_nat p.1) (Z.to_nat p.2)); [lia|reflexivity].
Qed.

Lemma identityFavoring_valid : Assigner.validScores Examples.identityFavoring.
Proof.
  split; [reflexivity|].
  unfold Examples.identityFavoring. cbn [seq map Nat.eqb].
  repeat (apply Forall_cons; split;
          [split; [reflexivity|];
           repeat (apply Forall_cons; split;
                   [eexists; split;
                    [reflexivity|split; unfold Qle; simpl; lia]|]);
           apply Forall_nil; exact I|]).
  apply Forall_nil. exact I.
Qed.

Lemma diagonal_perfect : Assigner.perfectMatching Examples.diagonal.
Proof.
  split; [reflexivity|]. split; [|split].
  - unfold Examples.diagonal. cbn [seq map].
    repeat (apply Forall_cons; split;
            [unfold Assigner.inRange; simpl; lia|]).
    apply Forall_nil. exact I.
  - apply (bool_decide_unpack _). vm_compute. reflexivity.
  - apply (bool_decide_unpack _). vm_compute. reflexivity.
Qed.

(** On the cost matrix of the identity-favoring matrix a pair costs 0 on the
    diagonal and 100 off it. *)
Lemma identityFavoring_cost p :
  Assigner.inRange p ->
  Assigner.cell (Assigner.costMatrix Examples.identityFavoring) p.1 p.2
  = if p.1 =? p.2 then Finite (100 - 100) else Finite (100 - 0).
Proof.
  intros Hp. rewrite cell_costMatrix, (identityFavoring_cell p Hp).
  destruct (p.1 =? p.2); reflexivity.
Qed.

Lemma identityFavoring_cost_nonneg pairs :
  Forall Assigner.inRange pairs ->
  (0 <= Assigner.sumValues (Assigner.costMatrix Examples.identityFavoring) pairs)%Q.
Proof.
  induction 1 as [|p pairs Hp _ IH]; unfold Assigner.sumValues in *;
    cbn [foldr]; [lra|].
  rewrite (identityFavoring_cost p Hp).
  destruct (p.1 =? p.2); cbn [Assigner.valueOf]; lra.
Qed.

Lemma identityFavoring_cost_zero pairs :
  Forall Assigner.inRange pairs ->
  (Assigner.sumValues (Assigner.costMatrix Examples.identityFavoring) pairs <= 0)%Q ->
  Forall (fun p => p.1 = p.2) pairs.
Proof.
  induction 1 as [|p pairs Hp Hr IH]; intros Hle; [constructor|].
  pose proof (identityFavoring_cost_nonneg pairs Hr) as Hnn.
  unfold Assigner.sumValues in *. cbn [foldr] in Hle.
  rewrite (identityFavoring_cost p Hp) in Hle.
  destruct (Z.eqb_spec p.1 p.2) as [Heq|Hne]; cbn [Assigner.valueOf] in Hle.
  - constructor; [exact Heq|]. apply IH. lra.
  - exfalso. lra.
Qed.

Lemma diagonal_cost :
  Assigner.sumCells (Assigner.costMatrix Examples.identityFavoring)
    Examples.diagonal = Finite 0.
Proof. vm_compute. reflexivity. Qed.

(** The diagonal is a matching of least cost for the identity-favoring
    matrix. *)
Lemma diagonal_minCost :
  Assigner.minCostMatching (Assigner.costMatrix Examples.identityFavoring)
    Examples.diagonal.
Proof.
  split; [exact diagonal_perfect|]. intros other (Hlen & Hr & _).
  rewrite diagonal_cost.
  destruct (sumCells_Finite _ other
              (costMatrix_cells_Finite _ _
                 (validScores_cells_Finite _ _ identityFavoring_valid Hr)))
    as (t & -> & Ht).
  cbn [js_le]. apply Qle_bool_iff. rewrite Ht.
  by apply identityFavoring_cost_nonneg.
Qed.

(** ... and the only one. *)
Lemma identityFavoring_minCost_diagonal pairs :
  Assigner.minCostMatching (Assigner.costMatrix Examples.identityFavoring) pairs ->
  Forall (fun p => p.1 = p.2) pairs.
Proof.
  intros [(Hlen & Hr & Hnd) Hmin].
  specialize (Hmin Examples.diagonal diagonal_perfect).
  rewrite diagonal_cost in Hmin.
  destruct (sumCells_Finite _ pairs
              (costMatrix_cells_Finite _ _
                 (validScores_cells_Finite _ _ identityFavoring_valid Hr)))
    as (t & Hsum & Ht).
  rewrite Hsum in Hmin. cbn [js_le] in Hmin. apply Qle_bool_iff in Hmin.
  apply identityFavoring_cost_zero; [exact Hr|]. rewrite <- Ht. exact Hmin.
Qed.

Lemma sumCells_all_100 m pairs :
  length pairs = 10%nat ->
  Forall (fun p => Assigner.cell m p.1 p.2 = Finite 100) pairs ->
  Assigner.sumCells m pairs = Finite 1000.
Proof.
  intros Hlen H.
  do 10 (destruct pairs as [|? pairs]; [discriminate Hlen|]).
  destruct pairs; [|discriminate Hlen].
  repeat match goal with
         | H : Forall _ (_ :: _) |- _ => apply Forall_cons in H as [? H]
         end.
  unfold Assigner.sumCells. cbn [fold_left].
  repeat match goal with
         | H : Assigner.cell _ _ _ = _ |- _ => rewrite H; clear H
         end.
  reflexivity.
Qed.

(** In a perfect matching every row index below ten occurs. *)
Lemma perfectMatching_row_present pairs (i : nat) :
  Assigner.perfectMatching pairs -> (i < 10)%nat ->
  exists p, p ∈ pairs /\ Z.to_nat p.1 = i.
Proof.
  intros Hpm Hi.
  destruct (perfectMatching_rows pairs Hpm) as (Hlen & Hlt & Hnd).
  pose proof (indices_Permutation 10 _ Hnd Hlt Hlen) as Hperm.
  assert (i ∈ seq 0 10) as Hin by (apply elem_of_seq; lia).
  rewrite <- Hperm in Hin. apply list_elem_of_In, in_map_iff in Hin.
  destruct Hin as (p & Hp & Hpin). exists p. split; [|exact Hp].
  by apply list_elem_of_In.
Qed.

(** What follows the call of the solver is written for a solver that
    answers. For a team of ten applicants and ten roles with distinct ids
    and a 10 x 10 matrix of scores in [0, 100], whose arithmetic is exact
    here, when [munkres] returns a minimum-cost perfect matching of the cost
    matrix [100 - score], [assignRoles] succeeds and its [totalScore] is at
    least the score of every bijection between applicants and roles; on
    the identity-favoring matrix the total is 1000 and applicant [i] is
    paired with role [i]. *)
Lemma assignRoles_maximizes_with_a_solver munkres now team roles sm pairs :
  length (Team.applicants team) = 10%nat ->
  length roles = 10%nat ->
  NoDup (map Applicant.id (Team.applicants team)) ->
  NoDup (map RoleDefinition.id roles) ->
  Assigner.validScores (ScoreMatrix.scores sm) ->
  munkres (Assigner.costMatrix (ScoreMatrix.scores sm)) = MunkresPairs pairs ->
  Assigner.minCostMatching (Assigner.costMatrix (ScoreMatrix.scores sm)) pairs ->
  exists a,
    Assigner.assignRoles munkres now team roles sm = Success a /\
    TeamAssignment.totalScore a
      = Assigner.sumCells (ScoreMatrix.scores sm) pairs /\
    (forall other, Assigner.perfectMatching other ->
       js_le (Assigner.sumCells (ScoreMatrix.scores sm) other)
             (TeamAssignment.totalScore a) = true) /\
    (ScoreMatrix.scores sm = Examples.identityFavoring ->
       TeamAssignment.totalScore a = Finite 1000 /\
       forall i applicant role,
         Team.applicants team !! i = Some applicant ->
         roles !! i = Some role ->
         Assignment.mk (Applicant.id applicant) (RoleDefinition.id role)
           (Finite 100) None ∈ TeamAssignment.assignments a).
Proof.
  intros Hta Hro Hida Hidr Hv Hm Hmin.
  pose proof Hmin as [Hpm Hopt].
  destruct Hv as [Hsc Hrows].
  destruct (assignRoles_succeeds munkres now team roles sm pairs)
    as [a Ha]; try assumption.
  { eapply Forall_impl; [exact Hrows|]. by intros row [? _]. }
  exists a. split; [exact Ha|].
  apply assignRoles_Success in Ha
    as (_ & _ & pairs' & Hm' & _ & _ & HF & _ & _ & Ha).
  rewrite Hm in Hm'. inversion Hm'; subst pairs'; clear Hm'.
  assert (TeamAssignment.totalScore a
          = Assigner.sumCells (ScoreMatrix.scores sm) pairs) as Htot
    by (rewrite Ha; reflexivity).
  split; [exact Htot|]. split.
  - intros other Hother. rewrite Htot.
    apply minCost_maxScore; [by split|exact Hpm|exact Hother|].
    by apply Hopt.
  - intros Hid. rewrite Hid in *.
    pose proof (identityFavoring_minCost_diagonal pairs Hmin) as Hdiag.
    destruct Hpm as (Hlen & Hr & Hnd).
    assert (Forall (fun p => Assigner.cell Examples.identityFavoring p.1 p.2
                             = Finite 100) pairs) as Hcells.
    { rewrite Forall_forall in Hr, Hdiag |- *. intros p Hp.
      rewrite (identityFavoring_cell p (Hr p Hp)), (Hdiag p Hp), Z.eqb_refl.
      reflexivity. }
    split; [rewrite Htot; by apply sumCells_all_100|].
    intros i applicant role Hap Hrole.
    assert (i < 10)%nat as Hi
      by (rewrite <- Hta; by eapply lookup_lt_Some).
    destruct (perfectMatching_row_present pairs i) as (p & Hp & Hpi);
      [exact (conj Hlen (conj Hr Hnd))|exact Hi|].
    apply list_elem_of_lookup in Hp as [k Hk].
    destruct (Forall2_lookup_l _ _ _ _ _ HF Hk) as (x & Hx & Hpx).
    apply list_elem_of_lookup. exists k.
    destruct Hpx as (applicant' & role' & Hap' & Hrole' & ->).
    rewrite Forall_forall in Hdiag, Hcells.
    assert (p ∈ pairs) as Hpin by (by eapply list_elem_of_lookup_2).
    rewrite <- (Hdiag p Hpin), Hpi in Hrole'. rewrite Hpi in Hap'.
    rewrite Hid in Hx. rewrite (Hcells p Hpin) in Hx.
    congruence.
Qed.

Example assignRoles_maximizes_with_the_diagonal :
  exists a,
    Assigner.assignRoles Examples.diagonalSolver 7 Examples.team Examples.roles
      Examples.scoreMatrix = Success a /\
    TeamAssignment.totalScore a = Finite 1000 /\
    (forall other, Assigner.perfectMatching other ->
       js_le (Assigner.sumCells Examples.identityFavoring other)
             (TeamAssignment.totalScore a) = true).
Proof.
  destruct (assignRoles_maximizes_with_a_solver Examples.diagonalSolver 7 Examples.team
              Examples.roles Examples.scoreMatrix Examples.diagonal)
    as (a & Ha & _ & Hmax & Hid).
  - reflexivity.
  - reflexivity.
  - apply (bool_decide_unpack _). vm_compute. reflexivity.
  - apply (bool_decide_unpack _). vm_compute. reflexivity.
  - exact identityFavoring_valid.
  - reflexivity.
  - exact diagonal_minCost.
  - exists a. split; [exact Ha|]. split; [|exact Hmax].
    exact (proj1 (Hid eq_refl)).
Qed.

(** ** The retry loops *)

Lemma if_inspect (c : bool) {T} (X Y : T) :
  (if c as b return (c = b -> T) then fun _ => X else fun _ => Y) eq_refl
  = if c then X else Y.
Proof. destruct c; reflexivity. Qed.

Lemma generateScoreMatrixWithRetry_unfold team roles oracle clock retryCount :
  Scorer.generateScoreMatrixWithRetry team roles oracle clock retryCount
  = match Scorer.attempt team roles (oracle retryCount) (clock retryCount) with
    | Return result => (result, [Attempt retryCount])
    | Throw message =>
        if Scorer.isRetryableError message
           && (retryCount <? Scorer.MAX_RETRIES)%nat
        then
          let rest :=
            Scorer.generateScoreMatrixWithRetry team roles oracle clock
              (S retryCount) in
          (rest.1,
           Attempt retryCount
           :: Delay (Scorer.RETRY_DELAY * 2 ^ Z.of_nat retryCount) :: rest.2)
        else
          (Failure ("Scoring failed after " +:+ pretty retryCount
                    +:+ " retries: " +:+ message),
           [Attempt retryCount])
    end.
Proof.
  rewrite Scorer.generateScoreMatrixWithRetry_equation_1.
  unfold Scorer.generateScoreMatrixWithRetry_unfold_clause_1.
  destruct (Scorer.attempt team roles (oracle retryCount) (clock retryCount))
    as [result|message]; cbn; [reflexivity|].
  apply if_inspect.
Qed.

Lemma generateJustificationsWithRetry_unfold team roles assignment oracle
    retryCount :
  Justifier.generateJustificationsWithRetry team roles assignment oracle
    retryCount
  = match Justifier.attempt team roles assignment (oracle retryCount) with
    | Return updatedAssignment =>
        (Success updatedAssignment, [Attempt retryCount])
    | Throw message =>
        if Justifier.isRetryableError message
           && (retryCount <? Justifier.MAX_RETRIES)%nat
        then
          let rest :=
            Justifier.generateJustificationsWithRetry team roles assignment
              oracle (S retryCount) in
          (rest.1,
           Attempt retryCount
           :: Delay (Justifier.RETRY_DELAY * 2 ^ Z.of_nat retryCount)
           :: rest.2)
        else
          (Failure ("Justification generation failed after "
                    +:+ pretty retryCount +:+ " retries: " +:+ message),
           [Attempt retryCount])
    end.
Proof.
  rewrite Justifier.generateJustificationsWithRetry_equation_1.
  unfold Justifier.generateJustificationsWithRetry_unfold_clause_1.
  destruct (Justifier.attempt team roles assignment (oracle retryCount))
    as [result|message]; cbn; [reflexivity|].
  apply if_inspect.
Qed.

(** The two loops have the same shape; what follows from it is proved once,
    for any loop [run] that unfolds as they do. *)
Section RetryLoop.
Context {A : Type}.
Variable base : Z.
Variable isRetryableError : string -> bool.
Variable failureMessage : nat -> string -> string.
Variable attempt : nat -> Completion (Outcome A).
Variable run : nat -> Outcome A * list Event.

Hypothesis run_unfold :
  forall retryCount,
    run retryCount
    = match attempt retryCount with
      | Return result => (result, [Attempt retryCount])
      | Throw message =>
          if isRetryableError message && (retryCount <? 3)%nat then
            ((run (S retryCount)).1,
             Attempt retryCount
             :: Delay (base * 2 ^ Z.of_nat retryCount)
             :: (run (S retryCount)).2)
          else
            (Failure (failureMessage retryCount message),
             [Attempt retryCount])
      end.

(** How a run started at [retryCount = first] ends: after retryable
    failures of the attempts [first .. n - 1], attempt [n <= 3] returns,
    or throws an error that is not retryable, or is the last one
    allowed. *)
Lemma retry_shape d first :
  (first + d = 3)%nat ->
  exists n,
    (first <= n <= 3)%nat /\
    (run first).2 = Retry.logFrom base first n /\
    (forall k, (first <= k < n)%nat ->
       exists message,
         attempt k = Throw message /\ isRetryableError message = true) /\
    match attempt n with
    | Return result => (run first).1 = result
    | Throw message =>
        (isRetryableError message = false \/ n = 3%nat) /\
        (run first).1 = Failure (failureMessage n message)
    end.
Proof.
  revert first. induction d as [|d IH]; intros first Hd; rewrite run_unfold.
  - assert (first = 3%nat) as -> by lia. exists 3%nat. split; [lia|].
    destruct (attempt 3%nat) as [result|message] eqn:Hattempt.
    + split; [reflexivity|]. split; [intros k Hk; lia|reflexivity].
    + rewrite andb_false_r. split; [reflexivity|].
      split; [intros k Hk; lia|]. split; [by right|reflexivity].
  - destruct (attempt first) as [result|message] eqn:Hattempt.
    + exists first. split; [lia|]. unfold Retry.logFrom.
      rewrite Nat.sub_diag. split; [reflexivity|].
      split; [intros k Hk; lia|]. by rewrite Hattempt.
    + destruct (isRetryableError message) eqn:Hretry.
      * assert ((first <? 3)%nat = true) as -> by (apply Nat.ltb_lt; lia).
        cbn [andb].
        destruct (IH (S first)) as (n & Hn & Hlog & Hprev & Hlast); [lia|].
        exists n. split; [lia|]. cbn [fst snd]. split.
        { rewrite Hlog. unfold Retry.logFrom.
          replace (n - first)%nat with (S (n - S first)) by lia.
          reflexivity. }
        split; [|exact Hlast].
        intros k Hk. destruct (decide (k = first)) as [->|Hne].
        -- exists message. by split.
        -- apply Hprev. lia.
      * cbn [andb]. exists first. split; [lia|]. unfold Retry.logFrom.
        rewrite Nat.sub_diag. split; [reflexivity|].
        split; [intros k Hk; lia|]. rewrite Hattempt.
        split; [by left|reflexivity].
Qed.

Lemma retry_policy :
  Retry.policy base isRetryableError failureMessage attempt (run 0%nat).
Proof.
  split; [|split].
  - destruct (retry_shape 3 0 eq_refl) as (n & Hn & Hlog & Hprev & Hlast).
    exists n. split; [lia|]. split; [exact Hlog|]. split.
    { rewrite Hlog.
      assert (n = 0 \/ n = 1 \/ n = 2 \/ n = 3)%nat
        as [->|[->|[->| ->]]] by lia; reflexivity. }
    split; [|exact Hlast]. intros k Hk. apply Hprev. lia.
  - intros message Hattempt Hterminal.
    rewrite run_unfold, Hattempt, Hterminal. reflexivity.
  - intros m0 m1 m2 m3 H0 H1 H2 H3 R0 R1 R2.
    rewrite run_unfold, H0, R0. cbn [andb Nat.ltb Nat.leb].
    rewrite run_unfold, H1, R1. cbn [andb Nat.ltb Nat.leb].
    rewrite run_unfold, H2, R2. cbn [andb Nat.ltb Nat.leb].
    rewrite run_unfold, H3, andb_false_r. cbn [fst snd].
    repeat f_equal; lia.
Qed.
End RetryLoop.

Lemma scorer_policy team roles oracle clock :
  Retry.policy Scorer.RETRY_DELAY Scorer.isRetryableError
    Scorer.failureMessage
    (fun k => Scorer.attempt team roles (oracle k) (clock k))
    (Scorer.generateScoreMatrix team roles oracle clock).
Proof.
  apply (retry_policy Scorer.RETRY_DELAY Scorer.isRetryableError
           Scorer.failureMessage
           (fun k => Scorer.attempt team roles (oracle k) (clock k))
           (Scorer.generateScoreMatrixWithRetry team roles oracle clock)).
  intros retryCount. apply generateScoreMatrixWithRetry_unfold.
Qed.

Lemma justifier_policy team roles assignment oracle :
  Retry.policy Justifier.RETRY_DELAY Justifier.isRetryableError
    Justifier.failureMessage
    (fun k => Justifier.attemptOutcome team roles assignment (oracle k))
    (Justifier.generateJustifications team roles assignment oracle).
Proof.
  apply (retry_policy Justifier.RETRY_DELAY Justifier.isRetryableError
           Justifier.failureMessage
           (fun k => Justifier.attemptOutcome team roles assignment (oracle k))
           (Justifier.generateJustificationsWithRetry team roles assignment
              oracle)).
  intros retryCount. rewrite generateJustificationsWithRetry_unfold.
  unfold Justifier.attemptOutcome.
  destruct (Justifier.attempt team roles assignment (oracle retryCount));
    reflexivity.
Qed.

(** ** The scorer's validation of a parsed reply *)

Lemma Qlt_bool_false (x y : Q) : Qlt_bool x y = false <-> (y <= x)%Q.
Proof.
  unfold Qlt_bool. rewrite negb_false_iff. apply Qle_bool_iff.
Qed.

(** The in-line range test lets a number through exactly when it is finite
    and in [0, 100], or NaN. *)
Lemma range_test_false n :
  js_lt n (Finite 0) || js_gt n (Finite 100) = false <->
  n = NaN \/ Assigner.validCell n.
Proof.
  unfold js_gt, Assigner.validCell. destruct n as [q| | |]; cbn [js_lt].
  - rewrite orb_false_iff, !Qlt_bool_false. split.
    + intros [H0 H100]. right. exists q. auto.
    + intros [Hnan|(q' & Heq & H0 & H100)]; [discriminate|].
      inversion Heq; subst q'. auto.
  - split; [discriminate|].
    intros [Hnan|(q' & Heq & _)]; discriminate.
  - split; [discriminate|].
    intros [Hnan|(q' & Heq & _)]; discriminate.
  - split; [auto|reflexivity].
Qed.

Lemma checkCells_Return i j cells ns :
  forallb OpenRouter.nanFree cells = true ->
  Scorer.checkCells i j cells = Return ns ->
  Forall2 (fun c n => c = JNumber n /\ Assigner.validCell n) cells ns.
Proof.
  revert j ns. induction cells as [|c cells IH]; intros j ns Hnan H;
    cbn [Scorer.checkCells] in H.
  - inversion H. constructor.
  - cbn [forallb] in Hnan. apply andb_true_iff in Hnan as [Hc Hrest].
    destruct c as [| |n| | |]; try discriminate.
    destruct (js_lt n (Finite 0) || js_gt n (Finite 100)) eqn:Hrange;
      [discriminate|].
    destruct (Scorer.checkCells i (S j) cells) as [ns'|] eqn:Hcells;
      [|discriminate].
    inversion H; subst ns. constructor; [|by eapply IH].
    split; [reflexivity|].
    apply range_test_false in Hrange as [->|Hv]; [discriminate Hc|exact Hv].
Qed.

Lemma checkCells_complete i j cells ns :
  Forall2 (fun c n => c = JNumber n /\ Assigner.validCell n) cells ns ->
  Scorer.checkCells i j cells = Return ns.
Proof.
  intros H. revert j. induction H as [|c n cells ns [-> Hv] _ IH]; intros j;
    cbn [Scorer.checkCells]; [reflexivity|].
  rewrite (proj2 (range_test_false n)) by (by right). by rewrite IH.
Qed.

Lemma checkRows_Return i rows scores :
  forallb OpenRouter.nanFree rows = true ->
  Scorer.checkRows i rows = Return scores ->
  Forall2
    (fun row ns =>
       exists cells,
         row = JArray cells /\ length cells = 10%nat /\
         Forall2 (fun c n => c = JNumber n /\ Assigner.validCell n) cells ns)
    rows scores.
Proof.
  revert i scores. induction rows as [|row rows IH]; intros i scores Hnan H;
    cbn [Scorer.checkRows] in H.
  - inversion H. constructor.
  - cbn [forallb] in Hnan. apply andb_true_iff in Hnan as [Hrow Hrest].
    destruct row as [| | | |cells|]; try discriminate.
    destruct (length cells =? 10)%nat eqn:Hlen; [|discriminate].
    cbn [negb] in H.
    destruct (Scorer.checkCells i 0 cells) as [ns|] eqn:Hcells; [|discriminate].
    destruct (Scorer.checkRows (S i) rows) as [nss|] eqn:Hrows; [|discriminate].
    inversion H; subst scores. constructor; [|by eapply IH].
    exists cells. split; [reflexivity|]. split; [by apply Nat.eqb_eq|].
    eapply checkCells_Return; [exact Hrow|exact Hcells].
Qed.

Lemma checkRows_complete i rows scores :
  Forall2
    (fun row ns =>
       exists cells,
         row = JArray cells /\ length cells = 10%nat /\
         Forall2 (fun c n => c = JNumber n /\ Assigner.validCell n) cells ns)
    rows scores ->
  Scorer.checkRows i rows = Return scores.
Proof.
  intros H. revert i.
  induction H as [|row ns rows scores (cells & -> & Hlen & Hcells) _ IH];
    intros i; cbn [Scorer.checkRows]; [reflexivity|].
  rewrite Hlen. cbn [Nat.eqb negb].
  rewrite (checkCells_complete i 0 cells ns Hcells). by rewrite IH.
Qed.

Lemma checkParsedScores_Return parsed scores :
  OpenRouter.nanFree parsed = true ->
  Scorer.checkParsedScores parsed = Return scores ->
  Scorer.validReply parsed scores.
Proof.
  intros Hnan H. unfold Scorer.checkParsedScores in H.
  destruct parsed as [| | | |rows|]; try discriminate.
  destruct (length rows =? 10)%nat eqn:Hlen; [|discriminate].
  cbn [negb] in H. exists rows. split; [reflexivity|].
  split; [by apply Nat.eqb_eq|].
  eapply checkRows_Return; [exact Hnan|exact H].
Qed.

Lemma checkParsedScores_complete parsed scores :
  Scorer.validReply parsed scores ->
  Scorer.checkParsedScores parsed = Return scores.
Proof.
  intros (rows & -> & Hlen & Hrows). unfold Scorer.checkParsedScores.
  rewrite Hlen. cbn [Nat.eqb negb]. by apply checkRows_complete.
Qed.

(** *** The messages of the shape errors, and their classification *)

Lemma checkCells_Throw i j cells message :
  Scorer.checkCells i j cells = Throw message ->
  exists j', (j <= j' < j + length cells)%nat /\
             message = Scorer.invalidScoreMessage i j'.
Proof.
  revert j. induction cells as [|c cells IH]; intros j H;
    cbn [Scorer.checkCells] in H; [discriminate|].
  assert (Scorer.checkCells i (S j) cells = Throw message ->
          exists j', (j <= j' < j + length (c :: cells))%nat /\
                     message = Scorer.invalidScoreMessage i j') as Hrest.
  { intros Hc. destruct (IH _ Hc) as (j' & Hj' & ->). exists j'.
    rewrite length_cons. split; [lia|reflexivity]. }
  assert (Throw (A := list number) (Scorer.invalidScoreMessage i j)
          = Throw message ->
          exists j', (j <= j' < j + length (c :: cells))%nat /\
                     message = Scorer.invalidScoreMessage i j') as Hhere.
  { intros Hc. inversion Hc. exists j. rewrite length_cons.
    split; [lia|reflexivity]. }
  destruct c as [| |n| | |]; try (by apply Hhere).
  destruct (js_lt n (Finite 0) || js_gt n (Finite 100)); [by apply Hhere|].
  destruct (Scorer.checkCells i (S j) cells); [discriminate|].
  apply Hrest. congruence.
Qed.

Lemma checkRows_Throw i rows message :
  Scorer.checkRows i rows = Throw message ->
  exists i', (i <= i' < i + length rows)%nat /\
    (message = Scorer.rowMessage i' \/
     exists j', (j' < 10)%nat /\ message = Scorer.invalidScoreMessage i' j').
Proof.
  revert i. induction rows as [|row rows IH]; intros i H;
    cbn [Scorer.checkRows] in H; [discriminate|].
  assert (Throw (A := list (list number)) (Scorer.rowMessage i)
          = Throw message ->
          exists i', (i <= i' < i + length (row :: rows))%nat /\
            (message = Scorer.rowMessage i' \/
             exists j', (j' < 10)%nat /\
                        message = Scorer.invalidScoreMessage i' j')) as Hhere.
  { intros Hc. inversion Hc. exists i. rewrite length_cons.
    split; [lia|by left]. }
  destruct row as [| | | |cells|]; try (by apply Hhere).
  destruct (length cells =? 10)%nat eqn:Hlen; [|by apply Hhere].
  cbn [negb] in H. apply Nat.eqb_eq in Hlen.
  destruct (Scorer.checkCells i 0 cells) as [ns|m] eqn:Hcells.
  - destruct (Scorer.checkRows (S i) rows) as [nss|m] eqn:Hrows;
      [discriminate|].
    inversion H; subst m. destruct (IH _ Hrows) as (i' & Hi' & Hm).
    exists i'. rewrite length_cons. split; [lia|exact Hm].
  - inversion H; subst m.
    destruct (checkCells_Throw _ _ _ _ Hcells) as (j' & Hj' & ->).
    exists i. rewrite length_cons. split; [lia|].
    right. exists j'. split; [lia|reflexivity].
Qed.

Lemma rowMessage_terminal i :
  (i < 10)%nat -> Scorer.isRetryableError (Scorer.rowMessage i) = false.
Proof.
  intros Hi.
  assert (forallb (fun i => negb (Scorer.isRetryableError (Scorer.rowMessage i)))
            (seq 0 10) = true) as H by (vm_compute; reflexivity).
  rewrite forallb_forall in H. apply negb_true_iff, H, in_seq. lia.
Qed.

Lemma invalidScoreMessage_terminal i j :
  (i < 10)%nat -> (j < 10)%nat ->
  Scorer.isRetryableError (Scorer.invalidScoreMessage i j) = false.
Proof.
  intros Hi Hj.
  assert (forallb
            (fun i =>
               forallb
                 (fun j =>
                    negb (Scorer.isRetryableError
                            (Scorer.invalidScoreMessage i j)))
                 (seq 0 10))
            (seq 0 10) = true) as H by (vm_compute; reflexivity).
  rewrite forallb_forall in H. specialize (H i).
  rewrite forallb_forall in H. apply negb_true_iff, H; apply in_seq; lia.
Qed.

(** No shape or range error of the scorer is classified retryable. *)
Lemma shape_errors_terminal parsed message :
  Scorer.checkParsedScores parsed = Throw message ->
  Scorer.isRetryableError message = false.
Proof.
  unfold Scorer.checkParsedScores. intros H.
  assert (Scorer.isRetryableError "Score matrix must be 10x10" = false)
    as Hdim by (vm_compute; reflexivity).
  destruct parsed as [| | | |rows|]; try (inversion H; exact Hdim).
  destruct (length rows =? 10)%nat eqn:Hlen; cbn [negb] in H;
    [|inversion H; exact Hdim].
  apply Nat.eqb_eq in Hlen.
  destruct (checkRows_Throw _ _ _ H) as (i & Hi & [->|(j & Hj & ->)]).
  - apply rowMessage_terminal. lia.
  - apply invalidScoreMessage_terminal; lia.
Qed.

(** *** [Scorer.validateScoreMatrix] *)

Lemma range_test_strict n :
  js_ge n (Finite 0) && js_le n (Finite 100) = true <-> Assigner.validCell n.
Proof.
  unfold js_ge, Assigner.validCell. destruct n as [q| | |]; cbn [js_le].
  - rewrite andb_true_iff, !Qle_bool_iff. split.
    + intros [H0 H100]. exists q. auto.
    + intros (q' & Heq & H0 & H100). inversion Heq; subst q'. auto.
  - split; [discriminate|]. intros (q' & Heq & _). discriminate.
  - split; [discriminate|]. intros (q' & Heq & _). discriminate.
  - split; [discriminate|]. intros (q' & Heq & _). discriminate.
Qed.

Lemma validate_cells cells :
  forallb
    (fun score =>
       match score with
       | JNumber n => js_ge n (Finite 0) && js_le n (Finite 100)
       | _ => false
       end) cells = true <->
  exists ns, Forall2 (fun c n => c = JNumber n /\ Assigner.validCell n) cells ns.
Proof.
  induction cells as [|c cells IH]; cbn [forallb].
  - split; [intros _; exists []; constructor|reflexivity].
  - rewrite andb_true_iff, IH. split.
    + intros [Hc [ns Hns]]. destruct c as [| |n| | |]; try discriminate.
      exists (n :: ns). constructor; [|exact Hns].
      split; [reflexivity|by apply range_test_strict].
    + intros [ns Hns]. inversion Hns as [|c' n cells' ns' [-> Hv] Hrest];
        subst. split; [by apply range_test_strict|by exists ns'].
Qed.

Lemma validate_rows rows :
  forallb
    (fun row =>
       match row with
       | JArray cells =>
           (length cells =? 10)%nat
           && forallb
                (fun score =>
                   match score with
                   | JNumber n => js_ge n (Finite 0) && js_le n (Finite 100)
                   | _ => false
                   end) cells
       | _ => false
       end) rows = true <->
  exists scores,
    Forall2
      (fun row ns =>
         exists cells,
           row = JArray cells /\ length cells = 10%nat /\
           Forall2 (fun c n => c = JNumber n /\ Assigner.validCell n) cells ns)
      rows scores.
Proof.
  induction rows as [|row rows IH]; cbn [forallb].
  - split; [intros _; exists []; constructor|reflexivity].
  - rewrite andb_true_iff, IH. split.
    + intros [Hrow [scores Hscores]].
      destruct row as [| | | |cells|]; try discriminate.
      apply andb_true_iff in Hrow as [Hlen Hcells].
      apply validate_cells in Hcells as [ns Hns].
      exists (ns :: scores). constructor; [|exact Hscores].
      exists cells. split; [reflexivity|]. split; [by apply Nat.eqb_eq|exact Hns].
    + intros [scores Hscores].
      inversion Hscores as [|row' ns rows' scores' (cells & -> & Hlen & Hns) Hrest];
        subst. split; [|by exists scores'].
      apply andb_true_iff. split; [by apply Nat.eqb_eq|].
      apply validate_cells. by exists ns.
Qed.

(** [validateScoreMatrix] accepts exactly the 10 x 10 arrays of finite
    numbers in [0, 100] (NaN included among the rejected cells). *)
Lemma validateScoreMatrix_spec scores :
  Scorer.validateScoreMatrix scores = true <->
  exists cells, Scorer.validReply scores cells.
Proof.
  unfold Scorer.validateScoreMatrix, Scorer.validReply.
  destruct scores as [| | | |rows|];
    try (split; [discriminate|intros (? & ? & Heq & _); discriminate]).
  rewrite andb_true_iff, validate_rows, Nat.eqb_eq. split.
  - intros [Hlen [cells Hcells]]. exists cells, rows. auto.
  - intros (cells & rows' & Heq & Hlen & Hrows). inversion Heq; subst rows'.
    split; [exact Hlen|by exists cells].
Qed.

(** The in-line test of [generateScoreMatrixWithRetry] would let a NaN cell
    through; [JSON.parse] never produces one. *)
Example checkCells_NaN :
  Scorer.checkCells 0 0 [JNumber NaN] = Return [NaN].
Proof. reflexivity. Qed.

(** *** One attempt of the scorer *)

Lemma attempt_Success team roles reply now sm :
  OpenRouter.wellFormed reply = true ->
  Scorer.attempt team roles reply now = Return (Success sm) ->
  exists parsed,
    reply = OpenRouter.Parsed parsed /\
    Scorer.validReply parsed (ScoreMatrix.scores sm).
Proof.
  unfold Scorer.attempt. intros Hwf H.
  destruct (negb (length (Team.applicants team) =? 10)%nat); [discriminate|].
  destruct (negb (length roles =? 10)%nat); [discriminate|].
  destruct reply as [?|??|?| | |?|parsed]; try discriminate.
  cbn [OpenRouter.readReply] in H. exists parsed. split; [reflexivity|].
  destruct (Scorer.checkParsedScores parsed) as [scores|] eqn:Hcheck;
    [|discriminate].
  inversion H; subst sm. cbn [ScoreMatrix.scores].
  by apply checkParsedScores_Return.
Qed.

(** C4. The scoring call succeeds only with the matrix of a reply that
    parsed to a 10 x 10 nested array of finite numbers in [0, 100]; when no
    reply is of that form (wrong row or column count, a cell that is not a
    number, an infinite or out-of-range cell; NaN cannot come out of
    [JSON.parse]) the call returns an error and no matrix; a first reply
    that parses and is not of that form ends the call at once, with that
    error and after the one attempt; and [validateScoreMatrix] accepts
    exactly the values of that form. *)
Theorem C4_scoring_reply_validation team roles oracle clock :
  (forall k, OpenRouter.wellFormed (oracle k) = true) ->
  let result := (Scorer.generateScoreMatrix team roles oracle clock).1 in
  (forall sm, result = Success sm ->
     exists k parsed,
       (k <= Scorer.MAX_RETRIES)%nat /\
       oracle k = OpenRouter.Parsed parsed /\
       Scorer.validReply parsed (ScoreMatrix.scores sm)) /\
  ((forall k parsed scores,
      oracle k = OpenRouter.Parsed parsed -> ~ Scorer.validReply parsed scores) ->
   exists error, result = Failure error) /\
  (forall parsed,
     oracle 0%nat = OpenRouter.Parsed parsed ->
     (forall scores, ~ Scorer.validReply parsed scores) ->
     exists error,
       Scorer.generateScoreMatrix team roles oracle clock
       = (Failure error, [Attempt 0%nat])) /\
  (forall scores,
     Scorer.validateScoreMatrix scores = true <->
     exists cells, Scorer.validReply scores cells).
Proof.
  intros Hwf result.
  assert (forall sm, result = Success sm ->
            exists k parsed,
              (k <= Scorer.MAX_RETRIES)%nat /\
              oracle k = OpenRouter.Parsed parsed /\
              Scorer.validReply parsed (ScoreMatrix.scores sm)) as Hsuccess.
  { intros sm Hsm. subst result.
    destruct (proj1 (scorer_policy team roles oracle clock))
      as (n & Hn & _ & _ & _ & Hlast).
    cbv beta in Hlast.
    destruct (Scorer.attempt team roles (oracle n) (clock n))
      as [r|message] eqn:Hattempt.
    - rewrite Hlast in Hsm. subst r.
      destruct (attempt_Success _ _ _ _ _ (Hwf n) Hattempt) as (parsed & Hp & Hv).
      exists n, parsed. split; [exact Hn|]. by split.
    - destruct Hlast as [_ Hlast]. rewrite Hlast in Hsm. discriminate. }
  split; [exact Hsuccess|]. split; [|split; [|exact validateScoreMatrix_spec]].
  - intros Hinvalid. destruct result as [sm|error] eqn:Hresult; [|by eexists].
    destruct (Hsuccess sm eq_refl) as (k & parsed & _ & Hk & Hv).
    exfalso. exact (Hinvalid k parsed _ Hk Hv).
  - intros parsed Hreply Hinvalid.
    destruct (scorer_policy team roles oracle clock) as (Hshape & Hterminal & _).
    cbv beta in Hterminal.
    destruct (Scorer.attempt team roles (oracle 0%nat) (clock 0%nat))
      as [r|message] eqn:Hattempt.
    + destruct Hshape as (n & _ & Hlog & _ & Hprev & Hlast).
      assert (n = 0%nat) as ->.
      { destruct n as [|n]; [reflexivity|].
        destruct (Hprev 0%nat) as (m & Hm & _); [lia|].
        cbv beta in Hm. rewrite Hattempt in Hm. discriminate Hm. }
      cbv beta in Hlast. rewrite Hattempt in Hlast.
      destruct r as [sm|error].
      * exfalso. pose proof (Hwf 0%nat) as Hwf0.
        destruct (attempt_Success _ _ _ _ _ Hwf0 Hattempt) as (parsed' & Hp & Hv).
        rewrite Hreply in Hp. inversion Hp; subst parsed'.
        exact (Hinvalid _ Hv).
      * exists error.
        destruct (Scorer.generateScoreMatrix team roles oracle clock)
          as [res log]. cbn [fst snd] in *. by subst.
    + eexists. apply Hterminal; [reflexivity|].
      unfold Scorer.attempt in Hattempt.
      destruct (negb (length (Team.applicants team) =? 10)%nat);
        [discriminate|].
      destruct (negb (length roles =? 10)%nat); [discriminate|].
      rewrite Hreply in Hattempt. cbn [OpenRouter.readReply] in Hattempt.
      destruct (Scorer.checkParsedScores parsed) as [scores|m] eqn:Hcheck;
        [discriminate|].
      inversion Hattempt; subst m. eapply shape_errors_terminal, Hcheck.
Qed.

Lemma C4_scoring_reply_validation_witness :
  (forall k : nat,
     OpenRouter.wellFormed (OpenRouter.Parsed Examples.nineByTen) = true) /\
  exists error,
    (Scorer.generateScoreMatrix Examples.team Examples.roles
       (fun _ => OpenRouter.Parsed Examples.nineByTen) (fun _ => 0)).1
    = Failure error.
Proof.
  split; [intros k; reflexivity|].
  apply (proj1 (proj2 (C4_scoring_reply_validation Examples.team Examples.roles
                         (fun _ => OpenRouter.Parsed Examples.nineByTen)
                         (fun _ => 0) (fun k => eq_refl)))).
  intros k parsed scores Hk (rows & -> & Hlen & _).
  inversion Hk as [Hrows]. unfold Examples.nineByTen, Examples.asJson in Hrows.
  inversion Hrows; subst rows. vm_compute in Hlen. discriminate Hlen.
Defined.

Example scoring_accepts_tenByTen :
  Scorer.generateScoreMatrix Examples.team Examples.roles
    (fun _ => OpenRouter.Parsed Examples.tenByTen) (fun _ => 5)
  = (Success (ScoreMatrix.mk "team-1" Examples.identityFavoring 5),
     [Attempt 0%nat]).
Proof. vm_compute. reflexivity. Qed.

Example scoring_rejects_nineByTen :
  Scorer.generateScoreMatrix Examples.team Examples.roles
    (fun _ => OpenRouter.Parsed Examples.nineByTen) (fun _ => 5)
  = (Failure "Scoring failed after 0 retries: Score matrix must be 10x10",
     [Attempt 0%nat]).
Proof. vm_compute. reflexivity. Qed.

(** A rate-limited oracle is asked four times, with the delays 1000, 2000
    and 4000 in between. *)
Example scoring_rate_limited :
  Scorer.generateScoreMatrix Examples.team Examples.roles
    (fun _ => OpenRouter.HttpError 429 "Too Many Requests") (fun _ => 5)
  = (Failure "Scoring failed after 3 retries: OpenRouter API error: 429 - Too Many Requests",
     [Attempt 0%nat; Delay 1000; Attempt 1%nat; Delay 2000; Attempt 2%nat;
      Delay 4000; Attempt 3%nat]).
Proof. vm_compute. reflexivity. Qed.

(** ** The justifier *)

(** Trimming removes code points and adds none. *)
Lemma trimStart_length s :
  (JSString.length (JSString.trimStart s) <= JSString.length s)%nat.
Proof.
  remember (String.length s) as n eqn:Hn. revert s Hn.
  induction n as [n IH] using lt_wf_ind. intros s ->.
  destruct s as [|c0 rest0]; [reflexivity|]. cbn [JSString.trimStart].
  destruct (JSString.isWhiteSpace c0).
  { pose proof (IH (String.length rest0) ltac:(cbn; lia) rest0 eq_refl).
    cbn [JSString.length]. lia. }
  destruct rest0 as [|c1 rest1]; [reflexivity|].
  destruct (JSString.isWhiteSpace2 c0 c1).
  { pose proof (IH (String.length rest1) ltac:(cbn; lia) rest1 eq_refl).
    cbn [JSString.length]. lia. }
  destruct rest1 as [|c2 rest2]; [reflexivity|].
  destruct (JSString.isWhiteSpace3 c0 c1 c2); [|reflexivity].
  pose proof (IH (String.length rest2) ltac:(cbn; lia) rest2 eq_refl).
  cbn [JSString.length]. lia.
Qed.

Lemma trimEnd_length s :
  (JSString.length (JSString.trimEnd s) <= JSString.length s)%nat.
Proof.
  induction s as [|c s IH]; cbn [JSString.trimEnd]; [reflexivity|].
  destruct (JSString.isEmpty (JSString.trimStart (String c s)));
    cbn [JSString.length]; lia.
Qed.

Lemma trim_length s :
  (JSString.length (JSString.trim s) <= JSString.length s)%nat.
Proof.
  unfold JSString.trim.
  pose proof (trimEnd_length (JSString.trimStart s)).
  pose proof (trimStart_length s). lia.
Qed.

(** On a text below U+0080 the code units are the bytes. *)
Lemma length_isASCII s :
  JSString.isASCII s = true -> JSString.length s = String.length s.
Proof.
  induction s as [|c s IH]; cbn [JSString.isASCII JSString.length String.length];
    [reflexivity|].
  intros [Hc Hs]%andb_true_iff. rewrite (IH Hs).
  unfold JSString.codeUnits. by rewrite Hc.
Qed.

(** The code units of texts outside ASCII: an accented letter of two bytes
    is one unit, an emoji of four bytes is two; the no-break space and the
    byte order mark are trimmed as the space is. *)
Example length_examples :
  JSString.length (String.concat "" (repeat Examples.eAcute 251)) = 251%nat /\
  String.length (String.concat "" (repeat Examples.eAcute 251)) = 502%nat /\
  JSString.length (String.concat "" (repeat Examples.grin 250)) = 500%nat /\
  JSString.length (String.concat "" (repeat Examples.grin 251)) = 502%nat.
Proof. repeat split; vm_compute; reflexivity. Qed.

Example trim_examples :
  JSString.trim
    (Examples.noBreakSpace +:+ " " +:+ Examples.byteOrderMark +:+ "role "
     +:+ Examples.eAcute +:+ Examples.noBreakSpace +:+ " ")
  = "role " +:+ Examples.eAcute /\
  JSString.trim (Examples.noBreakSpace +:+ Examples.byteOrderMark) = "" /\
  JSString.trim ("a" +:+ Examples.noBreakSpace +:+ "b") 
  = "a" +:+ Examples.noBreakSpace +:+ "b".
Proof. repeat split; vm_compute; reflexivity. Qed.

Lemma isEmpty_false s : JSString.isEmpty s = false <-> s <> "".
Proof. destruct s; cbn; split; congruence. Qed.

(** What the map holds after the loop over the parsed entries. *)
Lemma collectJustifications_Return entries m m' :
  Justifier.collectJustifications entries m = Return m' ->
  Forall Justifier.validEntry entries /\
  forall id text,
    m' !! id = Some text ->
    m !! id = Some text \/
    exists entry raw,
      entry ∈ entries /\ Justifier.names entry id raw /\
      text = JSString.trim raw /\ (JSString.length raw <= 500)%nat.
Proof.
  revert m. induction entries as [|e entries IH]; intros m H;
    cbn [Justifier.collectJustifications] in H.
  - inversion H; subst m'. split; [constructor|]. auto.
  - destruct e as [| | | | |fields]; try discriminate;
      cbn [Justifier.property JS.truthy negb orb] in H; try discriminate.
    destruct (JS.lookupField "applicantId" fields) as [aid|] eqn:Haid;
      [|discriminate].
    destruct (JS.truthy (Some aid)) eqn:Htruthy; [|discriminate].
    cbn [negb orb] in H.
    destruct (JS.lookupField "justification" fields) as [text|] eqn:Htext;
      [|discriminate].
    destruct (JS.truthy (Some text)) eqn:Htt; [|discriminate].
    cbn [negb] in H.
    destruct text as [| | |raw| |]; try discriminate.
    destruct (500 <? JSString.length raw)%nat eqn:Hlen; [discriminate|].
    apply Nat.ltb_ge in Hlen.
    apply IH in H as [Hvalid Hmap]. split.
    + constructor; [|exact Hvalid].
      exists fields, aid, raw. repeat split; try assumption.
      cbn [JS.truthy] in Htt. apply negb_true_iff in Htt.
      by apply isEmpty_false.
    + intros id t Hid. destruct (Hmap id t Hid) as [Hold|Hnew].
      * destruct aid as [| | |key| |]; try (by left).
        destruct (decide (key = id)) as [->|Hne].
        -- rewrite lookup_insert_eq in Hold. inversion Hold; subst t.
           right. exists (JObject fields), raw. split; [by left|].
           split; [by exists fields|]. auto.
        -- rewrite lookup_insert_ne in Hold by exact Hne. by left.
      * destruct Hnew as (entry & raw' & Hin & Hnames & Ht & Hl).
        right. exists entry, raw'. split; [by right|]. auto.
Qed.

Lemma updateAssignments_Return assignments m updated :
  Justifier.updateAssignments assignments m = Return updated ->
  Forall2
    (fun assign assign' =>
       exists justification,
         m !! Assignment.applicantId assign = Some justification /\
         justification <> "" /\
         assign' = Justifier.withJustification assign justification)
    assignments updated.
Proof.
  revert updated. induction assignments as [|a assignments IH];
    intros updated H; cbn [Justifier.updateAssignments] in H.
  - inversion H. constructor.
  - destruct (m !! Assignment.applicantId a) as [[|c s]|] eqn:Hj;
      try discriminate.
    destruct (Justifier.updateAssignments assignments m) as [rest|] eqn:Hrest;
      [|discriminate].
    inversion H; subst updated. constructor; [|by apply IH].
    exists (String c s). split; [exact Hj|]. split; [discriminate|reflexivity].
Qed.

(** One attempt of the justifier that returns. *)
Lemma justifier_attempt_Return team roles assignment reply updated :
  Justifier.attempt team roles assignment reply = Return updated ->
  exists entries,
    reply = OpenRouter.Parsed (JArray entries) /\
    length entries = 10%nat /\
    Forall Justifier.validEntry entries /\
    length (TeamAssignment.assignments assignment) = 10%nat /\
    Forall2
      (fun assign assign' =>
         exists entry text,
           entry ∈ entries /\
           Justifier.names entry (Assignment.applicantId assign) text /\
           assign' = Justifier.withJustification assign (JSString.trim text) /\
           JSString.trim text <> "" /\
           (JSString.length (JSString.trim text) <= 500)%nat)
      (TeamAssignment.assignments assignment)
      (TeamAssignment.assignments updated) /\
    updated
    = TeamAssignment.mk (TeamAssignment.teamId assignment)
        (TeamAssignment.assignments updated)
        (TeamAssignment.totalScore assignment)
        (TeamAssignment.generatedAt assignment) true.
Proof.
  unfold Justifier.attempt. intros H.
  destruct (length (TeamAssignment.assignments assignment) =? 10)%nat
    eqn:Hlen; [|discriminate]. cbn [negb] in H. apply Nat.eqb_eq in Hlen.
  destruct (Justifier.buildJustificationPrompt team roles assignment);
    [|discriminate].
  destruct reply as [?|??|?| | |?|parsed]; try discriminate.
  cbn [OpenRouter.readReply] in H.
  destruct parsed as [| | | |entries|]; try discriminate.
  destruct (length entries =? 10)%nat eqn:Hentries; [|discriminate].
  cbn [negb] in H. apply Nat.eqb_eq in Hentries.
  destruct (Justifier.collectJustifications entries ∅) as [m|] eqn:Hcollect;
    [|discriminate].
  destruct (Justifier.updateAssignments _ m) as [upd|] eqn:Hupdate;
    [|discriminate].
  inversion H; subst updated; clear H. cbn [TeamAssignment.assignments].
  apply collectJustifications_Return in Hcollect as [Hvalid Hmap].
  apply updateAssignments_Return in Hupdate.
  exists entries. split; [reflexivity|]. split; [exact Hentries|].
  split; [exact Hvalid|]. split; [exact Hlen|]. split; [|reflexivity].
  eapply Forall2_impl; [exact Hupdate|].
  intros a a' (j & Hj & Hne & ->).
  destruct (Hmap _ _ Hj) as [Hempty|(entry & raw & Hin & Hnames & -> & Hl)].
  - rewrite lookup_empty in Hempty. discriminate.
  - exists entry, raw. repeat split; try assumption.
    pose proof (trim_length raw). lia.
Qed.

(** The attempt that decides a run of the justifier. *)
Lemma generateJustifications_last team roles assignment oracle :
  exists n,
    (n <= Justifier.MAX_RETRIES)%nat /\
    match Justifier.attempt team roles assignment (oracle n) with
    | Return updated =>
        (Justifier.generateJustifications team roles assignment oracle).1
        = Success updated
    | Throw message =>
        exists error,
          (Justifier.generateJustifications team roles assignment oracle).1
          = Failure error
    end.
Proof.
  destruct (proj1 (justifier_policy team roles assignment oracle))
    as (n & Hn & _ & _ & _ & Hlast).
  exists n. split; [exact Hn|]. unfold Justifier.attemptOutcome in Hlast.
  destruct (Justifier.attempt team roles assignment (oracle n));
    [exact Hlast|].
  destruct Hlast as [_ Hlast]. eauto.
Qed.

Example assignRoles_example :
  Assigner.assignRoles Examples.diagonalSolver 7 Examples.team Examples.roles
    Examples.scoreMatrix
  = Success Examples.assignment.
Proof. vm_compute. reflexivity. Qed.

Example justifications_accepted :
  exists updated,
    Justifier.generateJustifications Examples.team Examples.roles
      Examples.assignment (fun _ => OpenRouter.Parsed Examples.justifications)
    = (Success updated, [Attempt 0%nat]) /\
    TeamAssignment.justificationsGenerated updated = true /\
    map Assignment.justification (TeamAssignment.assignments updated)
    = map (fun k => Some ("Fits role " +:+ pretty k +:+ ".")) (seq 0 10).
Proof. eexists. split; [vm_compute; reflexivity|]. split; reflexivity. Qed.

Example nineJustifications_rejected :
  Justifier.generateJustifications Examples.team Examples.roles
    Examples.assignment (fun _ => OpenRouter.Parsed Examples.nineJustifications)
  = (Failure "Justification generation failed after 0 retries: Must have exactly 10 justifications",
     [Attempt 0%nat]).
Proof. vm_compute. reflexivity. Qed.

(** C7. [generateJustifications] succeeds only on a reply that parsed to an
    array of exactly ten [{applicantId, justification}] objects, each with a
    non-empty justification string of at most 500 characters, in which
    every applicant of the assignment is named; the result then is the
    assignment with every pairing's justification filled with the trimmed
    text of an entry that names its applicant (non-empty, at most 500
    characters), [justificationsGenerated = true] and the other fields
    unchanged. When no reply of the attempts (at most four) is of that form
    the call fails; a failure carries an error and no assignment. The
    characters are counted as the code does, in UTF-16 code units, and the
    trimming is that of [trim]. *)
Theorem C7_generateJustifications_all_or_nothing team roles assignment oracle :
  let result :=
    (Justifier.generateJustifications team roles assignment oracle).1 in
  (forall updated, result = Success updated ->
     exists k entries,
       (k <= Justifier.MAX_RETRIES)%nat /\
       oracle k = OpenRouter.Parsed (JArray entries) /\
       length entries = 10%nat /\
       Forall Justifier.validEntry entries /\
       Forall2
         (fun assign assign' =>
            exists entry text,
              entry ∈ entries /\
              Justifier.names entry (Assignment.applicantId assign) text /\
              assign' = Justifier.withJustification assign (JSString.trim text) /\
              JSString.trim text <> "" /\
              (JSString.length (JSString.trim text) <= 500)%nat)
         (TeamAssignment.assignments assignment)
         (TeamAssignment.assignments updated) /\
       TeamAssignment.justificationsGenerated updated = true /\
       TeamAssignment.teamId updated = TeamAssignment.teamId assignment /\
       TeamAssignment.totalScore updated = TeamAssignment.totalScore assignment /\
       TeamAssignment.generatedAt updated
       = TeamAssignment.generatedAt assignment) /\
  ((forall k parsed,
      (k <= Justifier.MAX_RETRIES)%nat ->
      oracle k = OpenRouter.Parsed parsed ->
      ~ Justifier.acceptable assignment parsed) ->
   exists error, result = Failure error).
Proof.
  intros result.
  assert (forall updated, result = Success updated ->
            exists k entries,
              (k <= Justifier.MAX_RETRIES)%nat /\
              Justifier.attempt team roles assignment (oracle k)
              = Return updated /\
              oracle k = OpenRouter.Parsed (JArray entries)) as Hsuccess.
  { intros updated Hupdated. subst result.
    destruct (generateJustifications_last team roles assignment oracle)
      as (n & Hn & Hlast).
    destruct (Justifier.attempt team roles assignment (oracle n))
      as [u|message] eqn:Hattempt.
    - rewrite Hlast in Hupdated. inversion Hupdated; subst u.
      destruct (justifier_attempt_Return _ _ _ _ _ Hattempt)
        as (entries & Hreply & _).
      exists n, entries. split; [exact Hn|]. by split.
    - destruct Hlast as [error Hlast]. rewrite Hlast in Hupdated.
      discriminate. }
  split.
  - intros updated Hupdated.
    destruct (Hsuccess updated Hupdated) as (k & entries & Hk & Hattempt & Hreply).
    destruct (justifier_attempt_Return _ _ _ _ _ Hattempt)
      as (entries' & Hreply' & Hlen & Hvalid & _ & Hfilled & Heq).
    rewrite Hreply in Hreply'. inversion Hreply'; subst entries'.
    exists k, entries. split; [exact Hk|]. split; [exact Hreply|].
    split; [exact Hlen|]. split; [exact Hvalid|]. split; [exact Hfilled|].
    rewrite Heq. cbn. auto.
  - intros Hnone. destruct result as [updated|error] eqn:Hresult; [|by eexists].
    destruct (Hsuccess updated eq_refl) as (k & entries & Hk & Hattempt & Hreply).
    destruct (justifier_attempt_Return _ _ _ _ _ Hattempt)
      as (entries' & Hreply' & Hlen & Hvalid & _ & Hfilled & _).
    rewrite Hreply in Hreply'. inversion Hreply'; subst entries'.
    exfalso. apply (Hnone k _ Hk Hreply).
    exists entries. split; [reflexivity|]. split; [exact Hlen|].
    split; [exact Hvalid|].
    apply Forall_forall. intros a Ha.
    apply list_elem_of_lookup in Ha as [i Hi].
    destruct (Forall2_lookup_l _ _ _ _ _ Hfilled Hi)
      as (a' & _ & entry & text & Hin & Hnames & _ & Hne & _).
    exists entry, text. auto.
Qed.

(** A run that succeeds: the reply pads the text of applicant 0, 251
    accented letters, with no-break spaces, 506 bytes and 253 code units. *)
Lemma C7_generateJustifications_all_or_nothing_witness :
  exists updated,
    (Justifier.generateJustifications Examples.team Examples.roles
       Examples.assignment
       (fun _ => OpenRouter.Parsed Examples.accentedJustifications)).1
    = Success updated /\
    TeamAssignment.justificationsGenerated updated = true /\
    Forall2
      (fun assign assign' =>
         exists entry text,
           entry ∈ Examples.accentedEntries /\
           Justifier.names entry (Assignment.applicantId assign) text /\
           assign' = Justifier.withJustification assign (JSString.trim text) /\
           JSString.trim text <> "" /\
           (JSString.length (JSString.trim text) <= 500)%nat)
      (TeamAssignment.assignments Examples.assignment)
      (TeamAssignment.assignments updated) /\
    (Assignment.justification <$> head (TeamAssignment.assignments updated))
    = Some (Some (String.concat "" (repeat Examples.eAcute 251))).
Proof.
  assert (exists updated,
            (Justifier.generateJustifications Examples.team Examples.roles
               Examples.assignment
               (fun _ => OpenRouter.Parsed Examples.accentedJustifications)).1
            = Success updated /\
            (Assignment.justification
               <$> head (TeamAssignment.assignments updated))
            = Some (Some (String.concat "" (repeat Examples.eAcute 251))))
    as (updated & Hrun & Hfirst).
  { eexists. split; vm_compute; reflexivity. }
  exists updated. split; [exact Hrun|].
  destruct (proj1 (C7_generateJustifications_all_or_nothing Examples.team
                     Examples.roles Examples.assignment
                     (fun _ => OpenRouter.Parsed Examples.accentedJustifications))
              updated Hrun)
    as (k & entries & _ & Hreply & _ & _ & Hfilled & Hflag & _).
  injection Hreply as <-.
  split; [exact Hflag|]. split; [exact Hfilled|exact Hfirst].
Defined.

(** ** The store *)

Lemma JSMap_get_set {V} (key key' : string) (value : V) (m : JSMap.t V) :
  JSMap.get key' (JSMap.set key value m)
  = if String.eqb key key' then Some value else JSMap.get key' m.
Proof.
  induction m as [|[k v] m IH]; cbn [JSMap.set JSMap.get].
  - destruct (String.eqb key key'); reflexivity.
  - destruct (String.eqb_spec k key) as [->|Hk]; cbn [JSMap.get].
    + destruct (String.eqb key key'); reflexivity.
    + rewrite IH. destruct (String.eqb_spec k key') as [->|Hk'];
        [|reflexivity].
      destruct (String.eqb_spec key key'); [congruence|reflexivity].
Qed.

Lemma JSMap_get_set_eq {V} (key : string) (value : V) (m : JSMap.t V) :
  JSMap.get key (JSMap.set key value m) = Some value.
Proof. by rewrite JSMap_get_set, String.eqb_refl. Qed.

Lemma JSMap_get_set_ne {V} (key key' : string) (value : V) (m : JSMap.t V) :
  key <> key' -> JSMap.get key' (JSMap.set key value m) = JSMap.get key' m.
Proof.
  intros Hne. rewrite JSMap_get_set.
  destruct (String.eqb_spec key key'); [congruence|reflexivity].
Qed.

Lemma JSMap_get_elem {V} (key : string) (value : V) (m : JSMap.t V) :
  JSMap.get key m = Some value -> (key, value) ∈ m.
Proof.
  induction m as [|[k v] m IH]; cbn [JSMap.get]; [discriminate|].
  destruct (String.eqb_spec k key) as [->|Hk].
  - intros H. inversion H. by left.
  - intros H. right. by apply IH.
Qed.

Lemma getAssignmentSession_updateSessionStatus st id status id' :
  TeamManager.getAssignmentSession
    (TeamManager.updateSessionStatus st id status).1 id'
  = if String.eqb id id'
    then (fun s => AssignmentSession.withStatus s status)
           <$> TeamManager.getAssignmentSession st id
    else TeamManager.getAssignmentSession st id'.
Proof.
  unfold TeamManager.updateSessionStatus, TeamManager.getAssignmentSession.
  destruct (JSMap.get id (Store.sessions st)) as [s|] eqn:Hs; cbn.
  - by rewrite JSMap_get_set.
  - destruct (String.eqb_spec id id') as [<-|Hne]; [exact Hs|reflexivity].
Qed.

Lemma getAssignmentSession_mutateSession st id f id' :
  TeamManager.getAssignmentSession (TeamManager.mutateSession st id f) id'
  = if String.eqb id id'
    then f <$> TeamManager.getAssignmentSession st id
    else TeamManager.getAssignmentSession st id'.
Proof.
  unfold TeamManager.mutateSession, TeamManager.getAssignmentSession.
  destruct (JSMap.get id (Store.sessions st)) as [s|] eqn:Hs; cbn.
  - by rewrite JSMap_get_set.
  - destruct (String.eqb_spec id id') as [<-|Hne]; [exact Hs|reflexivity].
Qed.

Lemma teams_updateSessionStatus st id status :
  Store.teams (TeamManager.updateSessionStatus st id status).1 = Store.teams st
  /\ Store.groups (TeamManager.updateSessionStatus st id status).1
     = Store.groups st.
Proof.
  unfold TeamManager.updateSessionStatus.
  destruct (JSMap.get id (Store.sessions st)); split; reflexivity.
Qed.

Lemma teams_mutateSession st id f :
  Store.teams (TeamManager.mutateSession st id f) = Store.teams st /\
  Store.groups (TeamManager.mutateSession st id f) = Store.groups st.
Proof.
  unfold TeamManager.mutateSession.
  destruct (JSMap.get id (Store.sessions st)); split; reflexivity.
Qed.

(** What a successful [createAssignmentSession] did. *)
Lemma createAssignmentSession_Success uuid now st teamId phase customRoles
    st1 session :
  TeamManager.createAssignmentSession uuid now st teamId phase customRoles
  = (st1, Success session) ->
  st1 = Store.withSessions st
          (JSMap.set (AssignmentSession.id session) session (Store.sessions st))
  /\ AssignmentSession.teamId session = teamId
  /\ AssignmentSession.status session = pending
  /\ AssignmentSession.scoreMatrix session = None
  /\ AssignmentSession.assignment session = None
  /\ AssignmentSession.createdAt session = now
  /\ length (AssignmentSession.roles session) = 10%nat.
Proof.
  unfold TeamManager.createAssignmentSession. intros H.
  destruct (JSMap.get teamId (Store.teams st)) as [team|];
    [|inversion H].
  destruct (TeamManager.SessionManager.validateActiveSession st
              (Team.sessionId team)); [|inversion H].
  destruct (negb (Team.isComplete team)); [inversion H|].
  destruct phase, customRoles as [names|];
    try (inversion H; subst; cbn; repeat split; reflexivity).
  destruct (length names =? 10)%nat eqn:Hlen; cbn [negb] in H; [|inversion H].
  apply Nat.eqb_eq in Hlen.
  inversion H; subst; cbn. repeat split; try reflexivity.
  by rewrite length_imap.
Qed.

Lemma getAssignmentSession_created st id session id' :
  TeamManager.getAssignmentSession
    (Store.withSessions st (JSMap.set id session (Store.sessions st))) id'
  = if String.eqb id id' then Some session
    else TeamManager.getAssignmentSession st id'.
Proof.
  unfold TeamManager.getAssignmentSession. cbn. apply JSMap_get_set.
Qed.

(** ** The single-team handler *)

(** C5. In a single-team run that got as far as creating its session, when
    the scoring stage or the matching stage fails the handler answers 500
    with an error, starts no background job, and leaves the session of the
    run in the store with status [pending] and no assignment; the other
    sessions are as they were. *)
Theorem C5_failure_reverts_to_pending env st req body team st1 session error :
  AssignTeam.method req = "POST" ->
  AssignTeam.isBlank (AssignTeam.openRouterApiKey env) = false ->
  AssignTeam.validation req = Success body ->
  TeamManager.getTeam st (AssignTeam.teamId body) = Some team ->
  Team.isComplete team = true ->
  TeamManager.createAssignmentSession (AssignTeam.uuid env)
    (AssignTeam.sessionCreatedAt env) st (AssignTeam.teamId body)
    (AssignTeam.phase body) (AssignTeam.customRoles body)
  = (st1, Success session) ->
  let scoringResult :=
    (Scorer.generateScoreMatrix team (AssignmentSession.roles session)
       (AssignTeam.scoringOracle env) (AssignTeam.scoringClock env)).1 in
  (scoringResult = Failure error \/
   exists scoreMatrix,
     scoringResult = Success scoreMatrix /\
     Assigner.assignRoles (AssignTeam.munkres env) (AssignTeam.assignedAt env)
       team (AssignmentSession.roles session) scoreMatrix = Failure error) ->
  exists st' message s,
    AssignTeam.handler env st req
    = (st', AssignTeam.errorResponse 500 message, None) /\
    (message = "Scoring failed: " +:+ error \/
     message = "Assignment failed: " +:+ error) /\
    TeamManager.getAssignmentSession st' (AssignmentSession.id session)
    = Some s /\
    AssignmentSession.status s = pending /\
    AssignmentSession.assignment s = None /\
    (forall id, id <> AssignmentSession.id session ->
       TeamManager.getAssignmentSession st' id
       = TeamManager.getAssignmentSession st id).
Proof.
  intros Hmethod Hkey Hbody Hteam Hcomplete Hcreate scoringResult Hfail.
  pose proof (createAssignmentSession_Success _ _ _ _ _ _ _ _ Hcreate)
    as (Hst1 & _ & Hpending & _ & Hnone & _).
  unfold AssignTeam.handler.
  rewrite Hmethod, Hkey, Hbody, Hteam, Hcomplete, Hcreate.
  cbn [String.eqb Ascii.eqb Bool.eqb negb].
  fold scoringResult.
  set (id := AssignmentSession.id session) in *.
  assert (forall id', id' <> id -> String.eqb id id' = false) as Hne
    by (intros id' Hid'; apply String.eqb_neq; congruence).
  destruct Hfail as [Hscoring|(scoreMatrix & Hscoring & Hassign)];
    rewrite Hscoring; [|rewrite Hassign].
  - eexists _, _, _. split; [reflexivity|]. split; [by left|].
    rewrite !getAssignmentSession_updateSessionStatus, String.eqb_refl.
    rewrite Hst1, getAssignmentSession_created, String.eqb_refl.
    cbn. split; [reflexivity|]. split; [reflexivity|].
    split; [exact Hnone|]. intros id' Hid'.
    rewrite !getAssignmentSession_updateSessionStatus, (Hne id' Hid').
    by rewrite getAssignmentSession_created, (Hne id' Hid').
  - eexists _, _, _. split; [reflexivity|]. split; [by right|].
    rewrite !getAssignmentSession_updateSessionStatus, String.eqb_refl.
    rewrite getAssignmentSession_mutateSession, String.eqb_refl.
    rewrite !getAssignmentSession_updateSessionStatus, String.eqb_refl.
    rewrite Hst1, getAssignmentSession_created, String.eqb_refl.
    cbn. split; [reflexivity|]. split; [reflexivity|].
    split; [exact Hnone|]. intros id' Hid'.
    rewrite !getAssignmentSession_updateSessionStatus, (Hne id' Hid').
    rewrite getAssignmentSession_mutateSession, (Hne id' Hid').
    rewrite !getAssignmentSession_updateSessionStatus, (Hne id' Hid').
    by rewrite getAssignmentSession_created, (Hne id' Hid').
Qed.

Lemma C5_failure_reverts_to_pending_witness :
  exists st' message s,
    AssignTeam.handler
      (Examples.env (fun _ => OpenRouter.Parsed Examples.nineByTen))
      Examples.store Examples.request
    = (st', AssignTeam.errorResponse 500 message, None) /\
    TeamManager.getAssignmentSession st' "uuid-10" = Some s /\
    AssignmentSession.status s = pending /\
    AssignmentSession.assignment s = None.
Proof.
  destruct (C5_failure_reverts_to_pending
              (Examples.env (fun _ => OpenRouter.Parsed Examples.nineByTen))
              Examples.store Examples.request
              (AssignTeam.mkBody "team-1" part1 None) Examples.team _ _
              "Scoring failed after 0 retries: Score matrix must be 10x10"
              eq_refl eq_refl eq_refl eq_refl eq_refl eq_refl)
    as (st' & message & s & Hrun & _ & Hs & Hstatus & Hnone & _).
  - left. vm_compute. reflexivity.
  - exists st', message, s. auto.
Defined.

(** The failure scenario of a 9 x 10 reply, run from the request to the
    response. *)
Example nineByTen_scenario :
  let '(st', response, job) :=
    AssignTeam.handler
      (Examples.env (fun _ => OpenRouter.Parsed Examples.nineByTen))
      Examples.store Examples.request in
  AssignTeam.statusCode response = 500 /\
  AssignTeam.error response
  = Some "Scoring failed: Scoring failed after 0 retries: Score matrix must be 10x10" /\
  job = None /\
  (AssignmentSession.status <$> TeamManager.getLatestSessionForTeam st' "team-1")
  = Some pending /\
  (AssignmentSession.assignment <$> TeamManager.getLatestSessionForTeam st' "team-1")
  = Some None.
Proof. vm_compute. auto. Qed.

(** ** The background justification phase *)

(** A run of the handler that starts the background job has answered 200
    and left its session with status [justifying] and the assignment of
    [assignRoles], whose [justificationsGenerated] is [false]. *)
Lemma handler_launches_job env st req st' response job :
  AssignTeam.handler env st req = (st', response, Some job) ->
  exists s,
    TeamManager.getAssignmentSession st' (AssignTeam.jobSessionId job) = Some s /\
    AssignmentSession.status s = justifying /\
    AssignmentSession.assignment s = Some (AssignTeam.jobAssignment job) /\
    TeamAssignment.justificationsGenerated (AssignTeam.jobAssignment job) = false /\
    AssignTeam.statusCode response = 200.
Proof.
  unfold AssignTeam.handler. intros H.
  destruct (negb (String.eqb (AssignTeam.method req) "POST")); [inversion H|].
  destruct (AssignTeam.isBlank (AssignTeam.openRouterApiKey env));
    [inversion H|].
  destruct (AssignTeam.validation req) as [body|]; [|inversion H].
  destruct (TeamManager.getTeam st (AssignTeam.teamId body)) as [team|];
    [|inversion H].
  destruct (negb (Team.isComplete team)); [inversion H|].
  destruct (TeamManager.createAssignmentSession _ _ _ _ _ _)
    as [st1 [session|]] eqn:Hcreate; [|inversion H].
  destruct (Scorer.generateScoreMatrix _ _ _ _).1 as [scoreMatrix|];
    [|inversion H].
  destruct (Assigner.assignRoles _ _ _ _ _) as [assignment|] eqn:Hassign;
    [|inversion H].
  inversion H; subst st' response job; clear H.
  cbn [AssignTeam.jobSessionId AssignTeam.jobAssignment AssignTeam.statusCode].
  pose proof (createAssignmentSession_Success _ _ _ _ _ _ _ _ Hcreate)
    as (Hst1 & _).
  rewrite getAssignmentSession_updateSessionStatus, String.eqb_refl.
  rewrite getAssignmentSession_mutateSession, String.eqb_refl.
  rewrite getAssignmentSession_updateSessionStatus, String.eqb_refl.
  rewrite getAssignmentSession_mutateSession, String.eqb_refl.
  rewrite getAssignmentSession_updateSessionStatus, String.eqb_refl.
  rewrite Hst1, getAssignmentSession_created, String.eqb_refl.
  cbn. eexists. split; [reflexivity|]. cbn. repeat split.
  apply assignRoles_Success in Hassign as (_ & _ & ? & _ & _ & _ & _ & _ & _ & ->).
  reflexivity.
Qed.

Lemma getAssignmentSession_updateSession results st entry id :
  TeamManager.getAssignmentSession
    (AssignTeamsBatch.updateSession results st entry) id
  = if String.eqb (AssignTeamsBatch.sessionId entry) id
    then (fun s =>
            AssignmentSession.withStatus
              match AssignTeamsBatch.justified (Return results) entry with
              | Some updated => AssignmentSession.withAssignment s updated
              | None => s
              end complete)
           <$> TeamManager.getAssignmentSession st
                 (AssignTeamsBatch.sessionId entry)
    else TeamManager.getAssignmentSession st id.
Proof.
  unfold AssignTeamsBatch.updateSession, AssignTeamsBatch.justified.
  destruct (TeamManager.getAssignmentSession st
              (AssignTeamsBatch.sessionId entry)) as [s|] eqn:Hs.
  - destruct (find _ results) as [[tid [|] [updated|] err]|];
      rewrite ?getAssignmentSession_updateSessionStatus,
        ?getAssignmentSession_mutateSession,
        ?getAssignmentSession_updateSessionStatus;
      destruct (String.eqb (AssignTeamsBatch.sessionId entry) id) eqn:Heq;
      rewrite ?String.eqb_refl, ?Hs; reflexivity.
  - destruct (String.eqb_spec (AssignTeamsBatch.sessionId entry) id)
      as [<-|Hne]; [by rewrite Hs|reflexivity].
Qed.

Lemma batch_background_invariant st entries justificationResult id s :
  TeamManager.getAssignmentSession st id = Some s ->
  exists s',
    TeamManager.getAssignmentSession
      (AssignTeamsBatch.generateBatchJustificationsBackground st entries
         justificationResult) id = Some s' /\
    ((exists e, e ∈ entries /\ AssignTeamsBatch.sessionId e = id) ->
     AssignmentSession.status s' = complete) /\
    ((forall e, e ∈ entries -> AssignTeamsBatch.sessionId e = id ->
        AssignTeamsBatch.justified justificationResult e = None) ->
     AssignmentSession.assignment s' = AssignmentSession.assignment s).
Proof.
  intros Hs. unfold AssignTeamsBatch.generateBatchJustificationsBackground.
  induction entries as [|e entries IH] using rev_ind.
  - exists s. destruct justificationResult; cbn [foldl];
      (split; [exact Hs|]; split; [|reflexivity]);
      intros (e & He & _); by apply elem_of_nil in He.
  - destruct IH as (s1 & Hs1 & Hcomplete & Hassignment).
    destruct justificationResult as [results|message];
      rewrite foldl_app; cbn [foldl];
      rewrite ?getAssignmentSession_updateSession,
        ?getAssignmentSession_updateSessionStatus.
    + destruct (String.eqb_spec (AssignTeamsBatch.sessionId e) id)
        as [Heq|Hne].
      * rewrite Heq, Hs1. eexists. split; [reflexivity|].
        split; [reflexivity|]. intros Hfail.
        assert (e ∈ entries ++ [e]) as He
          by (apply elem_of_app; right; by apply list_elem_of_singleton).
        rewrite (Hfail e He Heq).
        cbn [AssignmentSession.assignment AssignmentSession.withStatus].
        apply Hassignment. intros e' He'. apply Hfail.
        apply elem_of_app. by left.
      * exists s1. split; [exact Hs1|]. split.
        -- intros (e' & He' & Hid). apply Hcomplete.
           apply elem_of_app in He' as [He'|He'].
           ++ by exists e'.
           ++ apply list_elem_of_singleton in He'. congruence.
        -- intros Hfail. apply Hassignment. intros e' He'. apply Hfail.
           apply elem_of_app. by left.
    + destruct (String.eqb_spec (AssignTeamsBatch.sessionId e) id)
        as [Heq|Hne].
      * rewrite Heq, Hs1. eexists. split; [reflexivity|].
        split; [reflexivity|]. intros Hfail.
        cbn [AssignmentSession.assignment AssignmentSession.withStatus].
        apply Hassignment. intros e' He'. apply Hfail.
        apply elem_of_app. by left.
      * exists s1. split; [exact Hs1|]. split.
        -- intros (e' & He' & Hid). apply Hcomplete.
           apply elem_of_app in He' as [He'|He'].
           ++ by exists e'.
           ++ apply list_elem_of_singleton in He'. congruence.
        -- intros Hfail. apply Hassignment. intros e' He'. apply Hfail.
           apply elem_of_app. by left.
Qed.

(** C6. A session that is in the store when its background justification
    phase finishes has status [complete] afterwards, whether the
    justifications were generated or not; when they were not, the session
    keeps the assignment it had, whose [justificationsGenerated] is
    [false]. This holds for the job of the single-team handler and for every
    entry of the batch job. *)
Theorem C6_justification_always_completes :
  (forall st job oracle s,
     TeamManager.getAssignmentSession st (AssignTeam.jobSessionId job) = Some s ->
     AssignmentSession.assignment s = Some (AssignTeam.jobAssignment job) ->
     TeamAssignment.justificationsGenerated (AssignTeam.jobAssignment job)
     = false ->
     exists s',
       TeamManager.getAssignmentSession
         (AssignTeam.generateJustificationsBackground st job oracle)
         (AssignTeam.jobSessionId job) = Some s' /\
       AssignmentSession.status s' = complete /\
       (forall error,
          (Justifier.generateJustifications (AssignTeam.jobTeam job)
             (AssignTeam.jobRoles job) (AssignTeam.jobAssignment job)
             oracle).1 = Failure error ->
          exists a,
            AssignmentSession.assignment s' = Some a /\
            a = AssignTeam.jobAssignment job /\
            TeamAssignment.justificationsGenerated a = false)) /\
  (forall st entries justificationResult entry s,
     entry ∈ entries ->
     TeamManager.getAssignmentSession st (AssignTeamsBatch.sessionId entry)
     = Some s ->
     exists s',
       TeamManager.getAssignmentSession
         (AssignTeamsBatch.generateBatchJustificationsBackground st entries
            justificationResult)
         (AssignTeamsBatch.sessionId entry) = Some s' /\
       AssignmentSession.status s' = complete /\
       ((forall e,
           e ∈ entries ->
           AssignTeamsBatch.sessionId e = AssignTeamsBatch.sessionId entry ->
           AssignTeamsBatch.justified justificationResult e = None) ->
        AssignmentSession.assignment s' = AssignmentSession.assignment s)).
Proof.
  split.
  - intros st job oracle s Hs Hassignment Hflag.
    unfold AssignTeam.generateJustificationsBackground.
    destruct (Justifier.generateJustifications _ _ _ _).1 as [updated|error].
    + rewrite Hs.
      rewrite getAssignmentSession_updateSessionStatus, String.eqb_refl.
      rewrite getAssignmentSession_mutateSession, String.eqb_refl, Hs.
      eexists. split; [reflexivity|]. split; [reflexivity|].
      intros error Herror. discriminate Herror.
    + rewrite getAssignmentSession_updateSessionStatus, String.eqb_refl, Hs.
      eexists. split; [reflexivity|]. split; [reflexivity|].
      intros _ _. exists (AssignTeam.jobAssignment job).
      split; [exact Hassignment|]. by split.
  - intros st entries justificationResult entry s Hentry Hs.
    destruct (batch_background_invariant st entries justificationResult _ s Hs)
      as (s' & Hs' & Hcomplete & Hkept).
    exists s'. split; [exact Hs'|]. split; [|exact Hkept].
    apply Hcomplete. by exists entry.
Qed.


Example handler_success :
  exists response,
    AssignTeam.handler
      (Examples.env (fun _ => OpenRouter.Parsed Examples.tenByTen))
      Examples.store Examples.request
    = (Examples.justifyingStore, response, Some Examples.job) /\
    AssignTeam.statusCode response = 200.
Proof. eexists. split; [vm_compute; reflexivity|reflexivity]. Qed.

(** The end of a successful run of the handler whose justification oracle
    then fails: the session is [complete] and [justificationsGenerated] is
    still [false]. *)
Lemma C6_justification_always_completes_witness :
  exists s',
    TeamManager.getAssignmentSession
      (AssignTeam.generateJustificationsBackground Examples.justifyingStore
         Examples.job (fun _ => OpenRouter.HttpError 400 "Bad Request"))
      (AssignTeam.jobSessionId Examples.job) = Some s' /\
    AssignmentSession.status s' = complete /\
    exists a,
      AssignmentSession.assignment s' = Some a /\
      TeamAssignment.justificationsGenerated a = false.
Proof.
  destruct handler_success as (response & Hrun & _).
  destruct (handler_launches_job _ _ _ _ _ _ Hrun)
    as (s & Hs & _ & Hassignment & Hflag & _).
  destruct (proj1 C6_justification_always_completes Examples.justifyingStore
              Examples.job (fun _ => OpenRouter.HttpError 400 "Bad Request") s
              Hs Hassignment Hflag) as (s' & Hs' & Hcomplete & Hfailed).
  exists s'. split; [exact Hs'|]. split; [exact Hcomplete|].
  destruct (Hfailed "Justification generation failed after 0 retries: OpenRouter API error: 400 - Bad Request")
    as (a & Ha & _ & Hfalse).
  - vm_compute. reflexivity.
  - exists a. split; [exact Ha|exact Hfalse].
Defined.

Example pipeline_scenario :
  (AssignmentSession.status
     <$> TeamManager.getAssignmentSession Examples.justifyingStore "uuid-10")
  = Some justifying /\
  (AssignmentSession.status
     <$> TeamManager.getAssignmentSession
           (AssignTeam.generateJustificationsBackground Examples.justifyingStore
              Examples.job (fun _ => OpenRouter.HttpError 400 "Bad Request"))
           "uuid-10")
  = Some complete.
Proof. split; vm_compute; reflexivity. Qed.

(** ** Triggers while a run is in flight *)

(** [createAssignmentSession] does not look at the sessions a team already
    has: for a complete team of an active group (and, in
    part 2 with custom roles, exactly ten of them) it creates a further
    session with status [pending], whatever the status of the earlier
    sessions, and leaves the sessions with other ids as they are. *)
Lemma createAssignmentSession_ignores_sessions
    uuid now st teamId phase customRoles team :
  TeamManager.getTeam st teamId = Some team ->
  TeamManager.SessionManager.validateActiveSession st (Team.sessionId team)
  = Success tt ->
  Team.isComplete team = true ->
  (forall names,
     phase = part2 -> customRoles = Some names -> length names = 10%nat) ->
  exists st' session,
    TeamManager.createAssignmentSession uuid now st teamId phase customRoles
    = (st', Success session) /\
    AssignmentSession.id session = uuid 10%nat /\
    AssignmentSession.teamId session = teamId /\
    AssignmentSession.status session = pending /\
    TeamManager.getAssignmentSession st' (uuid 10%nat) = Some session /\
    (forall id, id <> uuid 10%nat ->
       TeamManager.getAssignmentSession st' id
       = TeamManager.getAssignmentSession st id).
Proof.
  intros Hteam Hactive Hcomplete Hroles.
  unfold TeamManager.createAssignmentSession.
  unfold TeamManager.getTeam in Hteam. rewrite Hteam, Hactive, Hcomplete.
  cbn [negb].
  assert (forall roles,
            let session :=
              AssignmentSession.mk (uuid 10%nat) teamId phase roles None None
                pending now in
            exists st' session',
              (Store.withSessions st
                 (JSMap.set (AssignmentSession.id session) session
                    (Store.sessions st)), Success session)
              = (st', Success session') /\
              AssignmentSession.id session' = uuid 10%nat /\
              AssignmentSession.teamId session' = teamId /\
              AssignmentSession.status session' = pending /\
              TeamManager.getAssignmentSession st' (uuid 10%nat) = Some session' /\
              (forall id, id <> uuid 10%nat ->
                 TeamManager.getAssignmentSession st' id
                 = TeamManager.getAssignmentSession st id)) as Hcreated.
  { intros roles session. eexists _, _. split; [reflexivity|].
    cbn [AssignmentSession.id AssignmentSession.teamId AssignmentSession.status
         session].
    repeat split.
    - rewrite getAssignmentSession_created. by rewrite String.eqb_refl.
    - intros id Hid. rewrite getAssignmentSession_created.
      destruct (String.eqb_spec (uuid 10%nat) id); [congruence|reflexivity]. }
  destruct phase, customRoles as [names|]; try apply Hcreated.
  rewrite (Hroles names eq_refl eq_refl). cbn [Nat.eqb negb]. apply Hcreated.
Qed.

(** C9, as stated, fails, with the binding of the solver in force. While
    the session of a first run has status [scoring], a second trigger on the
    same team is taken up: it stores a second session for the team, has it
    scored by the oracle, and fails at the assignment, where every run
    fails; it is answered 500 and leaves its session behind with the
    score matrix. *)
Lemma C9_counterexample : ~ AssignTeam.rejectsWhileInFlight.
Proof.
  intros H.
  specialize (H Examples.notAFunction Examples.importedEnv
                Examples.scoringStore Examples.request
                (AssignTeam.mkBody "team-1" part1 None)
                (AssignmentSession.mk "uuid-10" "team-1" part1
                   (imap (fun index name =>
                            RoleDefinition.mk ("uuid-" +:+ pretty index) name None)
                      DEFAULT_ROLES)
                   None None scoring 1)
                eq_refl eq_refl).
  revert H.
  destruct (AssignTeam.handler Examples.importedEnv Examples.scoringStore
              Examples.request) as [[st' response] job] eqn:Hrun.
  intros H.
  assert (exists session,
            TeamManager.getAssignmentSession st' "second-10" = Some session /\
            AssignmentSession.scoreMatrix session
            = Some (ScoreMatrix.mk "team-1" Examples.identityFavoring 6) /\
            TeamManager.getAssignmentSession Examples.scoringStore "second-10"
            = None) as (session & Hsession & Hscored & Hnew).
  { apply (f_equal (fun r => r.1.1)) in Hrun. cbn [fst] in Hrun. subst st'.
    eexists. split; [vm_compute; reflexivity|]. split; reflexivity. }
  destruct H as [_ H]; [vm_compute; reflexivity|discriminate|].
  destruct (H "second-10" session Hsession) as [Hold|(_ & _ & Hnone)].
  - rewrite Hnew in Hold. discriminate Hold.
  - rewrite Hscored in Hnone. discriminate Hnone.
Qed.

Example second_trigger_answer :
  AssignTeam.statusCode
    (AssignTeam.handler Examples.importedEnv Examples.scoringStore
       Examples.request).1.2 = 500 /\
  AssignTeam.error
    (AssignTeam.handler Examples.importedEnv Examples.scoringStore
       Examples.request).1.2
  = Some ("Assignment failed: Assignment failed: " +:+ Examples.notAFunction) /\
  map fst
    (Store.sessions
       (AssignTeam.handler Examples.importedEnv Examples.scoringStore
          Examples.request).1.1)
  = ["uuid-10"; "second-10"].
Proof. repeat split; vm_compute; reflexivity. Qed.

(** C9, as amended. The handler has no guard on the runs in flight. A
    trigger (a POST with a valid body and the API key configured, on a
    complete team of an active group, with exactly ten custom roles when
    part 2 supplies them) is taken up whatever sessions the team has and
    whatever their status: the handler stores a further session for the
    team under the next session id and runs the pipeline on it, and the
    sessions under the other ids stay as they are. The answer is that of
    the run: 500 with the session back at [pending] when the scoring or the
    assignment fails, the score matrix kept in the second case, and 200
    with the session at [justifying] and the background job started
    otherwise. *)
Theorem C9_trigger_starts_another_run env st req body team :
  AssignTeam.triggers env st req body team ->
  let id := AssignTeam.uuid env 10%nat in
  exists st' response job session,
    AssignTeam.handler env st req = (st', response, job) /\
    TeamManager.getAssignmentSession st' id = Some session /\
    AssignmentSession.id session = id /\
    AssignmentSession.teamId session = AssignTeam.teamId body /\
    AssignmentSession.createdAt session = AssignTeam.sessionCreatedAt env /\
    (forall other, other <> id ->
       TeamManager.getAssignmentSession st' other
       = TeamManager.getAssignmentSession st other) /\
    match
      (Scorer.generateScoreMatrix team (AssignmentSession.roles session)
         (AssignTeam.scoringOracle env) (AssignTeam.scoringClock env)).1
    with
    | Failure error =>
        response
        = AssignTeam.errorResponse 500 ("Scoring failed: " +:+ error) /\
        job = None /\
        AssignmentSession.status session = pending /\
        AssignmentSession.scoreMatrix session = None
    | Success scoreMatrix =>
        AssignmentSession.scoreMatrix session = Some scoreMatrix /\
        match
          Assigner.assignRoles (AssignTeam.munkres env)
            (AssignTeam.assignedAt env) team (AssignmentSession.roles session)
            scoreMatrix
        with
        | Failure error =>
            response
            = AssignTeam.errorResponse 500 ("Assignment failed: " +:+ error) /\
            job = None /\
            AssignmentSession.status session = pending /\
            AssignmentSession.assignment session = None
        | Success assignment =>
            AssignTeam.statusCode response = 200 /\
            job
            = Some (AssignTeam.mkJob id team (AssignmentSession.roles session)
                      assignment) /\
            AssignmentSession.status session = justifying /\
            AssignmentSession.assignment session = Some assignment
        end
    end.
Proof.
  intros (Hpost & Hkey & Hbody & Hteam & Hactive & Hcomplete & Hroles) id.
  destruct (createAssignmentSession_ignores_sessions (AssignTeam.uuid env)
              (AssignTeam.sessionCreatedAt env) st (AssignTeam.teamId body)
              (AssignTeam.phase body) (AssignTeam.customRoles body) team
              Hteam Hactive Hcomplete Hroles)
    as (st1 & created & Hcreate & Hid & Hfor & Hpending & Hstored & Hframe).
  pose proof (createAssignmentSession_Success _ _ _ _ _ _ _ _ Hcreate)
    as (_ & _ & _ & Hmatrix & Hassignment & Hat & _).
  fold id in Hid, Hstored, Hframe.
  unfold AssignTeam.handler.
  rewrite Hpost, Hkey, Hbody, Hteam, Hcomplete, Hcreate, Hid.
  cbn [String.eqb negb].
  replace (String.eqb "POST" "POST") with true by reflexivity. cbn [negb].
  assert (forall st2 other,
            other <> id ->
            TeamManager.getAssignmentSession st2 other
            = TeamManager.getAssignmentSession st other ->
            forall status,
              TeamManager.getAssignmentSession
                (TeamManager.updateSessionStatus st2 id status).1 other
              = TeamManager.getAssignmentSession st other) as Hstatus.
  { intros st2 other Hother Hsame status.
    rewrite getAssignmentSession_updateSessionStatus.
    destruct (String.eqb_spec id other); [congruence|exact Hsame]. }
  assert (forall st2 other f,
            other <> id ->
            TeamManager.getAssignmentSession st2 other
            = TeamManager.getAssignmentSession st other ->
            TeamManager.getAssignmentSession
              (TeamManager.mutateSession st2 id f) other
            = TeamManager.getAssignmentSession st other) as Hmutate.
  { intros st2 other f Hother Hsame.
    rewrite getAssignmentSession_mutateSession.
    destruct (String.eqb_spec id other); [congruence|exact Hsame]. }
  destruct created as [cid cteam cphase croles cmatrix cassignment cstatus cat].
  cbn [AssignmentSession.id AssignmentSession.teamId AssignmentSession.status
       AssignmentSession.scoreMatrix AssignmentSession.assignment
       AssignmentSession.createdAt AssignmentSession.roles] in *.
  subst cid cteam cstatus cmatrix cassignment cat.
  destruct (Scorer.generateScoreMatrix team croles
              (AssignTeam.scoringOracle env) (AssignTeam.scoringClock env)).1
    as [scoreMatrix|error] eqn:Hscoring.
  2: { eexists _, _, _, _. split; [reflexivity|].
       rewrite !getAssignmentSession_updateSessionStatus, !String.eqb_refl,
         Hstored.
       cbn [fmap option_fmap option_map AssignmentSession.withStatus].
       split; [reflexivity|].
       cbn [AssignmentSession.withStatus
            AssignmentSession.id AssignmentSession.teamId
            AssignmentSession.status AssignmentSession.scoreMatrix
            AssignmentSession.createdAt AssignmentSession.roles].
       rewrite Hscoring.
       repeat (split; [reflexivity|]). split; [|by repeat split].
       intros other Hother.
       apply Hstatus; [exact Hother|]. apply Hstatus; [exact Hother|].
       by apply Hframe. }
  destruct (Assigner.assignRoles (AssignTeam.munkres env)
              (AssignTeam.assignedAt env) team croles scoreMatrix)
    as [assignment|error] eqn:Hassign.
  - eexists _, _, _, _. split; [reflexivity|].
    rewrite !getAssignmentSession_updateSessionStatus, !String.eqb_refl,
      !getAssignmentSession_mutateSession, !String.eqb_refl,
      !getAssignmentSession_updateSessionStatus, !String.eqb_refl,
      !getAssignmentSession_mutateSession, !String.eqb_refl,
      !getAssignmentSession_updateSessionStatus, !String.eqb_refl, Hstored.
    cbn [fmap option_fmap option_map AssignmentSession.withStatus
         AssignmentSession.withScoreMatrix AssignmentSession.withAssignment].
    split; [reflexivity|].
    cbn [AssignmentSession.withStatus AssignmentSession.withScoreMatrix
         AssignmentSession.withAssignment
         AssignmentSession.id AssignmentSession.teamId
         AssignmentSession.status AssignmentSession.scoreMatrix
         AssignmentSession.assignment AssignmentSession.createdAt
         AssignmentSession.roles].
    rewrite Hscoring, Hassign.
    repeat (split; [reflexivity|]). split; [|by repeat split].
    intros other Hother.
    apply Hstatus; [exact Hother|]. apply Hmutate; [exact Hother|].
    apply Hstatus; [exact Hother|]. apply Hmutate; [exact Hother|].
    apply Hstatus; [exact Hother|]. by apply Hframe.
  - eexists _, _, _, _. split; [reflexivity|].
    rewrite !getAssignmentSession_updateSessionStatus, !String.eqb_refl,
      !getAssignmentSession_mutateSession, !String.eqb_refl,
      !getAssignmentSession_updateSessionStatus, !String.eqb_refl, Hstored.
    cbn [fmap option_fmap option_map AssignmentSession.withStatus
         AssignmentSession.withScoreMatrix AssignmentSession.withAssignment].
    split; [reflexivity|].
    cbn [AssignmentSession.withStatus AssignmentSession.withScoreMatrix
         AssignmentSession.withAssignment
         AssignmentSession.id AssignmentSession.teamId
         AssignmentSession.status AssignmentSession.scoreMatrix
         AssignmentSession.assignment AssignmentSession.createdAt
         AssignmentSession.roles].
    rewrite Hscoring, Hassign.
    repeat (split; [reflexivity|]). split; [|by repeat split].
    intros other Hother.
    apply Hstatus; [exact Hother|]. apply Hstatus; [exact Hother|].
    apply Hmutate; [exact Hother|]. apply Hstatus; [exact Hother|].
    by apply Hframe.
Qed.

(** The second trigger of the counterexample: the first session has status
    [scoring] and stays as it is, the second session is stored besides. *)
Lemma C9_trigger_starts_another_run_witness :
  (AssignmentSession.status
     <$> TeamManager.getLatestSessionForTeam Examples.scoringStore "team-1")
  = Some scoring /\
  exists st' response job session,
    AssignTeam.handler Examples.importedEnv Examples.scoringStore
      Examples.request = (st', response, job) /\
    TeamManager.getAssignmentSession st' "second-10" = Some session /\
    AssignmentSession.teamId session = "team-1" /\
    TeamManager.getAssignmentSession st' "uuid-10"
    = TeamManager.getAssignmentSession Examples.scoringStore "uuid-10".
Proof.
  split; [vm_compute; reflexivity|].
  destruct (C9_trigger_starts_another_run Examples.importedEnv
              Examples.scoringStore Examples.request
              (AssignTeam.mkBody "team-1" part1 None) Examples.team)
    as (st' & response & job & session & Hrun & Hsession & _ & Hteam & _
        & Hframe & _).
  - split; [reflexivity|]. split; [reflexivity|]. split; [reflexivity|].
    split; [vm_compute; reflexivity|]. split; [vm_compute; reflexivity|].
    split; [reflexivity|]. intros names Hphase. discriminate Hphase.
  - exists st', response, job, session. split; [exact Hrun|].
    split; [exact Hsession|]. split; [exact Hteam|].
    apply Hframe. vm_compute. discriminate.
Defined.

(** ** Resetting a team *)

Lemma JSMap_elem_delete {V} (key : string) (m : JSMap.t V) (k : string) (v : V) :
  (k, v) ∈ JSMap.delete key m <-> (k, v) ∈ m /\ k <> key.
Proof.
  unfold JSMap.delete. rewrite !list_elem_of_In, filter_In. cbn [fst].
  rewrite negb_true_iff, String.eqb_neq. reflexivity.
Qed.

Lemma JSMap_elem_delete_all {V} (doomed : list (string * V)) (m : JSMap.t V)
    (k : string) (v : V) :
  (k, v) ∈ foldl (fun sessions entry => JSMap.delete entry.1 sessions) m doomed
  <-> (k, v) ∈ m /\ k ∉ doomed.*1.
Proof.
  revert m. induction doomed as [|[k0 v0] doomed IH]; intros m; cbn [foldl].
  - rewrite fmap_nil. split; [intros H; split; [exact H|apply not_elem_of_nil]|].
    by intros [H _].
  - rewrite IH, JSMap_elem_delete, fmap_cons, not_elem_of_cons. cbn [fst].
    tauto.
Qed.

Lemma sessions_updateSessionStats st sessionId now :
  Store.sessions (TeamManager.SessionManager.updateSessionStats st sessionId now).1
  = Store.sessions st /\
  Store.teams (TeamManager.SessionManager.updateSessionStats st sessionId now).1
  = Store.teams st.
Proof.
  unfold TeamManager.SessionManager.updateSessionStats.
  destruct (JSMap.get sessionId (Store.groups st)); split; reflexivity.
Qed.

Lemma filter_none {A} (f : A -> bool) (l : list A) :
  (forall x, x ∈ l -> f x = false) -> List.filter f l = [].
Proof.
  induction l as [|x l IH]; intros H; cbn [List.filter]; [reflexivity|].
  rewrite (H x) by (by left). apply IH. intros y Hy. apply H. by right.
Qed.

(** C10. A successful [resetTeam] empties the roster and sets [isComplete]
    to [false], and it removes from the store every assignment session of
    the team, the completed ones included: no session with the team's id is
    left, [getLatestSessionForTeam] returns null for the team, and the
    sessions that remain were there before. *)
Theorem C10_resetTeam_deletes_sessions now st teamId st' :
  TeamManager.resetTeam now st teamId = (st', Success tt) ->
  (exists team,
     TeamManager.getTeam st teamId = Some team /\
     TeamManager.getTeam st' teamId
     = Some (Team.mk (Team.id team) (Team.name team) []
               (Team.createdAt team) false (Team.sessionId team))) /\
  (forall id s,
     (id, s) ∈ Store.sessions st' ->
     (id, s) ∈ Store.sessions st /\ AssignmentSession.teamId s <> teamId) /\
  (forall id s,
     TeamManager.getAssignmentSession st' id = Some s ->
     AssignmentSession.teamId s <> teamId) /\
  TeamManager.getLatestSessionForTeam st' teamId = None.
Proof.
  unfold TeamManager.resetTeam. intros H.
  destruct (JSMap.get teamId (Store.teams st)) as [team|] eqn:Hteam;
    [|inversion H].
  destruct (TeamManager.SessionManager.validateActiveSession st
              (Team.sessionId team)); [|inversion H].
  inversion H as [Hst']; clear H.
  match goal with
  | |- context [TeamManager.SessionManager.updateSessionStats ?st2 ?sid ?n] =>
      destruct (sessions_updateSessionStats st2 sid n) as [Hsessions Hteams]
  end.
  cbn [Store.sessions Store.teams Store.withSessions Store.withTeams]
    in Hsessions, Hteams.
  rewrite Hst' in Hsessions, Hteams |- *. clear Hst'.
  assert (forall id s,
            (id, s) ∈ Store.sessions st' ->
            (id, s) ∈ Store.sessions st /\ AssignmentSession.teamId s <> teamId)
    as Hleft.
  { intros id s. rewrite Hsessions. unfold JSMap.entries.
    rewrite JSMap_elem_delete_all. intros [Hin Hkey].
    split; [exact Hin|]. intros Hsame. apply Hkey.
    apply list_elem_of_fmap. exists (id, s). split; [reflexivity|].
    apply list_elem_of_In, filter_In. split; [by apply list_elem_of_In|].
    cbn [snd]. by apply String.eqb_eq. }
  split; [|split; [exact Hleft|split]].
  - exists team. split; [exact Hteam|].
    unfold TeamManager.getTeam. rewrite Hteams.
    apply JSMap_get_set_eq.
  - intros id s Hs. eapply Hleft, JSMap_get_elem. exact Hs.
  - unfold TeamManager.getLatestSessionForTeam.
    assert (List.filter
              (fun s => String.eqb (AssignmentSession.teamId s) teamId)
              (JSMap.values (Store.sessions st')) = []) as ->; [|reflexivity].
    apply filter_none. intros s Hs. unfold JSMap.values in Hs.
    apply list_elem_of_fmap in Hs as ([id s'] & -> & Hin). cbn [snd].
    apply String.eqb_neq. exact (proj2 (Hleft id s' Hin)).
Qed.

(** The completed session of the example team is gone after the reset. *)
Lemma C10_resetTeam_deletes_sessions_witness :
  (AssignmentSession.status
     <$> TeamManager.getLatestSessionForTeam Examples.completeStore "team-1")
  = Some complete /\
  exists st',
    TeamManager.resetTeam 9 Examples.completeStore "team-1"
    = (st', Success tt) /\
    TeamManager.getLatestSessionForTeam st' "team-1" = None.
Proof.
  split; [vm_compute; reflexivity|].
  eexists. split; [vm_compute; reflexivity|].
  refine (proj2 (proj2 (proj2
            (C10_resetTeam_deletes_sessions 9 Examples.completeStore "team-1"
               _ _)))).
  vm_compute. reflexivity.
Defined.

(** ** The retry policy *)

(** The retry policy of the scoring call and of the justification call, on
    the classifier of the code. A run makes the attempts [0 .. n] for some
    [n <= 3], sleeps [RETRY_DELAY * 2 ^ k = 1000 * 2 ^ k] after the failed
    attempt [k], and every attempt before the last failed with an error that
    [isRetryableError] accepts. In particular a first failure that it turns
    down gives exactly one attempt, no delay and a reported failure, and
    failures that it accepts give three retries, with the delays 1000, 2000
    and 4000, after which the failure is reported. The shape and range
    errors of the scorer's validation are turned down. *)
Theorem clients_retry_policy :
  (forall team roles oracle clock,
     Retry.policy 1000 Scorer.isRetryableError Scorer.failureMessage
       (fun k => Scorer.attempt team roles (oracle k) (clock k))
       (Scorer.generateScoreMatrix team roles oracle clock)) /\
  (forall team roles assignment oracle,
     Retry.policy 1000 Justifier.isRetryableError Justifier.failureMessage
       (fun k => Justifier.attemptOutcome team roles assignment (oracle k))
       (Justifier.generateJustifications team roles assignment oracle)) /\
  (forall parsed message,
     Scorer.checkParsedScores parsed = Throw message ->
     Scorer.isRetryableError message = false).
Proof.
  split; [exact scorer_policy|]. split; [exact justifier_policy|].
  exact shape_errors_terminal.
Qed.

Lemma clients_retry_policy_witness :
  Scorer.generateScoreMatrix Examples.team Examples.roles
    (fun _ => OpenRouter.HttpError 429 "Too Many Requests") (fun _ => 5)
  = (Failure (Scorer.failureMessage 3
                "OpenRouter API error: 429 - Too Many Requests"),
     [Attempt 0%nat; Delay 1000; Attempt 1%nat; Delay (1000 * 2);
      Attempt 2%nat; Delay (1000 * 4); Attempt 3%nat]).
Proof.
  apply (proj2 (proj2 (proj1 clients_retry_policy Examples.team Examples.roles
                         (fun _ => OpenRouter.HttpError 429 "Too Many Requests")
                         (fun _ => 5)))
           "OpenRouter API error: 429 - Too Many Requests"
           "OpenRouter API error: 429 - Too Many Requests"
           "OpenRouter API error: 429 - Too Many Requests"
           "OpenRouter API error: 429 - Too Many Requests");
    vm_compute; reflexivity.
Defined.

(** The classifier works on the text of the message. Of the 5xx statuses it
    knows 500, 502, 503 and 504: a 501 is reported at once. *)
Example http_501_is_terminal :
  Scorer.generateScoreMatrix Examples.team Examples.roles
    (fun _ => OpenRouter.HttpError 501 "Not Implemented") (fun _ => 5)
  = (Failure "Scoring failed after 0 retries: OpenRouter API error: 501 - Not Implemented",
     [Attempt 0%nat]).
Proof. vm_compute. reflexivity. Qed.

(** The same happens when the justification is not a string. *)
Example justification_type_error_is_retried :
  Justifier.generateJustifications Examples.team Examples.roles
    Examples.assignment
    (fun _ => OpenRouter.Parsed Examples.numericJustifications)
  = (Failure "Justification generation failed after 3 retries: Justification must be a string under 500 characters",
     [Attempt 0%nat; Delay 1000; Attempt 1%nat; Delay 2000; Attempt 2%nat;
      Delay 4000; Attempt 3%nat]).
Proof. vm_compute. reflexivity. Qed.

(** C8. A validation error is to end the unit after one attempt. The
    justification call does not do so for a reply that is well formed but
    for a justification of more than 500 characters: the attempt fails in the
    validation of the reply, with no network, rate-limit or server error
    involved; the text of its error contains the digits 500, which the
    classifier looks for to recognise a server error; and the same reply is
    asked for four times, with the delays 1000, 2000 and 4000, before the
    failure is reported. *)
Theorem C8_validation_error_is_retried :
  let reply := OpenRouter.Parsed Examples.longJustifications in
  let message := "Justification must be a string under 500 characters" in
  Justifier.attempt Examples.team Examples.roles Examples.assignment reply
  = Throw message /\
  Justifier.isRetryableError message = true /\
  Justifier.generateJustifications Examples.team Examples.roles
    Examples.assignment (fun _ => reply)
  = (Failure (Justifier.failureMessage 3 message),
     [Attempt 0%nat; Delay 1000; Attempt 1%nat; Delay 2000; Attempt 2%nat;
      Delay 4000; Attempt 3%nat]).
Proof. cbv zeta. repeat split; vm_compute; reflexivity. Qed.

(** * The rest of the library *)

(** ** Maps *)

Lemma JSMap_elem_set {V} (key : string) (value : V) (m : JSMap.t V)
    (entry : string * V) :
  entry ∈ JSMap.set key value m -> entry = (key, value) \/ entry ∈ m.
Proof.
  induction m as [|[k v] m IH]; cbn [JSMap.set].
  - intros H. apply list_elem_of_singleton in H. by left.
  - destruct (String.eqb_spec k key) as [->|Hk]; intros H.
    + apply elem_of_cons in H as [->|H]; [by left|]. right. by right.
    + apply elem_of_cons in H as [->|H]; [right; by left|].
      destruct (IH H) as [->|Hin]; [by left|]. right. by right.
Qed.

Lemma JSMap_keys_set {V} (key : string) (value : V) (m : JSMap.t V) :
  (JSMap.set key value m).*1
  = if bool_decide (key ∈ m.*1) then m.*1 else m.*1 ++ [key].
Proof.
  induction m as [|[k v] m IH]; cbn [JSMap.set].
  - rewrite bool_decide_eq_false_2; [reflexivity|apply not_elem_of_nil].
  - destruct (String.eqb_spec k key) as [->|Hk].
    + rewrite bool_decide_eq_true_2; [reflexivity|by left].
    + rewrite !fmap_cons, IH. cbn [fst].
      destruct (decide (key ∈ m.*1)) as [Hin|Hin].
      * rewrite !bool_decide_eq_true_2; [reflexivity|by right|exact Hin].
      * rewrite !bool_decide_eq_false_2; [reflexivity| |exact Hin].
        rewrite not_elem_of_cons. split; [congruence|exact Hin].
Qed.

Lemma wellFormed_set {V} (key : string) (value : V) (m : JSMap.t V) :
  JSMap.wellFormed m -> JSMap.wellFormed (JSMap.set key value m).
Proof.
  unfold JSMap.wellFormed. intros Hm.
  change (NoDup (JSMap.set key value m).*1). rewrite JSMap_keys_set.
  destruct (decide (key ∈ m.*1)) as [Hin|Hin].
  - rewrite bool_decide_eq_true_2 by exact Hin. exact Hm.
  - rewrite bool_decide_eq_false_2 by exact Hin.
    apply NoDup_app. split; [exact Hm|]. split; [|apply NoDup_singleton].
    intros k Hk Hnew. apply list_elem_of_singleton in Hnew as ->. by apply Hin.
Qed.

Lemma wellFormed_filter {V} (keep : string * V -> bool) (m : JSMap.t V) :
  JSMap.wellFormed m -> JSMap.wellFormed (List.filter keep m).
Proof.
  unfold JSMap.wellFormed.
  induction m as [|[k v] m IH]; cbn [List.filter map fst]; [done|].
  intros Hm. apply NoDup_cons in Hm as [Hk Hm].
  destruct (keep (k, v)); [|by apply IH].
  cbn [map fst]. apply NoDup_cons. split; [|by apply IH].
  intros Hin. apply Hk. apply list_elem_of_In, in_map_iff in Hin
    as ([k' v'] & Heq & Hin).
  apply filter_In in Hin as [Hin _]. cbn in Heq. subst k'.
  apply list_elem_of_In, in_map_iff. by exists (k, v').
Qed.

Lemma wellFormed_delete_keys {V} (keys : list string) (m : JSMap.t V) :
  JSMap.wellFormed m ->
  JSMap.wellFormed (foldl (fun m key => JSMap.delete key m) m keys).
Proof.
  revert m. induction keys as [|key keys IH]; intros m Hm; [exact Hm|].
  cbn [foldl]. apply IH. by apply wellFormed_filter.
Qed.

Lemma delete_entries_keys {V} (doomed : list (string * V)) (m : JSMap.t V) :
  foldl (fun m entry => JSMap.delete entry.1 m) m doomed
  = foldl (fun m key => JSMap.delete key m) m doomed.*1.
Proof.
  revert m. induction doomed as [|entry doomed IH]; intros m; [reflexivity|].
  cbn [foldl]. apply IH.
Qed.

Lemma JSMap_get_delete {V} (key k : string) (m : JSMap.t V) :
  JSMap.get k (JSMap.delete key m)
  = if String.eqb key k then None else JSMap.get k m.
Proof.
  unfold JSMap.delete.
  induction m as [|[k0 v0] m IH]; cbn [List.filter JSMap.get fst].
  - by destruct (String.eqb key k).
  - destruct (String.eqb_spec k0 key) as [->|Hk0]; cbn [negb JSMap.get].
    + rewrite IH. destruct (String.eqb_spec key k) as [->|Hne]; reflexivity.
    + rewrite IH. destruct (String.eqb_spec k0 k) as [->|Hne]; [|reflexivity].
      destruct (String.eqb_spec key k); [congruence|reflexivity].
Qed.

Lemma JSMap_get_delete_keys {V} (keys : list string) (k : string)
    (m : JSMap.t V) :
  JSMap.get k (foldl (fun m key => JSMap.delete key m) m keys)
  = if bool_decide (k ∈ keys) then None else JSMap.get k m.
Proof.
  revert m. induction keys as [|key keys IH]; intros m; cbn [foldl].
  - rewrite bool_decide_eq_false_2; [reflexivity|apply not_elem_of_nil].
  - rewrite IH, JSMap_get_delete.
    destruct (String.eqb_spec key k) as [->|Hne].
    + rewrite (bool_decide_eq_true_2 (k ∈ k :: keys)) by (by left).
      by destruct (bool_decide (k ∈ keys)).
    + destruct (decide (k ∈ keys)) as [Hin|Hin].
      * rewrite !bool_decide_eq_true_2; [reflexivity|by right|exact Hin].
      * rewrite !bool_decide_eq_false_2; [reflexivity| |exact Hin].
        rewrite not_elem_of_cons. split; [congruence|exact Hin].
Qed.

Lemma JSMap_elem_delete_keys {V} (keys : list string) (m : JSMap.t V)
    (k : string) (v : V) :
  (k, v) ∈ foldl (fun m key => JSMap.delete key m) m keys
  <-> (k, v) ∈ m /\ k ∉ keys.
Proof.
  revert m. induction keys as [|key keys IH]; intros m; cbn [foldl].
  - split; [intros H; split; [exact H|apply not_elem_of_nil]|by intros [H _]].
  - rewrite IH, JSMap_elem_delete, not_elem_of_cons. tauto.
Qed.

Lemma is_Some_get_set {V} (key k : string) (value : V) (m : JSMap.t V) :
  is_Some (JSMap.get k m) -> is_Some (JSMap.get k (JSMap.set key value m)).
Proof.
  rewrite JSMap_get_set. destruct (String.eqb key k); [by eexists|done].
Qed.

(** In a well-formed map an entry is what [get] finds under its key. *)
Lemma JSMap_elem_get {V} (k : string) (v : V) (m : JSMap.t V) :
  JSMap.wellFormed m -> (k, v) ∈ m -> JSMap.get k m = Some v.
Proof.
  unfold JSMap.wellFormed.
  induction m as [|[k0 v0] m IH]; intros Hm H; [by apply elem_of_nil in H|].
  cbn [map fst] in Hm. apply NoDup_cons in Hm as [Hk0 Hm]. cbn [JSMap.get].
  apply elem_of_cons in H as [H|H].
  - inversion H; subst. by rewrite String.eqb_refl.
  - destruct (String.eqb_spec k0 k) as [->|Hne]; [|by apply IH].
    exfalso. apply Hk0. apply list_elem_of_In, in_map_iff.
    exists (k, v). split; [reflexivity|by apply list_elem_of_In].
Qed.

(** ** The invariant of the store *)

Lemma invariant_replace st teams' sessions' groups' :
  JSMap.wellFormed teams' ->
  JSMap.wellFormed sessions' ->
  Forall TeamManager.teamInvariant teams' ->
  (forall entry, entry ∈ sessions' ->
     (entry ∈ Store.sessions st \/
      entry.1 = AssignmentSession.id entry.2 /\
      is_Some (JSMap.get (AssignmentSession.teamId entry.2) (Store.teams st)))
     /\
     (is_Some (JSMap.get (AssignmentSession.teamId entry.2) (Store.teams st)) ->
      is_Some (JSMap.get (AssignmentSession.teamId entry.2) teams'))) ->
  TeamManager.invariant st ->
  TeamManager.invariant (Store.mk teams' sessions' groups').
Proof.
  intros Hwt Hws Hteams' Hsessions' (_ & _ & _ & Hsessions).
  split; [exact Hwt|]. split; [exact Hws|]. split; [exact Hteams'|].
  apply Forall_forall. intros entry Hin.
  destruct (Hsessions' entry Hin) as [[Hold|[Hid Hsome]] Hkeep].
  - eapply Forall_forall in Hsessions; [|exact Hold].
    destruct Hsessions as [Hid Hsome]. split; [exact Hid|]. by apply Hkeep.
  - split; [exact Hid|]. by apply Hkeep.
Qed.

Lemma invariant_updateSessionStats st sessionId now :
  TeamManager.invariant st ->
  TeamManager.invariant
    (TeamManager.SessionManager.updateSessionStats st sessionId now).1.
Proof.
  unfold TeamManager.SessionManager.updateSessionStats.
  destruct (JSMap.get sessionId (Store.groups st)); intros H; exact H.
Qed.

Lemma teamInvariant_get st teamId team :
  TeamManager.invariant st ->
  JSMap.get teamId (Store.teams st) = Some team ->
  TeamManager.teamInvariant (teamId, team).
Proof.
  intros (_ & _ & Hteams & _) Hget. apply JSMap_get_elem in Hget.
  by eapply Forall_forall in Hteams.
Qed.

(** A team replaced under its key by one that satisfies the invariant. *)
Lemma invariant_set_team st teamId team' :
  TeamManager.teamInvariant (teamId, team') ->
  TeamManager.invariant st ->
  TeamManager.invariant
    (Store.withTeams st (JSMap.set teamId team' (Store.teams st))).
Proof.
  intros Hteam Hinv. pose proof Hinv as (Hwt & Hws & Hteams & _).
  apply (invariant_replace st); [by apply wellFormed_set|exact Hws| | |exact Hinv].
  - apply Forall_forall. intros entry Hin.
    destruct (JSMap_elem_set _ _ _ _ Hin) as [->|Hold]; [exact Hteam|].
    by eapply Forall_forall in Hteams.
  - intros entry Hin. split; [by left|]. apply is_Some_get_set.
Qed.

Lemma spliceApplicant_sublist applicantId applicants applicants' :
  TeamManager.spliceApplicant applicantId applicants = Some applicants' ->
  sublist applicants' applicants /\
  S (length applicants') = length applicants.
Proof.
  revert applicants'.
  induction applicants as [|a rest IH]; intros applicants'; cbn; [discriminate|].
  destruct (String.eqb (Applicant.id a) applicantId).
  - intros H. inversion H; subst. split; [by apply sublist_cons|reflexivity].
  - destruct (TeamManager.spliceApplicant applicantId rest) as [rest'|];
      [|discriminate].
    intros H. inversion H; subst. destruct (IH rest' eq_refl) as [Hsub Hlen].
    split; [by apply sublist_skip|]. cbn. by rewrite Hlen.
Qed.

Lemma invariant_createTeam uuid now statsNow st name sessionId :
  TeamManager.invariant st ->
  TeamManager.invariant
    (TeamManager.createTeam uuid now statsNow st name sessionId).1.
Proof.
  intros Hinv. unfold TeamManager.createTeam.
  destruct (TeamManager.SessionManager.validateActiveSession st sessionId);
    [|exact Hinv].
  cbn [fst]. apply invariant_updateSessionStats, invariant_set_team;
    [|exact Hinv].
  repeat split; cbn; [lia|constructor].
Qed.

Lemma invariant_addApplicant uuid now statsNow st teamId applicantData :
  TeamManager.invariant st ->
  TeamManager.invariant
    (TeamManager.addApplicant uuid now statsNow st teamId applicantData).1.
Proof.
  intros Hinv. unfold TeamManager.addApplicant.
  destruct (JSMap.get teamId (Store.teams st)) as [team|] eqn:Hteam;
    [|exact Hinv].
  destruct (TeamManager.SessionManager.validateActiveSession st
              (Team.sessionId team)); [|exact Hinv].
  destruct (10 <=? length (Team.applicants team))%nat eqn:Hfull; [exact Hinv|].
  destruct (existsb _ (Team.applicants team)) eqn:Hname; [exact Hinv|].
  cbn [fst]. apply invariant_updateSessionStats, invariant_set_team;
    [|exact Hinv].
  destruct (teamInvariant_get _ _ _ Hinv Hteam) as (Hid & _ & _ & Hnames).
  apply Nat.leb_gt in Hfull. unfold TeamManager.teamInvariant.
  cbn [fst snd Team.id Team.applicants Team.isComplete] in *.
  split; [exact Hid|].
  rewrite length_app. cbn [length]. split; [lia|]. split; [reflexivity|].
  rewrite map_app. cbn [map]. apply NoDup_app. split; [exact Hnames|].
  split; [|apply NoDup_singleton].
  intros lowered Hold Hnew. apply list_elem_of_singleton in Hnew as ->.
  apply list_elem_of_fmap in Hold as (a & Heq & Ha).
  assert (existsb
            (fun a =>
               String.eqb (JSString.toLowerCase (Applicant.name a))
                 (JSString.toLowerCase (ApplicantData.name applicantData)))
            (Team.applicants team) = true) as Htrue; [|congruence].
  apply existsb_exists. exists a. split; [by apply list_elem_of_In|].
  rewrite <- Heq. apply String.eqb_refl.
Qed.

Lemma invariant_removeApplicant statsNow st teamId applicantId :
  TeamManager.invariant st ->
  TeamManager.invariant
    (TeamManager.removeApplicant statsNow st teamId applicantId).1.
Proof.
  intros Hinv. unfold TeamManager.removeApplicant.
  destruct (JSMap.get teamId (Store.teams st)) as [team|] eqn:Hteam;
    [|exact Hinv].
  destruct (TeamManager.SessionManager.validateActiveSession st
              (Team.sessionId team)); [|exact Hinv].
  destruct (TeamManager.spliceApplicant applicantId (Team.applicants team))
    as [applicants|] eqn:Hsplice; [|exact Hinv].
  cbn [fst]. apply invariant_updateSessionStats, invariant_set_team;
    [|exact Hinv].
  destruct (teamInvariant_get _ _ _ Hinv Hteam) as (Hid & Hlen & _ & Hnames).
  destruct (spliceApplicant_sublist _ _ _ Hsplice) as [Hsub Hless].
  unfold TeamManager.teamInvariant.
  cbn [fst snd Team.id Team.applicants Team.isComplete] in *.
  split; [exact Hid|]. split; [lia|]. split; [reflexivity|].
  eapply sublist_NoDup; [exact Hnames|]. by apply fmap_sublist.
Qed.

Lemma invariant_resetTeam statsNow st teamId :
  TeamManager.invariant st ->
  TeamManager.invariant (TeamManager.resetTeam statsNow st teamId).1.
Proof.
  intros Hinv. unfold TeamManager.resetTeam.
  destruct (JSMap.get teamId (Store.teams st)) as [team|] eqn:Hteam;
    [|exact Hinv].
  destruct (TeamManager.SessionManager.validateActiveSession st
              (Team.sessionId team)); [|exact Hinv].
  cbn [fst]. apply invariant_updateSessionStats.
  destruct (teamInvariant_get _ _ _ Hinv Hteam) as (Hid & _).
  pose proof Hinv as (Hwt & Hws & Hteams & _).
  apply (invariant_replace st); [| | | |exact Hinv].
  - by apply wellFormed_set.
  - cbn [Store.sessions Store.withTeams]. rewrite delete_entries_keys.
    by apply wellFormed_delete_keys.
  - apply Forall_forall. intros entry Hin.
    destruct (JSMap_elem_set _ _ _ _ Hin) as [->|Hold].
    + repeat split; cbn; [exact Hid|lia|constructor].
    + by eapply Forall_forall in Hteams.
  - intros [k s] Hin. cbn [Store.sessions Store.withTeams] in Hin.
    apply JSMap_elem_delete_all in Hin as [Hin _].
    split; [by left|]. cbn [Store.teams Store.withTeams].
    apply is_Some_get_set.
Qed.

Lemma invariant_deleteTeam statsNow st teamId :
  TeamManager.invariant st ->
  TeamManager.invariant (TeamManager.deleteTeam statsNow st teamId).1.
Proof.
  intros Hinv. unfold TeamManager.deleteTeam.
  destruct (JSMap.get teamId (Store.teams st)) as [team|] eqn:Hteam;
    [|exact Hinv].
  destruct (TeamManager.SessionManager.validateActiveSession st
              (Team.sessionId team)); [|exact Hinv].
  cbn [fst]. apply invariant_updateSessionStats.
  pose proof Hinv as (Hwt & Hws & Hteams & _).
  apply (invariant_replace st); [| | | |exact Hinv].
  - by apply wellFormed_filter.
  - cbn [Store.sessions Store.withTeams]. rewrite delete_entries_keys.
    by apply wellFormed_delete_keys.
  - apply Forall_forall. intros [k t] Hin.
    apply JSMap_elem_delete in Hin as [Hin _].
    by eapply Forall_forall in Hteams.
  - intros [k s] Hin. cbn [Store.sessions Store.withTeams] in Hin.
    apply JSMap_elem_delete_all in Hin as [Hin Hkept].
    split; [by left|]. cbn [Store.teams Store.withTeams snd].
    rewrite JSMap_get_delete.
    destruct (String.eqb_spec teamId (AssignmentSession.teamId s))
      as [Hsame|Hne]; [|done].
    exfalso. apply Hkept. apply list_elem_of_fmap. exists (k, s).
    split; [reflexivity|]. apply list_elem_of_In, filter_In.
    split; [by apply list_elem_of_In|]. cbn [snd]. rewrite Hsame.
    apply String.eqb_refl.
Qed.

Lemma invariant_clearSessionData st sessionId :
  TeamManager.invariant st ->
  TeamManager.invariant (TeamManager.clearSessionData st sessionId).1.
Proof.
  intros Hinv. unfold TeamManager.clearSessionData. cbn [fst].
  pose proof Hinv as (Hwt & Hws & Hteams & _).
  apply (invariant_replace st); [| | | |exact Hinv].
  - by apply wellFormed_delete_keys.
  - rewrite delete_entries_keys. by apply wellFormed_delete_keys.
  - apply Forall_forall. intros [k team] Hin.
    apply JSMap_elem_delete_keys in Hin as [Hin _].
    by eapply Forall_forall in Hteams.
  - intros [k s] Hin. apply JSMap_elem_delete_all in Hin as [Hin Hkept].
    split; [by left|]. cbn [snd]. rewrite JSMap_get_delete_keys.
    rewrite bool_decide_eq_false_2; [done|].
    intros Hdoomed. apply Hkept. apply list_elem_of_fmap.
    exists (k, s). split; [reflexivity|].
    apply list_elem_of_In, filter_In. split; [by apply list_elem_of_In|].
    cbn [snd]. apply existsb_exists.
    exists (AssignmentSession.teamId s). split; [by apply list_elem_of_In|].
    apply String.eqb_refl.
Qed.

(** A failed [createAssignmentSession] leaves the store as it was. *)
Lemma createAssignmentSession_Failure uuid now st teamId phase customRoles
    st1 error :
  TeamManager.createAssignmentSession uuid now st teamId phase customRoles
  = (st1, Failure error) ->
  st1 = st.
Proof.
  unfold TeamManager.createAssignmentSession. intros Hcreate.
  destruct (JSMap.get teamId (Store.teams st)) as [team|];
    [|by inversion Hcreate].
  destruct (TeamManager.SessionManager.validateActiveSession st
              (Team.sessionId team)); [|by inversion Hcreate].
  destruct (negb (Team.isComplete team)); [by inversion Hcreate|].
  destruct phase, customRoles as [customRoles|];
    try discriminate Hcreate.
  destruct (negb (length customRoles =? 10)%nat);
    [by inversion Hcreate|discriminate Hcreate].
Qed.

Lemma invariant_createAssignmentSession uuid now st teamId phase customRoles :
  TeamManager.invariant st ->
  TeamManager.invariant
    (TeamManager.createAssignmentSession uuid now st teamId phase
       customRoles).1.
Proof.
  intros Hinv.
  destruct (TeamManager.createAssignmentSession uuid now st teamId phase
              customRoles) as [st1 [session|error]] eqn:Hcreate.
  - assert (is_Some (JSMap.get teamId (Store.teams st))) as Hteam.
    { unfold TeamManager.createAssignmentSession in Hcreate.
      destruct (JSMap.get teamId (Store.teams st)); [by eexists|].
      discriminate Hcreate. }
    apply createAssignmentSession_Success in Hcreate
      as (-> & Hid & _). cbn [fst].
    pose proof Hinv as (Hwt & Hws & Hteams & _).
    apply (invariant_replace st); [exact Hwt| |exact Hteams| |exact Hinv].
    + by apply wellFormed_set.
    + intros entry Hin. split; [|done].
      destruct (JSMap_elem_set _ _ _ _ Hin) as [->|Hold]; [|by left].
      right. split; [reflexivity|]. cbn [snd]. by rewrite Hid.
  - apply createAssignmentSession_Failure in Hcreate as ->. exact Hinv.
Qed.

Lemma invariant_updateSessionStatus st sessionId status :
  TeamManager.invariant st ->
  TeamManager.invariant
    (TeamManager.updateSessionStatus st sessionId status).1.
Proof.
  intros Hinv. unfold TeamManager.updateSessionStatus.
  destruct (JSMap.get sessionId (Store.sessions st)) as [session|] eqn:Hs;
    [|exact Hinv].
  cbn [fst]. pose proof Hinv as (Hwt & Hws & Hteams & Hsessions).
  apply (invariant_replace st); [exact Hwt| |exact Hteams| |exact Hinv].
  - by apply wellFormed_set.
  - intros entry Hin. split; [|done].
    destruct (JSMap_elem_set _ _ _ _ Hin) as [->|Hold]; [|by left].
    right. apply JSMap_get_elem in Hs.
    eapply Forall_forall in Hsessions; [|exact Hs]. exact Hsessions.
Qed.

Lemma invariant_exec st command :
  TeamManager.invariant st ->
  TeamManager.invariant (TeamManager.exec st command).
Proof.
  intros Hinv. destruct command; cbn [TeamManager.exec].
  - by apply invariant_createTeam.
  - by apply invariant_addApplicant.
  - by apply invariant_removeApplicant.
  - by apply invariant_resetTeam.
  - by apply invariant_deleteTeam.
  - by apply invariant_clearSessionData.
  - by apply invariant_createAssignmentSession.
  - by apply invariant_updateSessionStatus.
Qed.

(** The invariant of the store. Whatever calls of [TeamManager] are made,
    with whatever arguments, and whether they succeed or fail, the store
    keeps its shape: every team is stored under its own id, has at most ten
    applicants, is marked complete exactly when it has ten, and has no two
    applicants of the same name up to case; every assignment session is
    stored under its own id and belongs to a team that is in the store. *)
Theorem store_invariant st commands :
  TeamManager.invariant st ->
  TeamManager.invariant (foldl TeamManager.exec st commands).
Proof.
  revert st. induction commands as [|command commands IH]; intros st Hinv;
    [exact Hinv|].
  cbn [foldl]. apply IH. by apply invariant_exec.
Qed.

(** ** What the calls of [TeamManager] change *)

Lemma validateActiveSession_updateSessionStats st sessionId now sessionId' :
  TeamManager.SessionManager.validateActiveSession
    (TeamManager.SessionManager.updateSessionStats st sessionId now).1
    sessionId'
  = TeamManager.SessionManager.validateActiveSession st sessionId'.
Proof.
  unfold TeamManager.SessionManager.updateSessionStats,
    TeamManager.SessionManager.validateActiveSession.
  destruct (JSMap.get sessionId (Store.groups st)) as [session|] eqn:Hs;
    [|reflexivity].
  cbn [fst Store.groups Store.withGroups]. rewrite JSMap_get_set.
  destruct (String.eqb_spec sessionId sessionId') as [<-|Hne];
    [|reflexivity].
  rewrite Hs. reflexivity.
Qed.

Lemma validateActiveSession_withTeams st teams sessionId :
  TeamManager.SessionManager.validateActiveSession (Store.withTeams st teams)
    sessionId
  = TeamManager.SessionManager.validateActiveSession st sessionId.
Proof. reflexivity. Qed.

Lemma spliceApplicant_last applicantId applicants applicant :
  Forall (fun a => Applicant.id a <> applicantId) applicants ->
  Applicant.id applicant = applicantId ->
  TeamManager.spliceApplicant applicantId (applicants ++ [applicant])
  = Some applicants.
Proof.
  intros Hfresh Hid.
  induction applicants as [|a rest IH]; cbn.
  - by rewrite Hid, String.eqb_refl.
  - apply Forall_cons in Hfresh as [Ha Hrest].
    destruct (String.eqb_spec (Applicant.id a) applicantId); [done|].
    by rewrite (IH Hrest).
Qed.

(** Round trip: an applicant that was just added, under an id no other
    member of the team has, is removed again by [removeApplicant], and the
    team is then what it was before the two calls. *)
Theorem addApplicant_removeApplicant uuid now statsNow statsNow' st teamId
    applicantData st1 applicant team :
  TeamManager.invariant st ->
  TeamManager.getTeam st teamId = Some team ->
  Forall (fun a => Applicant.id a <> uuid) (Team.applicants team) ->
  TeamManager.addApplicant uuid now statsNow st teamId applicantData
  = (st1, Success applicant) ->
  exists st2,
    TeamManager.removeApplicant statsNow' st1 teamId (Applicant.id applicant)
    = (st2, Success tt) /\
    TeamManager.getTeam st2 teamId = Some team /\
    forall other, other <> teamId ->
      TeamManager.getTeam st2 other = TeamManager.getTeam st other.
Proof.
  intros Hinv Hteam Hfresh Hadd.
  destruct (teamInvariant_get _ _ _ Hinv Hteam) as (_ & _ & Hcomplete & _).
  unfold TeamManager.getTeam in *. unfold TeamManager.addApplicant in Hadd.
  rewrite Hteam in Hadd.
  destruct (TeamManager.SessionManager.validateActiveSession st
              (Team.sessionId team)) as [[]|error] eqn:Hactive;
    [|discriminate Hadd].
  destruct (10 <=? length (Team.applicants team))%nat; [discriminate Hadd|].
  destruct (existsb _ (Team.applicants team)); [discriminate Hadd|].
  inversion Hadd. subst st1 applicant. clear Hadd.
  unfold TeamManager.removeApplicant.
  rewrite (proj2 (sessions_updateSessionStats _ _ _)).
  cbn [Store.teams Store.withTeams]. rewrite JSMap_get_set_eq.
  cbn [Team.sessionId Team.applicants Applicant.id].
  rewrite validateActiveSession_updateSessionStats,
    validateActiveSession_withTeams, Hactive.
  rewrite spliceApplicant_last; [|exact Hfresh|reflexivity].
  eexists. split; [reflexivity|]. cbn [fst].
  repeat (rewrite (proj2 (sessions_updateSessionStats _ _ _));
          cbn [Store.teams Store.withTeams]).
  split.
  - rewrite JSMap_get_set_eq. f_equal. cbn [fst snd] in Hcomplete.
    rewrite <- Hcomplete. by destruct team.
  - intros other Hne. by rewrite !JSMap_get_set_ne.
Qed.

(** In a well-formed map, what is left under a key when the entries that
    satisfy [doomed] have been deleted one by one. *)
Lemma JSMap_get_delete_filtered {V} (doomed : string * V -> bool)
    (m : JSMap.t V) (k : string) :
  JSMap.wellFormed m ->
  JSMap.get k
    (foldl (fun m entry => JSMap.delete entry.1 m) m (List.filter doomed m))
  = match JSMap.get k m with
    | Some v => if doomed (k, v) then None else Some v
    | None => None
    end.
Proof.
  intros Hm. rewrite delete_entries_keys, JSMap_get_delete_keys.
  destruct (JSMap.get k m) as [v|] eqn:Hget.
  - destruct (doomed (k, v)) eqn:Hdoomed.
    + rewrite bool_decide_eq_true_2; [reflexivity|].
      apply list_elem_of_fmap. exists (k, v). split; [reflexivity|].
      apply list_elem_of_In, filter_In. split; [|exact Hdoomed].
      by apply list_elem_of_In, JSMap_get_elem.
    + rewrite bool_decide_eq_false_2; [reflexivity|].
      intros Hin. apply list_elem_of_fmap in Hin as ([k' v'] & Hk & Hin).
      cbn in Hk. subst k'. apply list_elem_of_In, filter_In in Hin as [Hin Hd].
      apply list_elem_of_In in Hin.
      rewrite (JSMap_elem_get _ _ _ Hm Hin) in Hget. congruence.
  - by destruct (bool_decide _).
Qed.

(** [deleteTeam], when it succeeds, removes the team and the assignment
    sessions of the team, and nothing else: every other team and every
    session of another team is found as before. *)
Theorem deleteTeam_removes_team_and_sessions statsNow st teamId st' :
  JSMap.wellFormed (Store.sessions st) ->
  TeamManager.deleteTeam statsNow st teamId = (st', Success tt) ->
  TeamManager.getTeam st' teamId = None /\
  (forall other, other <> teamId ->
     TeamManager.getTeam st' other = TeamManager.getTeam st other) /\
  (forall id,
     TeamManager.getAssignmentSession st' id
     = match TeamManager.getAssignmentSession st id with
       | Some session =>
           if String.eqb (AssignmentSession.teamId session) teamId then None
           else Some session
       | None => None
       end) /\
  TeamManager.getLatestSessionForTeam st' teamId = None.
Proof.
  intros Hws Hdelete. unfold TeamManager.deleteTeam in Hdelete.
  destruct (JSMap.get teamId (Store.teams st)) as [team|];
    [|discriminate Hdelete].
  destruct (TeamManager.SessionManager.validateActiveSession st
              (Team.sessionId team)); [|discriminate Hdelete].
  inversion Hdelete as [Hst']. clear Hdelete.
  match type of Hst' with
  | (TeamManager.SessionManager.updateSessionStats ?s ?i ?n).1 = _ =>
      destruct (sessions_updateSessionStats s i n) as [Hsessions Hteams]
  end.
  rewrite Hst' in Hsessions, Hteams |- *.
  cbn [Store.sessions Store.teams Store.withSessions Store.withTeams]
    in Hsessions, Hteams.
  assert (forall id,
            TeamManager.getAssignmentSession st' id
            = match TeamManager.getAssignmentSession st id with
              | Some session =>
                  if String.eqb (AssignmentSession.teamId session) teamId
                  then None else Some session
              | None => None
              end) as Hleft.
  { intros id. unfold TeamManager.getAssignmentSession. rewrite Hsessions.
    unfold JSMap.entries.
    apply (JSMap_get_delete_filtered
             (fun entry => String.eqb (AssignmentSession.teamId entry.2) teamId)
             _ _ Hws). }
  unfold TeamManager.getTeam. rewrite Hteams.
  split; [by rewrite JSMap_get_delete, String.eqb_refl|].
  split; [|split; [exact Hleft|]].
  - intros other Hne. rewrite JSMap_get_delete.
    destruct (String.eqb_spec teamId other); [congruence|reflexivity].
  - unfold TeamManager.getLatestSessionForTeam.
    assert (List.filter
              (fun s => String.eqb (AssignmentSession.teamId s) teamId)
              (JSMap.values (Store.sessions st')) = []) as ->; [|reflexivity].
    apply filter_none. intros s Hs. unfold JSMap.values in Hs.
    apply list_elem_of_fmap in Hs as ([id s'] & -> & Hin). cbn [snd].
    rewrite Hsessions in Hin. unfold JSMap.entries in Hin.
    apply JSMap_elem_delete_all in Hin as [Hin Hkept].
    apply String.eqb_neq. intros Hsame. apply Hkept.
    apply list_elem_of_fmap. exists (id, s'). split; [reflexivity|].
    apply list_elem_of_In, filter_In. split; [by apply list_elem_of_In|].
    cbn [snd]. by apply String.eqb_eq.
Qed.

Lemma existsb_keys_filter {V} (selected : string * V -> bool) (m : JSMap.t V)
    (k : string) :
  JSMap.wellFormed m ->
  existsb (String.eqb k) (List.filter selected m).*1
  = match JSMap.get k m with
    | Some v => selected (k, v)
    | None => false
    end.
Proof.
  intros Hm.
  destruct (existsb (String.eqb k) (List.filter selected m).*1) eqn:Hex.
  - apply existsb_exists in Hex as (k' & Hin & Heq).
    apply String.eqb_eq in Heq as <-.
    apply in_map_iff in Hin as ([k' v] & Hk & Hin). cbn in Hk. subst k'.
    apply filter_In in Hin as [Hin Hsel]. apply list_elem_of_In in Hin.
    by rewrite (JSMap_elem_get _ _ _ Hm Hin).
  - destruct (JSMap.get k m) as [v|] eqn:Hget; [|reflexivity].
    destruct (selected (k, v)) eqn:Hsel; [|reflexivity].
    rewrite <- Hex. apply existsb_exists. exists k.
    split; [|apply String.eqb_refl]. apply in_map_iff. exists (k, v).
    split; [reflexivity|]. apply filter_In. split; [|exact Hsel].
    by apply list_elem_of_In, JSMap_get_elem.
Qed.

Lemma length_filter_values {V} (selected : V -> bool) (m : JSMap.t V) :
  length (List.filter (fun entry => selected entry.2) m)
  = length (List.filter selected (JSMap.values m)).
Proof.
  unfold JSMap.values.
  induction m as [|[k v] m IH]; cbn [List.filter map snd]; [reflexivity|].
  destruct (selected v); cbn [length]; by rewrite IH.
Qed.

(** [clearSessionData] removes the teams of the session and the assignment
    sessions of these teams, and nothing else; no team of the session is
    left, and the number of teams it reports is the number of teams the
    session had. *)
Theorem clearSessionData_removes_session st sessionId :
  JSMap.wellFormed (Store.teams st) ->
  JSMap.wellFormed (Store.sessions st) ->
  let st' := (TeamManager.clearSessionData st sessionId).1 in
  (forall teamId,
     TeamManager.getTeam st' teamId
     = match TeamManager.getTeam st teamId with
       | Some team =>
           if String.eqb (Team.sessionId team) sessionId then None
           else Some team
       | None => None
       end) /\
  (forall id,
     TeamManager.getAssignmentSession st' id
     = match TeamManager.getAssignmentSession st id with
       | Some session =>
           match TeamManager.getTeam st (AssignmentSession.teamId session) with
           | Some team =>
               if String.eqb (Team.sessionId team) sessionId then None
               else Some session
           | None => Some session
           end
       | None => None
       end) /\
  TeamManager.getTeamsForSession st' sessionId = [] /\
  Store.groups st' = Store.groups st /\
  exists assignments,
    (TeamManager.clearSessionData st sessionId).2
    = Success (length (TeamManager.getTeamsForSession st sessionId),
               assignments).
Proof.
  intros Hwt Hws. unfold TeamManager.clearSessionData.
  cbn [fst snd]. unfold TeamManager.getTeam, TeamManager.getAssignmentSession,
    JSMap.entries.
  cbn [Store.teams Store.sessions Store.groups].
  set (inSession := fun entry : string * Team.t =>
                      String.eqb (Team.sessionId entry.2) sessionId).
  split; [|split; [|split; [|split]]].
  - intros teamId.
    change (map fst (List.filter inSession (Store.teams st)))
      with (List.filter inSession (Store.teams st)).*1.
    rewrite <- delete_entries_keys.
    by rewrite (JSMap_get_delete_filtered inSession _ _ Hwt).
  - intros id.
    rewrite (JSMap_get_delete_filtered _ _ _ Hws).
    destruct (JSMap.get id (Store.sessions st)) as [session|]; [|reflexivity].
    cbn [snd].
    change (map fst (List.filter inSession (Store.teams st)))
      with (List.filter inSession (Store.teams st)).*1.
    rewrite (existsb_keys_filter inSession _ _ Hwt).
    destruct (JSMap.get (AssignmentSession.teamId session) (Store.teams st))
      as [team|]; [|reflexivity].
    unfold inSession. cbn [snd]. by destruct (String.eqb _ sessionId).
  - unfold TeamManager.getTeamsForSession. apply filter_none.
    intros team Hteam. unfold JSMap.values in Hteam.
    cbn [Store.teams] in Hteam.
    apply list_elem_of_fmap in Hteam as ([k team'] & -> & Hin). cbn [snd].
    apply JSMap_elem_delete_keys in Hin as [Hin Hkept].
    apply String.eqb_neq. intros Hsame. apply Hkept.
    apply list_elem_of_In, in_map_iff. exists (k, team').
    split; [reflexivity|]. apply filter_In.
    split; [by apply list_elem_of_In|]. unfold inSession. cbn [snd].
    by apply String.eqb_eq.
  - reflexivity.
  - eexists. f_equal. f_equal. rewrite length_map.
    unfold TeamManager.getTeamsForSession.
    apply (length_filter_values
             (fun team => String.eqb (Team.sessionId team) sessionId)).
Qed.

(** ** The statistics of a session *)

Lemma applicants_sum_from (teams : list Team.t) (sum : nat) :
  foldl (fun sum team => (sum + length (Team.applicants team))%nat) sum teams
  = (sum
     + foldl (fun sum team => (sum + length (Team.applicants team))%nat)
         0%nat teams)%nat.
Proof.
  revert sum. induction teams as [|team teams IH]; intros sum; cbn [foldl].
  - lia.
  - rewrite IH, (IH (0 + _)%nat). lia.
Qed.

Lemma applicants_sum_bounds (teams : list Team.t) :
  Forall
    (fun team =>
       (length (Team.applicants team) <= 10)%nat /\
       Team.isComplete team = (length (Team.applicants team) =? 10)%nat)
    teams ->
  (10 * length (List.filter Team.isComplete teams)
   <= foldl (fun sum team => (sum + length (Team.applicants team))%nat)
        0%nat teams
   <= 10 * length teams)%nat /\
  (length (List.filter Team.isComplete teams) <= length teams)%nat.
Proof.
  induction teams as [|team teams IH]; intros Hteams.
  - cbn. lia.
  - apply Forall_cons in Hteams as [[Hlen Hcomplete] Hteams].
    destruct (IH Hteams) as [Hsum Hcount].
    cbn [foldl List.filter]. rewrite applicants_sum_from, Hcomplete.
    destruct (length (Team.applicants team) =? 10)%nat eqn:Hten.
    + apply Nat.eqb_eq in Hten. cbn [length]. lia.
    + cbn [length]. lia.
Qed.

(** The statistics [getSessionStats] computes are consistent with each
    other in every store that satisfies the invariant: the complete teams
    and the assigned teams are among the teams of the session, and the
    applicants number at least ten per complete team and at most ten per
    team. *)
Theorem getSessionStats_bounds st sessionId now :
  TeamManager.invariant st ->
  let stats := TeamManager.getSessionStats st sessionId now in
  (SessionStats.completeTeams stats <= SessionStats.totalTeams stats)%nat /\
  (SessionStats.assignedTeams stats <= SessionStats.totalTeams stats)%nat /\
  (10 * SessionStats.completeTeams stats
   <= SessionStats.totalApplicants stats
   <= 10 * SessionStats.totalTeams stats)%nat /\
  SessionStats.totalTeams stats
  = length (TeamManager.getTeamsForSession st sessionId) /\
  SessionStats.lastActivity stats = now.
Proof.
  intros (_ & _ & Hteams & _). unfold TeamManager.getSessionStats.
  cbn [SessionStats.completeTeams SessionStats.totalTeams
       SessionStats.assignedTeams SessionStats.totalApplicants
       SessionStats.lastActivity].
  assert (Forall
            (fun team =>
               (length (Team.applicants team) <= 10)%nat /\
               Team.isComplete team
               = (length (Team.applicants team) =? 10)%nat)
            (TeamManager.getTeamsForSession st sessionId)) as Hsession.
  { apply Forall_forall. intros team Hteam.
    unfold TeamManager.getTeamsForSession in Hteam.
    apply list_elem_of_In, filter_In in Hteam as [Hteam _].
    unfold JSMap.values in Hteam.
    apply in_map_iff in Hteam as ([k team'] & <- & Hin).
    apply list_elem_of_In in Hin.
    eapply Forall_forall in Hteams; [|exact Hin].
    destruct Hteams as (_ & Hlen & Hcomplete & _). by split. }
  destruct (applicants_sum_bounds _ Hsession) as [Hsum Hcount].
  split; [exact Hcount|]. split; [apply filter_length_le|].
  split; [exact Hsum|]. by split.
Qed.

(** ** The life cycle of a session *)

(** [updateSession] never touches the index of session codes. The test
    that guards the re-indexing compares the new code with the settings
    after the new settings were merged into them, and so never succeeds: a
    session whose code was changed is still found under its old code, and
    not under the new one unless that code was indexed already. *)
Theorem updateSession_keeps_code_index state sessionId updates :
  let result := Sessions.updateSession state sessionId updates in
  Sessions.sessionCodes result.1 = Sessions.sessionCodes state /\
  (forall code, 
     JSMap.get code (Sessions.sessionCodes result.1)
     = JSMap.get code (Sessions.sessionCodes state)) /\
  (forall session' newSettings c code,
     result.2 = Success session' ->
     Sessions.settings updates = Some newSettings ->
     PartialSettings.sessionCode newSettings = Some (String c code) ->
     SessionSettings.sessionCode (Session.settings session')
     = Some (String c code) /\
     Sessions.getSession result.1 sessionId = Some session').
Proof.
  assert (Sessions.sessionCodes
            (Sessions.updateSession state sessionId updates).1
          = Sessions.sessionCodes state) as Hcodes.
  { unfold Sessions.updateSession.
    destruct (JSMap.get sessionId (Store.groups (Sessions.store state)))
      as [session|]; [|reflexivity].
    destruct (Session.status session); try reflexivity;
      cbn [fst Sessions.sessionCodes];
      destruct (Sessions.settings updates) as [newSettings|];
      try reflexivity;
      destruct (PartialSettings.sessionCode newSettings) as [[|c code]|] eqn:Hcode;
      try reflexivity;
      unfold Sessions.spread; cbn [SessionSettings.sessionCode];
      rewrite Hcode; cbn [Sessions.differs];
      by rewrite String.eqb_refl. }
  cbv zeta. split; [exact Hcodes|]. split; [intros code; by rewrite Hcodes|].
  intros session' newSettings c code Hresult Hsettings Hcode.
  unfold Sessions.updateSession, Sessions.getSession in *.
  destruct (JSMap.get sessionId (Store.groups (Sessions.store state)))
    as [session|]; [|discriminate Hresult].
  destruct (Session.status session); try discriminate Hresult;
    cbn [fst snd Sessions.store Store.groups Store.withGroups] in *;
    inversion Hresult as [Hsession']; clear Hresult;
    rewrite JSMap_get_set_eq; (split; [|reflexivity]);
    rewrite Hsettings; unfold Sessions.spread;
    cbn [Session.settings SessionSettings.sessionCode];
    by rewrite Hcode.
Qed.

(** The status of a session, when it is there. *)
Lemma status_updateSessionStats st sessionId now sessionId' :
  Session.status
    <$> JSMap.get sessionId'
          (Store.groups
             (TeamManager.SessionManager.updateSessionStats st sessionId now).1)
  = Session.status <$> JSMap.get sessionId' (Store.groups st).
Proof.
  unfold TeamManager.SessionManager.updateSessionStats.
  destruct (JSMap.get sessionId (Store.groups st)) as [session|] eqn:Hs;
    [|reflexivity].
  cbn [fst Store.groups Store.withGroups]. rewrite JSMap_get_set.
  destruct (String.eqb_spec sessionId sessionId') as [<-|Hne];
    [|reflexivity].
  by rewrite Hs.
Qed.

Lemma groups_clearSessionData st sessionId :
  Store.groups (TeamManager.clearSessionData st sessionId).1 = Store.groups st.
Proof. reflexivity. Qed.

Lemma status_teams_exec st command sessionId :
  Session.status
    <$> JSMap.get sessionId (Store.groups (TeamManager.exec st command))
  = Session.status <$> JSMap.get sessionId (Store.groups st).
Proof.
  destruct command; cbn [TeamManager.exec].
  - unfold TeamManager.createTeam.
    destruct (TeamManager.SessionManager.validateActiveSession st _);
      [|reflexivity].
    cbn [fst]. by rewrite status_updateSessionStats.
  - unfold TeamManager.addApplicant.
    destruct (JSMap.get teamId (Store.teams st)) as [team|]; [|reflexivity].
    destruct (TeamManager.SessionManager.validateActiveSession st _);
      [|reflexivity].
    destruct (10 <=? _)%nat; [reflexivity|].
    destruct (existsb _ _); [reflexivity|].
    cbn [fst]. by rewrite status_updateSessionStats.
  - unfold TeamManager.removeApplicant.
    destruct (JSMap.get teamId (Store.teams st)) as [team|]; [|reflexivity].
    destruct (TeamManager.SessionManager.validateActiveSession st _);
      [|reflexivity].
    destruct (TeamManager.spliceApplicant _ _); [|reflexivity].
    cbn [fst]. by rewrite status_updateSessionStats.
  - unfold TeamManager.resetTeam.
    destruct (JSMap.get teamId (Store.teams st)) as [team|]; [|reflexivity].
    destruct (TeamManager.SessionManager.validateActiveSession st _);
      [|reflexivity].
    cbn [fst]. by rewrite status_updateSessionStats.
  - unfold TeamManager.deleteTeam.
    destruct (JSMap.get teamId (Store.teams st)) as [team|]; [|reflexivity].
    destruct (TeamManager.SessionManager.validateActiveSession st _);
      [|reflexivity].
    cbn [fst]. by rewrite status_updateSessionStats.
  - reflexivity.
  - destruct (TeamManager.createAssignmentSession uuid now st teamId phase
                customRoles) as [st1 [session|error]] eqn:Hcreate.
    + by apply createAssignmentSession_Success in Hcreate as (-> & _).
    + by apply createAssignmentSession_Failure in Hcreate as ->.
  - by rewrite (proj2 (teams_updateSessionStatus st sessionId0 status)).
Qed.

Lemma status_sessions_exec state command sessionId :
  Session.status <$> Sessions.getSession (Sessions.exec state command) sessionId
  = Some active ->
  Session.status <$> Sessions.getSession state sessionId = Some active.
Proof.
  unfold Sessions.getSession.
  destruct command as [id updates|now id clearMemory|id|id now|command];
    cbn [Sessions.exec].
  - unfold Sessions.updateSession.
    destruct (JSMap.get id (Store.groups (Sessions.store state)))
      as [session|] eqn:Hs; [|done].
    destruct (Session.status session) eqn:Hstatus; [| done |];
      cbn [fst Sessions.store Store.groups Store.withGroups];
      rewrite JSMap_get_set;
      (destruct (String.eqb_spec id sessionId) as [<-|Hne]; [|done]);
      rewrite Hs; cbn; by rewrite Hstatus.
  - unfold Sessions.endSession.
    destruct (JSMap.get id (Store.groups (Sessions.store state)))
      as [session|] eqn:Hs; [|done].
    destruct (Session.status session) eqn:Hstatus; [| done |];
      cbn [fst Sessions.store];
      (destruct clearMemory; [unfold TeamManager.clearSessionData|]);
      cbn [fst Store.groups Store.withGroups];
      rewrite JSMap_get_set;
      (destruct (String.eqb_spec id sessionId) as [<-|Hne]; [|done]);
      cbn; discriminate.
  - unfold Sessions.archiveSession.
    destruct (JSMap.get id (Store.groups (Sessions.store state)))
      as [session|] eqn:Hs; [|done].
    destruct (Session.status session) eqn:Hstatus; [done| |];
      cbn [fst Sessions.store Store.groups Store.withGroups];
      rewrite JSMap_get_set;
      (destruct (String.eqb_spec id sessionId) as [<-|Hne]; [|done]);
      cbn; discriminate.
  - cbn [Sessions.store]. by rewrite status_updateSessionStats.
  - cbn [Sessions.store]. by rewrite status_teams_exec.
Qed.

(** A session that is not active is never active again: whatever calls
    update, end or archive sessions, recompute their statistics or change
    teams, a session that has been ended or archived stays closed. (An
    archived session can be ended again, which makes it [ended].) *)
Theorem closed_session_stays_closed state commands sessionId session :
  Sessions.getSession state sessionId = Some session ->
  Session.status session <> active ->
  forall session',
    Sessions.getSession (foldl Sessions.exec state commands) sessionId
    = Some session' ->
    Session.status session' <> active.
Proof.
  intros Hsession Hclosed.
  assert (Session.status <$> Sessions.getSession state sessionId
          <> Some active) as Hstate.
  { rewrite Hsession. cbn. congruence. }
  clear Hsession Hclosed session. revert state Hstate.
  induction commands as [|command commands IH]; intros state Hstate session'.
  - cbn [foldl]. intros Hs Hactive. apply Hstate. rewrite Hs. cbn.
    by rewrite Hactive.
  - cbn [foldl]. apply IH. intros Hactive. apply Hstate.
    by eapply status_sessions_exec.
Qed.

(** Ending a session closes it for good: the session is [ended] from the
    time of the call on, and from then on every call that would change one
    of its teams (adding or removing an applicant, resetting or deleting the
    team, creating a team, creating an assignment session) is refused and
    leaves the store as it is; a trigger of the assignment pipeline on a
    complete team of the session is answered with status 400 and starts
    nothing. *)
Theorem endSession_closes_session now state sessionId clearMemory state'
    summary :
  Sessions.endSession now state sessionId clearMemory
  = (state', Success summary) ->
  let st' := Sessions.store state' in
  let closed := "Session is ended and cannot accept new operations" in
  (exists session',
     Sessions.getSession state' sessionId = Some session' /\
     Session.status session' = ended /\
     Session.endedAt session' = Some now) /\
  TeamManager.SessionManager.validateActiveSession st' sessionId
  = Failure closed /\
  (forall uuid now statsNow name,
     TeamManager.createTeam uuid now statsNow st' name sessionId
     = (st', Failure closed)) /\
  (forall teamId team,
     TeamManager.getTeam st' teamId = Some team ->
     Team.sessionId team = sessionId ->
     (forall uuid now statsNow applicantData,
        TeamManager.addApplicant uuid now statsNow st' teamId applicantData
        = (st', Failure ("Cannot add applicant: " +:+ closed))) /\
     (forall statsNow applicantId,
        TeamManager.removeApplicant statsNow st' teamId applicantId
        = (st', Failure ("Cannot remove applicant: " +:+ closed))) /\
     (forall statsNow,
        TeamManager.resetTeam statsNow st' teamId
        = (st', Failure ("Cannot reset team: " +:+ closed))) /\
     (forall statsNow,
        TeamManager.deleteTeam statsNow st' teamId
        = (st', Failure ("Cannot delete team: " +:+ closed))) /\
     (forall uuid now phase customRoles,
        TeamManager.createAssignmentSession uuid now st' teamId phase
          customRoles
        = (st', Failure ("Cannot create assignment: " +:+ closed))) /\
     (forall env req body,
        AssignTeam.method req = "POST" ->
        AssignTeam.isBlank (AssignTeam.openRouterApiKey env) = false ->
        AssignTeam.validation req = Success body ->
        AssignTeam.teamId body = teamId ->
        Team.isComplete team = true ->
        AssignTeam.handler env st' req
        = (st',
           AssignTeam.errorResponse 400
             ("Cannot create assignment: " +:+ closed),
           None))).
Proof.
  intros Hend. cbv zeta.
  assert ((exists session',
             Sessions.getSession state' sessionId = Some session' /\
             Session.status session' = ended /\
             Session.endedAt session' = Some now)) as Hended.
  { unfold Sessions.endSession in Hend. unfold Sessions.getSession.
    destruct (JSMap.get sessionId (Store.groups (Sessions.store state)))
      as [session|]; [|discriminate Hend].
    destruct (Session.status session); try discriminate Hend;
      inversion Hend; subst state'; cbn [Sessions.store];
      (destruct clearMemory; [unfold TeamManager.clearSessionData|]);
      cbn [fst Store.groups Store.withGroups]; rewrite JSMap_get_set_eq;
      eexists; (split; [reflexivity|]); by split. }
  split; [exact Hended|].
  destruct Hended as (session' & Hsession' & Hstatus & _).
  unfold Sessions.getSession in Hsession'.
  assert (TeamManager.SessionManager.validateActiveSession
            (Sessions.store state') sessionId
          = Failure "Session is ended and cannot accept new operations")
    as Hclosed.
  { unfold TeamManager.SessionManager.validateActiveSession.
    by rewrite Hsession', Hstatus. }
  split; [exact Hclosed|]. split.
  { intros uuid now' statsNow name. unfold TeamManager.createTeam.
    by rewrite Hclosed. }
  intros teamId team Hteam Hsession. unfold TeamManager.getTeam in Hteam.
  assert (forall uuid now phase customRoles,
            TeamManager.createAssignmentSession uuid now
              (Sessions.store state') teamId phase customRoles
            = (Sessions.store state',
               Failure ("Cannot create assignment: "
                        +:+ "Session is ended and cannot accept new operations")))
    as Hcreate.
  { intros uuid now' phase customRoles.
    unfold TeamManager.createAssignmentSession.
    by rewrite Hteam, Hsession, Hclosed. }
  repeat split.
  - intros uuid now' statsNow applicantData. unfold TeamManager.addApplicant.
    by rewrite Hteam, Hsession, Hclosed.
  - intros statsNow applicantId. unfold TeamManager.removeApplicant.
    by rewrite Hteam, Hsession, Hclosed.
  - intros statsNow. unfold TeamManager.resetTeam.
    by rewrite Hteam, Hsession, Hclosed.
  - intros statsNow. unfold TeamManager.deleteTeam.
    by rewrite Hteam, Hsession, Hclosed.
  - exact Hcreate.
  - intros env req body Hmethod Hkey Hvalidation Hbody Hcomplete.
    unfold AssignTeam.handler, TeamManager.getTeam.
    rewrite Hmethod, Hkey, Hvalidation, Hbody, Hteam, Hcomplete, Hcreate.
    reflexivity.
Qed.

(** ** The invariant, on the example store *)

Lemma invariant_example_store : TeamManager.invariant Examples.store.
Proof.
  split; [|split; [|split]].
  - unfold JSMap.wellFormed.
    apply (@bool_decide_unpack _ (NoDup_dec _)). vm_compute. reflexivity.
  - constructor.
  - constructor; [|constructor]. repeat split.
    + cbn. lia.
    + apply (@bool_decide_unpack _ (NoDup_dec _)). vm_compute. reflexivity.
  - constructor.
Qed.

Lemma store_invariant_witness :
  TeamManager.invariant Examples.store /\
  TeamManager.invariant
    (foldl TeamManager.exec Examples.store Scenarios.commands).
Proof.
  split; [exact invariant_example_store|].
  apply (store_invariant Examples.store Scenarios.commands
           invariant_example_store).
Defined.

(** The commands of the scenario take the team of the example from ten
    members to nine and back to ten, refuse a second "Person 3", and end
    with the team deleted and another, empty one created. *)
Example commands_scenario :
  map (fun entry =>
         (entry.1, length (Team.applicants entry.2), Team.isComplete entry.2))
    (Store.teams (foldl TeamManager.exec Examples.store
                    (take 3 Scenarios.commands)))
  = [("team-1", 10%nat, true)] /\
  map fst
    (Store.sessions (foldl TeamManager.exec Examples.store
                       (take 5 Scenarios.commands)))
  = ["uuid-10"] /\
  foldl TeamManager.exec Examples.store Scenarios.commands
  = Store.mk [("team-2", Team.mk "team-2" "Team 2" [] 9 false "group-1")] []
      [("group-1",
        Session.withStats Examples.group (SessionStats.mk 1 0 0 0 11))].
Proof. repeat split; vm_compute; reflexivity. Qed.

Lemma addApplicant_removeApplicant_witness :
  exists st2,
    TeamManager.removeApplicant 6 Scenarios.tenAgain "team-1" "applicant-10"
    = (st2, Success tt) /\
    TeamManager.getTeam st2 "team-1" = Some Scenarios.nineTeam /\
    forall other, other <> "team-1" ->
      TeamManager.getTeam st2 other
      = TeamManager.getTeam Scenarios.nineStore other.
Proof.
  apply (addApplicant_removeApplicant "applicant-10" 4 5 6 Scenarios.nineStore
           "team-1"
           (ApplicantData.mk "Person 10" "Designer" ["figma"] ["curious"])
           Scenarios.tenAgain
           (Applicant.mk "applicant-10" "Person 10" "Designer" ["figma"]
              ["curious"] 4)
           Scenarios.nineTeam).
  - apply (invariant_exec Examples.store
             (TeamManager.RemoveApplicant 3 "team-1" "applicant-4")
             invariant_example_store).
  - vm_compute. reflexivity.
  - apply Forall_forall. intros a Ha Hid.
    assert (Applicant.id a ∈ map Applicant.id
                               (Team.applicants Scenarios.nineTeam)) as Hin
      by (apply list_elem_of_fmap; by exists a).
    rewrite Hid in Hin. vm_compute in Hin.
    repeat (apply elem_of_cons in Hin as [Hin|Hin]; [discriminate Hin|]).
    by apply elem_of_nil in Hin.
  - vm_compute. reflexivity.
Defined.

Lemma deleteTeam_removes_team_and_sessions_witness :
  TeamManager.getTeam (TeamManager.deleteTeam 11 Examples.completeStore "team-1").1
    "team-1" = None /\
  TeamManager.getLatestSessionForTeam
    (TeamManager.deleteTeam 11 Examples.completeStore "team-1").1 "team-1"
  = None.
Proof.
  destruct (deleteTeam_removes_team_and_sessions 11 Examples.completeStore
              "team-1"
              (TeamManager.deleteTeam 11 Examples.completeStore "team-1").1)
    as (Hteam & _ & _ & Hlatest).
  - unfold JSMap.wellFormed.
    apply (@bool_decide_unpack _ (NoDup_dec _)). vm_compute. reflexivity.
  - vm_compute. reflexivity.
  - split; [exact Hteam|exact Hlatest].
Defined.

Lemma clearSessionData_removes_session_witness :
  TeamManager.getTeamsForSession
    (TeamManager.clearSessionData Examples.completeStore "group-1").1 "group-1"
  = [] /\
  TeamManager.getAssignmentSession
    (TeamManager.clearSessionData Examples.completeStore "group-1").1 "uuid-10"
  = None.
Proof.
  destruct (clearSessionData_removes_session Examples.completeStore "group-1")
    as (_ & Hsessions & Hteams & _).
  - unfold JSMap.wellFormed.
    apply (@bool_decide_unpack _ (NoDup_dec _)). vm_compute. reflexivity.
  - unfold JSMap.wellFormed.
    apply (@bool_decide_unpack _ (NoDup_dec _)). vm_compute. reflexivity.
  - split; [exact Hteams|]. rewrite Hsessions. vm_compute. reflexivity.
Defined.

Lemma getSessionStats_bounds_witness :
  TeamManager.getSessionStats Examples.store "group-1" 12
  = SessionStats.mk 1 1 10 0 12 /\
  (10 * 1 <= 10 <= 10 * 1)%nat.
Proof.
  split; [vm_compute; reflexivity|].
  exact (proj1 (proj2 (proj2 (getSessionStats_bounds Examples.store "group-1"
                                12 invariant_example_store)))).
Defined.

Lemma closed_session_stays_closed_witness :
  exists session',
    Sessions.getSession
      (foldl Sessions.exec Scenarios.endedState Scenarios.afterTheEnd)
      "group-1" = Some session' /\
    Session.status session' <> active.
Proof.
  eexists. split; [vm_compute; reflexivity|].
  apply (closed_session_stays_closed Scenarios.endedState
           Scenarios.afterTheEnd "group-1"
           (Session.mk "group-1" "Workshop" None ended 0 (Some 20) "admin"
              (SessionSettings.mk None 10 true true false None)
              (SessionStats.mk 1 1 10 0 0))).
  - vm_compute. reflexivity.
  - discriminate.
  - vm_compute. reflexivity.
Defined.

(** After the end the session can still be archived, and ended once more,
    which takes it from [archived] back to [ended]. *)
Example archived_session_can_be_ended :
  Session.status
    <$> Sessions.getSession
          (foldl Sessions.exec Scenarios.endedState (take 2 Scenarios.afterTheEnd))
          "group-1"
  = Some archived /\
  (fun s => (Session.status s, Session.endedAt s))
    <$> Sessions.getSession
          (foldl Sessions.exec Scenarios.endedState Scenarios.afterTheEnd)
          "group-1"
  = Some (ended, Some 30).
Proof. split; vm_compute; reflexivity. Qed.

Lemma endSession_closes_session_witness :
  TeamManager.resetTeam 21 (Sessions.store Scenarios.endedState) "team-1"
  = (Sessions.store Scenarios.endedState,
     Failure "Cannot reset team: Session is ended and cannot accept new operations")
  /\
  AssignTeam.handler (Examples.env (fun _ => OpenRouter.Parsed Examples.tenByTen))
    (Sessions.store Scenarios.endedState) Examples.request
  = (Sessions.store Scenarios.endedState,
     AssignTeam.errorResponse 400
       "Cannot create assignment: Session is ended and cannot accept new operations",
     None).
Proof.
  destruct (endSession_closes_session 20 Scenarios.state "group-1" false
              Scenarios.endedState
              (Some (SessionSummary.mk "group-1" "Workshop"
                       [TeamSummary.mk "team-1" "Team 1" 10 true false None]
                       10 None (Finite 100))))
    as (_ & _ & _ & Hteams).
  - vm_compute. reflexivity.
  - destruct (Hteams "team-1" Examples.team) as (_ & _ & Hreset & _ & _ & Hhandler);
      [vm_compute; reflexivity|reflexivity|].
    split; [apply Hreset|].
    apply (Hhandler _ _ (AssignTeam.mkBody "team-1" part1 None));
      reflexivity.
Defined.

(** The code of a session is changed in its settings and not in the index:
    the session is still found under "ABC123" and not under "XYZ789". *)
Example updateSession_scenario :
  let state' :=
    (Sessions.updateSession Scenarios.state "group-1"
       (Sessions.mkUpdates None None
          (Some (PartialSettings.mk None None None None None
                   (Some "XYZ789"))))).1 in
  (SessionSettings.sessionCode ∘ Session.settings
     <$> Sessions.getSession state' "group-1") = Some (Some "XYZ789") /\
  Session.id <$> Sessions.getSessionByCode state' "ABC123" = Some "group-1" /\
  Sessions.getSessionByCode state' "XYZ789" = None.
Proof. repeat split; vm_compute; reflexivity. Qed.

(** ** lib/assigner.ts: validation, details and statistics *)

Lemma flat_map_nil {A B} (f : A -> list B) (l : list A) :
  flat_map f l = [] <-> Forall (fun x => f x = []) l.
Proof.
  induction l as [|x l IH]; cbn [flat_map].
  - split; [constructor|reflexivity].
  - rewrite Forall_cons, <- IH. split.
    + intros H. by apply app_eq_nil in H.
    + intros [-> ->]. reflexivity.
Qed.

Lemma setSize_NoDup (l : list string) :
  (Assigner.setSize l =? length l)%nat = true <-> NoDup l.
Proof.
  rewrite Nat.eqb_eq. split; [apply setSize_length_NoDup|apply NoDup_setSize].
Qed.

Lemma existsb_id {A} (id : A -> string) (wanted : string) (l : list A) :
  existsb (fun x => String.eqb (id x) wanted) l = true
  <-> wanted ∈ map id l.
Proof.
  rewrite existsb_exists, list_elem_of_In, in_map_iff.
  split; intros (x & H1 & H2); exists x.
  - split; [by apply String.eqb_eq|exact H1].
  - split; [exact H2|by apply String.eqb_eq].
Qed.

(** When [validateAssignment] has nothing to report. *)
Lemma validateAssignment_errors showNumber team roles assignment :
  (Assigner.validateAssignment showNumber team roles assignment).2 = [] <->
  TeamAssignment.teamId assignment = Team.id team /\
  length (TeamAssignment.assignments assignment) = 10%nat /\
  NoDup (map Assignment.applicantId (TeamAssignment.assignments assignment)) /\
  NoDup (map Assignment.roleId (TeamAssignment.assignments assignment)) /\
  Forall
    (fun assign =>
       Assignment.applicantId assign ∈ map Applicant.id (Team.applicants team)
       /\ Assignment.roleId assign ∈ map RoleDefinition.id roles
       /\ (Assignment.score assign = NaN \/
           Assigner.validCell (Assignment.score assign)))
    (TeamAssignment.assignments assignment).
Proof.
  unfold Assigner.validateAssignment. cbn [snd].
  rewrite !app_nil, !flat_map_nil.
  assert (forall (b : bool) (e : list string),
            e <> [] -> (if negb b then e else []) = [] <-> b = true) as Hif.
  { intros [] e He; cbn; split; congruence. }
  rewrite !Hif by discriminate.
  rewrite String.eqb_eq, Nat.eqb_eq, !setSize_NoDup.
  rewrite <- !Forall_and.
  repeat (apply and_iff_compat_l). apply Forall_iff. intros assign.
  rewrite <- (existsb_id Applicant.id), <- (existsb_id RoleDefinition.id).
  rewrite <- range_test_false.
  destruct (existsb _ (Team.applicants team)), (existsb _ roles),
    (js_lt _ _ || js_gt _ _); cbn; intuition congruence.
Qed.

Lemma validateAssignment_flag showNumber team roles assignment :
  (Assigner.validateAssignment showNumber team roles assignment).1 = true
  <-> (Assigner.validateAssignment showNumber team roles assignment).2 = [].
Proof.
  unfold Assigner.validateAssignment. cbn [fst snd].
  by destruct (_ ++ _).
Qed.

(** [validateAssignment] reports no error, and answers [valid: true],
    exactly when the assignment is for the team, has ten pairings, names no
    applicant and no role twice, names only applicants of the team and roles
    of the list, and has no score below 0 or above 100. A score that is NaN
    passes the test: both comparisons are false for it. *)
Theorem validateAssignment_valid showNumber team roles assignment :
  let result := Assigner.validateAssignment showNumber team roles assignment in
  (result.1 = true <-> result.2 = []) /\
  (result.1 = true <->
   TeamAssignment.teamId assignment = Team.id team /\
   length (TeamAssignment.assignments assignment) = 10%nat /\
   NoDup (map Assignment.applicantId (TeamAssignment.assignments assignment)) /\
   NoDup (map Assignment.roleId (TeamAssignment.assignments assignment)) /\
   Forall
     (fun assign =>
        Assignment.applicantId assign ∈ map Applicant.id (Team.applicants team)
        /\ Assignment.roleId assign ∈ map RoleDefinition.id roles
        /\ (Assignment.score assign = NaN \/
            Assigner.validCell (Assignment.score assign)))
     (TeamAssignment.assignments assignment)).
Proof.
  cbv zeta. split; [apply validateAssignment_flag|].
  rewrite validateAssignment_flag. apply validateAssignment_errors.
Qed.

(** *** [Array.prototype.sort] *)

Lemma insertSorted_Permutation {A} (compare : A -> A -> Z) (x : A)
    (l : list A) :
  JSArray.insertSorted compare x l ≡ₚ x :: l.
Proof.
  induction l as [|y l IH]; cbn [JSArray.insertSorted]; [reflexivity|].
  destruct (compare x y <=? 0); [reflexivity|].
  rewrite IH. apply Permutation_swap.
Qed.

Lemma sort_Permutation {A} (compare : A -> A -> Z) (l : list A) :
  JSArray.sort compare l ≡ₚ l.
Proof.
  unfold JSArray.sort. induction l as [|x l IH]; cbn [foldr]; [reflexivity|].
  rewrite insertSorted_Permutation. by rewrite IH.
Qed.

Lemma StronglySorted_weaken {A} (R R' : A -> A -> Prop) (l : list A) :
  (forall x y, x ∈ l -> y ∈ l -> R x y -> R' x y) ->
  StronglySorted R l -> StronglySorted R' l.
Proof.
  intros Himpl Hsorted.
  induction Hsorted as [|x l Hsorted IH Hx]; constructor.
  - apply IH. intros y z Hy Hz. apply Himpl; by right.
  - apply Forall_forall. intros y Hy.
    apply Himpl; [by left|by right|].
    exact (proj1 (Forall_forall _ _) Hx y Hy).
Qed.

Section SortConsistent.
Context {A : Type}.
Variable compare : A -> A -> Z.
(** The elements the comparator is consistent on. *)
Variable domain : A -> Prop.
Hypothesis compare_total :
  forall x y, domain x -> domain y -> ~ compare x y <= 0 -> compare y x <= 0.
Hypothesis compare_trans :
  forall x y z, domain x -> domain y -> domain z ->
    compare x y <= 0 -> compare y z <= 0 -> compare x z <= 0.

Lemma insertSorted_sorted (x : A) (l : list A) :
  domain x -> Forall domain l ->
  StronglySorted (fun a b => compare a b <= 0) l ->
  StronglySorted (fun a b => compare a b <= 0)
    (JSArray.insertSorted compare x l).
Proof.
  intros Hx Hl Hsorted.
  induction l as [|y l IH]; cbn [JSArray.insertSorted].
  - repeat constructor.
  - apply Forall_cons in Hl as [Hy Hl].
    apply StronglySorted_inv in Hsorted as [Hsorted Hyl].
    destruct (Z.leb_spec (compare x y) 0) as [Hle|Hgt].
    + constructor; [by constructor|]. constructor; [exact Hle|].
      apply Forall_forall. intros z Hz.
      pose proof (proj1 (Forall_forall _ _) Hyl z Hz) as Hyz. cbv beta in Hyz.
      pose proof (proj1 (Forall_forall _ _) Hl z Hz) as Hdz.
      by apply (compare_trans x y z).
    + constructor; [by apply IH|].
      apply Forall_forall. intros z Hz.
      rewrite insertSorted_Permutation in Hz.
      apply elem_of_cons in Hz as [->|Hz].
      * apply compare_total; [exact Hx|exact Hy|lia].
      * exact (proj1 (Forall_forall _ _) Hyl z Hz).
Qed.

(** On a list the comparator is consistent on, [sort] leaves every element
    before the ones it does not follow. *)
Lemma sort_sorted (l : list A) :
  Forall domain l ->
  StronglySorted (fun a b => compare a b <= 0) (JSArray.sort compare l).
Proof.
  unfold JSArray.sort. induction l as [|x l IH]; intros Hl; cbn [foldr].
  - constructor.
  - apply Forall_cons in Hl as [Hx Hl]. apply insertSorted_sorted.
    + exact Hx.
    + fold (JSArray.sort compare l). by rewrite sort_Permutation.
    + by apply IH.
Qed.
End SortConsistent.

(** *** The details *)

Lemma collectDetails_Success team roles assignments details result :
  AssignmentDetail.collectDetails team roles assignments details
  = Success result ->
  exists new,
    result = details ++ new /\
    Forall2
      (fun assign detail =>
         AssignmentDetail.detailOf team roles assign = Success detail)
      assignments new.
Proof.
  revert details.
  induction assignments as [|assign rest IH]; intros details;
    cbn [AssignmentDetail.collectDetails].
  - intros H. inversion H. exists []. by rewrite app_nil_r.
  - destruct (AssignmentDetail.detailOf team roles assign) as [detail|error]
      eqn:Hdetail; [|discriminate].
    intros H. destruct (IH _ H) as (new & -> & Hnew).
    exists (detail :: new). rewrite <- app_assoc. split; [reflexivity|].
    by constructor.
Qed.

Lemma collectDetails_Failure team roles assignments details error :
  AssignmentDetail.collectDetails team roles assignments details
  = Failure error ->
  exists assign,
    assign ∈ assignments /\
    AssignmentDetail.detailOf team roles assign = Failure error.
Proof.
  revert details.
  induction assignments as [|assign rest IH]; intros details;
    cbn [AssignmentDetail.collectDetails]; [discriminate|].
  destruct (AssignmentDetail.detailOf team roles assign) as [detail|error']
    eqn:Hdetail.
  - intros H. destruct (IH _ H) as (a & Ha & Hfail).
    exists a. split; [by right|exact Hfail].
  - intros H. inversion H; subst error'. exists assign. split; [by left|done].
Qed.

Lemma detailOf_score team roles assign detail :
  AssignmentDetail.detailOf team roles assign = Success detail ->
  AssignmentDetail.score detail = Assignment.score assign.
Proof.
  unfold AssignmentDetail.detailOf.
  destruct (find _ (Team.applicants team)); [|discriminate].
  destruct (find _ roles); [|discriminate].
  intros H. by inversion H.
Qed.

Lemma details_finite team roles assignments details :
  Forall2
    (fun assign detail =>
       AssignmentDetail.detailOf team roles assign = Success detail)
    assignments details ->
  Forall (fun assign => exists q, Assignment.score assign = Finite q)
    assignments ->
  Forall (fun d => exists q, AssignmentDetail.score d = Finite q) details.
Proof.
  induction 1 as [|assign detail rest details Hd Hrest IH]; intros Hfinite;
    [constructor|].
  apply Forall_cons in Hfinite as [[q Hq] Hfinite].
  constructor; [|by apply IH].
  exists q. by rewrite (detailOf_score _ _ _ _ Hd).
Qed.

Lemma sgn_Qnum_nonpos (q : Q) : Z.sgn (Qnum q) <= 0 <-> (q <= 0)%Q.
Proof. unfold Qle. cbn. lia. Qed.

(** The comparator [b.score - a.score] on finite scores. *)
Lemma compare_scores_desc (a b : Q) :
  js_sign (js_sub (Finite b) (Finite a)) <= 0 <-> (b <= a)%Q.
Proof.
  cbn [js_sub js_neg js_add js_sign]. rewrite sgn_Qnum_nonpos. split; lra.
Qed.

(** [getAssignmentDetails] fails exactly when a pairing names an applicant
    that is not in the team or a role that is not in the list, with the
    error of the first such pairing. When it succeeds and the scores are
    finite, its result has one detail for each pairing, with the score of
    the pairing, and is in descending order of score. *)
Theorem getAssignmentDetails_sorted team roles assignment :
  Forall (fun assign => exists q, Assignment.score assign = Finite q)
    (TeamAssignment.assignments assignment) ->
  let result := AssignmentDetail.getAssignmentDetails team roles assignment in
  (forall details, result = Success details ->
     (exists unsorted,
        Forall2
          (fun assign detail =>
             AssignmentDetail.detailOf team roles assign = Success detail)
          (TeamAssignment.assignments assignment) unsorted /\
        details ≡ₚ unsorted) /\
     StronglySorted
       (fun d1 d2 =>
          js_ge (AssignmentDetail.score d1) (AssignmentDetail.score d2) = true)
       details) /\
  (forall error, result = Failure error ->
     exists assign,
       assign ∈ TeamAssignment.assignments assignment /\
       AssignmentDetail.detailOf team roles assign = Failure error).
Proof.
  intros Hfinite. cbv zeta. unfold AssignmentDetail.getAssignmentDetails.
  destruct (AssignmentDetail.collectDetails team roles
              (TeamAssignment.assignments assignment) [])
    as [unsorted|error] eqn:Hcollect.
  - split; [|discriminate]. intros details Hdetails.
    inversion Hdetails as [Hsort]. clear Hdetails.
    destruct (collectDetails_Success _ _ _ _ _ Hcollect) as (new & -> & Hnew).
    cbn [app] in *. split.
    { exists new. split; [exact Hnew|apply sort_Permutation]. }
    assert (Forall (fun d => exists q, AssignmentDetail.score d = Finite q) new)
      as Hscores.
    { by eapply details_finite. }
    eapply StronglySorted_weaken;
      [|apply (sort_sorted _
                 (fun d => exists q, AssignmentDetail.score d = Finite q));
        [| |exact Hscores]].
    + intros d1 d2 Hd1 Hd2. cbv beta.
      rewrite sort_Permutation in Hd1, Hd2.
      pose proof (proj1 (Forall_forall _ _) Hscores d1 Hd1) as [q1 ->].
      pose proof (proj1 (Forall_forall _ _) Hscores d2 Hd2) as [q2 ->].
      rewrite compare_scores_desc. unfold js_ge. cbn [js_le].
      by rewrite Qle_bool_iff.
    + intros d1 d2 [q1 H1] [q2 H2]. rewrite H1, H2, !compare_scores_desc. lra.
    + intros d1 d2 d3 [q1 H1] [q2 H2] [q3 H3].
      rewrite H1, H2, H3, !compare_scores_desc. lra.
  - split; [discriminate|]. intros error' H. inversion H; subst error'.
    by eapply collectDetails_Failure.
Qed.

Lemma find_id {A} (id : A -> string) (wanted : string) (l : list A) :
  wanted ∈ map id l ->
  is_Some (find (fun x => String.eqb (id x) wanted) l).
Proof.
  induction l as [|x l IH]; cbn [map find]; intros Hin;
    [by apply elem_of_nil in Hin|].
  destruct (String.eqb_spec (id x) wanted) as [Heq|Hne]; [by eexists|].
  apply IH. apply elem_of_cons in Hin as [Hin|Hin]; [congruence|exact Hin].
Qed.

(** What [assignRoles] returns passes the checks of the two readers of an
    assignment: for a matrix of scores in [0, 100], [validateAssignment]
    reports no error on it, and [getAssignmentDetails] finds the applicant
    and the role of each of its ten pairings. *)
Theorem assignRoles_result_validates munkres now team roles scoreMatrix
    assignment showNumber :
  Assigner.validScores (ScoreMatrix.scores scoreMatrix) ->
  Assigner.assignRoles munkres now team roles scoreMatrix
  = Success assignment ->
  Assigner.validateAssignment showNumber team roles assignment = (true, []) /\
  exists details,
    AssignmentDetail.getAssignmentDetails team roles assignment
    = Success details /\
    length details = 10%nat.
Proof.
  intros Hvalid Hassign.
  apply assignRoles_Success in Hassign
    as (_ & _ & pairs & _ & Hlen & Hrange & Hpaired & Hnda & Hndr & Ha).
  assert (Forall
            (fun assign =>
               Assignment.applicantId assign
               ∈ map Applicant.id (Team.applicants team)
               /\ Assignment.roleId assign ∈ map RoleDefinition.id roles
               /\ (Assignment.score assign = NaN \/
                   Assigner.validCell (Assignment.score assign)))
            (TeamAssignment.assignments assignment)) as Hpairings.
  { clear Ha Hnda Hndr Hlen.
    induction Hpaired as [|p assign pairs' rest Hp Hrest IH]; [constructor|].
    apply Forall_cons in Hrange as [Hp_range Hrange].
    constructor; [|by apply IH].
    destruct Hp as (applicant & role & Happlicant & Hrole & ->).
    cbn [Assignment.applicantId Assignment.roleId Assignment.score].
    split; [|split].
    - apply list_elem_of_fmap. exists applicant.
      split; [reflexivity|by eapply list_elem_of_lookup_2].
    - apply list_elem_of_fmap. exists role.
      split; [reflexivity|by eapply list_elem_of_lookup_2].
    - right. by apply validScores_cell. }
  assert (length (TeamAssignment.assignments assignment) = 10%nat) as Hten
    by (rewrite <- (Forall2_length _ _ _ Hpaired); exact Hlen).
  split.
  - pose proof (validateAssignment_flag showNumber team roles assignment)
      as Hflag.
    assert ((Assigner.validateAssignment showNumber team roles assignment).2
            = []) as Herrors.
    { apply validateAssignment_errors. rewrite Ha at 1.
      cbn [TeamAssignment.teamId]. by repeat split. }
    destruct (Assigner.validateAssignment showNumber team roles assignment)
      as [valid errors]. cbn [fst snd] in *. subst errors.
    f_equal. by apply Hflag.
  - unfold AssignmentDetail.getAssignmentDetails.
    destruct (AssignmentDetail.collectDetails team roles
                (TeamAssignment.assignments assignment) [])
      as [unsorted|error] eqn:Hcollect.
    + eexists. split; [reflexivity|]. rewrite sort_Permutation.
      destruct (collectDetails_Success _ _ _ _ _ Hcollect) as (new & -> & Hnew).
      cbn [app]. by rewrite <- (Forall2_length _ _ _ Hnew).
    + exfalso.
      destruct (collectDetails_Failure _ _ _ _ _ Hcollect)
        as (assign & Hin & Hfail).
      pose proof (proj1 (Forall_forall _ _) Hpairings assign Hin)
        as (Happlicant & Hrole & _).
      unfold AssignmentDetail.detailOf in Hfail.
      destruct (find_id Applicant.id _ _ Happlicant) as [a Hfound].
      destruct (find_id RoleDefinition.id _ _ Hrole) as [r Hfound'].
      rewrite Hfound, Hfound' in Hfail. discriminate Hfail.
Qed.

(** *** The statistics *)

Lemma Math_min_from (least : number) (scores : list number) :
  (least = PosInfinity \/ exists q, least = Finite q) ->
  Forall (fun score => exists q, score = Finite q) scores ->
  let result :=
    foldl
      (fun least score =>
         match least, score with
         | NaN, _ | _, NaN => NaN
         | _, _ => if js_lt score least then score else least
         end)
      least scores in
  (result = least \/ result ∈ scores) /\
  js_le result least = true /\
  Forall (fun score => js_le result score = true) scores.
Proof.
  revert least.
  induction scores as [|score scores IH]; intros least Hleast Hscores;
    cbv zeta; cbn [foldl].
  - split; [by left|]. split; [|constructor].
    destruct Hleast as [->|[q ->]]; [reflexivity|].
    cbn [js_le]. apply Qle_bool_iff. lra.
  - apply Forall_cons in Hscores as [[q ->] Hscores].
    assert (exists next,
              match least with
              | NaN => NaN
              | _ => if js_lt (Finite q) least then Finite q else least
              end = next /\
              (next = least \/ next = Finite q) /\
              (exists q', next = Finite q') /\
              js_le next least = true /\ js_le next (Finite q) = true)
      as (next & -> & Hnext & Hfinite & Hle_least & Hle_score).
    { destruct Hleast as [->|[q0 ->]].
      - eexists. split; [reflexivity|]. cbn [js_lt js_le].
        split; [by right|]. split; [by eexists|]. split; [reflexivity|].
        apply Qle_bool_iff. lra.
      - eexists. split; [reflexivity|]. cbn [js_lt].
        destruct (Qlt_bool q q0) eqn:Hlt; cbn [js_le].
        + unfold Qlt_bool in Hlt. apply negb_true_iff in Hlt.
          assert (~ (q0 <= q)%Q) as Hnot
            by (rewrite <- Qle_bool_iff; congruence).
          split; [by right|]. split; [by eexists|].
          split; apply Qle_bool_iff; lra.
        + apply Qlt_bool_false in Hlt.
          split; [by left|]. split; [by eexists|].
          split; apply Qle_bool_iff; lra. }
    destruct (IH next (or_intror Hfinite) Hscores) as (Hin & Hle & Hall).
    cbv zeta in Hin, Hle, Hall.
    set (result := foldl _ next scores) in *.
    destruct Hfinite as [q' ->].
    assert (exists r, result = Finite r) as [r Hr].
    { destruct Hin as [->|Hin]; [by eexists|].
      exact (proj1 (Forall_forall _ _) Hscores _ Hin). }
    rewrite Hr in *. cbn [js_le] in Hle. apply Qle_bool_iff in Hle.
    split; [|split].
    + destruct Hin as [Hin|Hin]; [|right; by right].
      destruct Hnext as [Hnext|Hnext].
      * left. congruence.
      * right. replace (Finite r) with (Finite q) by congruence. by left.
    + destruct Hleast as [->|[q0 ->]]; [reflexivity|].
      cbn [js_le] in *. apply Qle_bool_iff. apply Qle_bool_iff in Hle_least.
      lra.
    + constructor; [|exact Hall]. cbn [js_le] in *.
      apply Qle_bool_iff. apply Qle_bool_iff in Hle_score. lra.
Qed.

Lemma Math_max_from (greatest : number) (scores : list number) :
  (greatest = NegInfinity \/ exists q, greatest = Finite q) ->
  Forall (fun score => exists q, score = Finite q) scores ->
  let result :=
    foldl
      (fun greatest score =>
         match greatest, score with
         | NaN, _ | _, NaN => NaN
         | _, _ => if js_gt score greatest then score else greatest
         end)
      greatest scores in
  (result = greatest \/ result ∈ scores) /\
  js_le greatest result = true /\
  Forall (fun score => js_le score result = true) scores.
Proof.
  revert greatest.
  induction scores as [|score scores IH]; intros greatest Hgreatest Hscores;
    cbv zeta; cbn [foldl].
  - split; [by left|]. split; [|constructor].
    destruct Hgreatest as [->|[q ->]]; [reflexivity|].
    cbn [js_le]. apply Qle_bool_iff. lra.
  - apply Forall_cons in Hscores as [[q ->] Hscores].
    assert (exists next,
              match greatest with
              | NaN => NaN
              | _ => if js_gt (Finite q) greatest then Finite q else greatest
              end = next /\
              (next = greatest \/ next = Finite q) /\
              (exists q', next = Finite q') /\
              js_le greatest next = true /\ js_le (Finite q) next = true)
      as (next & -> & Hnext & Hfinite & Hle_greatest & Hle_score).
    { unfold js_gt. destruct Hgreatest as [->|[q0 ->]].
      - eexists. split; [reflexivity|]. cbn [js_lt js_le].
        split; [by right|]. split; [by eexists|]. split; [reflexivity|].
        apply Qle_bool_iff. lra.
      - eexists. split; [reflexivity|]. cbn [js_lt].
        destruct (Qlt_bool q0 q) eqn:Hlt; cbn [js_le].
        + unfold Qlt_bool in Hlt. apply negb_true_iff in Hlt.
          assert (~ (q <= q0)%Q) as Hnot
            by (rewrite <- Qle_bool_iff; congruence).
          split; [by right|]. split; [by eexists|].
          split; apply Qle_bool_iff; lra.
        + apply Qlt_bool_false in Hlt.
          split; [by left|]. split; [by eexists|].
          split; apply Qle_bool_iff; lra. }
    destruct (IH next (or_intror Hfinite) Hscores) as (Hin & Hle & Hall).
    cbv zeta in Hin, Hle, Hall.
    set (result := foldl _ next scores) in *.
    destruct Hfinite as [q' ->].
    assert (exists r, result = Finite r) as [r Hr].
    { destruct Hin as [->|Hin]; [by eexists|].
      exact (proj1 (Forall_forall _ _) Hscores _ Hin). }
    rewrite Hr in *. cbn [js_le] in Hle. apply Qle_bool_iff in Hle.
    split; [|split].
    + destruct Hin as [Hin|Hin]; [|right; by right].
      destruct Hnext as [Hnext|Hnext].
      * left. congruence.
      * right. replace (Finite r) with (Finite q) by congruence. by left.
    + destruct Hgreatest as [->|[q0 ->]]; [reflexivity|].
      cbn [js_le] in *. apply Qle_bool_iff. apply Qle_bool_iff in Hle_greatest.
      lra.
    + constructor; [|exact Hall]. cbn [js_le] in *.
      apply Qle_bool_iff. apply Qle_bool_iff in Hle_score. lra.
Qed.

(** Once NaN, always NaN. *)
Lemma Math_NaN (pick : number -> number -> bool) (scores : list number)
    (start : number) :
  start = NaN \/ NaN ∈ scores ->
  foldl
    (fun chosen score =>
       match chosen, score with
       | NaN, _ | _, NaN => NaN
       | _, _ => if pick score chosen then score else chosen
       end)
    start scores
  = NaN.
Proof.
  revert start. induction scores as [|score scores IH]; intros start Hnan;
    cbn [foldl].
  - destruct Hnan as [Hnan|Hnan]; [exact Hnan|by apply elem_of_nil in Hnan].
  - apply IH. destruct Hnan as [->|Hnan]; [by left|].
    apply elem_of_cons in Hnan as [<-|Hnan]; [|by right].
    left. by destruct start.
Qed.

(** The least and the greatest score of [getAssignmentStats]. For an
    assignment with at least one pairing and finite scores they are scores
    of the assignment and bound all of them. With no pairing at all they are
    [Infinity] and [-Infinity], and one score that is NaN makes both NaN. *)
Theorem getAssignmentStats_min_max assignment :
  let stats := Assigner.getAssignmentStats assignment in
  let scores := map Assignment.score (TeamAssignment.assignments assignment) in
  (scores <> [] ->
   Forall (fun score => exists q, score = Finite q) scores ->
   Assigner.minScore stats ∈ scores /\
   Assigner.maxScore stats ∈ scores /\
   Forall
     (fun score =>
        js_le (Assigner.minScore stats) score = true /\
        js_le score (Assigner.maxScore stats) = true)
     scores) /\
  (scores = [] ->
   Assigner.minScore stats = PosInfinity /\
   Assigner.maxScore stats = NegInfinity) /\
  (NaN ∈ scores ->
   Assigner.minScore stats = NaN /\ Assigner.maxScore stats = NaN).
Proof.
  cbv zeta. unfold Assigner.getAssignmentStats.
  cbn [Assigner.minScore Assigner.maxScore].
  set (scores := map Assignment.score (TeamAssignment.assignments assignment)).
  split; [|split].
  - intros Hnonempty Hfinite.
    destruct (Math_min_from PosInfinity scores (or_introl eq_refl) Hfinite)
      as (Hmin & _ & Hleast).
    destruct (Math_max_from NegInfinity scores (or_introl eq_refl) Hfinite)
      as (Hmax & _ & Hgreatest).
    cbv zeta in *. fold (Math_min scores) in *. fold (Math_max scores) in *.
    destruct scores as [|score scores']; [done|].
    apply Forall_cons in Hfinite as [[q Hq] _].
    split; [|split].
    + destruct Hmin as [Hmin|Hmin]; [|exact Hmin].
      apply Forall_cons in Hleast as [Hleast _].
      rewrite Hmin, Hq in Hleast. discriminate Hleast.
    + destruct Hmax as [Hmax|Hmax]; [|exact Hmax].
      apply Forall_cons in Hgreatest as [Hgreatest _].
      rewrite Hmax, Hq in Hgreatest. discriminate Hgreatest.
    + apply Forall_and. by split.
  - intros ->. by split.
  - intros Hnan. split; apply Math_NaN; by right.
Qed.

Lemma scoreDistribution_total (scores : list number) :
  list_sum (map snd (Assigner.calculateScoreDistribution scores))
  = list_sum (map Assigner.rangesHolding scores).
Proof.
  unfold Assigner.calculateScoreDistribution, Assigner.ranges, list_sum.
  cbn [map snd fold_right Assigner.min Assigner.max].
  induction scores as [|score scores IH]; [reflexivity|].
  cbn [List.filter map fold_right]. rewrite <- IH.
  unfold Assigner.rangesHolding, Assigner.ranges.
  cbn [List.filter Assigner.min Assigner.max].
  repeat match goal with
         | |- context [js_ge score ?a && js_le score ?b] =>
             destruct (js_ge score a && js_le score b); cbn [length]
         end; lia.
Qed.

Ltac decide_test :=
  match goal with
  | |- context [Qle_bool ?a ?b] =>
      first
        [ assert (Qle_bool a b = true) as -> by (apply Qle_bool_iff; lra)
        | assert (Qle_bool a b = false) as ->
            by (apply not_true_iff_false; rewrite Qle_bool_iff; lra) ]
  end.

(** A score is in at most one range. *)
Lemma rangesHolding_le (score : number) : (Assigner.rangesHolding score <= 1)%nat.
Proof.
  unfold Assigner.rangesHolding, Assigner.ranges, js_ge.
  cbn [List.filter Assigner.min Assigner.max].
  destruct score as [q| | |]; cbn [js_le andb length]; try lia.
  destruct (Qlt_le_dec q 50) as [H50|H50];
    [|destruct (Qlt_le_dec q 60) as [H60|H60];
      [|destruct (Qlt_le_dec q 70) as [H70|H70];
        [|destruct (Qlt_le_dec q 80) as [H80|H80];
          [|destruct (Qlt_le_dec q 90) as [H90|H90]]]]].
  all: repeat decide_test; cbn [andb length];
    repeat match goal with
           | |- context [Qle_bool ?a ?b] => destruct (Qle_bool a b)
           end; cbn [andb length]; lia.
Qed.

(** A whole score from 0 to 100 is in exactly one. *)
Lemma rangesHolding_whole (z : Z) :
  0 <= z <= 100 -> Assigner.rangesHolding (Finite (inject_Z z)) = 1%nat.
Proof.
  intros Hz. unfold Assigner.rangesHolding, Assigner.ranges, js_ge.
  cbn [List.filter Assigner.min Assigner.max js_le].
  assert (forall a : Z, Qle_bool (inject_Z a) (inject_Z z) = (a <=? z)) as Hge.
  { intros a. apply eq_true_iff_eq.
    by rewrite Qle_bool_iff, <- Zle_Qle, Z.leb_le. }
  assert (forall b : Z, Qle_bool (inject_Z z) (inject_Z b) = (z <=? b)) as Hle.
  { intros b. apply eq_true_iff_eq.
    by rewrite Qle_bool_iff, <- Zle_Qle, Z.leb_le. }
  change 90%Q with (inject_Z 90). change 100%Q with (inject_Z 100).
  change 80%Q with (inject_Z 80). change 89%Q with (inject_Z 89).
  change 70%Q with (inject_Z 70). change 79%Q with (inject_Z 79).
  change 60%Q with (inject_Z 60). change 69%Q with (inject_Z 69).
  change 50%Q with (inject_Z 50). change 59%Q with (inject_Z 59).
  change 0%Q with (inject_Z 0). change 49%Q with (inject_Z 49).
  rewrite !Hge, !Hle.
  repeat match goal with
         | |- context [(?a <=? ?b)] =>
             destruct (Z.leb_spec a b); cbn [andb length]; try lia
         end.
Qed.

(** Between two ranges, below 0 or above 100: in none. *)
Lemma rangesHolding_gap (q : Q) :
  (49 < q < 50 \/ 59 < q < 60 \/ 69 < q < 70 \/ 79 < q < 80 \/ 89 < q < 90
   \/ q < 0 \/ 100 < q)%Q ->
  Assigner.rangesHolding (Finite q) = 0%nat.
Proof.
  intros Hgap. unfold Assigner.rangesHolding, Assigner.ranges, js_ge.
  cbn [List.filter Assigner.min Assigner.max js_le].
  destruct Hgap as [H|[H|[H|[H|[H|[H|H]]]]]];
    repeat decide_test; cbn [andb length];
    repeat match goal with
           | |- context [Qle_bool ?a ?b] => destruct (Qle_bool a b)
           end; cbn [andb length]; reflexivity.
Qed.

(** The distribution of [getAssignmentStats] counts each score at most
    once, and exactly once when the scores are whole numbers from 0 to 100.
    The ranges have whole bounds (..., 80-89, 90-100), so a score between
    two of them, such as 89.5, is counted in none, as is a score below 0 or
    above 100. *)
Theorem scoreDistribution_counts assignment :
  let stats := Assigner.getAssignmentStats assignment in
  let counted := list_sum (map snd (Assigner.scoreDistribution stats)) in
  map fst (Assigner.scoreDistribution stats)
  = ["90-100"; "80-89"; "70-79"; "60-69"; "50-59"; "0-49"] /\
  (counted <= length (TeamAssignment.assignments assignment))%nat /\
  (Forall
     (fun assign =>
        exists z, Assignment.score assign = Finite (inject_Z z) /\ 0 <= z <= 100)
     (TeamAssignment.assignments assignment) ->
   counted = length (TeamAssignment.assignments assignment)) /\
  (Forall
     (fun assign =>
        exists q,
          Assignment.score assign = Finite q /\
          (49 < q < 50 \/ 59 < q < 60 \/ 69 < q < 70 \/ 79 < q < 80
           \/ 89 < q < 90 \/ q < 0 \/ 100 < q)%Q)
     (TeamAssignment.assignments assignment) ->
   counted = 0%nat).
Proof.
  cbv zeta. unfold Assigner.getAssignmentStats.
  cbn [Assigner.scoreDistribution]. split; [reflexivity|].
  rewrite scoreDistribution_total.
  induction (TeamAssignment.assignments assignment) as [|assign rest IH].
  - split; [reflexivity|]. split; reflexivity.
  - destruct IH as (Hle & Hwhole & Hgaps). unfold list_sum in *.
    cbn [map fold_right length].
    pose proof (rangesHolding_le (Assignment.score assign)) as Hone.
    split; [lia|]. split.
    + intros Hall. apply Forall_cons in Hall as [(z & -> & Hz) Hall].
      rewrite (rangesHolding_whole z Hz), (Hwhole Hall). reflexivity.
    + intros Hall. apply Forall_cons in Hall as [(q & -> & Hq) Hall].
      rewrite (rangesHolding_gap q Hq), (Hgaps Hall). reflexivity.
Qed.

(** *** On the examples *)

Example validateAssignment_example :
  Assigner.validateAssignment (fun _ => "?") Examples.team Examples.roles
    Examples.assignment = (true, []) /\
  Assigner.validateAssignment (fun _ => "?") Examples.team Examples.roles
    (TeamAssignment.mk "team-2"
       (Assignment.mk "applicant-0" "role-0" NaN None
        :: Assignment.mk "applicant-0" "role-x" (Finite 101) None
        :: drop 2 (TeamAssignment.assignments Examples.assignment))
       (Finite 1000) 7 false)
  = (false,
     ["Assignment team ID does not match provided team";
      "Duplicate applicant assignments found";
      "Role role-x not found in roles list";
      "Invalid score ? for assignment applicant-0 -> role-x"]).
Proof. split; vm_compute; reflexivity. Qed.

Lemma assignRoles_result_validates_witness :
  Assigner.validateAssignment (fun _ => "?") Examples.team Examples.roles
    Examples.assignment = (true, []) /\
  exists details,
    AssignmentDetail.getAssignmentDetails Examples.team Examples.roles
      Examples.assignment = Success details /\
    length details = 10%nat.
Proof.
  apply (assignRoles_result_validates Examples.diagonalSolver 7 Examples.team
           Examples.roles Examples.scoreMatrix Examples.assignment
           (fun _ => "?")).
  - exact identityFavoring_valid.
  - vm_compute. reflexivity.
Defined.

Lemma getAssignmentDetails_sorted_witness :
  exists details,
    AssignmentDetail.getAssignmentDetails Examples.team Examples.roles
      Scenarios.ranked = Success details /\
    map AssignmentDetail.score details
    = map Finite [100; 90; 179 # 2; 80; 70; 60; 55; 50; 49; 0]%Q /\
    StronglySorted
      (fun d1 d2 =>
         js_ge (AssignmentDetail.score d1) (AssignmentDetail.score d2) = true)
      details.
Proof.
  eexists. split; [vm_compute; reflexivity|]. split; [vm_compute; reflexivity|].
  apply (proj1 (getAssignmentDetails_sorted Examples.team Examples.roles
                  Scenarios.ranked
                  ltac:(repeat constructor; eexists; reflexivity))).
  vm_compute. reflexivity.
Defined.

(** The statistics of the ranked assignment: 89.5 is in no range, so the
    distribution counts nine of the ten scores. *)
Example getAssignmentStats_example :
  let stats := Assigner.getAssignmentStats Scenarios.ranked in
  Assigner.minScore stats = Finite 0 /\
  Assigner.maxScore stats = Finite 100 /\
  Assigner.scoreDistribution stats
  = [("90-100", 2%nat); ("80-89", 1%nat); ("70-79", 1%nat); ("60-69", 1%nat);
     ("50-59", 2%nat); ("0-49", 2%nat)] /\
  Assigner.averageScore stats = Finite (1287 # 20).
Proof. repeat split; vm_compute; reflexivity. Qed.

(** With no pairing the average is [0 / 0]. *)
Example getAssignmentStats_empty :
  Assigner.getAssignmentStats (TeamAssignment.mk "team-1" [] (Finite 0) 7 false)
  = Assigner.mkStats (Finite 0) NaN PosInfinity NegInfinity
      [("90-100", 0%nat); ("80-89", 0%nat); ("70-79", 0%nat); ("60-69", 0%nat);
       ("50-59", 0%nat); ("0-49", 0%nat)].
Proof. vm_compute. reflexivity. Qed.

(** ** The batches *)

Lemma slice_take_drop {A} (items : list A) (i size : Z) :
  0 <= i -> 0 < size ->
  JS.slice items i (i + size)
  = take (Z.to_nat size) (drop (Z.to_nat i) items).
Proof.
  intros Hi Hsize. unfold JS.slice.
  assert ((i <? 0) = false) as -> by lia.
  assert ((i + size <? 0) = false) as -> by lia.
  destruct (Z.le_gt_cases i (Z.of_nat (length items))) as [Hin|Hout].
  - rewrite (Z.min_l i) by lia.
    destruct (Z.le_gt_cases (i + size) (Z.of_nat (length items)))
      as [Hfull|Hshort].
    + rewrite Z.min_l by lia. f_equal. lia.
    + rewrite Z.min_r by lia.
      transitivity (drop (Z.to_nat i) items);
        [apply take_ge|symmetry; apply take_ge]; rewrite length_drop; lia.
  - rewrite !Z.min_r by lia. rewrite Z.sub_diag.
    rewrite !drop_ge by lia. by rewrite !take_nil.
Qed.

Lemma chunksFrom_enough {T} (fuel fuel' n : nat) (items : list T) :
  (0 < n)%nat -> (length items <= fuel)%nat -> (length items <= fuel')%nat ->
  Batch.chunksFrom fuel n items = Batch.chunksFrom fuel' n items.
Proof.
  intros Hn. revert fuel' items.
  induction fuel as [|fuel IH]; intros fuel' items Hfuel Hfuel'.
  - destruct items; [|cbn in Hfuel; lia]. by destruct fuel'.
  - destruct items as [|x items]; [by destruct fuel'|].
    destruct fuel' as [|fuel']; [cbn in Hfuel'; lia|].
    cbn [Batch.chunksFrom]. f_equal.
    apply IH; rewrite length_drop; cbn [length] in *; lia.
Qed.

(** The loop of [createBatches] for a positive batch size. *)
Lemma createBatchesFrom_chunks {T} (fuel : nat) (items : list T)
    (batchSize i : Z) (batches : list (list T)) :
  0 < batchSize -> 0 <= i ->
  (length items - Z.to_nat i <= fuel)%nat ->
  Batch.createBatchesFrom fuel items batchSize i batches
  = Some (batches
          ++ Batch.chunks (Z.to_nat batchSize) (drop (Z.to_nat i) items)).
Proof.
  intros Hsize. revert i batches.
  induction fuel as [|fuel IH]; intros i batches Hi Hfuel.
  - cbn [Batch.createBatchesFrom].
    assert ((i <? Z.of_nat (length items)) = false) as -> by lia.
    cbn [negb]. rewrite drop_ge by lia. by rewrite app_nil_r.
  - cbn [Batch.createBatchesFrom].
    destruct (Z.ltb_spec i (Z.of_nat (length items))) as [Hin|Hout];
      cbn [negb].
    + rewrite IH by lia. rewrite slice_take_drop by lia.
      rewrite <- app_assoc. f_equal. f_equal. cbn [app].
      unfold Batch.chunks.
      destruct (drop (Z.to_nat i) items) as [|x rest] eqn:Hdrop.
      { apply (f_equal length) in Hdrop. rewrite length_drop in Hdrop.
        cbn in Hdrop. lia. }
      cbn [length Batch.chunksFrom]. f_equal.
      rewrite <- Hdrop, drop_drop.
      replace (Z.to_nat (i + batchSize))
        with (Z.to_nat i + Z.to_nat batchSize)%nat by lia.
      apply chunksFrom_enough; [lia|lia|].
      rewrite length_drop.
      apply (f_equal length) in Hdrop. rewrite length_drop in Hdrop.
      cbn [length] in Hdrop. lia.
    + rewrite drop_ge by lia. by rewrite app_nil_r.
Qed.

Lemma chunksFrom_spec {T} (fuel n : nat) (items : list T) :
  (0 < n)%nat -> (length items <= fuel)%nat ->
  concat (Batch.chunksFrom fuel n items) = items /\
  Forall (fun batch => (0 < length batch <= n)%nat)
    (Batch.chunksFrom fuel n items) /\
  (forall j batch,
     Batch.chunksFrom fuel n items !! j = Some batch ->
     (S j < length (Batch.chunksFrom fuel n items))%nat ->
     length batch = n).
Proof.
  intros Hn. revert items.
  induction fuel as [|fuel IH]; intros items Hfuel.
  - destruct items; [|cbn in Hfuel; lia]. cbn. split; [reflexivity|].
    split; [constructor|]. intros j batch Hj. discriminate Hj.
  - destruct items as [|x items].
    { cbn. split; [reflexivity|]. split; [constructor|].
      intros j batch Hj. discriminate Hj. }
    cbn [Batch.chunksFrom].
    destruct (IH (drop n (x :: items))) as (Hconcat & Hall & Hfull).
    { rewrite length_drop. cbn [length] in *. lia. }
    split; [|split].
    + cbn [concat]. rewrite Hconcat. apply take_drop.
    + constructor; [|exact Hall]. rewrite length_take. cbn [length]. lia.
    + intros [|j] batch Hj Hlast.
      * cbn in Hj. inversion Hj; subst batch. rewrite length_take.
        destruct (Batch.chunksFrom fuel n (drop n (x :: items))) as [|b bs]
          eqn:Hrest; [cbn in Hlast; lia|].
        destruct (decide (n <= length (x :: items))%nat) as [Hle|Hgt]; [lia|].
        exfalso. rewrite drop_ge in Hrest by lia. by destruct fuel.
      * cbn [lookup list_lookup] in Hj. apply (Hfull j batch Hj).
        cbn [length] in Hlast. lia.
Qed.

(** [createBatches] for a batch size of at least one: the loop ends, within
    as many iterations as there are items, and its batches are the items in
    order, cut into runs of [batchSize]; none is empty and all but the last
    are full. *)
Theorem createBatches_chunks {T} (items : list T) (batchSize : Z) :
  0 < batchSize ->
  exists batches,
    (forall fuel, (length items <= fuel)%nat ->
       Batch.createBatchesFrom fuel items batchSize 0 [] = Some batches) /\
    Batch.createBatches items batchSize = Some batches /\
    concat batches = items /\
    Forall (fun batch => 0 < Z.of_nat (length batch) <= batchSize) batches /\
    (forall j batch,
       batches !! j = Some batch -> (S j < length batches)%nat ->
       Z.of_nat (length batch) = batchSize).
Proof.
  intros Hsize. exists (Batch.chunks (Z.to_nat batchSize) items).
  assert (forall fuel, (length items <= fuel)%nat ->
            Batch.createBatchesFrom fuel items batchSize 0 []
            = Some (Batch.chunks (Z.to_nat batchSize) items)) as Hloop.
  { intros fuel Hfuel.
    rewrite createBatchesFrom_chunks by (cbn [Z.to_nat]; lia).
    reflexivity. }
  split; [exact Hloop|]. split; [by apply Hloop|].
  destruct (chunksFrom_spec (length items) (Z.to_nat batchSize) items)
    as (Hconcat & Hall & Hfull); [lia|lia|].
  split; [exact Hconcat|]. split.
  - eapply Forall_impl; [exact Hall|]. intros batch Hbatch. cbv beta in *. lia.
  - intros j batch Hj Hlast. rewrite (Hfull j batch Hj Hlast). lia.
Qed.

Lemma createBatches_never_ends_loop {T} (items : list T) (batchSize : Z) :
  batchSize <= 0 -> items <> [] ->
  forall fuel i batches, i <= 0 ->
    Batch.createBatchesFrom fuel items batchSize i batches = None.
Proof.
  intros Hsize Hitems fuel.
  assert (0 < Z.of_nat (length items)) as Hlen
    by (destruct items; [done|cbn [length]; lia]).
  induction fuel as [|fuel IH]; intros i batches Hi;
    cbn [Batch.createBatchesFrom];
    (assert ((i <? Z.of_nat (length items)) = true) as -> by lia); cbn [negb].
  - reflexivity.
  - apply IH. lia.
Qed.

(** [createBatches] for a batch size of zero or less: as soon as there is an
    item the loop never ends, because its index never reaches the length
    of the array; no number of iterations is enough. The batch functions
    pass [maxConcurrency] on as the batch size without a check. *)
Theorem createBatches_never_ends {T} (items : list T) (batchSize : Z) :
  batchSize <= 0 -> items <> [] ->
  (forall fuel, Batch.createBatchesFrom fuel items batchSize 0 [] = None) /\
  Batch.createBatches items batchSize = None.
Proof.
  intros Hsize Hitems.
  assert (forall fuel,
            Batch.createBatchesFrom fuel items batchSize 0 [] = None) as Hloop.
  { intros fuel. by apply createBatches_never_ends_loop. }
  split; [exact Hloop|apply Hloop].
Qed.

(** *** The pass over the failed results *)

Lemma findIndex_lookup {A} (test : A -> bool) (items : list A) (k : nat) :
  JS.findIndex test items = Some k ->
  exists item, items !! k = Some item /\ test item = true.
Proof.
  revert k. induction items as [|item rest IH]; intros k; cbn [JS.findIndex];
    [discriminate|].
  destruct (test item) eqn:Htest.
  - intros H. inversion H; subst k. by exists item.
  - destruct (JS.findIndex test rest) as [k'|]; [|discriminate].
    intros H. inversion H; subst k. by apply IH.
Qed.

(** A retry that keeps the team id keeps the team ids of the results. *)
Lemma applyRetries_teamIds {A} (allResults failedResults retryResults
    : list (Batch.Result A)) :
  Forall (fun retried => Batch.teamId retried.2 = Batch.teamId retried.1)
    (zip failedResults retryResults) ->
  map Batch.teamId
    (Batch.applyRetries allResults failedResults retryResults)
  = map Batch.teamId allResults /\
  length (Batch.applyRetries allResults failedResults retryResults)
  = length allResults.
Proof.
  unfold Batch.applyRetries. revert allResults.
  induction (zip failedResults retryResults) as [|retried updates IH];
    intros allResults Hids; [done|].
  apply Forall_cons in Hids as [Hid Hids]. cbn [foldl].
  destruct (IH
              match JS.findIndex
                      (fun r => String.eqb (Batch.teamId r)
                                  (Batch.teamId retried.1)) allResults with
              | Some originalIndex => <[originalIndex:=retried.2]> allResults
              | None => allResults
              end Hids) as [-> ->].
  destruct (JS.findIndex _ allResults) as [k|] eqn:Hfound; [|done].
  rewrite length_insert. split; [|reflexivity].
  destruct (findIndex_lookup _ _ _ Hfound) as (r & Hr & Hsame).
  apply String.eqb_eq in Hsame.
  rewrite list_fmap_insert. apply list_insert_id.
  rewrite list_lookup_fmap, Hr. cbn. congruence.
Qed.

(** Updates for other teams leave the first result alone. *)
Lemma applyRetries_head {A} (r : Batch.Result A)
    (rest : list (Batch.Result A))
    (updates : list (Batch.Result A * Batch.Result A)) :
  Forall (fun retried => Batch.teamId retried.1 <> Batch.teamId r) updates ->
  Forall (fun retried => Batch.teamId retried.2 = Batch.teamId retried.1)
    updates ->
  foldl
    (fun allResults retried =>
       match JS.findIndex
               (fun r => String.eqb (Batch.teamId r) (Batch.teamId retried.1))
               allResults with
       | Some originalIndex => <[originalIndex:=retried.2]> allResults
       | None => allResults
       end)
    (r :: rest) updates
  = r :: foldl
           (fun allResults retried =>
              match JS.findIndex
                      (fun r => String.eqb (Batch.teamId r)
                                  (Batch.teamId retried.1))
                      allResults with
              | Some originalIndex => <[originalIndex:=retried.2]> allResults
              | None => allResults
              end)
           rest updates.
Proof.
  revert rest. induction updates as [|retried updates IH]; intros rest Hne Hid;
    [reflexivity|].
  apply Forall_cons in Hne as [Hne0 Hne]. apply Forall_cons in Hid as [_ Hid].
  cbn [foldl JS.findIndex].
  destruct (String.eqb_spec (Batch.teamId r) (Batch.teamId retried.1));
    [congruence|].
  destruct (JS.findIndex _ rest) as [k|]; cbn [fmap option_fmap option_map].
  - by rewrite <- IH.
  - by rewrite <- IH.
Qed.

Lemma applyRetries_retriedBy {A} (retry : nat -> Batch.Result A -> Batch.Result A)
    (allResults : list (Batch.Result A)) :
  NoDup (map Batch.teamId allResults) ->
  (forall f r, Batch.teamId (retry f r) = Batch.teamId r) ->
  Batch.applyRetries allResults
    (List.filter (fun r => negb (Batch.succeeded r)) allResults)
    (imap retry (List.filter (fun r => negb (Batch.succeeded r)) allResults))
  = Batch.retriedBy retry allResults.
Proof.
  unfold Batch.applyRetries. revert retry.
  induction allResults as [|r rest IH]; intros retry Hnodup Hid;
    [reflexivity|].
  cbn [map] in Hnodup. apply NoDup_cons in Hnodup as [Hr Hnodup].
  assert (forall (g : nat -> Batch.Result A -> Batch.Result A),
            (forall f r, Batch.teamId (g f r) = Batch.teamId r) ->
            Forall
              (fun retried => Batch.teamId retried.1 <> Batch.teamId r)
              (zip (List.filter (fun r => negb (Batch.succeeded r)) rest)
                 (imap g (List.filter (fun r => negb (Batch.succeeded r)) rest)))
            /\
            Forall
              (fun retried => Batch.teamId retried.2 = Batch.teamId retried.1)
              (zip (List.filter (fun r => negb (Batch.succeeded r)) rest)
                 (imap g (List.filter (fun r => negb (Batch.succeeded r)) rest))))
    as Hothers.
  { intros g Hg. split; apply Forall_forall; intros [failed retried] Hin.
    - apply elem_of_zip_l in Hin. cbn [fst]. intros Hsame. apply Hr.
      rewrite <- Hsame. apply list_elem_of_fmap. exists failed.
      split; [reflexivity|].
      apply list_elem_of_In, filter_In in Hin as [Hin _].
      by apply list_elem_of_In.
    - apply list_elem_of_lookup in Hin as [f Hf].
      apply lookup_zip_Some in Hf as [Hfailed Hretried]. cbn [fst snd] in *.
      rewrite list_lookup_imap, Hfailed in Hretried. cbn in Hretried.
      inversion Hretried. apply Hg. }
  cbn [List.filter Batch.retriedBy].
  destruct (Batch.succeeded r) eqn:Hsucceeded; cbn [negb].
  - destruct (Hothers retry Hid) as [Hne Hsame].
    rewrite applyRetries_head by assumption. f_equal. by apply IH.
  - rewrite imap_cons. cbn [zip zip_with foldl JS.findIndex fst snd].
    rewrite String.eqb_refl. cbn [insert list_insert].
    destruct (Hothers (retry ∘ S)) as [Hne Hsame];
      [intros f r'; apply Hid|].
    rewrite applyRetries_head.
    + f_equal. apply (IH (fun f => retry (S f))); [exact Hnodup|].
      intros f r'. apply Hid.
    + eapply Forall_impl; [exact Hne|]. intros retried Hretried.
      by rewrite Hid.
    + exact Hsame.
Qed.

(** The [k]-th result after the pass: the first result when it succeeded,
    and otherwise the retry numbered by the failed results before it. *)
Lemma retriedBy_lookup {A} (retry : nat -> Batch.Result A -> Batch.Result A)
    (allResults : list (Batch.Result A)) (k : nat) :
  Batch.retriedBy retry allResults !! k
  = (fun r =>
       if Batch.succeeded r then r
       else retry
              (length
                 (List.filter (fun r => negb (Batch.succeeded r))
                    (take k allResults)))
              r)
    <$> allResults !! k.
Proof.
  revert retry k. induction allResults as [|r rest IH]; intros retry k;
    [reflexivity|].
  cbn [Batch.retriedBy].
  destruct k as [|k].
  - cbn. by destruct (Batch.succeeded r).
  - cbn [take List.filter].
    destruct (Batch.succeeded r); cbn [negb lookup list_lookup length];
      by rewrite IH.
Qed.

(** *** The batch of score matrices *)

(** The first pass, batch by batch, is the pass over the teams one by one:
    the roles of a unit are never missing, and the unit at position [k]
    meets the team and the roles at position [k]. *)
Lemma scoreBatches_chunks oracle clock (fuel n : nat) (teams : list Team.t)
    (rolesArray rolesDone allResults : list _) :
  (0 < n)%nat -> length teams = length rolesArray ->
  (length teams <= fuel)%nat ->
  Scorer.scoreBatches oracle clock (Batch.chunksFrom fuel n teams)
    (rolesDone ++ Batch.chunksFrom fuel n rolesArray) (length rolesDone)
    allResults
  = allResults
    ++ imap
         (fun k team =>
            Scorer.scoreUnit (oracle (length allResults + k)%nat)
              (clock (length allResults + k)%nat) team (rolesArray !! k))
         teams.
Proof.
  intros Hn. revert teams rolesArray rolesDone allResults.
  induction fuel as [|fuel IH];
    intros teams rolesArray rolesDone allResults Hlen Hfuel.
  - destruct teams; [|cbn in Hfuel; lia]. cbn. by rewrite app_nil_r.
  - destruct teams as [|team teams].
    { cbn. by rewrite app_nil_r. }
    destruct rolesArray as [|roles rolesArray]; [discriminate Hlen|].
    cbn [Batch.chunksFrom Scorer.scoreBatches].
    rewrite list_lookup_middle by reflexivity. cbn [default].
    replace (rolesDone
             ++ take n (roles :: rolesArray)
                :: Batch.chunksFrom fuel n (drop n (roles :: rolesArray)))
      with ((rolesDone ++ [take n (roles :: rolesArray)])
            ++ Batch.chunksFrom fuel n (drop n (roles :: rolesArray)))
      by (by rewrite <- app_assoc).
    replace (S (length rolesDone))
      with (length (rolesDone ++ [take n (roles :: rolesArray)]))
      by (rewrite length_app; cbn; lia).
    rewrite IH.
    + rewrite <- app_assoc. f_equal.
      rewrite <- (take_drop n (team :: teams)) at 3.
      rewrite imap_app. f_equal.
      * apply imap_ext. intros index t Ht. cbv beta.
        apply lookup_lt_Some in Ht as Hindex. rewrite length_take in Hindex.
        unfold id. rewrite lookup_take_lt by lia. reflexivity.
      * apply imap_ext. intros k t Ht. cbv beta.
        rewrite length_app, length_imap, lookup_drop.
        apply lookup_lt_Some in Ht as Hk. rewrite length_drop in Hk.
        rewrite !length_take.
        replace (n `min` length (team :: teams))%nat with n by lia.
        by rewrite Nat.add_assoc.
    + rewrite !length_drop. by rewrite Hlen.
    + rewrite length_drop. cbn [length] in *. lia.
Qed.

Lemma find_by_id (teams : list Team.t) (k : nat) (team : Team.t) :
  NoDup (map Team.id teams) -> teams !! k = Some team ->
  find (fun t => String.eqb (Team.id t) (Team.id team)) teams = Some team /\
  JS.findIndex (fun t => String.eqb (Team.id t) (Team.id team)) teams = Some k.
Proof.
  revert k. induction teams as [|t teams IH]; intros k Hnodup Hk;
    [discriminate|].
  cbn [map] in Hnodup. apply NoDup_cons in Hnodup as [Ht Hnodup].
  cbn [find JS.findIndex]. destruct k as [|k].
  - cbn in Hk. inversion Hk; subst t. by rewrite String.eqb_refl.
  - cbn in Hk. destruct (String.eqb_spec (Team.id t) (Team.id team)) as [Heq|_].
    + exfalso. apply Ht. rewrite Heq. apply list_elem_of_fmap.
      exists team. split; [reflexivity|by eapply list_elem_of_lookup_2].
    + destruct (IH k Hnodup Hk) as [-> ->]. by split.
Qed.

Lemma find_some_id (teams : list Team.t) (wanted : string) (team : Team.t) :
  find (fun t => String.eqb (Team.id t) wanted) teams = Some team ->
  Team.id team = wanted.
Proof.
  intros H. apply find_some in H as [_ H]. by apply String.eqb_eq.
Qed.

Lemma retryUnit_teamId teams rolesArray retryOracle retryClock f r :
  Batch.teamId (Scorer.retryUnit teams rolesArray retryOracle retryClock f r)
  = Batch.teamId r.
Proof.
  unfold Scorer.retryUnit.
  destruct (find _ teams) as [team|] eqn:Hteam; [|reflexivity].
  destruct (JS.findIndex _ teams); [|reflexivity].
  cbn [Scorer.scoreUnit Batch.teamId]. by eapply find_some_id.
Qed.

Lemma firstPass_teamIds oracle clock teams rolesArray :
  map Batch.teamId (Scorer.firstPass oracle clock teams rolesArray)
  = map Team.id teams.
Proof.
  unfold Scorer.firstPass. apply list_eq. intros k.
  rewrite !list_lookup_fmap, list_lookup_imap.
  by destruct (teams !! k).
Qed.

(** The batch function for arrays of one length and a batch size of at
    least one: the first pass, then the pass over the failed results. *)
Lemma generateScoreMatricesBatch_unfold teams rolesArray maxConcurrency
    retryFailedRequests oracle clock retryOracle retryClock :
  length teams = length rolesArray ->
  0 < default 10 maxConcurrency ->
  let first := Scorer.firstPass oracle clock teams rolesArray in
  Scorer.generateScoreMatricesBatch teams rolesArray maxConcurrency
    retryFailedRequests oracle clock retryOracle retryClock
  = Some
      (Batch.summarize
         (if default true retryFailedRequests then
            Batch.applyRetries first
              (List.filter (fun r => negb (Batch.succeeded r)) first)
              (imap (Scorer.retryUnit teams rolesArray retryOracle retryClock)
                 (List.filter (fun r => negb (Batch.succeeded r)) first))
          else first)).
Proof.
  intros Hlen Hsize. cbv zeta.
  unfold Scorer.generateScoreMatricesBatch.
  rewrite Hlen, Nat.eqb_refl. cbn [negb].
  unfold Batch.createBatches.
  rewrite !createBatchesFrom_chunks by (cbn [Z.to_nat]; lia).
  change (Z.to_nat 0) with 0%nat. rewrite !drop_0. cbn [app].
  unfold Batch.chunks.
  pose proof (scoreBatches_chunks oracle clock (length teams)
                (Z.to_nat (default 10 maxConcurrency)) teams rolesArray [] [])
    as Hfirst.
  cbn [app length Nat.add] in Hfirst. rewrite <- Hlen.
  rewrite Hfirst by lia. reflexivity.
Qed.

(** [generateScoreMatricesBatch], whatever the oracle answers. Arrays of
    different lengths give an empty failure. With [maxConcurrency] of at
    least one (or left out, which makes it 10) the call returns one result
    for each team, in the order of the teams and under the team's id, and a
    summary that counts them: [total] is the number of teams, [successful]
    the number of results that succeeded, [failed] the rest, and [success]
    says that some unit succeeded. With [maxConcurrency] of zero or less and
    at least one team the call does not return. *)
Theorem generateScoreMatricesBatch_results teams rolesArray maxConcurrency
    retryFailedRequests oracle clock retryOracle retryClock :
  let result :=
    Scorer.generateScoreMatricesBatch teams rolesArray maxConcurrency
      retryFailedRequests oracle clock retryOracle retryClock in
  (length teams <> length rolesArray ->
   result = Some (Batch.mk false [] (Batch.mkSummary 0 0 0))) /\
  (length teams = length rolesArray -> 0 < default 10 maxConcurrency ->
   exists batch,
     result = Some batch /\
     map Batch.teamId (Batch.results batch) = map Team.id teams /\
     Batch.total (Batch.summary batch) = length teams /\
     Batch.successful (Batch.summary batch)
     = length (List.filter Batch.succeeded (Batch.results batch)) /\
     (Batch.successful (Batch.summary batch)
      + Batch.failed (Batch.summary batch)
      = Batch.total (Batch.summary batch))%nat /\
     (Batch.success batch = true <->
      exists r, r ∈ Batch.results batch /\ Batch.succeeded r = true)) /\
  (length teams = length rolesArray -> default 10 maxConcurrency <= 0 ->
   teams <> [] -> result = None).
Proof.
  cbv zeta. split; [|split].
  - intros Hlen. unfold Scorer.generateScoreMatricesBatch.
    apply Nat.eqb_neq in Hlen. by rewrite Hlen.
  - intros Hlen Hsize.
    rewrite (generateScoreMatricesBatch_unfold teams rolesArray
               maxConcurrency retryFailedRequests oracle clock retryOracle
               retryClock Hlen Hsize).
    set (first := Scorer.firstPass oracle clock teams rolesArray).
    pose proof (firstPass_teamIds oracle clock teams rolesArray) as Hfirst.
    fold first in Hfirst.
    eexists. split; [reflexivity|].
    set (final := if default true retryFailedRequests then _ else first).
    assert (map Batch.teamId final = map Team.id teams) as Hids.
    { unfold final. destruct (default true retryFailedRequests);
        [|exact Hfirst].
      destruct (applyRetries_teamIds first
                  (List.filter (fun r => negb (Batch.succeeded r)) first)
                  (imap
                     (Scorer.retryUnit teams rolesArray retryOracle retryClock)
                     (List.filter (fun r => negb (Batch.succeeded r)) first)))
        as [-> _]; [|exact Hfirst].
      apply Forall_forall. intros [failed retried] Hin.
      apply list_elem_of_lookup in Hin as [f Hf].
      apply lookup_zip_with_Some in Hf as (x & y & Heq & Hfailed & Hretried).
      inversion Heq; subst x y. cbn [fst snd].
      rewrite list_lookup_imap, Hfailed in Hretried. cbn in Hretried.
      inversion Hretried. apply retryUnit_teamId. }
    assert (length final = length teams) as Hlength.
    { apply (f_equal length) in Hids. by rewrite !length_map in Hids. }
    unfold Batch.summarize.
    cbn [Batch.results Batch.summary Batch.total Batch.successful
         Batch.failed Batch.success].
    split; [exact Hids|]. split; [exact Hlength|]. split; [reflexivity|].
    pose proof (filter_length_le Batch.succeeded final) as Hle.
    split; [lia|]. rewrite Nat.ltb_lt. split.
    + intros Hsome.
      destruct (List.filter Batch.succeeded final) as [|r rest] eqn:Hfilter;
        [cbn in Hsome; lia|].
      exists r. rewrite list_elem_of_In, <- filter_In, Hfilter. by left.
    + intros (r & Hin & Hsucceeded).
      assert (In r (List.filter Batch.succeeded final)) as Hr
        by (apply filter_In; split; [by apply list_elem_of_In|done]).
      destruct (List.filter Batch.succeeded final); [done|]. cbn. lia.
  - intros Hlen Hsize Hteams. unfold Scorer.generateScoreMatricesBatch.
    rewrite Hlen, Nat.eqb_refl. cbn [negb]. unfold Batch.createBatches.
    rewrite <- Hlen.
    by rewrite (createBatches_never_ends_loop teams _ Hsize Hteams).
Qed.

(** [generateScoreMatricesBatch] for teams of different ids, arrays of one
    length and [maxConcurrency] of at least one: the result at position [k]
    is the one of the first pass for the team and the roles at position [k]
    when that succeeded or the retries are switched off; otherwise it is the
    outcome of one more run for the same team and the same roles, whether
    that succeeds or not. A unit is never run a third time, and a unit that
    succeeded is never run again. *)
Theorem generateScoreMatricesBatch_result_at teams rolesArray maxConcurrency
    retryFailedRequests oracle clock retryOracle retryClock k team roles :
  NoDup (map Team.id teams) ->
  length teams = length rolesArray ->
  0 < default 10 maxConcurrency ->
  teams !! k = Some team -> rolesArray !! k = Some roles ->
  let first := Scorer.scoreUnit (oracle k) (clock k) team (Some roles) in
  let failedBefore :=
    length
      (List.filter (fun r => negb (Batch.succeeded r))
         (take k (Scorer.firstPass oracle clock teams rolesArray))) in
  exists batch,
    Scorer.generateScoreMatricesBatch teams rolesArray maxConcurrency
      retryFailedRequests oracle clock retryOracle retryClock
    = Some batch /\
    Batch.results batch !! k
    = Some
        (if Batch.succeeded first || negb (default true retryFailedRequests)
         then first
         else Scorer.scoreUnit (retryOracle failedBefore)
                (retryClock failedBefore) team (Some roles)).
Proof.
  intros Hnodup Hlen Hsize Hteam Hroles. cbv zeta.
  rewrite (generateScoreMatricesBatch_unfold teams rolesArray
             maxConcurrency retryFailedRequests oracle clock retryOracle
             retryClock Hlen Hsize).
  eexists. split; [reflexivity|].
  unfold Batch.summarize. cbn [Batch.results].
  assert (Scorer.firstPass oracle clock teams rolesArray !! k
          = Some (Scorer.scoreUnit (oracle k) (clock k) team (Some roles)))
    as Hfirst.
  { unfold Scorer.firstPass. rewrite list_lookup_imap, Hteam. cbn.
    by rewrite Hroles. }
  destruct (default true retryFailedRequests).
  - rewrite applyRetries_retriedBy.
    + rewrite retriedBy_lookup, Hfirst. cbn [fmap option_fmap option_map].
      rewrite orb_false_r.
      destruct (Batch.succeeded _) eqn:Hsucceeded; [reflexivity|].
      f_equal. unfold Scorer.retryUnit. cbn [Scorer.scoreUnit Batch.teamId].
      destruct (find_by_id teams k team Hnodup Hteam) as [-> ->].
      by rewrite Hroles.
    + by rewrite firstPass_teamIds.
    + intros f r. apply retryUnit_teamId.
  - rewrite orb_true_r. exact Hfirst.
Qed.

(** *** The batches on the examples *)

Lemma createBatches_chunks_witness :
  exists batches,
    (forall fuel, (length (seq 0 7) <= fuel)%nat ->
       Batch.createBatchesFrom fuel (seq 0 7) 3 0 [] = Some batches) /\
    Batch.createBatches (seq 0 7) 3 = Some batches /\
    concat batches = seq 0 7 /\
    Forall (fun batch => 0 < Z.of_nat (length batch) <= 3) batches /\
    (forall j batch,
       batches !! j = Some batch -> (S j < length batches)%nat ->
       Z.of_nat (length batch) = 3).
Proof. apply (createBatches_chunks (seq 0 7) 3). lia. Defined.

Example createBatches_example :
  Batch.createBatches (seq 0 7) 3
  = Some [[0; 1; 2]; [3; 4; 5]; [6]]%nat /\
  Batch.createBatches (seq 0 6) 3 = Some [[0; 1; 2]; [3; 4; 5]]%nat /\
  Batch.createBatches (seq 0 2) 10 = Some [[0; 1]]%nat /\
  Batch.createBatches (@nil nat) 0 = Some [].
Proof. repeat split. Qed.

Lemma createBatches_never_ends_witness :
  (forall fuel, Batch.createBatchesFrom fuel [Examples.team] 0 0 [] = None) /\
  Batch.createBatches [Examples.team] 0 = None.
Proof.
  apply (createBatches_never_ends [Examples.team] 0); [lia|discriminate].
Defined.

Example generateScoreMatricesBatch_example :
  Scorer.generateScoreMatricesBatch Scenarios.teams Scenarios.rolesArray
    (Some 2) None Scenarios.firstOracle Scenarios.firstClock
    Scenarios.secondOracle Scenarios.secondClock
  = Some
      (Batch.mk true
         [Batch.mkResult "team-1"
            (Success (ScoreMatrix.mk "team-1" Examples.identityFavoring 7));
          Batch.mkResult "team-2"
            (Success (ScoreMatrix.mk "team-2" Examples.identityFavoring 9));
          Batch.mkResult "team-3"
            (Success (ScoreMatrix.mk "team-3" Examples.identityFavoring 7))]
         (Batch.mkSummary 3 3 0)) /\
  Scorer.generateScoreMatricesBatch Scenarios.teams Scenarios.rolesArray
    (Some 2) (Some false) Scenarios.firstOracle Scenarios.firstClock
    Scenarios.secondOracle Scenarios.secondClock
  = Some
      (Batch.mk true
         [Batch.mkResult "team-1"
            (Success (ScoreMatrix.mk "team-1" Examples.identityFavoring 7));
          Batch.mkResult "team-2"
            (Failure
               "Scoring failed after 0 retries: Score matrix must be 10x10");
          Batch.mkResult "team-3"
            (Success (ScoreMatrix.mk "team-3" Examples.identityFavoring 7))]
         (Batch.mkSummary 3 2 1)) /\
  Scorer.generateScoreMatricesBatch Scenarios.teams
    (take 2 Scenarios.rolesArray) (Some 2) None Scenarios.firstOracle
    Scenarios.firstClock Scenarios.secondOracle Scenarios.secondClock
  = Some (Batch.mk false [] (Batch.mkSummary 0 0 0)) /\
  Scorer.generateScoreMatricesBatch Scenarios.teams Scenarios.rolesArray
    (Some 0) None Scenarios.firstOracle Scenarios.firstClock
    Scenarios.secondOracle Scenarios.secondClock
  = None.
Proof. repeat split; vm_compute; reflexivity. Qed.

Lemma generateScoreMatricesBatch_result_at_witness :
  exists batch,
    Scorer.generateScoreMatricesBatch Scenarios.teams Scenarios.rolesArray
      (Some 2) None Scenarios.firstOracle Scenarios.firstClock
      Scenarios.secondOracle Scenarios.secondClock
    = Some batch /\
    Batch.results batch !! 1%nat
    = Some
        (Batch.mkResult "team-2"
           (Success (ScoreMatrix.mk "team-2" Examples.identityFavoring 9))).
Proof.
  destruct (generateScoreMatricesBatch_result_at Scenarios.teams
              Scenarios.rolesArray (Some 2) None Scenarios.firstOracle
              Scenarios.firstClock Scenarios.secondOracle
              Scenarios.secondClock 1 (Scenarios.teamOf 2) Examples.roles)
    as (batch & Hbatch & Hresult).
  - apply (@bool_decide_unpack _ (NoDup_dec _)). vm_compute. reflexivity.
  - reflexivity.
  - cbn. lia.
  - reflexivity.
  - reflexivity.
  - exists batch. split; [exact Hbatch|].
    rewrite Hresult. vm_compute. reflexivity.
Defined.

(** ** The creation of a session *)

Lemma charAt_chars (index : nat) :
  (index < 36)%nat ->
  exists c,
    Sessions.charAt Sessions.chars index = String c EmptyString /\
    Sessions.codeChar c = true.
Proof.
  intros Hindex.
  do 36 (destruct index as [|index];
         [eexists; split; reflexivity|]).
  lia.
Qed.

Lemma drawCode_shape (draw : nat -> nat) :
  (forall i, (draw i < 36)%nat) ->
  String.length (Sessions.drawCode draw) = 6%nat /\
  forallb Sessions.codeChar (list_ascii_of_string (Sessions.drawCode draw))
  = true.
Proof.
  intros Hdraw. unfold Sessions.drawCode. cbn [seq foldl].
  destruct (charAt_chars (draw 0%nat) (Hdraw _)) as (c0 & -> & H0).
  destruct (charAt_chars (draw 1%nat) (Hdraw _)) as (c1 & -> & H1).
  destruct (charAt_chars (draw 2%nat) (Hdraw _)) as (c2 & -> & H2).
  destruct (charAt_chars (draw 3%nat) (Hdraw _)) as (c3 & -> & H3).
  destruct (charAt_chars (draw 4%nat) (Hdraw _)) as (c4 & -> & H4).
  destruct (charAt_chars (draw 5%nat) (Hdraw _)) as (c5 & -> & H5).
  change (String.length (String c0 (String c1 (String c2 (String c3
            (String c4 (String c5 EmptyString)))))) = 6%nat /\
          forallb Sessions.codeChar [c0; c1; c2; c3; c4; c5] = true).
  split; [reflexivity|]. cbn [forallb]. by rewrite H0, H1, H2, H3, H4, H5.
Qed.

Lemma generateSessionCode_from fuel draw codes (start free : nat) :
  (start <= free < start + fuel)%nat ->
  JSMap.get (Sessions.drawCode (draw free)) codes = None ->
  exists round,
    (start <= round <= free)%nat /\
    Sessions.generateSessionCode fuel draw start codes
    = Some (Sessions.drawCode (draw round)) /\
    JSMap.get (Sessions.drawCode (draw round)) codes = None.
Proof.
  revert start. induction fuel as [|fuel IH]; intros start Hfree Hnone;
    [lia|].
  cbn [Sessions.generateSessionCode].
  destruct (JSMap.get (Sessions.drawCode (draw start)) codes) eqn:Hstart.
  - destruct (decide (start = free)) as [->|Hne]; [congruence|].
    destruct (IH (S start)) as (round & Hround & Hcode & Hfresh);
      [lia|exact Hnone|].
    exists round. split; [lia|]. by split.
  - exists start. split; [lia|]. by split.
Qed.

Lemma generateSessionCode_taken fuel draw codes (start : nat) :
  (forall round, (start <= round < start + fuel)%nat ->
     is_Some (JSMap.get (Sessions.drawCode (draw round)) codes)) ->
  Sessions.generateSessionCode fuel draw start codes = None.
Proof.
  revert start. induction fuel as [|fuel IH]; intros start Htaken;
    [reflexivity|].
  cbn [Sessions.generateSessionCode].
  destruct (Htaken start) as [id ->]; [lia|].
  apply IH. intros round Hround. apply Htaken. lia.
Qed.

(** [generateSessionCode] with indices below 36, as
    [Math.floor(Math.random() * 36)] gives them: as soon as a round draws a
    code that is not in use the function returns, and what it returns has
    six characters, capital letters and digits, and is not in use. While
    every round draws a code in use it does not return. *)
Theorem generateSessionCode_fresh fuel draw codes :
  (forall round i, (draw round i < 36)%nat) ->
  ((exists round,
      (round < fuel)%nat /\
      JSMap.get (Sessions.drawCode (draw round)) codes = None) ->
   exists code,
     Sessions.generateSessionCode fuel draw 0 codes = Some code /\
     JSMap.get code codes = None /\
     String.length code = 6%nat /\
     forallb Sessions.codeChar (list_ascii_of_string code) = true) /\
  ((forall round, (round < fuel)%nat ->
      is_Some (JSMap.get (Sessions.drawCode (draw round)) codes)) ->
   Sessions.generateSessionCode fuel draw 0 codes = None).
Proof.
  intros Hdraw. split.
  - intros (free & Hfree & Hnone).
    destruct (generateSessionCode_from fuel draw codes 0 free)
      as (round & _ & Hcode & Hfresh); [lia|exact Hnone|].
    exists (Sessions.drawCode (draw round)).
    split; [exact Hcode|]. split; [exact Hfresh|].
    apply drawCode_shape. intros i. apply Hdraw.
  - intros Htaken. apply generateSessionCode_taken.
    intros round Hround. apply Htaken. lia.
Qed.

Lemma JSMap_set_fresh {V} (key : string) (value : V) (m : JSMap.t V) :
  JSMap.get key m = None -> JSMap.set key value m = m ++ [(key, value)].
Proof.
  induction m as [|[k v] m IH]; intros Hget; [reflexivity|].
  cbn [JSMap.get JSMap.set] in *.
  destruct (String.eqb k key); [discriminate|].
  cbn [app]. f_equal. by apply IH.
Qed.

Lemma JSMap_set_set {V} (key : string) (value value' : V) (m : JSMap.t V) :
  JSMap.set key value' (JSMap.set key value m) = JSMap.set key value' m.
Proof.
  induction m as [|[k v] m IH]; cbn [JSMap.set].
  - by rewrite String.eqb_refl.
  - destruct (String.eqb k key) eqn:Hk; cbn [JSMap.set].
    + by rewrite String.eqb_refl.
    + rewrite Hk. by f_equal.
Qed.

Lemma JSMap_set_same {V} (key : string) (value : V) (m : JSMap.t V) :
  JSMap.get key m = Some value -> JSMap.set key value m = m.
Proof.
  induction m as [|[k v] m IH]; intros Hget; [discriminate|].
  cbn [JSMap.get JSMap.set] in *.
  destruct (String.eqb_spec k key) as [->|Hne].
  - by inversion Hget.
  - f_equal. by apply IH.
Qed.

Lemma JSMap_get_app_fresh {V} (key : string) (m extra : JSMap.t V) :
  JSMap.get key m = None -> JSMap.get key (m ++ extra) = JSMap.get key extra.
Proof.
  induction m as [|[k v] m IH]; intros Hget; [reflexivity|].
  cbn [JSMap.get app] in *. destruct (String.eqb k key); [discriminate|].
  by apply IH.
Qed.

Lemma JSMap_get_app_found {V} (key : string) (value : V)
    (m extra : JSMap.t V) :
  JSMap.get key m = Some value -> JSMap.get key (m ++ extra) = Some value.
Proof.
  induction m as [|[k v] m IH]; intros Hget; [discriminate|].
  cbn [JSMap.get app] in *. destruct (String.eqb k key); [exact Hget|].
  by apply IH.
Qed.

(** The statistics of a session are read from the teams and the assignment
    sessions only. *)
Lemma getSessionStats_store st st' sessionId now :
  Store.teams st' = Store.teams st ->
  Store.sessions st' = Store.sessions st ->
  TeamManager.getSessionStats st' sessionId now
  = TeamManager.getSessionStats st sessionId now.
Proof.
  intros Hteams Hsessions.
  unfold TeamManager.getSessionStats, TeamManager.getTeamsForSession,
    TeamManager.getLatestSessionForTeam.
  by rewrite Hteams, Hsessions.
Qed.

Lemma withStats_stats session :
  Session.withStats session (Session.stats session) = session.
Proof. by destruct session. Qed.

Lemma teamsCreated_cons uuid now sessionId i count :
  Sessions.teamsCreated uuid now sessionId i (S count)
  = Team.mk (uuid i) ("Team " +:+ pretty i) [] (now (2 * i)%nat) false
      sessionId
    :: Sessions.teamsCreated uuid now sessionId (S i) count.
Proof. reflexivity. Qed.

(** The loop that creates the teams of a session, for an active session and
    ids that are new. *)
Lemma createTeamsFrom_spec uuid now sessionId count :
  forall i st session,
    JSMap.get sessionId (Store.groups st) = Some session ->
    Session.status session = active ->
    NoDup (map uuid (seq i count)) ->
    (forall j, (i <= j < i + count)%nat ->
       JSMap.get (uuid j) (Store.teams st) = None) ->
    let st' := Sessions.createTeamsFrom uuid now st sessionId i count in
    Store.teams st'
    = Store.teams st
      ++ map (fun team => (Team.id team, team))
           (Sessions.teamsCreated uuid now sessionId i count) /\
    Store.sessions st' = Store.sessions st /\
    exists stats,
      Store.groups st'
      = JSMap.set sessionId (Session.withStats session stats)
          (Store.groups st) /\
      (count = 0%nat -> stats = Session.stats session) /\
      (count <> 0%nat ->
       stats
       = TeamManager.getSessionStats st' sessionId
           (now (2 * (i + count - 1) + 1)%nat)).
Proof.
  induction count as [|count IH]; intros i st session Hget Hactive Hnodup
    Hfresh; cbv zeta.
  - cbn [Sessions.createTeamsFrom Sessions.teamsCreated seq map].
    rewrite app_nil_r. split; [reflexivity|]. split; [reflexivity|].
    exists (Session.stats session).
    rewrite withStats_stats, JSMap_set_same by exact Hget. by split.
  - cbn [Sessions.createTeamsFrom].
    set (team := Team.mk (uuid i) ("Team " +:+ pretty i) [] (now (2 * i)%nat)
                   false sessionId).
    set (st0 := Store.withTeams st
                  (JSMap.set (uuid i) team (Store.teams st))).
    assert ((TeamManager.createTeam (uuid i) (now (2 * i)%nat)
               (now (2 * i + 1)%nat) st ("Team " +:+ pretty i) sessionId).1
            = Store.withGroups st0
                (JSMap.set sessionId
                   (Session.withStats session
                      (TeamManager.getSessionStats st0 sessionId
                         (now (2 * i + 1)%nat)))
                   (Store.groups st))) as ->.
    { unfold TeamManager.createTeam,
        TeamManager.SessionManager.validateActiveSession.
      rewrite Hget, Hactive. cbn [fst Team.id].
      unfold TeamManager.SessionManager.updateSessionStats.
      cbn [Store.groups Store.withTeams]. rewrite Hget. reflexivity. }
    set (stats1 := TeamManager.getSessionStats st0 sessionId
                     (now (2 * i + 1)%nat)).
    set (st1 := Store.withGroups st0 _).
    cbn [seq map] in Hnodup. apply NoDup_cons in Hnodup as [Hi Hnodup].
    destruct (IH (S i) st1 (Session.withStats session stats1))
      as (Hteams & Hsessions & stats & Hgroups & _ & Hstats).
    + unfold st1. cbn [Store.groups Store.withGroups].
      apply JSMap_get_set_eq.
    + by destruct session.
    + exact Hnodup.
    + intros j Hj. unfold st1, st0.
      cbn [Store.teams Store.withGroups Store.withTeams].
      rewrite JSMap_get_set_ne.
      * apply Hfresh. lia.
      * intros Heq. apply Hi. rewrite Heq. apply list_elem_of_fmap.
        exists j. split; [reflexivity|]. apply elem_of_seq. lia.
    + cbv zeta in Hteams, Hsessions, Hgroups, Hstats.
      split; [|split].
      * rewrite Hteams. unfold st1, st0.
        cbn [Store.teams Store.withGroups Store.withTeams].
        rewrite JSMap_set_fresh by (apply Hfresh; lia).
        rewrite teamsCreated_cons. cbn [map]. by rewrite <- app_assoc.
      * rewrite Hsessions. reflexivity.
      * destruct count as [|count].
        -- exists stats1. split; [|split; [discriminate|]].
           ++ cbn [Sessions.createTeamsFrom]. reflexivity.
           ++ intros _. cbn [Sessions.createTeamsFrom]. unfold stats1.
              replace (2 * (i + 1 - 1) + 1)%nat with (2 * i + 1)%nat by lia.
              symmetry. by apply getSessionStats_store.
        -- exists stats. split; [|split; [discriminate|]].
           ++ rewrite Hgroups. unfold st1.
              cbn [Store.groups Store.withGroups].
              rewrite JSMap_set_set. by destruct session.
           ++ intros _. rewrite Hstats by discriminate.
              f_equal. f_equal. lia.
Qed.

Lemma getTeamsForSession_created st teams uuid now sessionId i count :
  Forall (fun team => Team.sessionId team <> sessionId) (JSMap.values teams) ->
  Store.teams st
  = teams
    ++ map (fun team => (Team.id team, team))
         (Sessions.teamsCreated uuid now sessionId i count) ->
  TeamManager.getTeamsForSession st sessionId
  = Sessions.teamsCreated uuid now sessionId i count.
Proof.
  intros Hold Hteams. unfold TeamManager.getTeamsForSession, JSMap.values.
  rewrite Hteams.
  rewrite map_app, List.filter_app, map_map. cbn [snd]. rewrite map_id.
  replace (List.filter _ (map snd teams)) with (@nil Team.t).
  - cbn [app]. apply forallb_filter_id. apply forallb_forall.
    intros team Hin. unfold Sessions.teamsCreated in Hin.
    apply in_map_iff in Hin as (j & <- & _). cbn [Team.sessionId].
    apply String.eqb_refl.
  - symmetry. unfold JSMap.values in Hold.
    induction Hold as [|team rest Hteam _ IH]; [reflexivity|].
    cbn [List.filter]. apply String.eqb_neq in Hteam. by rewrite Hteam.
Qed.

Lemma getSessionStats_created st uuid now sessionId i count time :
  TeamManager.getTeamsForSession st sessionId
  = Sessions.teamsCreated uuid now sessionId i count ->
  SessionStats.totalTeams (TeamManager.getSessionStats st sessionId time)
  = count /\
  SessionStats.completeTeams (TeamManager.getSessionStats st sessionId time)
  = 0%nat /\
  SessionStats.totalApplicants (TeamManager.getSessionStats st sessionId time)
  = 0%nat.
Proof.
  intros Hteams. unfold TeamManager.getSessionStats. rewrite Hteams.
  cbn [SessionStats.totalTeams SessionStats.completeTeams
       SessionStats.totalApplicants].
  unfold Sessions.teamsCreated. rewrite length_map, length_seq.
  split; [reflexivity|]. split.
  - generalize (seq i count). intros js.
    induction js as [|j js IH]; [reflexivity|exact IH].
  - generalize (seq i count). intros js.
    induction js as [|j js IH]; [reflexivity|exact IH].
Qed.

(** [createSession], for ids that are new: [uuid 0] is not empty and no
    team is in a session of that id yet, and the ids of the teams are
    different and not in use. The session that is returned is active, is
    the one the map holds under its id, and carries a code under which
    [getSessionByCode] finds it. A code given in the settings is taken as
    it is, also when another session is indexed under it, and that session
    is then no longer found by its code; no other code changes. The session
    has [maxTeams] empty teams, [Team 1] to [Team n], or 10 when [maxTeams]
    is missing or 0, and its statistics count them. The teams that were
    there stay as they are. *)
Theorem createSession_creates uuid now fuel draw state name description
    createdBy settings state' session :
  let count :=
    Z.to_nat (Sessions.teamsToCreate (default Sessions.noSettings settings)) in
  Sessions.createSession uuid now fuel draw state name description createdBy
    settings
  = Some (state', session) ->
  uuid 0%nat <> EmptyString ->
  NoDup (map uuid (seq 1 count)) ->
  (forall j, (1 <= j <= count)%nat ->
     JSMap.get (uuid j) (Store.teams (Sessions.store state)) = None) ->
  Forall (fun team => Team.sessionId team <> uuid 0%nat)
    (JSMap.values (Store.teams (Sessions.store state))) ->
  (Session.id session = uuid 0%nat /\
   Session.name session = name /\
   Session.status session = active /\
   Session.endedAt session = None /\
   Sessions.getSession state' (uuid 0%nat) = Some session) /\
  (exists code,
     SessionSettings.sessionCode (Session.settings session) = Some code /\
     (forall c rest,
        PartialSettings.sessionCode (default Sessions.noSettings settings)
        = Some (String c rest) ->
        code = String c rest) /\
     (code <> EmptyString ->
      Sessions.getSessionByCode state' code = Some session) /\
     (forall other, other <> code ->
        JSMap.get other (Sessions.sessionCodes state')
        = JSMap.get other (Sessions.sessionCodes state))) /\
  (TeamManager.getTeamsForSession (Sessions.store state') (uuid 0%nat)
   = Sessions.teamsCreated uuid now (uuid 0%nat) 1 count /\
   SessionStats.totalTeams (Session.stats session) = count /\
   SessionStats.completeTeams (Session.stats session) = 0%nat /\
   SessionStats.totalApplicants (Session.stats session) = 0%nat) /\
  (forall teamId team,
     JSMap.get teamId (Store.teams (Sessions.store state)) = Some team ->
     JSMap.get teamId (Store.teams (Sessions.store state')) = Some team).
Proof.
  intros count Hcreate Hid Hnodup Hfresh Hold.
  unfold Sessions.createSession in Hcreate.
  set (given := default Sessions.noSettings settings) in *.
  set (sessionCode :=
         match PartialSettings.sessionCode given with
         | Some (String c code) => Some (String c code)
         | _ => Sessions.generateSessionCode fuel draw 0
                  (Sessions.sessionCodes state)
         end) in *.
  destruct sessionCode as [code|] eqn:Hcode; [|discriminate].
  cbn [Session.id] in Hcreate.
  set (session0 := Session.mk (uuid 0%nat) name _ active _ None _ _ _) in *.
  set (st0 := Store.withGroups (Sessions.store state) _) in *.
  unfold Sessions.createTeamsForSession in Hcreate. fold count in Hcreate.
  destruct (createTeamsFrom_spec uuid now (uuid 0%nat) count 1 st0 session0)
    as (Hteams & Hsessions & stats & Hgroups & Hnone & Hstats).
  { unfold st0. cbn [Store.groups Store.withGroups]. apply JSMap_get_set_eq. }
  { reflexivity. }
  { exact Hnodup. }
  { intros j Hj. unfold st0. cbn [Store.teams Store.withGroups].
    apply Hfresh. lia. }
  cbv zeta in Hteams, Hsessions, Hgroups, Hstats.
  set (st1 := Sessions.createTeamsFrom uuid now st0 (uuid 0%nat) 1 count) in *.
  assert (JSMap.get (uuid 0%nat) (Store.groups st1)
          = Some (Session.withStats session0 stats)) as Hsession.
  { rewrite Hgroups. apply JSMap_get_set_eq. }
  rewrite Hsession in Hcreate. cbn [default] in Hcreate.
  inversion Hcreate as [[Hstate' Hreturned]]. clear Hcreate.
  assert (TeamManager.getTeamsForSession st1 (uuid 0%nat)
          = Sessions.teamsCreated uuid now (uuid 0%nat) 1 count) as Hcreated.
  { eapply getTeamsForSession_created; [exact Hold|].
    rewrite Hteams. reflexivity. }
  split; [|split; [|split]].
  - cbn [Session.withStats Session.id Session.name Session.status
         Session.endedAt session0].
    repeat (split; [reflexivity|]).
    unfold Sessions.getSession. cbn [Sessions.store]. exact Hsession.
  - exists code.
    cbn [Session.withStats Session.settings session0
         SessionSettings.sessionCode].
    split; [reflexivity|]. split; [|split].
    + intros c rest Hgiven. unfold sessionCode in Hcode.
      rewrite Hgiven in Hcode. congruence.
    + intros Hne. unfold Sessions.getSessionByCode.
      cbn [Sessions.sessionCodes Sessions.store].
      destruct code as [|c code]; [done|]. cbn [JSString.isEmpty].
      rewrite JSMap_get_set_eq.
      destruct (uuid 0%nat) as [|c0 id] eqn:Hid0; [done|].
      exact Hsession.
    + intros other Hother. cbn [Sessions.sessionCodes].
      destruct (JSString.isEmpty code); [reflexivity|].
      by apply JSMap_get_set_ne.
  - cbn [Sessions.store]. split; [exact Hcreated|].
    cbn [Session.withStats Session.stats].
    destruct count as [|count'] eqn:Hcount.
    + rewrite Hnone by reflexivity. cbn [session0 Session.stats
        SessionStats.totalTeams SessionStats.completeTeams
        SessionStats.totalApplicants]. by repeat split.
    + rewrite Hstats by discriminate.
      by eapply getSessionStats_created.
  - intros teamId team Hteam. cbn [Sessions.store]. rewrite Hteams.
    apply JSMap_get_app_found. unfold st0.
    cbn [Store.teams Store.withGroups]. exact Hteam.
Qed.

(** *** The creation of a session on the examples *)

Lemma generateSessionCode_fresh_witness :
  exists code,
    Sessions.generateSessionCode 2 Scenarios.sameLetter 0
      [("AAAAAA", "group-1")]
    = Some code /\
    JSMap.get code [("AAAAAA", "group-1")] = None /\
    String.length code = 6%nat /\
    forallb Sessions.codeChar (list_ascii_of_string code) = true.
Proof.
  apply (proj1 (generateSessionCode_fresh 2 Scenarios.sameLetter
                  [("AAAAAA", "group-1")]
                  (fun round _ =>
                     Nat.mod_upper_bound round 36
                       (fun H : 36%nat = 0%nat => O_S 35 (eq_sym H))))).
  exists 1%nat. split; [lia|reflexivity].
Defined.

Example generateSessionCode_example :
  Sessions.generateSessionCode 2 Scenarios.sameLetter 0
    [("AAAAAA", "group-1")]
  = Some "BBBBBB" /\
  Sessions.generateSessionCode 1 Scenarios.sameLetter 0
    [("AAAAAA", "group-1")]
  = None /\
  Sessions.generateSessionCode 100 (fun _ _ => 35%nat) 0 [("999999", "group-1")]
  = None.
Proof. repeat split; vm_compute; reflexivity. Qed.

Lemma createSession_creates_witness :
  Sessions.getSession Scenarios.createdState "uuid-0"
  = Some Scenarios.createdSession /\
  Sessions.getSessionByCode Scenarios.createdState "ABC123"
  = Some Scenarios.createdSession /\
  TeamManager.getTeamsForSession (Sessions.store Scenarios.createdState)
    "uuid-0"
  = Sessions.teamsCreated Scenarios.uuids Z.of_nat "uuid-0" 1 3 /\
  SessionStats.totalTeams (Session.stats Scenarios.createdSession) = 3%nat.
Proof.
  destruct (createSession_creates Scenarios.uuids Z.of_nat 0
              (fun _ _ => 0%nat) Scenarios.state "Second" None None
              (Some Scenarios.threeTeams) Scenarios.createdState
              Scenarios.createdSession)
    as ((_ & _ & _ & _ & Hsession) & (code & _ & Hgiven & Hfound & _)
        & (Hteams & Htotal & _) & _).
  - vm_compute. reflexivity.
  - vm_compute. discriminate.
  - apply (@bool_decide_unpack _ (NoDup_dec _)). vm_compute. reflexivity.
  - intros j Hj.
    assert (j = 1 \/ j = 2 \/ j = 3)%nat as [-> | [-> | ->]] by (cbn in Hj; lia);
      vm_compute; reflexivity.
  - repeat constructor. vm_compute. discriminate.
  - rewrite (Hgiven "A"%char "BC123" eq_refl) in Hfound.
    split; [exact Hsession|]. split; [apply Hfound; discriminate|].
    split; [exact Hteams|exact Htotal].
Defined.

Example createSession_takes_code_over :
  Sessions.getSessionByCode Scenarios.state "ABC123" = Some Examples.group /\
  Sessions.getSessionByCode Scenarios.createdState "ABC123"
  = Some Scenarios.createdSession /\
  Session.id Scenarios.createdSession = "uuid-0" /\
  Sessions.getSession Scenarios.createdState "group-1" = Some Examples.group /\
  map Team.name
    (TeamManager.getTeamsForSession (Sessions.store Scenarios.createdState)
       "uuid-0")
  = ["Team 1"; "Team 2"; "Team 3"] /\
  Session.stats Scenarios.createdSession = SessionStats.mk 3 0 0 0 7.
Proof. repeat split; vm_compute; reflexivity. Qed.

(** ** The handlers of resetTeam, submitApplicant and sessions/join *)

Lemma resetTeam_Failure now st teamId st' error :
  TeamManager.resetTeam now st teamId = (st', Failure error) ->
  st' = st /\
  (TeamManager.getTeam st teamId = None \/
   exists team reason,
     TeamManager.getTeam st teamId = Some team /\
     TeamManager.SessionManager.validateActiveSession st (Team.sessionId team)
     = Failure reason).
Proof.
  unfold TeamManager.resetTeam, TeamManager.getTeam.
  destruct (JSMap.get teamId (Store.teams st)) as [team|].
  - destruct (TeamManager.SessionManager.validateActiveSession st
                (Team.sessionId team)) as [[]|reason] eqn:Hvalid;
      [discriminate|].
    intros Hreset. injection Hreset as Hst Herror. subst st'.
    split; [reflexivity|].
    right. exists team, reason. split; [reflexivity|exact Hvalid].
  - intros Hreset. injection Hreset as Hst Herror. subst st'.
    split; [reflexivity|]. by left.
Qed.

Lemma resetTeam_Success now st teamId st' :
  JSMap.wellFormed (Store.sessions st) ->
  TeamManager.resetTeam now st teamId = (st', Success tt) ->
  exists team,
    TeamManager.getTeam st teamId = Some team /\
    TeamManager.SessionManager.validateActiveSession st (Team.sessionId team)
    = Success tt /\
    TeamManager.getTeam st' teamId
    = Some
        (Team.mk (Team.id team) (Team.name team) [] (Team.createdAt team)
           false (Team.sessionId team)) /\
    (forall other, other <> teamId ->
       TeamManager.getTeam st' other = TeamManager.getTeam st other) /\
    (forall id,
       TeamManager.getAssignmentSession st' id
       = match TeamManager.getAssignmentSession st id with
         | Some session =>
             if String.eqb (AssignmentSession.teamId session) teamId then None
             else Some session
         | None => None
         end).
Proof.
  intros Hws Hreset. unfold TeamManager.resetTeam in Hreset.
  unfold TeamManager.getTeam.
  destruct (JSMap.get teamId (Store.teams st)) as [team|];
    [|discriminate Hreset].
  destruct (TeamManager.SessionManager.validateActiveSession st
              (Team.sessionId team)) as [[]|reason] eqn:Hvalid;
    [|discriminate Hreset].
  inversion Hreset as [Hst']. clear Hreset.
  match type of Hst' with
  | (TeamManager.SessionManager.updateSessionStats ?s ?i ?n).1 = _ =>
      destruct (sessions_updateSessionStats s i n) as [Hsessions Hteams]
  end.
  rewrite Hst' in Hsessions, Hteams |- *.
  cbn [Store.sessions Store.teams Store.withSessions Store.withTeams]
    in Hsessions, Hteams.
  exists team. split; [reflexivity|]. split; [exact Hvalid|].
  rewrite Hteams. split; [apply JSMap_get_set_eq|]. split.
  - intros other Hne. by apply JSMap_get_set_ne.
  - intros id. unfold TeamManager.getAssignmentSession. rewrite Hsessions.
    unfold JSMap.entries.
    apply (JSMap_get_delete_filtered
             (fun entry => String.eqb (AssignmentSession.teamId entry.2) teamId)
             _ _ Hws).
Qed.

Ltac refuse_request :=
  cbn [fst snd ResetTeam.statusCode ResetTeam.errorResponse];
  split;
  [split;
   [discriminate|intros (? & ? & (? & ? & ? & ? & ?) & ?); congruence]|];
  split;
  [split;
   [discriminate
   |intros (? & ? & ? & (? & ? & ? & ? & ?) & ? & ?); congruence]|];
  split; [reflexivity|discriminate].

(** The handler of resetTeam. It answers 200 exactly for a POST that names
    a team of an active session and confirms the reset; the team is then
    empty and not complete, its assignment sessions are gone, and every
    other team and every session of another team is as before. Any other
    answer leaves the store as it was. A team that is not found is answered
    with 404, and a team whose session is not active with 500 and the
    reason, not with 400. *)
Theorem resetTeam_handler_answers now st req :
  JSMap.wellFormed (Store.sessions st) ->
  let result := ResetTeam.handler now st req in
  let wanted teamId team :=
    ResetTeam.method req = "POST" /\ ResetTeam.confirmReset req = true /\
    ResetTeam.teamId req = Some teamId /\ teamId <> EmptyString /\
    TeamManager.getTeam st teamId = Some team in
  (ResetTeam.statusCode result.2 = 200 <->
   exists teamId team,
     wanted teamId team /\
     TeamManager.SessionManager.validateActiveSession st (Team.sessionId team)
     = Success tt) /\
  (ResetTeam.statusCode result.2 = 500 <->
   exists teamId team reason,
     wanted teamId team /\
     TeamManager.SessionManager.validateActiveSession st (Team.sessionId team)
     = Failure reason /\
     ResetTeam.error result.2 = Some ("Cannot reset team: " +:+ reason)) /\
  (ResetTeam.statusCode result.2 <> 200 -> result.1 = st) /\
  (ResetTeam.statusCode result.2 = 200 ->
   exists teamId team,
     wanted teamId team /\
     TeamManager.getTeam result.1 teamId
     = Some
         (Team.mk (Team.id team) (Team.name team) [] (Team.createdAt team)
            false (Team.sessionId team)) /\
     (forall other, other <> teamId ->
        TeamManager.getTeam result.1 other = TeamManager.getTeam st other) /\
     (forall id,
        TeamManager.getAssignmentSession result.1 id
        = match TeamManager.getAssignmentSession st id with
          | Some session =>
              if String.eqb (AssignmentSession.teamId session) teamId
              then None else Some session
          | None => None
          end)).
Proof.
  intros Hws. cbv zeta. unfold ResetTeam.handler.
  destruct (String.eqb_spec (ResetTeam.method req) "POST") as [Hpost|Hpost];
    cbn [negb]; [|refuse_request].
  destruct (ResetTeam.teamId req) as [[|c id]|] eqn:Hid;
    [refuse_request| |refuse_request].
  destruct (ResetTeam.confirmReset req) eqn:Hconfirm; cbn [negb];
    [|refuse_request].
  destruct (TeamManager.getTeam st (String c id)) as [team|] eqn:Hteam;
    [|refuse_request].
  destruct (TeamManager.resetTeam now st (String c id))
    as [st' [[]|error]] eqn:Hreset.
  - destruct (resetTeam_Success _ _ _ _ Hws Hreset)
      as (team' & Hteam' & Hvalid & Hnew & Hothers & Hsessions).
    assert (team' = team) as -> by congruence.
    cbn [fst snd ResetTeam.statusCode].
    split; [|split; [|split]].
    + split; [intros _|done]. exists (String c id), team. by repeat split.
    + split; [done|]. intros (? & ? & ? & _ & _ & Herror). done.
    + done.
    + intros _. exists (String c id), team. by repeat split.
  - destruct (resetTeam_Failure _ _ _ _ _ Hreset) as [-> Hwhy].
    destruct Hwhy as [Hnone|(team' & reason & Hteam' & Hvalid)];
      [congruence|].
    assert (team' = team) as -> by congruence.
    assert (error = "Cannot reset team: " +:+ reason) as ->.
    { unfold TeamManager.resetTeam in Hreset.
      unfold TeamManager.getTeam in Hteam. rewrite Hteam, Hvalid in Hreset.
      by inversion Hreset. }
    cbn [fst snd ResetTeam.statusCode ResetTeam.errorResponse
         ResetTeam.error JSString.isEmpty String.append].
    split; [|split; [|split]].
    + split; [done|]. intros (teamId & team' & (_ & _ & Heq & _ & Hget) & Hok).
      assert (teamId = String c id) as -> by congruence.
      rewrite Hteam in Hget. inversion Hget; subst team'. congruence.
    + split; [intros _|done]. exists (String c id), team, reason.
      by repeat split.
    + done.
    + done.
Qed.

Lemma existsb_false_Forall {A} (test : A -> bool) (items : list A) :
  existsb test items = false <-> Forall (fun x => test x = false) items.
Proof.
  induction items as [|x items IH]; cbn [existsb].
  - split; [constructor|reflexivity].
  - rewrite orb_false_iff, IH. split.
    + intros [Hx Hrest]. by constructor.
    + intros H. inversion H. by split.
Qed.

Lemma accepts_or_not st team applicantData :
  SubmitApplicant.accepts st team applicantData \/
  ~ SubmitApplicant.accepts st team applicantData.
Proof.
  unfold SubmitApplicant.accepts.
  destruct (TeamManager.SessionManager.validateActiveSession st
              (Team.sessionId team)) as [[]|error];
    [|right; intros (? & _); done].
  destruct (Nat.ltb_spec (length (Team.applicants team)) 10) as [Hroom|Hfull];
    [|right; intros (_ & ? & _); lia].
  destruct (existsb
              (fun a =>
                 String.eqb (JSString.toLowerCase (Applicant.name a))
                   (JSString.toLowerCase (ApplicantData.name applicantData)))
              (Team.applicants team)) eqn:Hname.
  - right. intros (_ & _ & Hnames).
    apply existsb_exists in Hname as (a & Hin & Ha).
    apply String.eqb_eq in Ha. rewrite Forall_forall in Hnames.
    apply list_elem_of_In in Hin. by apply Hnames in Hin.
  - left. split; [reflexivity|]. split; [exact Hroom|].
    apply existsb_false_Forall in Hname.
    eapply Forall_impl; [exact Hname|]. intros a Ha. cbv beta in Ha.
    by apply String.eqb_neq.
Qed.

Lemma addApplicant_accepts uuid now statsNow st teamId applicantData team :
  TeamManager.getTeam st teamId = Some team ->
  let applicant :=
    Applicant.mk uuid (ApplicantData.name applicantData)
      (ApplicantData.occupation applicantData)
      (ApplicantData.skills applicantData)
      (ApplicantData.personalityTraits applicantData) now in
  let result :=
    TeamManager.addApplicant uuid now statsNow st teamId applicantData in
  (SubmitApplicant.accepts st team applicantData ->
   result.2 = Success applicant /\
   TeamManager.getTeam result.1 teamId
   = Some
       (Team.mk (Team.id team) (Team.name team)
          (Team.applicants team ++ [applicant]) (Team.createdAt team)
          (length (Team.applicants team) =? 9)%nat (Team.sessionId team)) /\
   (forall other, other <> teamId ->
      TeamManager.getTeam result.1 other = TeamManager.getTeam st other) /\
   Store.sessions result.1 = Store.sessions st) /\
  (~ SubmitApplicant.accepts st team applicantData ->
   result.1 = st /\ exists error, result.2 = Failure error).
Proof.
  intros Hteam. cbv zeta. unfold TeamManager.getTeam in *.
  unfold TeamManager.addApplicant, SubmitApplicant.accepts. rewrite Hteam.
  destruct (TeamManager.SessionManager.validateActiveSession st
              (Team.sessionId team)) as [[]|error] eqn:Hactive.
  2: { cbn [fst snd]. split; [intros (? & _); done|]. eauto. }
  destruct (Nat.leb_spec 10 (length (Team.applicants team))) as [Hfull|Hroom].
  { cbn [fst snd]. split; [intros (_ & ? & _); lia|]. eauto. }
  destruct (existsb _ (Team.applicants team)) eqn:Hname.
  { cbn [fst snd]. split; [|eauto]. intros (_ & _ & Hnames).
    apply existsb_exists in Hname as (a & Hin & Ha).
    apply String.eqb_eq in Ha. rewrite Forall_forall in Hnames.
    apply list_elem_of_In in Hin. by apply Hnames in Hin. }
  cbn [fst snd]. split.
  - intros _. split; [reflexivity|].
    rewrite (proj2 (sessions_updateSessionStats _ _ _)),
      (proj1 (sessions_updateSessionStats _ _ _)).
    cbn [Store.teams Store.sessions Store.withTeams].
    split; [|split; [|reflexivity]].
    + rewrite JSMap_get_set_eq. f_equal. f_equal.
      rewrite length_app. cbn [length].
      destruct (Nat.eqb_spec (length (Team.applicants team) + 1) 10);
        destruct (Nat.eqb_spec (length (Team.applicants team)) 9);
        try reflexivity; lia.
    + intros other Hne. by apply JSMap_get_set_ne.
  - intros Hnot. exfalso. apply Hnot. split; [reflexivity|]. split; [lia|].
    apply existsb_false_Forall in Hname.
    eapply Forall_impl; [exact Hname|]. intros a Ha. cbv beta in Ha.
    by apply String.eqb_neq.
Qed.

(** The handler of submitApplicant, on ASCII names. It answers 201 exactly
    for a POST with a valid body that names a team that can take the
    applicant: the session of the team is active, the team has fewer than
    ten applicants and none of that name, the letters A to Z read as a to
    z. The applicant is then the last of the team, the answer says whether
    the team is complete, which it is exactly with its tenth applicant, and
    otherwise how many members it has. Any other answer leaves the store as
    it was. The [sessionId] of the body is not read: the answer is the same
    for every session the request names. *)
Theorem submitApplicant_handler_answers uuid now statsNow st req :
  SubmitApplicant.asciiNames st req ->
  let result := SubmitApplicant.handler uuid now statsNow st req in
  let wanted body team :=
    SubmitApplicant.method req = "POST" /\
    SubmitApplicant.validation req = Success body /\
    TeamManager.getTeam st (SubmitApplicant.teamId body) = Some team /\
    SubmitApplicant.accepts st team (SubmitApplicant.applicant body) in
  (SubmitApplicant.statusCode result.2 = 201 <->
   exists body team, wanted body team) /\
  (SubmitApplicant.statusCode result.2 <> 201 -> result.1 = st) /\
  (forall body team,
     wanted body team ->
     let data := SubmitApplicant.applicant body in
     let applicant :=
       Applicant.mk uuid (ApplicantData.name data)
         (ApplicantData.occupation data) (ApplicantData.skills data)
         (ApplicantData.personalityTraits data) now in
     let tenth := (length (Team.applicants team) =? 9)%nat in
     TeamManager.getTeam result.1 (SubmitApplicant.teamId body)
     = Some
         (Team.mk (Team.id team) (Team.name team)
            (Team.applicants team ++ [applicant]) (Team.createdAt team)
            tenth (Team.sessionId team)) /\
     SubmitApplicant.data result.2
     = Some (SubmitApplicant.mkData applicant tenth) /\
     SubmitApplicant.message result.2
     = Some
         (if tenth then
            "Applicant added successfully. Team is now complete and ready for assignment!"
          else
            "Applicant added successfully. Team has "
            +:+ pretty (S (length (Team.applicants team)))
            +:+ "/10 members.")) /\
  (forall body sessionId,
     SubmitApplicant.validation req = Success body ->
     SubmitApplicant.handler uuid now statsNow st
       (SubmitApplicant.mkRequest (SubmitApplicant.method req)
          (Success
             (SubmitApplicant.mkBody sessionId (SubmitApplicant.teamId body)
                (SubmitApplicant.applicant body))))
     = result).
Proof.
  intros _. cbv zeta.
  remember (SubmitApplicant.handler uuid now statsNow st req) as result
    eqn:Hresult.
  assert (forall body sessionId,
            SubmitApplicant.validation req = Success body ->
            SubmitApplicant.handler uuid now statsNow st
              (SubmitApplicant.mkRequest (SubmitApplicant.method req)
                 (Success
                    (SubmitApplicant.mkBody sessionId
                       (SubmitApplicant.teamId body)
                       (SubmitApplicant.applicant body))))
            = result) as Hsame.
  { intros body sessionId Hbody. subst result.
    unfold SubmitApplicant.handler. rewrite Hbody. reflexivity. }
  unfold SubmitApplicant.handler in Hresult.
  destruct (String.eqb_spec (SubmitApplicant.method req) "POST")
    as [Hpost|Hpost]; cbn [negb] in Hresult.
  2: { subst result.
       cbn [fst snd SubmitApplicant.statusCode SubmitApplicant.errorResponse].
       split; [split; [discriminate|intros (? & ? & ? & _); done]|].
       split; [reflexivity|]. split; [intros ? ? (? & _); done|exact Hsame]. }
  destruct (SubmitApplicant.validation req) as [body|error] eqn:Hbody.
  2: { subst result.
       cbn [fst snd SubmitApplicant.statusCode SubmitApplicant.errorResponse].
       split; [split; [discriminate|intros (? & ? & _ & ? & _); done]|].
       split; [reflexivity|].
       split; [intros ? ? (_ & ? & _); done|exact Hsame]. }
  destruct (TeamManager.getTeam st (SubmitApplicant.teamId body))
    as [team|] eqn:Hteam.
  2: { subst result.
       cbn [fst snd SubmitApplicant.statusCode SubmitApplicant.errorResponse].
       split; [split; [discriminate|]|].
       { intros (body' & ? & _ & Heq & Hget & _). congruence. }
       split; [reflexivity|]. split; [|exact Hsame].
       intros body' ? (_ & Heq & Hget & _). congruence. }
  destruct (addApplicant_accepts uuid now statsNow st
              (SubmitApplicant.teamId body) (SubmitApplicant.applicant body)
              team Hteam) as [Hyes Hno].
  cbv zeta in Hyes, Hno.
  destruct (TeamManager.addApplicant uuid now statsNow st
              (SubmitApplicant.teamId body) (SubmitApplicant.applicant body))
    as [st' [added|error]] eqn:Hadd; cbn [fst snd] in Hyes, Hno.
  - assert (SubmitApplicant.accepts st team (SubmitApplicant.applicant body))
      as Haccepts.
    { destruct (accepts_or_not st team (SubmitApplicant.applicant body))
        as [H|H]; [exact H|]. destruct (Hno H) as (_ & ? & ?). done. }
    destruct (Hyes Haccepts) as (Hadded & Hnew & _).
    inversion Hadded; subst added. rewrite Hnew in Hresult.
    cbn [Team.isComplete Team.applicants] in Hresult. subst result.
    cbn [fst snd SubmitApplicant.statusCode].
    split; [split; [intros _|done]|].
    { exists body, team. split; [exact Hpost|]. split; [reflexivity|].
      split; [exact Hteam|exact Haccepts]. }
    split; [done|]. split; [|exact Hsame].
    intros body' team' (_ & Heq & Hget & _).
    inversion Heq; subst body'. rewrite Hteam in Hget.
    inversion Hget; subst team'.
    cbn [SubmitApplicant.data SubmitApplicant.message].
    split; [exact Hnew|]. split; [reflexivity|].
    rewrite length_app. cbn [length].
    replace (length (Team.applicants team) + 1)%nat
      with (S (length (Team.applicants team))) by lia.
    reflexivity.
  - assert (~ SubmitApplicant.accepts st team (SubmitApplicant.applicant body))
      as Hrefused.
    { intros H. destruct (Hyes H) as (? & _). done. }
    destruct (Hno Hrefused) as (-> & _). subst result.
    cbn [fst snd SubmitApplicant.statusCode SubmitApplicant.errorResponse].
    split; [split; [discriminate|]|].
    { intros (body' & team' & _ & Heq & Hget & Haccepts).
      inversion Heq; subst body'. rewrite Hteam in Hget.
      inversion Hget; subst team'. done. }
    split; [reflexivity|]. split; [|exact Hsame].
    intros body' team' (_ & Heq & Hget & Haccepts).
    inversion Heq; subst body'. rewrite Hteam in Hget.
    inversion Hget; subst team'. done.
Qed.

(** The tenth applicant of a team of nine, all of ASCII names. *)
Lemma submitApplicant_handler_answers_witness :
  SubmitApplicant.asciiNames Scenarios.nineStore
    (Scenarios.submitRequest "group-1") /\
  SubmitApplicant.statusCode
    (SubmitApplicant.handler "applicant-10" 4 5 Scenarios.nineStore
       (Scenarios.submitRequest "group-1")).2 = 201.
Proof.
  assert (SubmitApplicant.asciiNames Scenarios.nineStore
            (Scenarios.submitRequest "group-1")) as Hascii.
  { intros body Hbody. injection Hbody as <-.
    split; [vm_compute; reflexivity|].
    intros team Hteam. vm_compute in Hteam. injection Hteam as <-.
    repeat (constructor; [vm_compute; reflexivity|]). constructor. }
  split; [exact Hascii|].
  pose proof (submitApplicant_handler_answers "applicant-10" 4 5
                Scenarios.nineStore (Scenarios.submitRequest "group-1") Hascii)
    as H.
  cbv zeta in H. destruct H as [[_ H] _]. apply H.
  eexists _, _. split; [reflexivity|]. split; [reflexivity|].
  split; [vm_compute; reflexivity|].
  split; [vm_compute; reflexivity|].
  split; [apply Nat.ltb_lt; vm_compute; reflexivity|].
  vm_compute. repeat (constructor; [discriminate|]). constructor.
Defined.

(** The creation of the teams leaves the session in its place, with
    statistics that may have changed. *)
Lemma createTeamsFrom_session uuid now sessionId count :
  forall i st session,
    JSMap.get sessionId (Store.groups st) = Some session ->
    exists stats,
      JSMap.get sessionId
        (Store.groups (Sessions.createTeamsFrom uuid now st sessionId i count))
      = Some (Session.withStats session stats).
Proof.
  induction count as [|count IH]; intros i st session Hget.
  - exists (Session.stats session). by rewrite withStats_stats.
  - cbn [Sessions.createTeamsFrom].
    unfold TeamManager.createTeam.
    destruct (TeamManager.SessionManager.validateActiveSession st sessionId).
    + cbn [fst]. unfold TeamManager.SessionManager.updateSessionStats.
      cbn [Store.groups Store.withTeams]. rewrite Hget. cbn [fst].
      match goal with
      | |- context [Sessions.createTeamsFrom _ _ ?s _ _ _] =>
          destruct (IH (S i) s
                      (Session.withStats session
                         (TeamManager.getSessionStats
                            (Store.withTeams st
                               (JSMap.set (uuid i)
                                  (Team.mk (uuid i) ("Team " +:+ pretty i) []
                                     (now (2 * i)%nat) false sessionId)
                                  (Store.teams st)))
                            sessionId (now (2 * i + 1)%nat))))
            as [stats Hstats]
      end.
      * cbn [Store.groups Store.withGroups]. apply JSMap_get_set_eq.
      * exists stats. rewrite Hstats. by destruct session.
    + cbn [fst]. by apply IH.
Qed.

(** What [createSession] returns is in the map under its id and in the
    index under its code. *)
Lemma createSession_found uuid now fuel draw state name description createdBy
    settings state' session :
  Sessions.createSession uuid now fuel draw state name description createdBy
    settings
  = Some (state', session) ->
  Session.status session = active /\
  Session.name session = name /\
  Sessions.getSession state' (uuid 0%nat) = Some session /\
  exists code,
    SessionSettings.sessionCode (Session.settings session) = Some code /\
    (code <> EmptyString ->
     Sessions.sessionCodes state'
     = JSMap.set code (uuid 0%nat) (Sessions.sessionCodes state)).
Proof.
  unfold Sessions.createSession. intros Hcreate.
  destruct (match PartialSettings.sessionCode _ with
            | Some (String c code) => Some (String c code)
            | _ => _
            end) as [code|]; [|discriminate].
  cbn [Session.id] in Hcreate.
  unfold Sessions.createTeamsForSession in Hcreate.
  match type of Hcreate with
  | context [Sessions.createTeamsFrom _ _ ?s ?id ?i ?count] =>
      match type of Hcreate with
      | context [default ?session0 _] =>
          destruct (createTeamsFrom_session uuid now id count i s session0)
            as [stats Hstats];
            [cbn [Store.groups Store.withGroups]; apply JSMap_get_set_eq|]
      end
  end.
  rewrite Hstats in Hcreate. cbn [default] in Hcreate.
  inversion Hcreate as [[Hstate' Hsession]]. clear Hcreate.
  cbn [Session.withStats Session.status Session.name Session.settings
       SessionSettings.sessionCode].
  split; [reflexivity|]. split; [reflexivity|]. split.
  - unfold Sessions.getSession. cbn [Sessions.store]. exact Hstats.
  - exists code. split; [reflexivity|]. intros Hcode.
    cbn [Sessions.sessionCodes]. destruct code; [done|]. reflexivity.
Qed.

Lemma find_value_set {V} (same : V -> V -> bool) (key : string) (value : V)
    (m : JSMap.t V) :
  same value value = true ->
  Forall (fun entry => same entry.2 value = false) m ->
  find (fun entry => same entry.2 value) (JSMap.set key value m)
  = Some (key, value).
Proof.
  intros Hsame Hfresh.
  induction Hfresh as [|[k v] m Hv _ IH]; cbn [JSMap.set find snd].
  - by rewrite Hsame.
  - cbn [snd] in Hv. destruct (String.eqb k key); cbn [find snd].
    + by rewrite Hsame.
    + by rewrite Hv.
Qed.

Lemma answer_active session :
  Session.status session = active ->
  JoinSession.answer session
  = JoinSession.mkResponse 200 true (Some session) None
      (Some ("Successfully joined session: " +:+ Session.name session)).
Proof. intros Hactive. unfold JoinSession.answer. by rewrite Hactive. Qed.

(** Joining follows the life of a session. A session that was just created
    is joined under its code and under its id, with answer 200 and the
    session. Once it is ended, a join under its id is answered 400, and a
    join under its code 404, the code being forgotten, or 400 when the
    index held another code for the id before; it is never 200. *)
Theorem join_follows_life_cycle uuid now fuel draw state name description
    createdBy settings state1 session code endedAt clearMemory :
  Sessions.createSession uuid now fuel draw state name description createdBy
    settings
  = Some (state1, session) ->
  uuid 0%nat <> EmptyString ->
  SessionSettings.sessionCode (Session.settings session) = Some code ->
  code <> EmptyString ->
  let byCode :=
    JoinSession.mkRequest "POST"
      (Success (JoinSession.mkBody (Some code) None)) in
  let byId :=
    JoinSession.mkRequest "POST"
      (Success (JoinSession.mkBody None (Some (uuid 0%nat)))) in
  let joined :=
    JoinSession.mkResponse 200 true (Some session) None
      (Some ("Successfully joined session: " +:+ name)) in
  let closed :=
    JoinSession.errorResponse 400
      "Session is ended and not accepting new participants" in
  let ending := Sessions.endSession endedAt state1 (uuid 0%nat) clearMemory in
  JoinSession.handler state1 byCode = joined /\
  JoinSession.handler state1 byId = joined /\
  (exists summary, ending.2 = Success summary) /\
  JoinSession.handler ending.1 byId = closed /\
  (JoinSession.handler ending.1 byCode
   = JoinSession.errorResponse 404 "Invalid session code" \/
   JoinSession.handler ending.1 byCode = closed) /\
  (Forall (fun entry => entry.2 <> uuid 0%nat) (Sessions.sessionCodes state) ->
   JoinSession.handler ending.1 byCode
   = JoinSession.errorResponse 404 "Invalid session code").
Proof.
  intros Hcreate Hid Hcode Hne. cbv zeta.
  destruct (createSession_found _ _ _ _ _ _ _ _ _ _ _ Hcreate)
    as (Hactive & Hname & Hsession & code' & Hcode' & Hindex).
  assert (code' = code) as -> by congruence.
  specialize (Hindex Hne).
  assert (JSMap.get code (Sessions.sessionCodes state1) = Some (uuid 0%nat))
    as Hget by (rewrite Hindex; apply JSMap_get_set_eq).
  destruct (uuid 0%nat) as [|c0 id0] eqn:Huuid; [done|].
  destruct code as [|c code]; [done|].
  assert (Sessions.getSessionByCode state1 (String c code) = Some session)
    as Hfound.
  { unfold Sessions.getSessionByCode. rewrite Hget. exact Hsession. }
  unfold JoinSession.handler.
  cbn [JoinSession.method JoinSession.validation JoinSession.sessionCode
       JoinSession.sessionId String.eqb Ascii.eqb Bool.eqb negb].
  cbn [String.eqb Ascii.eqb Bool.eqb negb andb].
  rewrite Hfound, Hsession, (answer_active _ Hactive), Hname.
  split; [reflexivity|]. split; [reflexivity|].
  unfold Sessions.endSession. unfold Sessions.getSession in Hsession.
  rewrite Hsession, Hactive. cbn [fst snd].
  split; [eauto|].
  set (ended := Session.mk (Session.id session) _ _ ended _ _ _ _ _).
  assert (forall groups,
            JSMap.get (String c0 id0)
              (Store.groups
                 (if clearMemory then
                    (TeamManager.clearSessionData
                       (Store.withGroups (Sessions.store state1)
                          (JSMap.set (String c0 id0) ended groups))
                       (String c0 id0)).1
                  else
                    Store.withGroups (Sessions.store state1)
                      (JSMap.set (String c0 id0) ended groups)))
            = Some ended) as Hended.
  { intros groups. destruct clearMemory;
      [rewrite groups_clearSessionData|];
      cbn [Store.groups Store.withGroups]; apply JSMap_get_set_eq. }
  unfold Sessions.getSession, Sessions.getSessionByCode.
  cbn [Sessions.store Sessions.sessionCodes].
  rewrite Hended.
  assert (JoinSession.answer ended
          = JoinSession.errorResponse 400
              "Session is ended and not accepting new participants") as ->
    by reflexivity.
  split; [reflexivity|].
  assert (Forall (fun entry => entry.2 <> String c0 id0)
            (Sessions.sessionCodes state) ->
          find (fun entry => String.eqb entry.2 (String c0 id0))
            (Sessions.sessionCodes state1)
          = Some (String c code, String c0 id0)) as Hfirst.
  { intros Hfresh. rewrite Hindex.
    apply (find_value_set String.eqb); [apply String.eqb_refl|].
    eapply Forall_impl; [exact Hfresh|]. intros entry Hentry. cbv beta in *.
    by apply String.eqb_neq. }
  unfold Sessions.forgetCode.
  destruct (find (fun entry => String.eqb entry.2 (String c0 id0))
              (Sessions.sessionCodes state1)) as [[code0 id]|] eqn:Hfind.
  - rewrite JSMap_get_delete.
    destruct (String.eqb_spec code0 (String c code)) as [->|Hother].
    + split; [by left|]. intros _. reflexivity.
    + rewrite Hget, Hended. split; [by right|].
      intros Hfresh. specialize (Hfirst Hfresh). congruence.
  - rewrite Hget, Hended. split; [by right|].
    intros Hfresh. specialize (Hfirst Hfresh). congruence.
Qed.

(** *** The handlers on the examples *)

Lemma resetTeam_handler_answers_witness :
  ResetTeam.statusCode (ResetTeam.handler 5 Examples.store
                          Scenarios.resetRequest).2 = 200.
Proof.
  assert (JSMap.wellFormed (Store.sessions Examples.store)) as Hws
    by constructor.
  apply (proj1 (resetTeam_handler_answers 5 Examples.store
                  Scenarios.resetRequest Hws)).
  exists "team-1", Examples.team.
  repeat split; try reflexivity. discriminate.
Defined.

Example resetTeam_handler_example :
  ResetTeam.handler 5 Examples.store Scenarios.resetRequest
  = (Store.mk
       [("team-1", Team.mk "team-1" "Team 1" [] 0 false "group-1")] []
       [("group-1",
         Session.withStats Examples.group (SessionStats.mk 1 0 0 0 5))],
     ResetTeam.mkResponse 200 true
       (Some
          (ResetTeam.mkData "team-1"
             ("Team " +:+ ResetTeam.quote +:+ "Team 1" +:+ ResetTeam.quote
              +:+ " has been reset. Removed 10 applicants and all assignment sessions.")))
       None (Some "Team reset successfully")) /\
  ResetTeam.handler 5 (Sessions.store Scenarios.endedState)
    Scenarios.resetRequest
  = (Sessions.store Scenarios.endedState,
     ResetTeam.errorResponse 500
       "Cannot reset team: Session is ended and cannot accept new operations") /\
  ResetTeam.handler 5 Examples.store
    (ResetTeam.mkRequest "POST" (Some "team-1") false)
  = (Examples.store,
     ResetTeam.errorResponse 400
       "Reset confirmation required. Set confirmReset: true to proceed.").
Proof. repeat split; vm_compute; reflexivity. Qed.

Example submitApplicant_handler_example :
  (SubmitApplicant.handler "applicant-10" 4 5 Scenarios.nineStore
     (Scenarios.submitRequest "group-1")).1
  = Scenarios.tenAgain /\
  SubmitApplicant.teamComplete
  <$> SubmitApplicant.data
        (SubmitApplicant.handler "applicant-10" 4 5 Scenarios.nineStore
           (Scenarios.submitRequest "another-session")).2
  = Some true /\
  SubmitApplicant.handler "applicant-11" 6 7 Scenarios.tenAgain
    (Scenarios.submitRequest "group-1")
  = (Scenarios.tenAgain,
     SubmitApplicant.errorResponse 400
       "Team is already full (10 applicants maximum)") /\
  SubmitApplicant.message
    (SubmitApplicant.handler "applicant-10" 4 5
       (TeamManager.exec Scenarios.nineStore
          (TeamManager.RemoveApplicant 3 "team-1" "applicant-5"))
       (Scenarios.submitRequest "group-1")).2
  = Some "Applicant added successfully. Team has 9/10 members.".
Proof. repeat split; vm_compute; reflexivity. Qed.

Lemma join_follows_life_cycle_witness :
  JoinSession.handler Scenarios.createdState Scenarios.joinByCode
  = JoinSession.mkResponse 200 true (Some Scenarios.createdSession) None
      (Some "Successfully joined session: Second") /\
  JoinSession.handler
    (Sessions.endSession 50 Scenarios.createdState "uuid-0" true).1
    Scenarios.joinById
  = JoinSession.errorResponse 400
      "Session is ended and not accepting new participants" /\
  JoinSession.handler
    (Sessions.endSession 50 Scenarios.createdState "uuid-0" true).1
    Scenarios.joinByCode
  = JoinSession.errorResponse 404 "Invalid session code".
Proof.
  destruct (join_follows_life_cycle Scenarios.uuids Z.of_nat 0
              (fun _ _ => 0%nat) Scenarios.state "Second" None None
              (Some Scenarios.threeTeams) Scenarios.createdState
              Scenarios.createdSession "ABC123" 50 true)
    as (Hcode & _ & _ & Hclosed & _ & Hgone).
  - vm_compute. reflexivity.
  - vm_compute. discriminate.
  - vm_compute. reflexivity.
  - discriminate.
  - split; [exact Hcode|]. split; [exact Hclosed|].
    apply Hgone. repeat constructor. vm_compute. discriminate.
Defined.

(** ** The handler of assignTeamsBatch *)

Lemma Forall2_with_right {A B} (P R : A -> B -> Prop) (Q : B -> Prop)
    (l : list A) (k : list B) :
  Forall2 P l k -> Forall Q k ->
  (forall x y, P x y -> Q y -> R x y) ->
  Forall2 R l k.
Proof.
  intros HP HQ Himpl. induction HP as [|x y l k Hxy _ IH]; [constructor|].
  inversion HQ; subst. constructor; [by apply Himpl|by apply IH].
Qed.

Lemma createAssignmentSession_ready uuid now st teamId phase team :
  TeamManager.getTeam st teamId = Some team ->
  Team.isComplete team = true ->
  TeamManager.SessionManager.validateActiveSession st (Team.sessionId team)
  = Success tt ->
  exists session,
    TeamManager.createAssignmentSession uuid now st teamId phase None
    = (Store.withSessions st
         (JSMap.set (AssignmentSession.id session) session
            (Store.sessions st)),
       Success session) /\
    AssignmentSession.id session = uuid 10%nat /\
    AssignmentSession.teamId session = teamId /\
    AssignmentSession.status session = pending.
Proof.
  intros Hteam Hcomplete Hactive. unfold TeamManager.getTeam in Hteam.
  unfold TeamManager.createAssignmentSession.
  rewrite Hteam, Hactive, Hcomplete. cbn [negb].
  destruct phase; eexists; (split; [reflexivity|]); by repeat split.
Qed.

Lemma ready_withSessions st sessions teamId :
  BatchAssign.ready (Store.withSessions st sessions) teamId
  <-> BatchAssign.ready st teamId.
Proof. reflexivity. Qed.

(** Step 1 over a run of teams that are all ready: a session for each, in
    order, and the loop goes on with the teams after them. *)
Lemma createSessions_prefix env phase teamIds rest :
  forall st i created,
    Forall (BatchAssign.ready st) teamIds ->
    exists st' new,
      BatchAssign.createSessions env phase None st (teamIds ++ rest) i created
      = BatchAssign.createSessions env phase None st' rest
          (i + length teamIds) (created ++ new) /\
      (Store.teams st' = Store.teams st /\
       Store.groups st' = Store.groups st) /\
      Forall2
        (fun teamId entry =>
           TeamManager.getTeam st teamId = Some entry.1 /\
           AssignmentSession.teamId entry.2 = teamId /\
           AssignmentSession.assignment entry.2 = None /\
           AssignmentSession.status entry.2 = pending)
        teamIds new /\
      map (fun entry => AssignmentSession.id entry.2) new
      = map (fun k => BatchAssign.uuid env k 10%nat)
          (seq i (length teamIds)) /\
      (NoDup (map (fun k => BatchAssign.uuid env k 10%nat)
                (seq i (length teamIds))) ->
       Forall
         (fun entry =>
            TeamManager.getAssignmentSession st' (AssignmentSession.id entry.2)
            = Some entry.2)
         new) /\
      (forall id,
         id ∉ map (fun k => BatchAssign.uuid env k 10%nat)
                (seq i (length teamIds)) ->
         TeamManager.getAssignmentSession st' id
         = TeamManager.getAssignmentSession st id).
Proof.
  induction teamIds as [|teamId teamIds IH]; intros st i created Hready.
  - exists st, []. cbn [app length]. rewrite app_nil_r, Nat.add_0_r.
    repeat split; constructor.
  - inversion Hready as [|? ? (team & Hteam & Hcomplete & Hactive) Hrest];
      subst.
    cbn [BatchAssign.createSessions app]. rewrite Hteam, Hcomplete.
    cbn [negb].
    destruct (createAssignmentSession_ready (BatchAssign.uuid env i)
                (BatchAssign.sessionCreatedAt env i) st teamId phase team
                Hteam Hcomplete Hactive)
      as (session & Hcreate & Hid & HteamId & Hpending).
    rewrite Hcreate.
    destruct (createAssignmentSession_Success _ _ _ _ _ _ _ _ Hcreate)
      as (_ & _ & _ & _ & Hassignment & _).
    destruct (IH (Store.withSessions st
                    (JSMap.set (AssignmentSession.id session) session
                       (Store.sessions st)))
                (S i) (created ++ [(team, session)]))
      as (st' & new & -> & [Hteams Hgroups] & Hnew & Hids & Hstored
          & Hothers).
    { eapply Forall_impl; [exact Hrest|]. intros id Hid'.
      by apply ready_withSessions. }
    exists st', ((team, session) :: new).
    rewrite <- app_assoc. cbn [app length].
    replace (i + S (length teamIds))%nat with (S i + length teamIds)%nat
      by lia.
    split; [reflexivity|]. split; [by split|]. split; [|split; [|split]].
    + constructor; [by repeat split|exact Hnew].
    + cbn [map seq fst snd]. by rewrite Hid, Hids.
    + intros Hnodup. cbn [seq map] in Hnodup.
      apply NoDup_cons in Hnodup as [Hfirst Hnodup].
      constructor; [|by apply Hstored]. cbn [snd].
      rewrite Hothers by (by rewrite Hid).
      rewrite getAssignmentSession_created. by rewrite String.eqb_refl.
    + intros id Hfresh. cbn [seq map] in Hfresh.
      apply not_elem_of_cons in Hfresh as [Hne Hfresh].
      rewrite Hothers by exact Hfresh.
      rewrite getAssignmentSession_created, Hid.
      destruct (String.eqb_spec (BatchAssign.uuid env i 10%nat) id);
        [congruence|reflexivity].
Qed.

Lemma createSessions_ready env phase teamIds :
  forall st i created,
    Forall (BatchAssign.ready st) teamIds ->
    exists st' new,
      BatchAssign.createSessions env phase None st teamIds i created
      = (st', inr (created ++ new)) /\
      Store.teams st' = Store.teams st /\
      Store.groups st' = Store.groups st /\
      Forall2
        (fun teamId entry =>
           TeamManager.getTeam st teamId = Some entry.1 /\
           AssignmentSession.teamId entry.2 = teamId)
        teamIds new /\
      map (fun entry => AssignmentSession.id entry.2) new
      = map (fun k => BatchAssign.uuid env k 10%nat)
          (seq i (length teamIds)).
Proof.
  intros st i created Hready.
  destruct (createSessions_prefix env phase teamIds [] st i created Hready)
    as (st' & new & Hrun & [Hteams Hgroups] & Hnew & Hids & _).
  rewrite app_nil_r in Hrun. cbn [BatchAssign.createSessions] in Hrun.
  exists st', new. split; [exact Hrun|]. split; [exact Hteams|].
  split; [exact Hgroups|]. split; [|exact Hids].
  eapply Forall2_impl; [exact Hnew|]. intros id entry (? & ? & _). by split.
Qed.

Ltac store_unchanged :=
  repeat
    first
      [ rewrite (proj1 (teams_updateSessionStatus _ _ _))
      | rewrite (proj2 (teams_updateSessionStatus _ _ _))
      | rewrite (proj1 (teams_mutateSession _ _ _))
      | rewrite (proj2 (teams_mutateSession _ _ _)) ].

(** Step 3 adds one result for each team, in order, and one entry to the
    background job for each success when justifications are wanted. *)
Lemma processTeams_results env include scoringResults entries :
  forall progress i,
    let progress' :=
      BatchAssign.processTeams env include scoringResults progress i entries in
    exists new,
      BatchAssign.assignmentResults progress'
      = BatchAssign.assignmentResults progress ++ new /\
      map BatchAssign.teamId new = map (fun entry => Team.id entry.1) entries /\
      map BatchAssign.sessionId new
      = map (fun entry => AssignmentSession.id entry.2) entries /\
      (length (BatchAssign.pendingJustifications progress')
       = length (BatchAssign.pendingJustifications progress)
         + (if include then length (List.filter BatchAssign.succeeded new)
            else 0))%nat /\
      Store.teams (BatchAssign.store progress')
      = Store.teams (BatchAssign.store progress) /\
      Store.groups (BatchAssign.store progress')
      = Store.groups (BatchAssign.store progress).
Proof.
  induction entries as [|entry entries IH]; intros progress i; cbv zeta.
  - exists []. cbn [BatchAssign.processTeams]. rewrite app_nil_r.
    repeat split; try reflexivity. destruct include; cbn; lia.
  - cbn [BatchAssign.processTeams].
    destruct (IH (BatchAssign.processTeam env include scoringResults progress
                    i entry) (S i))
      as (new & Hresults & Hteams & Hsessions & Hpending & Hstore & Hgroups).
    cbv zeta in Hresults, Hpending, Hstore, Hgroups.
    rewrite Hresults, Hpending, Hstore, Hgroups. clear IH.
    unfold BatchAssign.processTeam.
    destruct (Batch.outcome
              <$> find (fun r => String.eqb (Batch.teamId r) (Team.id entry.1))
                    scoringResults) as [[scoreMatrix|error]|].
    + destruct (Assigner.assignRoles _ _ _ _ _) as [assigned|error].
      * eexists (_ :: new).
        cbn [BatchAssign.assignmentResults BatchAssign.pendingJustifications
             BatchAssign.store].
        rewrite <- app_assoc. split; [reflexivity|].
        cbn [map BatchAssign.teamId BatchAssign.sessionId List.filter
             BatchAssign.succeeded].
        split; [by rewrite Hteams|]. split; [by rewrite Hsessions|].
        split.
        { destruct include; [|lia]. rewrite length_app. cbn [length]. lia. }
        store_unchanged.
        by split.
      * eexists (_ :: new).
        cbn [BatchAssign.assignmentResults BatchAssign.pendingJustifications
             BatchAssign.store].
        rewrite <- app_assoc. split; [reflexivity|].
        cbn [map BatchAssign.teamId BatchAssign.sessionId List.filter
             BatchAssign.succeeded].
        split; [by rewrite Hteams|]. split; [by rewrite Hsessions|].
        split; [reflexivity|].
        store_unchanged.
        by split.
    + eexists (_ :: new).
      cbn [BatchAssign.assignmentResults BatchAssign.pendingJustifications
           BatchAssign.store].
      rewrite <- app_assoc. split; [reflexivity|].
      cbn [map BatchAssign.teamId BatchAssign.sessionId List.filter
           BatchAssign.succeeded].
      split; [by rewrite Hteams|]. split; [by rewrite Hsessions|].
      split; [reflexivity|].
      store_unchanged.
      by split.
    + eexists (_ :: new).
      cbn [BatchAssign.assignmentResults BatchAssign.pendingJustifications
           BatchAssign.store].
      rewrite <- app_assoc. split; [reflexivity|].
      cbn [map BatchAssign.teamId BatchAssign.sessionId List.filter
           BatchAssign.succeeded].
      split; [by rewrite Hteams|]. split; [by rewrite Hsessions|].
      split; [reflexivity|].
      store_unchanged.
      by split.
Qed.

Lemma scoring_teams (created : list (Team.t * AssignmentSession.t)) st :
  Store.teams
    (foldl
       (fun st entry =>
          (TeamManager.updateSessionStatus st (AssignmentSession.id entry.2)
             scoring).1)
       st created)
  = Store.teams st /\
  Store.groups
    (foldl
       (fun st entry =>
          (TeamManager.updateSessionStatus st (AssignmentSession.id entry.2)
             scoring).1)
       st created)
  = Store.groups st.
Proof.
  revert st. induction created as [|entry created IH]; intros st;
    cbn [foldl]; [by split|].
  destruct (IH (TeamManager.updateSessionStatus st
                  (AssignmentSession.id entry.2) scoring).1) as [-> ->].
  apply teams_updateSessionStatus.
Qed.

(** The handler of assignTeamsBatch for a POST that names between 1 and
    100 teams, all complete and in active sessions, and no custom roles.
    With [maxConcurrency] of zero or less the request is never answered:
    the body is not validated and the number goes to [createBatches] as it
    is. Otherwise the answer is 200 whatever the oracle says, with one
    result for each team id in the order of the request, each under the id
    of the session that was created for it, and a summary that counts them;
    [success] says that some team was assigned. The background job is
    started exactly when justifications are wanted and some team was
    assigned, with one entry for each assigned team. Teams and sessions of
    the session manager are not touched. *)
Theorem batchAssign_answers env st req teamIds :
  BatchAssign.method req = "POST" ->
  AssignTeam.isBlank (BatchAssign.openRouterApiKey env) = false ->
  BatchAssign.teamIds (BatchAssign.body req) = Some teamIds ->
  teamIds <> [] ->
  (length teamIds <= 100)%nat ->
  BatchAssign.customRolesArray (BatchAssign.body req) = None ->
  Forall (BatchAssign.ready st) teamIds ->
  let options :=
    default (BatchAssign.mkOptions None None None)
      (BatchAssign.options (BatchAssign.body req)) in
  let size := default 10 (BatchAssign.maxConcurrency options) in
  let include := default true (BatchAssign.includeJustifications options) in
  (size <= 0 -> BatchAssign.handler env st req = None) /\
  (0 < size ->
   exists st' response job data,
     BatchAssign.handler env st req = Some (st', response, job) /\
     BatchAssign.statusCode response = 200 /\
     BatchAssign.data response = Some data /\
     Forall2
       (fun teamId result =>
          exists team,
            TeamManager.getTeam st teamId = Some team /\
            BatchAssign.teamId result = Team.id team)
       teamIds (BatchAssign.results data) /\
     map BatchAssign.sessionId (BatchAssign.results data)
     = map (fun k => BatchAssign.uuid env k 10%nat)
         (seq 0 (length teamIds)) /\
     let successful :=
       length (List.filter BatchAssign.succeeded (BatchAssign.results data)) in
     BatchAssign.summary data
     = BatchAssign.mkSummary (length teamIds) successful
         (length teamIds - successful) (if include then successful else 0%nat)
     /\
     BatchAssign.success response = (0 <? successful)%nat /\
     (job = None <-> include = false \/ successful = 0%nat) /\
     (forall started,
        job = Some started ->
        length (BatchAssign.teamsWithAssignments started) = successful) /\
     Store.teams st' = Store.teams st /\
     Store.groups st' = Store.groups st).
Proof.
  intros Hpost Hkey Hids Hsome Hmany Hcustom Hready. cbv zeta.
  unfold BatchAssign.handler.
  rewrite Hpost, Hkey, Hids, Hcustom. cbn [String.eqb Ascii.eqb Bool.eqb negb].
  change (negb ("POST" =? "POST")%string) with false. cbv iota.
  destruct teamIds as [|teamId teamIds]; [done|].
  assert ((100 <? length (teamId :: teamIds))%nat = false) as ->
    by (apply Nat.ltb_ge; exact Hmany).
  destruct (createSessions_ready env
              (default part1 (BatchAssign.phase (BatchAssign.body req)))
              (teamId :: teamIds) st 0 [] Hready)
    as (st1 & created & -> & Hteams1 & Hgroups1 & Hcreated & Hsessions).
  cbn [app].
  assert (length created = length (teamId :: teamIds)) as Hlength
    by (symmetry; eapply Forall2_length; exact Hcreated).
  set (size := default 10 _).
  split.
  - intros Hsize. unfold Scorer.generateScoreMatricesBatch.
    rewrite !length_map, Nat.eqb_refl. cbn [negb default].
    unfold Batch.createBatches.
    rewrite (createBatches_never_ends_loop (map fst created) size Hsize);
      [reflexivity| |lia].
    destruct created; [discriminate Hlength|discriminate].
  - intros Hsize.
    assert (length (map fst created)
            = length
                (map (fun entry => AssignmentSession.roles entry.2) created))
      as Hsame by (by rewrite !length_map).
    pose proof (generateScoreMatricesBatch_unfold (map fst created)
                  (map (fun entry => AssignmentSession.roles entry.2) created)
                  (Some size)
                  (Some
                     (default true
                        (BatchAssign.retryFailedRequests
                           (default (BatchAssign.mkOptions None None None)
                              (BatchAssign.options (BatchAssign.body req))))))
                  (BatchAssign.oracle env) (BatchAssign.clock env)
                  (BatchAssign.retryOracle env) (BatchAssign.retryClock env)
                  Hsame Hsize) as Hscoring.
    cbv zeta in Hscoring. rewrite Hscoring. clear Hscoring.
    set (scoringResults := Batch.results _).
    set (include := default true _).
    set (st2 := foldl _ st1 created).
    destruct (processTeams_results env include scoringResults created
                (BatchAssign.mkProgress st2 [] []) 0)
      as (new & Hresults & HteamIds & HsessionIds & Hpending & Hteams
          & Hgroups).
    cbv zeta in Hresults, Hpending, Hteams, Hgroups.
    set (progress := BatchAssign.processTeams _ _ _ _ _ _) in *.
    cbn [BatchAssign.assignmentResults BatchAssign.pendingJustifications
         BatchAssign.store app length Nat.add] in Hresults, Hpending, Hteams,
      Hgroups.
    rewrite Hresults.
    assert (length new = length (teamId :: teamIds)) as Hnew.
    { rewrite <- Hlength. apply (f_equal length) in HteamIds.
      by rewrite !length_map in HteamIds. }
    eexists _, _, _, _. split; [reflexivity|].
    cbn [BatchAssign.statusCode BatchAssign.data BatchAssign.results
         BatchAssign.summary BatchAssign.success].
    split; [reflexivity|]. split; [reflexivity|].
    cbn [BatchAssign.results BatchAssign.summary].
    split; [|split].
    + clear - Hcreated HteamIds.
      revert new HteamIds.
      induction Hcreated as [|id entry ids created [Hteam _] _ IH];
        intros new HteamIds.
      * destruct new; [constructor|discriminate].
      * destruct new as [|result new]; [discriminate|].
        cbn [map] in HteamIds. inversion HteamIds as [[Hid Hrest]].
        constructor; [by exists entry.1|by apply IH].
    + by rewrite HsessionIds, Hsessions.
    + rewrite Hnew. split; [|split; [reflexivity|]].
      * f_equal. rewrite Hpending. by destruct include.
      * rewrite Hpending.
        destruct (scoring_teams created st1) as [Hteams2 Hgroups2].
        fold st2 in Hteams2, Hgroups2.
        split; [|split; [|split]].
        -- destruct include; cbn [andb].
           ++ destruct (length (List.filter BatchAssign.succeeded new));
                cbn [Nat.ltb Nat.leb]; split; try done.
              ** intros _. by right.
              ** intros [?|?]; done.
           ++ split; [intros _; by left|done].
        -- intros started Hstarted.
           destruct include; cbn [andb] in Hstarted; [|discriminate].
           destruct (length (List.filter BatchAssign.succeeded new));
             cbn [Nat.ltb Nat.leb] in Hstarted; [discriminate|].
           inversion Hstarted. cbn [BatchAssign.teamsWithAssignments].
           exact Hpending.
        -- by rewrite Hteams, Hteams2, Hteams1.
        -- by rewrite Hgroups, Hgroups2, Hgroups1.
Qed.

(** *** The sessions of a batch *)

Lemma createSessions_stored env phase teamIds :
  forall st i created,
    Forall (BatchAssign.ready st) teamIds ->
    NoDup (map (fun k => BatchAssign.uuid env k 10%nat)
             (seq i (length teamIds))) ->
    exists st' new,
      BatchAssign.createSessions env phase None st teamIds i created
      = (st', inr (created ++ new)) /\
      Forall2
        (fun teamId entry =>
           TeamManager.getAssignmentSession st' (AssignmentSession.id entry.2)
           = Some entry.2 /\
           AssignmentSession.teamId entry.2 = teamId /\
           AssignmentSession.assignment entry.2 = None)
        teamIds new /\
      map (fun entry => AssignmentSession.id entry.2) new
      = map (fun k => BatchAssign.uuid env k 10%nat)
          (seq i (length teamIds)) /\
      (forall id,
         id ∉ map (fun k => BatchAssign.uuid env k 10%nat)
                (seq i (length teamIds)) ->
         TeamManager.getAssignmentSession st' id
         = TeamManager.getAssignmentSession st id).
Proof.
  intros st i created Hready Hnodup.
  destruct (createSessions_prefix env phase teamIds [] st i created Hready)
    as (st' & new & Hrun & _ & Hnew & Hids & Hstored & Hothers).
  rewrite app_nil_r in Hrun. cbn [BatchAssign.createSessions] in Hrun.
  exists st', new. split; [exact Hrun|]. split; [|by split].
  eapply (Forall2_with_right _ _ _ _ _ Hnew (Hstored Hnodup)).
  intros id entry (_ & ? & ? & _) ?. by repeat split.
Qed.

Lemma scoring_sessions (created : list (Team.t * AssignmentSession.t)) st id :
  exists change,
    TeamManager.getAssignmentSession
      (foldl
         (fun st entry =>
            (TeamManager.updateSessionStatus st (AssignmentSession.id entry.2)
               scoring).1)
         st created) id
    = change <$> TeamManager.getAssignmentSession st id /\
    forall s,
      AssignmentSession.teamId (change s) = AssignmentSession.teamId s /\
      AssignmentSession.assignment (change s) = AssignmentSession.assignment s.
Proof.
  revert st. induction created as [|entry created IH]; intros st; cbn [foldl].
  - exists (fun s => s). split; [by destruct (_ st id)|by split].
  - destruct (IH (TeamManager.updateSessionStatus st
                    (AssignmentSession.id entry.2) scoring).1)
      as (change & -> & Hchange).
    rewrite getAssignmentSession_updateSessionStatus.
    destruct (String.eqb_spec (AssignmentSession.id entry.2) id) as [->|Hne].
    + exists (fun s => change (AssignmentSession.withStatus s scoring)).
      split; [by destruct (TeamManager.getAssignmentSession st id)|].
      intros s. destruct (Hchange (AssignmentSession.withStatus s scoring))
        as [-> ->]. by split.
    + exists change. by split.
Qed.

Lemma processTeam_other env include scoringResults progress i entry id :
  AssignmentSession.id entry.2 <> id ->
  TeamManager.getAssignmentSession
    (BatchAssign.store
       (BatchAssign.processTeam env include scoringResults progress i entry))
    id
  = TeamManager.getAssignmentSession (BatchAssign.store progress) id.
Proof.
  intros Hne. apply String.eqb_neq in Hne. unfold BatchAssign.processTeam.
  destruct (Batch.outcome <$> find _ scoringResults)
    as [[scoreMatrix|error]|];
    [destruct (Assigner.assignRoles _ _ _ _ _)|..];
    cbn [BatchAssign.store];
    rewrite ?getAssignmentSession_updateSessionStatus,
      ?getAssignmentSession_mutateSession, ?Hne;
    rewrite ?getAssignmentSession_updateSessionStatus,
      ?getAssignmentSession_mutateSession, ?Hne;
    reflexivity.
Qed.

Lemma processTeams_other env include scoringResults entries id :
  forall progress i,
    id ∉ map (fun entry => AssignmentSession.id entry.2) entries ->
    TeamManager.getAssignmentSession
      (BatchAssign.store
         (BatchAssign.processTeams env include scoringResults progress i
            entries))
      id
    = TeamManager.getAssignmentSession (BatchAssign.store progress) id.
Proof.
  induction entries as [|entry entries IH]; intros progress i Hfresh;
    cbn [BatchAssign.processTeams]; [reflexivity|].
  cbn [map] in Hfresh. apply not_elem_of_cons in Hfresh as [Hne Hfresh].
  rewrite IH by exact Hfresh. apply processTeam_other. congruence.
Qed.


Ltac read_session Hsession :=
  repeat
    first
      [ rewrite getAssignmentSession_updateSessionStatus
      | rewrite getAssignmentSession_mutateSession
      | rewrite String.eqb_refl ];
  rewrite Hsession; cbn [fmap option_fmap option_map];
  eexists; split; [reflexivity|].

Lemma processTeam_own env include scoringResults progress i entry session :
  TeamManager.getAssignmentSession (BatchAssign.store progress)
    (AssignmentSession.id entry.2)
  = Some session ->
  AssignmentSession.assignment session = None ->
  let progress' :=
    BatchAssign.processTeam env include scoringResults progress i entry in
  exists result,
    BatchAssign.assignmentResults progress'
    = BatchAssign.assignmentResults progress ++ [result] /\
    BatchAssign.sessionId result = AssignmentSession.id entry.2 /\
    BatchAssign.settled include (BatchAssign.store progress')
      (AssignmentSession.teamId session) result.
Proof.
  intros Hsession Hnone. cbv zeta.
  unfold BatchAssign.processTeam, BatchAssign.settled.
  destruct (Batch.outcome <$> find _ scoringResults)
    as [[scoreMatrix|error]|].
  - destruct (Assigner.assignRoles _ _ _ _ _) as [assigned|error].
    + cbn [BatchAssign.store BatchAssign.assignmentResults].
      eexists. split; [reflexivity|].
      cbn [BatchAssign.sessionId BatchAssign.succeeded BatchAssign.assignment
           BatchAssign.resultError].
      split; [reflexivity|]. read_session Hsession.
      destruct session; cbn. by repeat split.
    + cbn [BatchAssign.store BatchAssign.assignmentResults].
      eexists. split; [reflexivity|].
      cbn [BatchAssign.sessionId BatchAssign.succeeded BatchAssign.assignment
           BatchAssign.resultError].
      split; [reflexivity|]. read_session Hsession.
      destruct session; cbn in *. by repeat split.
  - cbn [BatchAssign.store BatchAssign.assignmentResults].
    eexists. split; [reflexivity|].
    cbn [BatchAssign.sessionId BatchAssign.succeeded BatchAssign.assignment
         BatchAssign.resultError].
    split; [reflexivity|]. read_session Hsession.
    destruct session; cbn in *. by repeat split.
  - cbn [BatchAssign.store BatchAssign.assignmentResults].
    eexists. split; [reflexivity|].
    cbn [BatchAssign.sessionId BatchAssign.succeeded BatchAssign.assignment
         BatchAssign.resultError].
    split; [reflexivity|]. read_session Hsession.
    destruct session; cbn in *. by repeat split.
Qed.

Lemma scoring_other (created : list (Team.t * AssignmentSession.t)) st id :
  id ∉ map (fun entry => AssignmentSession.id entry.2) created ->
  TeamManager.getAssignmentSession
    (foldl
       (fun st entry =>
          (TeamManager.updateSessionStatus st (AssignmentSession.id entry.2)
             scoring).1)
       st created) id
  = TeamManager.getAssignmentSession st id.
Proof.
  revert st. induction created as [|entry created IH]; intros st Hfresh;
    cbn [foldl]; [reflexivity|].
  cbn [map] in Hfresh. apply not_elem_of_cons in Hfresh as [Hne Hfresh].
  rewrite IH by exact Hfresh.
  rewrite getAssignmentSession_updateSessionStatus.
  destruct (String.eqb_spec (AssignmentSession.id entry.2) id);
    [congruence|reflexivity].
Qed.

Lemma processTeams_settled env include scoringResults entries :
  forall teamIds progress i,
    NoDup (map (fun entry => AssignmentSession.id entry.2) entries) ->
    Forall2
      (fun teamId entry =>
         exists session,
           TeamManager.getAssignmentSession (BatchAssign.store progress)
             (AssignmentSession.id entry.2)
           = Some session /\
           AssignmentSession.teamId session = teamId /\
           AssignmentSession.assignment session = None)
      teamIds entries ->
    let progress' :=
      BatchAssign.processTeams env include scoringResults progress i entries in
    exists new,
      BatchAssign.assignmentResults progress'
      = BatchAssign.assignmentResults progress ++ new /\
      Forall2 (BatchAssign.settled include (BatchAssign.store progress'))
        teamIds new.
Proof.
  induction entries as [|entry entries IH];
    intros teamIds progress i Hnodup Hstored; cbv zeta.
  - inversion Hstored; subst. exists []. cbn [BatchAssign.processTeams].
    rewrite app_nil_r. split; [reflexivity|constructor].
  - inversion Hstored
      as [|teamId ? teamIds' ? (session & Hsession & HteamId & Hnone) Hrest];
      subst.
    cbn [map] in Hnodup. apply NoDup_cons in Hnodup as [Hfirst Hnodup].
    cbn [BatchAssign.processTeams].
    destruct (processTeam_own env include scoringResults progress i entry
                session Hsession Hnone)
      as (result & Hresult & Hid & Hsettled).
    cbv zeta in Hresult, Hsettled.
    set (progress1 := BatchAssign.processTeam _ _ _ _ _ _) in *.
    destruct (IH teamIds' progress1 (S i) Hnodup) as (new & Hnew & Hall).
    { eapply (Forall2_with_right _ _
                (fun e => AssignmentSession.id e.2
                          <> AssignmentSession.id entry.2));
        [exact Hrest| |].
      - apply Forall_forall. intros e He Heq. apply Hfirst.
        rewrite <- Heq. apply list_elem_of_fmap. by exists e.
      - intros id e (s & Hs & Hrest') Hne. exists s. split; [|exact Hrest'].
        unfold progress1. rewrite processTeam_other; [exact Hs|congruence]. }
    cbv zeta in Hnew, Hall.
    exists (result :: new). rewrite Hnew, Hresult, <- app_assoc.
    split; [reflexivity|]. constructor; [|exact Hall].
    destruct Hsettled as (s' & Hs' & Hrest').
    exists s'. split; [|exact Hrest'].
    rewrite processTeams_other; [exact Hs'|]. by rewrite Hid.
Qed.

(** The sessions of a batch that was answered, the ids of its sessions
    being different: for each team of the request, in order, the result
    names the session that was created for the team, and that session is
    in the store for the team. A team that was assigned has a session with
    the assignment of the result and status [justifying], or [complete]
    when no justifications are wanted; any other team has a session with
    status [pending] and no assignment, and a result with an error. No
    session of the batch is left in [scoring] or [assigning]. *)
Theorem batchAssign_sessions env st req teamIds :
  BatchAssign.method req = "POST" ->
  AssignTeam.isBlank (BatchAssign.openRouterApiKey env) = false ->
  BatchAssign.teamIds (BatchAssign.body req) = Some teamIds ->
  teamIds <> [] ->
  (length teamIds <= 100)%nat ->
  BatchAssign.customRolesArray (BatchAssign.body req) = None ->
  Forall (BatchAssign.ready st) teamIds ->
  NoDup (map (fun k => BatchAssign.uuid env k 10%nat)
           (seq 0 (length teamIds))) ->
  let options :=
    default (BatchAssign.mkOptions None None None)
      (BatchAssign.options (BatchAssign.body req)) in
  let include := default true (BatchAssign.includeJustifications options) in
  0 < default 10 (BatchAssign.maxConcurrency options) ->
  exists st' response job data,
    BatchAssign.handler env st req = Some (st', response, job) /\
    BatchAssign.data response = Some data /\
    Forall2 (BatchAssign.settled include st') teamIds
      (BatchAssign.results data) /\
    (forall id,
       id ∉ map (fun k => BatchAssign.uuid env k 10%nat)
              (seq 0 (length teamIds)) ->
       TeamManager.getAssignmentSession st' id
       = TeamManager.getAssignmentSession st id).
Proof.
  intros Hpost Hkey Hids Hsome Hmany Hcustom Hready Hnodup. cbv zeta.
  intros Hsize. unfold BatchAssign.handler.
  rewrite Hpost, Hkey, Hids, Hcustom.
  change (negb ("POST" =? "POST")%string) with false. cbv iota.
  destruct teamIds as [|teamId teamIds]; [done|].
  assert ((100 <? length (teamId :: teamIds))%nat = false) as ->
    by (apply Nat.ltb_ge; exact Hmany).
  destruct (createSessions_stored env
              (default part1 (BatchAssign.phase (BatchAssign.body req)))
              (teamId :: teamIds) st 0 [] Hready Hnodup)
    as (st1 & created & -> & Hcreated & Hsessions & Hothers).
  cbn [app].
  assert (length (map fst created)
          = length
              (map (fun entry => AssignmentSession.roles entry.2) created))
    as Hsame by (by rewrite !length_map).
  pose proof (generateScoreMatricesBatch_unfold (map fst created)
                (map (fun entry => AssignmentSession.roles entry.2) created)
                (Some
                   (default 10
                      (BatchAssign.maxConcurrency
                         (default (BatchAssign.mkOptions None None None)
                            (BatchAssign.options (BatchAssign.body req))))))
                (Some
                   (default true
                      (BatchAssign.retryFailedRequests
                         (default (BatchAssign.mkOptions None None None)
                            (BatchAssign.options (BatchAssign.body req))))))
                (BatchAssign.oracle env) (BatchAssign.clock env)
                (BatchAssign.retryOracle env) (BatchAssign.retryClock env)
                Hsame Hsize) as Hscoring.
  cbv zeta in Hscoring. rewrite Hscoring. clear Hscoring.
  set (scoringResults := Batch.results _).
  set (include := default true _).
  set (st2 := foldl _ st1 created).
  rewrite <- Hsessions in Hnodup, Hothers.
  destruct (processTeams_settled env include scoringResults created
              (teamId :: teamIds) (BatchAssign.mkProgress st2 [] []) 0 Hnodup)
    as (new & Hresults & Hsettled).
  { eapply Forall2_impl; [exact Hcreated|].
    intros id entry (Hstored & HteamId & Hnone). cbn [BatchAssign.store].
    destruct (scoring_sessions created st1 (AssignmentSession.id entry.2))
      as (change & Hchange & Hkept).
    fold st2 in Hchange. rewrite Hchange, Hstored.
    exists (change entry.2). split; [reflexivity|].
    destruct (Hkept entry.2) as [-> ->]. by split. }
  cbv zeta in Hresults, Hsettled.
  set (progress := BatchAssign.processTeams _ _ _ _ _ _) in *.
  cbn [BatchAssign.assignmentResults app] in Hresults.
  eexists _, _, _, _. split; [reflexivity|].
  cbn [BatchAssign.data]. split; [reflexivity|].
  cbn [BatchAssign.results]. rewrite Hresults. split; [exact Hsettled|].
  intros id Hfresh. rewrite <- Hsessions in Hfresh. unfold progress.
  rewrite processTeams_other by exact Hfresh. cbn [BatchAssign.store].
  unfold st2. rewrite scoring_other by exact Hfresh. by apply Hothers.
Qed.

Lemma Forall2_through {A B C D} (P : A -> B -> Prop) (Q : B -> Prop)
    (f : B -> D) (g : C -> D) (l : list A) (k : list B) (m : list C) :
  Forall2 P l k -> Forall Q k -> map f k = map g m ->
  Forall2 (fun x z => exists y, P x y /\ Q y /\ f y = g z) l m.
Proof.
  intros HP. revert m. induction HP as [|x y l k Hxy _ IH]; intros m HQ Hmap.
  - destruct m; [constructor|discriminate].
  - destruct m as [|z m]; [discriminate|].
    inversion HQ; subst. cbn [map] in Hmap. inversion Hmap.
    constructor; [by exists y|by apply IH].
Qed.

(** The handler of assignTeamsBatch undoes nothing. A request that names a
    team that is not in the store, after teams that are ready, is answered
    404 for that team, and the sessions that were created for the teams
    before it stay in the store with status [pending]: a team is looked up
    only when its turn comes. *)
Theorem batchAssign_no_rollback env st req good missing rest :
  BatchAssign.method req = "POST" ->
  AssignTeam.isBlank (BatchAssign.openRouterApiKey env) = false ->
  BatchAssign.teamIds (BatchAssign.body req) = Some (good ++ missing :: rest) ->
  (length (good ++ missing :: rest) <= 100)%nat ->
  BatchAssign.customRolesArray (BatchAssign.body req) = None ->
  Forall (BatchAssign.ready st) good ->
  TeamManager.getTeam st missing = None ->
  NoDup (map (fun k => BatchAssign.uuid env k 10%nat) (seq 0 (length good))) ->
  exists st',
    BatchAssign.handler env st req
    = Some
        (st',
         BatchAssign.errorResponse 404 ("Team not found: " +:+ missing),
         None) /\
    Forall2
      (fun teamId k =>
         exists session,
           TeamManager.getAssignmentSession st' (BatchAssign.uuid env k 10%nat)
           = Some session /\
           AssignmentSession.teamId session = teamId /\
           AssignmentSession.status session = pending)
      good (seq 0 (length good)) /\
    (forall id,
       id ∉ map (fun k => BatchAssign.uuid env k 10%nat)
              (seq 0 (length good)) ->
       TeamManager.getAssignmentSession st' id
       = TeamManager.getAssignmentSession st id).
Proof.
  intros Hpost Hkey Hids Hmany Hcustom Hready Hmissing Hnodup.
  unfold BatchAssign.handler.
  rewrite Hpost, Hkey, Hids, Hcustom.
  change (negb ("POST" =? "POST")%string) with false. cbv iota.
  destruct (good ++ missing :: rest) as [|first others] eqn:Hall.
  { by destruct good. }
  assert ((100 <? length (first :: others))%nat = false) as ->
    by (apply Nat.ltb_ge; exact Hmany).
  rewrite <- Hall.
  destruct (createSessions_prefix env
              (default part1 (BatchAssign.phase (BatchAssign.body req)))
              good (missing :: rest) st 0 [] Hready)
    as (st' & new & -> & [Hteams _] & Hnew & Hsessions & Hstored & Hothers).
  cbn [BatchAssign.createSessions]. unfold TeamManager.getTeam in *.
  rewrite Hteams, Hmissing.
  exists st'. split; [reflexivity|]. split; [|exact Hothers].
  eapply Forall2_impl.
  - exact (Forall2_through _ _ _ _ _ _ _ Hnew (Hstored Hnodup) Hsessions).
  - intros teamId k (entry & (_ & HteamId & _ & Hpending) & Hentry & Hid).
    exists entry.2. cbv beta in Hid. rewrite <- Hid. by repeat split.
Qed.

(** *** The batch handler on the examples *)

Lemma twoTeams_ready :
  Forall (BatchAssign.ready Scenarios.twoTeams) ["team-1"; "team-2"].
Proof.
  repeat constructor.
  - exists (Scenarios.teamOf 1). repeat split; vm_compute; reflexivity.
  - exists (Scenarios.teamOf 2). repeat split; vm_compute; reflexivity.
Defined.

Lemma batchAssign_answers_witness :
  BatchAssign.handler Scenarios.batchEnv Scenarios.twoTeams
    (Scenarios.batchRequest ["team-1"; "team-2"] 0 false)
  = None /\
  exists st' response job,
    BatchAssign.handler Scenarios.batchEnv Scenarios.twoTeams
      (Scenarios.batchRequest ["team-1"; "team-2"] 2 false)
    = Some (st', response, job) /\
    BatchAssign.statusCode response = 200.
Proof.
  assert (["team-1"; "team-2"] <> @nil string) as Hsome by discriminate.
  assert (length ["team-1"; "team-2"] <= 100)%nat as Hmany by (cbn; lia).
  split.
  - apply (proj1 (batchAssign_answers Scenarios.batchEnv Scenarios.twoTeams
                    (Scenarios.batchRequest ["team-1"; "team-2"] 0 false)
                    ["team-1"; "team-2"] eq_refl eq_refl eq_refl Hsome Hmany
                    eq_refl twoTeams_ready)).
    cbn. lia.
  - destruct (proj2 (batchAssign_answers Scenarios.batchEnv
                       Scenarios.twoTeams
                       (Scenarios.batchRequest ["team-1"; "team-2"] 2 false)
                       ["team-1"; "team-2"] eq_refl eq_refl eq_refl Hsome
                       Hmany eq_refl twoTeams_ready))
      as (st' & response & job & data & Hrun & Hstatus & _); [cbn; lia|].
    exists st', response, job. split; [exact Hrun|exact Hstatus].
Defined.

Example batchAssign_example :
  match BatchAssign.handler Scenarios.batchEnv Scenarios.twoTeams
          (Scenarios.batchRequest ["team-1"; "team-2"] 2 false) with
  | Some (st', response, job) =>
      BatchAssign.statusCode response = 200 /\
      BatchAssign.success response = true /\
      BatchAssign.summary <$> BatchAssign.data response
      = Some (BatchAssign.mkSummary 2 1 1 1) /\
      map
        (fun result =>
           (BatchAssign.teamId result, BatchAssign.sessionId result,
            BatchAssign.succeeded result, BatchAssign.resultError result))
      <$> (BatchAssign.results <$> BatchAssign.data response)
      = Some
          [("team-1", "uuid-0-10", true, None);
           ("team-2", "uuid-1-10", false,
            Some
              "Scoring failed: Scoring failed after 0 retries: Score matrix must be 10x10")]
      /\
      BatchAssign.message response
      = Some
          "Batch assignment completed: 1/2 teams assigned successfully. Justifications are being generated in background."
      /\
      AssignmentSession.status
      <$> TeamManager.getAssignmentSession st' "uuid-0-10"
      = Some justifying /\
      AssignmentSession.status
      <$> TeamManager.getAssignmentSession st' "uuid-1-10"
      = Some pending /\
      map AssignTeamsBatch.sessionId
      <$> (BatchAssign.teamsWithAssignments <$> job)
      = Some ["uuid-0-10"]
  | None => False
  end.
Proof. vm_compute. repeat split. Qed.

Lemma batchAssign_sessions_witness :
  exists st' response job data,
    BatchAssign.handler Scenarios.batchEnv Scenarios.twoTeams
      (Scenarios.batchRequest ["team-1"; "team-2"] 2 false)
    = Some (st', response, job) /\
    BatchAssign.data response = Some data /\
    Forall2 (BatchAssign.settled true st') ["team-1"; "team-2"]
      (BatchAssign.results data).
Proof.
  assert (["team-1"; "team-2"] <> @nil string) as Hsome by discriminate.
  assert (length ["team-1"; "team-2"] <= 100)%nat as Hmany by (cbn; lia).
  destruct (batchAssign_sessions Scenarios.batchEnv Scenarios.twoTeams
              (Scenarios.batchRequest ["team-1"; "team-2"] 2 false)
              ["team-1"; "team-2"] eq_refl eq_refl eq_refl Hsome Hmany eq_refl
              twoTeams_ready)
    as (st' & response & job & data & Hrun & Hdata & Hsettled & _).
  - apply (@bool_decide_unpack _ (NoDup_dec _)). vm_compute. reflexivity.
  - cbn. lia.
  - exists st', response, job, data.
    split; [exact Hrun|]. split; [exact Hdata|exact Hsettled].
Defined.

Lemma batchAssign_no_rollback_witness :
  exists st',
    BatchAssign.handler Scenarios.batchEnv Scenarios.twoTeams
      (Scenarios.batchRequest ["team-1"; "team-9"; "team-2"] 2 false)
    = Some
        (st', BatchAssign.errorResponse 404 "Team not found: team-9", None) /\
    exists session,
      TeamManager.getAssignmentSession st' "uuid-0-10" = Some session /\
      AssignmentSession.teamId session = "team-1" /\
      AssignmentSession.status session = pending.
Proof.
  assert (length (["team-1"] ++ "team-9" :: ["team-2"]) <= 100)%nat as Hmany
    by (cbn; lia).
  destruct (batchAssign_no_rollback Scenarios.batchEnv Scenarios.twoTeams
              (Scenarios.batchRequest ["team-1"; "team-9"; "team-2"] 2 false)
              ["team-1"] "team-9" ["team-2"] eq_refl eq_refl eq_refl Hmany
              eq_refl)
    as (st' & Hrun & Hleft & _).
  - constructor; [|constructor].
    exists (Scenarios.teamOf 1). repeat split; vm_compute; reflexivity.
  - vm_compute. reflexivity.
  - apply (@bool_decide_unpack _ (NoDup_dec _)). vm_compute. reflexivity.
  - exists st'. split; [exact Hrun|].
    inversion Hleft as [|? ? ? ? Hfirst _]; subst. exact Hfirst.
Defined.

(** ** Reading the assignments of a run *)

(** What a run of the single-team handler that started its background job
    has done. *)
Lemma handler_run env st req st' response job :
  AssignTeam.handler env st req = (st', response, Some job) ->
  exists body session scoreMatrix,
    AssignTeam.validation req = Success body /\
    TeamManager.getTeam st (AssignTeam.teamId body)
    = Some (AssignTeam.jobTeam job) /\
    Store.teams st' = Store.teams st /\
    TeamManager.getAssignmentSession st' (AssignTeam.jobSessionId job)
    = Some session /\
    AssignmentSession.teamId session = AssignTeam.teamId body /\
    AssignmentSession.roles session = AssignTeam.jobRoles job /\
    AssignmentSession.status session = justifying /\
    AssignmentSession.assignment session
    = Some (AssignTeam.jobAssignment job) /\
    Assigner.assignRoles (AssignTeam.munkres env) (AssignTeam.assignedAt env)
      (AssignTeam.jobTeam job) (AssignTeam.jobRoles job) scoreMatrix
    = Success (AssignTeam.jobAssignment job).
Proof.
  unfold AssignTeam.handler. intros H.
  destruct (negb (String.eqb (AssignTeam.method req) "POST")); [inversion H|].
  destruct (AssignTeam.isBlank (AssignTeam.openRouterApiKey env));
    [inversion H|].
  destruct (AssignTeam.validation req) as [body|]; [|inversion H].
  destruct (TeamManager.getTeam st (AssignTeam.teamId body)) as [team|]
    eqn:Hteam; [|inversion H].
  destruct (negb (Team.isComplete team)); [inversion H|].
  destruct (TeamManager.createAssignmentSession _ _ _ _ _ _)
    as [st1 [session|]] eqn:Hcreate; [|inversion H].
  destruct (Scorer.generateScoreMatrix _ _ _ _).1 as [scoreMatrix|];
    [|inversion H].
  destruct (Assigner.assignRoles _ _ _ _ _) as [assignment|] eqn:Hassign;
    [|inversion H].
  inversion H; subst st' response job; clear H.
  cbn [AssignTeam.jobSessionId AssignTeam.jobAssignment AssignTeam.jobTeam
       AssignTeam.jobRoles].
  pose proof (createAssignmentSession_Success _ _ _ _ _ _ _ _ Hcreate)
    as (Hst1 & HteamId & _).
  exists body. eexists. exists scoreMatrix.
  split; [reflexivity|]. split; [exact Hteam|]. split.
  { repeat
      first
        [ rewrite (proj1 (teams_updateSessionStatus _ _ _))
        | rewrite (proj1 (teams_mutateSession _ _ _)) ].
    by rewrite Hst1. }
  rewrite getAssignmentSession_updateSessionStatus, String.eqb_refl.
  rewrite getAssignmentSession_mutateSession, String.eqb_refl.
  rewrite getAssignmentSession_updateSessionStatus, String.eqb_refl.
  rewrite getAssignmentSession_mutateSession, String.eqb_refl.
  rewrite getAssignmentSession_updateSessionStatus, String.eqb_refl.
  rewrite Hst1, getAssignmentSession_created, String.eqb_refl.
  cbn [fmap option_fmap option_map].
  split; [reflexivity|]. destruct session; cbn in *.
  split; [exact HteamId|]. split; [reflexivity|]. split; [reflexivity|].
  split; [reflexivity|exact Hassign].
Qed.

(** The details of an assignment that [assignRoles] made are always
    found. *)
Lemma assignRoles_details munkres now team roles scoreMatrix assignment :
  Assigner.assignRoles munkres now team roles scoreMatrix
  = Success assignment ->
  exists details,
    AssignmentDetail.getAssignmentDetails team roles assignment
    = Success details /\
    length details = 10%nat.
Proof.
  intros Hassign.
  apply assignRoles_Success in Hassign
    as (_ & _ & pairs & _ & Hlen & _ & Hpaired & _ & _ & _).
  unfold AssignmentDetail.getAssignmentDetails.
  destruct (AssignmentDetail.collectDetails team roles
              (TeamAssignment.assignments assignment) [])
    as [unsorted|error] eqn:Hcollect.
  - eexists. split; [reflexivity|]. rewrite sort_Permutation.
    destruct (collectDetails_Success _ _ _ _ _ Hcollect) as (new & -> & Hnew).
    cbn [app]. rewrite <- (Forall2_length _ _ _ Hnew).
    by rewrite <- (Forall2_length _ _ _ Hpaired).
  - exfalso.
    destruct (collectDetails_Failure _ _ _ _ _ Hcollect)
      as (assign & Hin & Hfail).
    apply list_elem_of_lookup in Hin as [k Hk].
    destruct (Forall2_lookup_r _ _ _ _ _ Hpaired Hk)
      as (pair & _ & applicant & role & Happlicant & Hrole & ->).
    unfold AssignmentDetail.detailOf in Hfail.
    cbn [Assignment.applicantId Assignment.roleId] in Hfail.
    destruct (find_id Applicant.id (Applicant.id applicant)
                (Team.applicants team)) as [a Hfound].
    { apply list_elem_of_fmap. exists applicant.
      split; [reflexivity|by eapply list_elem_of_lookup_2]. }
    destruct (find_id RoleDefinition.id (RoleDefinition.id role) roles)
      as [r Hfound'].
    { apply list_elem_of_fmap. exists role.
      split; [reflexivity|by eapply list_elem_of_lookup_2]. }
    rewrite Hfound, Hfound' in Hfail. discriminate Hfail.
Qed.

Lemma generateJustifications_flag team roles assignment oracle updated :
  (Justifier.generateJustifications team roles assignment oracle).1
  = Success updated ->
  TeamAssignment.justificationsGenerated updated = true.
Proof.
  intros Hresult.
  destruct (generateJustifications_last team roles assignment oracle)
    as (n & _ & Hlast).
  destruct (Justifier.attempt team roles assignment (oracle n))
    as [updated'|message] eqn:Hattempt.
  - rewrite Hlast in Hresult. inversion Hresult; subst updated'.
    apply justifier_attempt_Return in Hattempt
      as (_ & _ & _ & _ & _ & _ & ->).
    reflexivity.
  - destruct Hlast as [error Herror]. congruence.
Qed.

(** Reading the assignments of a run of the single-team handler, with a
    GET for the team and the session of the run. Right after the handler
    has answered 200 the reader answers 200 with the session in status
    [justifying], the ten details of the assignment, its statistics and
    the message that the justifications are on their way. After the
    background job it answers 200 with the session in status [complete]:
    with the justified assignment and the message that says so when the
    justifier succeeded, and with the assignment as it was and the message
    that the justifications may still be processing when it failed, which
    they are not. *)
Theorem getAssignments_follows_run env st req st' response job body oracle :
  AssignTeam.handler env st req = (st', response, Some job) ->
  AssignTeam.validation req = Success body ->
  AssignTeam.teamId body <> EmptyString ->
  AssignTeam.jobSessionId job <> EmptyString ->
  let poll st :=
    GetAssignments.handler st
      (GetAssignments.mkRequest "GET"
         (GetAssignments.mkParams (Some (AssignTeam.teamId body))
            (Some (AssignTeam.jobSessionId job)))
         (GetAssignments.mkParams None None)) in
  let finished := AssignTeam.generateJustificationsBackground st' job oracle in
  let justified :=
    (Justifier.generateJustifications (AssignTeam.jobTeam job)
       (AssignTeam.jobRoles job) (AssignTeam.jobAssignment job) oracle).1 in
  (exists session details,
     poll st'
     = GetAssignments.mkResponse 200 true
         (Some
            (GetAssignments.mkData session (Some details)
               (Some
                  (Assigner.getAssignmentStats (AssignTeam.jobAssignment job)))))
         None (Some "Assignment complete! Generating AI justifications...") /\
     AssignmentSession.status session = justifying /\
     AssignmentSession.assignment session
     = Some (AssignTeam.jobAssignment job) /\
     AssignmentDetail.getAssignmentDetails (AssignTeam.jobTeam job)
       (AssignTeam.jobRoles job) (AssignTeam.jobAssignment job)
     = Success details /\
     length details = 10%nat) /\
  (exists session,
     GetAssignments.statusCode (poll finished) = 200 /\
     GetAssignments.session <$> GetAssignments.data (poll finished)
     = Some session /\
     AssignmentSession.status session = complete /\
     AssignmentSession.assignment session
     = Some
         match justified with
         | Success updated => updated
         | Failure _ => AssignTeam.jobAssignment job
         end /\
     GetAssignments.message (poll finished)
     = Some
         match justified with
         | Success _ => "Assignment complete with AI justifications!"
         | Failure _ =>
             "Assignment complete! (Justifications may still be processing)"
         end).
Proof.
  intros Hrun Hbody HteamId HsessionId. cbv zeta.
  destruct (handler_launches_job _ _ _ _ _ _ Hrun) as (_ & _ & _ & _ & Hflag & _).
  destruct (handler_run _ _ _ _ _ _ Hrun)
    as (body' & session & scoreMatrix & Hbody' & Hteam & Hteams & Hsession
        & Hfor & Hroles & Hstatus & Hassignment & Hassign).
  assert (body' = body) as -> by congruence.
  destruct (assignRoles_details _ _ _ _ _ _ Hassign) as (details & Hdetails & Hten).
  unfold GetAssignments.handler.
  cbn [GetAssignments.method GetAssignments.query GetAssignments.teamId
       GetAssignments.sessionId].
  change (negb ("GET" =? "GET")%string && negb ("GET" =? "POST")%string)
    with false.
  change ("GET" =? "GET")%string with true. cbv iota.
  cbn [GetAssignments.teamId GetAssignments.sessionId].
  destruct (AssignTeam.teamId body) as [|c id] eqn:Hid; [done|].
  destruct (AssignTeam.jobSessionId job) as [|c' id'] eqn:Hid'; [done|].
  assert (forall st2,
            Store.teams st2 = Store.teams st ->
            TeamManager.getTeam st2 (String c id)
            = Some (AssignTeam.jobTeam job)) as Hfound.
  { intros st2 Hst2. unfold TeamManager.getTeam in *. by rewrite Hst2. }
  split.
  - exists session, details.
    rewrite (Hfound st' Hteams), Hsession, Hfor, String.eqb_refl. cbn [negb].
    unfold GetAssignments.answer, GetAssignments.statusMessage.
    rewrite Hassignment, Hstatus, Hroles, Hdetails.
    cbn [fmap option_fmap option_map fst snd]. by repeat split.
  - unfold AssignTeam.generateJustificationsBackground. rewrite Hid'.
    destruct (Justifier.generateJustifications _ _ _ _).1
      as [updated|error] eqn:Hjustified.
    + rewrite Hsession. rewrite Hfound.
      2: { rewrite (proj1 (teams_updateSessionStatus _ _ _)),
             (proj1 (teams_mutateSession _ _ _)). exact Hteams. }
      rewrite getAssignmentSession_updateSessionStatus, String.eqb_refl.
      rewrite getAssignmentSession_mutateSession, String.eqb_refl, Hsession.
      cbn [fmap option_fmap option_map].
      exists (AssignmentSession.withStatus
                (AssignmentSession.withAssignment session updated) complete).
      cbn [AssignmentSession.withStatus AssignmentSession.withAssignment
           AssignmentSession.teamId].
      rewrite Hfor, String.eqb_refl. cbn [negb].
      unfold GetAssignments.answer, GetAssignments.statusMessage.
      cbn [AssignmentSession.withStatus AssignmentSession.withAssignment
           AssignmentSession.assignment AssignmentSession.status
           GetAssignments.statusCode GetAssignments.data
           GetAssignments.message fmap option_fmap option_map
           GetAssignments.session].
      rewrite (generateJustifications_flag _ _ _ _ _ Hjustified).
      by repeat split.
    + rewrite Hfound
        by (rewrite (proj1 (teams_updateSessionStatus _ _ _)); exact Hteams).
      rewrite getAssignmentSession_updateSessionStatus, String.eqb_refl,
        Hsession.
      cbn [fmap option_fmap option_map].
      exists (AssignmentSession.withStatus session complete).
      cbn [AssignmentSession.withStatus AssignmentSession.teamId].
      rewrite Hfor, String.eqb_refl. cbn [negb].
      unfold GetAssignments.answer, GetAssignments.statusMessage.
      cbn [AssignmentSession.withStatus AssignmentSession.withAssignment
           AssignmentSession.assignment AssignmentSession.status
           GetAssignments.statusCode GetAssignments.data
           GetAssignments.message fmap option_fmap option_map
           GetAssignments.session].
      rewrite Hassignment, Hflag. by repeat split.
Qed.

Lemma getAssignments_follows_run_witness :
  GetAssignments.message
    (GetAssignments.handler Examples.justifyingStore Scenarios.pollRequest)
  = Some "Assignment complete! Generating AI justifications..." /\
  GetAssignments.message
    (GetAssignments.handler
       (AssignTeam.generateJustificationsBackground Examples.justifyingStore
          Examples.job (fun _ => OpenRouter.Parsed Examples.justifications))
       Scenarios.pollRequest)
  = Some "Assignment complete with AI justifications!".
Proof.
  destruct handler_success as (response & Hrun & _).
  destruct (getAssignments_follows_run _ _ _ _ _ _
              (AssignTeam.mkBody "team-1" part1 None)
              (fun _ => OpenRouter.Parsed Examples.justifications) Hrun
              eq_refl)
    as [(session & details & Hpoll & _) (session' & _ & _ & _ & _ & Hmessage)].
  - discriminate.
  - discriminate.
  - split.
    + exact (f_equal GetAssignments.message Hpoll).
    + refine (eq_trans Hmessage _). vm_compute. reflexivity.
Defined.

Example getAssignments_example :
  GetAssignments.handler Examples.store Scenarios.pollRequest
  = GetAssignments.errorResponse 404 "Assignment session not found" /\
  GetAssignments.handler Examples.store
    (GetAssignments.mkRequest "GET" (GetAssignments.mkParams (Some "team-1") None)
       (GetAssignments.mkParams None None))
  = GetAssignments.errorResponse 404
      "No assignment sessions found for this team" /\
  GetAssignments.message
    (GetAssignments.handler
       (AssignTeam.generateJustificationsBackground Examples.justifyingStore
          Examples.job (fun _ => OpenRouter.HttpError 400 "Bad Request"))
       Scenarios.pollRequest)
  = Some "Assignment complete! (Justifications may still be processing)" /\
  GetAssignments.message
    (GetAssignments.handler Examples.scoringStore
       (GetAssignments.mkRequest "POST" (GetAssignments.mkParams None None)
          (GetAssignments.mkParams (Some "team-1") None)))
  = Some "AI is analyzing applicants and generating compatibility scores...".
Proof. repeat split; vm_compute; reflexivity. Qed.

(** ** The latest session of a team *)

Lemma head_sort_cons {A} (compare : A -> A -> Z) (x : A) (l : list A) :
  head (JSArray.sort compare (x :: l))
  = match head (JSArray.sort compare l) with
    | None => Some x
    | Some y => if compare x y <=? 0 then Some x else Some y
    end.
Proof.
  unfold JSArray.sort. cbn [foldr].
  destruct (foldr (JSArray.insertSorted compare) [] l) as [|y rest];
    cbn [JSArray.insertSorted head]; [reflexivity|].
  by destruct (compare x y <=? 0).
Qed.

Lemma latest_first_maximum (l : list AssignmentSession.t) :
  match head
          (JSArray.sort
             (fun a b =>
                AssignmentSession.createdAt b - AssignmentSession.createdAt a)
             l) with
  | None => l = []
  | Some latest =>
      exists before after,
        l = before ++ latest :: after /\
        Forall
          (fun s =>
             AssignmentSession.createdAt s < AssignmentSession.createdAt latest)
          before /\
        Forall
          (fun s =>
             AssignmentSession.createdAt s
             <= AssignmentSession.createdAt latest)
          after
  end.
Proof.
  induction l as [|x l IH]; [reflexivity|].
  rewrite head_sort_cons.
  destruct (head (JSArray.sort _ l)) as [y|].
  - destruct IH as (before & after & -> & Hbefore & Hafter).
    destruct (Z.leb_spec
                (AssignmentSession.createdAt y - AssignmentSession.createdAt x)
                0) as [Hle|Hgt].
    + exists [], (before ++ y :: after). split; [reflexivity|].
      split; [constructor|]. apply Forall_app. split.
      * eapply Forall_impl; [exact Hbefore|]. intros s Hs. cbv beta in Hs. lia.
      * constructor; [lia|].
        eapply Forall_impl; [exact Hafter|]. intros s Hs. cbv beta in Hs. lia.
    + exists (x :: before), after. split; [reflexivity|].
      split; [|exact Hafter]. constructor; [lia|exact Hbefore].
  - subst l. exists [], []. by repeat split.
Qed.

(** [getLatestSessionForTeam] gives nothing exactly when the team has no
    assignment session. Otherwise it gives a session of the team that none
    of the team's sessions was created after; when several were created at
    the same time, the latest of which is the time of the result, it is
    the one that was stored first among them, not the one stored last. *)
Theorem getLatestSessionForTeam_latest st teamId :
  let sessions :=
    List.filter (fun s => String.eqb (AssignmentSession.teamId s) teamId)
      (JSMap.values (Store.sessions st)) in
  match TeamManager.getLatestSessionForTeam st teamId with
  | None => sessions = []
  | Some latest =>
      AssignmentSession.teamId latest = teamId /\
      exists before after,
        sessions = before ++ latest :: after /\
        Forall
          (fun s =>
             AssignmentSession.createdAt s < AssignmentSession.createdAt latest)
          before /\
        Forall
          (fun s =>
             AssignmentSession.createdAt s
             <= AssignmentSession.createdAt latest)
          after
  end.
Proof.
  cbv zeta. unfold TeamManager.getLatestSessionForTeam.
  pose proof (latest_first_maximum
                (List.filter
                   (fun s => String.eqb (AssignmentSession.teamId s) teamId)
                   (JSMap.values (Store.sessions st)))) as Hlatest.
  destruct (head _) as [latest|]; [|exact Hlatest].
  split; [|exact Hlatest].
  destruct Hlatest as (before & after & Hsplit & _).
  assert (In latest
            (List.filter
               (fun s => String.eqb (AssignmentSession.teamId s) teamId)
               (JSMap.values (Store.sessions st)))) as Hin
    by (rewrite Hsplit; apply in_elt).
  apply filter_In in Hin as [_ Hteam]. by apply String.eqb_eq.
Qed.

Example getLatestSessionForTeam_tie :
  let first := AssignmentSession.mk "s1" "team-1" part1 [] None None pending 5 in
  let second :=
    AssignmentSession.mk "s2" "team-1" part1 [] None None complete 5 in
  let older :=
    AssignmentSession.mk "s0" "team-1" part1 [] None None complete 4 in
  TeamManager.getLatestSessionForTeam
    (Store.mk [] [("s0", older); ("s1", first); ("s2", second)] []) "team-1"
  = Some first.
Proof. reflexivity. Qed.

(** ** The cleaning of old sessions *)

Lemma clearSessionData_getTeam st sessionId teamId :
  JSMap.wellFormed (Store.teams st) ->
  TeamManager.getTeam (TeamManager.clearSessionData st sessionId).1 teamId
  = match TeamManager.getTeam st teamId with
    | Some team =>
        if String.eqb (Team.sessionId team) sessionId then None else Some team
    | None => None
    end.
Proof.
  intros Hwt. unfold TeamManager.clearSessionData, TeamManager.getTeam,
    JSMap.entries.
  cbn [fst Store.teams].
  change (map fst
            (List.filter
               (fun entry : string * Team.t =>
                  String.eqb (Team.sessionId entry.2) sessionId)
               (Store.teams st)))
    with (List.filter
            (fun entry : string * Team.t =>
               String.eqb (Team.sessionId entry.2) sessionId)
            (Store.teams st)).*1.
  rewrite <- delete_entries_keys.
  by rewrite (JSMap_get_delete_filtered
                (fun entry : string * Team.t =>
                   String.eqb (Team.sessionId entry.2) sessionId) _ _ Hwt).
Qed.

Lemma clearSessionData_wellFormed st sessionId :
  JSMap.wellFormed (Store.teams st) ->
  JSMap.wellFormed
    (Store.teams (TeamManager.clearSessionData st sessionId).1).
Proof.
  intros Hwt. unfold TeamManager.clearSessionData. cbn [fst Store.teams].
  by apply wellFormed_delete_keys.
Qed.

(** The loop of [cleanupOldSessions] over entries that are in the map. *)
Lemma cleanup_loop cutoffDate (entries : list (string * Session.t)) :
  forall state cleaned,
    NoDup (map fst entries) ->
    Forall
      (fun entry =>
         JSMap.get entry.1 (Store.groups (Sessions.store state))
         = Some entry.2)
      entries ->
    JSMap.wellFormed (Store.teams (Sessions.store state)) ->
    let old :=
      map fst
        (List.filter (fun entry => Sessions.isOld cutoffDate entry.2) entries)
    in
    let result :=
      foldl
        (fun progress entry =>
           if Sessions.isOld cutoffDate entry.2 then
             ((Sessions.deleteSession progress.1 entry.1).1, S progress.2)
           else progress)
        (state, cleaned) entries in
    (forall id,
       Sessions.getSession result.1 id
       = if existsb (String.eqb id) old then None
         else Sessions.getSession state id) /\
    result.2 = (cleaned + length old)%nat /\
    (forall teamId,
       TeamManager.getTeam (Sessions.store result.1) teamId
       = match TeamManager.getTeam (Sessions.store state) teamId with
         | Some team =>
             if existsb (String.eqb (Team.sessionId team)) old then None
             else Some team
         | None => None
         end).
Proof.
  induction entries as [|[key session] entries IH];
    intros state cleaned Hnodup Hthere Hwt; cbv zeta.
  - cbn [foldl List.filter map existsb length fst snd].
    split; [reflexivity|]. split; [lia|].
    intros teamId. by destruct (TeamManager.getTeam _ teamId).
  - cbn [map fst] in Hnodup. apply NoDup_cons in Hnodup as [Hkey Hnodup].
    apply Forall_cons in Hthere as [Hsession Hthere]. cbn [fst snd] in Hsession.
    cbn [foldl List.filter fst snd].
    destruct (Sessions.isOld cutoffDate session) eqn:Hold.
    + cbn [fst snd].
      assert ((Sessions.deleteSession state key).1
              = Sessions.mkState
                  (Store.withGroups
                     (TeamManager.clearSessionData (Sessions.store state)
                        key).1
                     (JSMap.delete key
                        (Store.groups
                           (TeamManager.clearSessionData
                              (Sessions.store state) key).1)))
                  (Sessions.forgetCode key (Sessions.sessionCodes state)))
        as -> by (unfold Sessions.deleteSession; by rewrite Hsession).
      set (state1 := Sessions.mkState _ _).
      destruct (IH state1 (S cleaned) Hnodup) as (Hgroups & Hcount & Hteams).
      { eapply Forall_impl.
        - apply Forall_forall. intros entry Hentry.
          exact (conj Hentry
                   (proj1 (Forall_forall _ _) Hthere entry Hentry)).
        - intros entry [Hentry Hget]. cbv beta.
          unfold state1. cbn [Sessions.store Store.groups Store.withGroups].
          rewrite JSMap_get_delete, groups_clearSessionData.
          destruct (String.eqb_spec key entry.1) as [->|_]; [|exact Hget].
          exfalso. apply Hkey. apply list_elem_of_fmap. by exists entry. }
      { unfold state1. cbn [Sessions.store Store.teams Store.withGroups].
        by apply clearSessionData_wellFormed. }
      cbv zeta in Hgroups, Hcount, Hteams.
      split; [|split].
      * intros id. rewrite Hgroups. cbn [map fst existsb].
        destruct (existsb (String.eqb id) _); [by rewrite orb_true_r|].
        rewrite orb_false_r. unfold Sessions.getSession, state1.
        cbn [Sessions.store Store.groups Store.withGroups].
        rewrite JSMap_get_delete, groups_clearSessionData.
        rewrite (String.eqb_sym id key). by destruct (String.eqb key id).
      * rewrite Hcount. cbn [map length]. lia.
      * intros teamId. rewrite Hteams. unfold state1.
        cbn [Sessions.store]. 
        assert (TeamManager.getTeam
                  (Store.withGroups
                     (TeamManager.clearSessionData (Sessions.store state)
                        key).1
                     (JSMap.delete key
                        (Store.groups
                           (TeamManager.clearSessionData
                              (Sessions.store state) key).1)))
                  teamId
                = TeamManager.getTeam
                    (TeamManager.clearSessionData (Sessions.store state)
                       key).1 teamId) as -> by reflexivity.
        rewrite clearSessionData_getTeam by exact Hwt.
        destruct (TeamManager.getTeam (Sessions.store state) teamId)
          as [team|]; [|reflexivity].
        cbn [map fst existsb].
        destruct (String.eqb (Team.sessionId team) key); reflexivity.
    + destruct (IH state cleaned Hnodup Hthere Hwt)
        as (Hgroups & Hcount & Hteams).
      cbv zeta in Hgroups, Hcount, Hteams. by repeat split.
Qed.

(** [cleanupOldSessions], for maps with one entry for each key. It removes
    exactly the sessions that are ended and were ended before the cutoff,
    with all the teams of these sessions, and reports their number. A
    session that is active or archived is never removed, however old it
    is, and neither is a team of another session. *)
Theorem cleanupOldSessions_removes cutoffDate state :
  JSMap.wellFormed (Store.groups (Sessions.store state)) ->
  JSMap.wellFormed (Store.teams (Sessions.store state)) ->
  let result := Sessions.cleanupOldSessions cutoffDate state in
  (forall id,
     Sessions.getSession result.1 id
     = match Sessions.getSession state id with
       | Some session =>
           if Sessions.isOld cutoffDate session then None else Some session
       | None => None
       end) /\
  result.2
  = length
      (List.filter (Sessions.isOld cutoffDate)
         (JSMap.values (Store.groups (Sessions.store state)))) /\
  (forall teamId,
     TeamManager.getTeam (Sessions.store result.1) teamId
     = match TeamManager.getTeam (Sessions.store state) teamId with
       | Some team =>
           match Sessions.getSession state (Team.sessionId team) with
           | Some session =>
               if Sessions.isOld cutoffDate session then None else Some team
           | None => Some team
           end
       | None => None
       end) /\
  (forall id session,
     Sessions.getSession state id = Some session ->
     Session.status session <> ended ->
     Sessions.getSession result.1 id = Some session).
Proof.
  intros Hwg Hwt. cbv zeta. unfold Sessions.cleanupOldSessions.
  destruct (cleanup_loop cutoffDate
              (JSMap.entries (Store.groups (Sessions.store state))) state 0)
    as (Hgroups & Hcount & Hteams).
  { exact Hwg. }
  { apply Forall_forall. intros [key session] Hin. cbn [fst snd].
    by apply JSMap_elem_get. }
  { exact Hwt. }
  cbv zeta in Hgroups, Hcount, Hteams. unfold JSMap.entries in *.
  assert (forall id,
            existsb (String.eqb id)
              (map fst
                 (List.filter (fun entry => Sessions.isOld cutoffDate entry.2)
                    (Store.groups (Sessions.store state))))
            = match Sessions.getSession state id with
              | Some session => Sessions.isOld cutoffDate session
              | None => false
              end) as Hold.
  { intros id.
    exact (existsb_keys_filter
             (fun entry : string * Session.t =>
                Sessions.isOld cutoffDate entry.2) _ id Hwg). }
  assert (forall id,
            Sessions.getSession
              (foldl
                 (fun progress entry =>
                    if Sessions.isOld cutoffDate entry.2 then
                      ((Sessions.deleteSession progress.1 entry.1).1,
                       S progress.2)
                    else progress)
                 (state, 0%nat) (Store.groups (Sessions.store state))).1 id
            = match Sessions.getSession state id with
              | Some session =>
                  if Sessions.isOld cutoffDate session then None
                  else Some session
              | None => None
              end) as Hsessions.
  { intros id. rewrite Hgroups, Hold.
    by destruct (Sessions.getSession state id). }
  split; [exact Hsessions|]. split; [|split].
  - rewrite Hcount. cbn [Nat.add]. rewrite length_map.
    apply length_filter_values.
  - intros teamId. rewrite Hteams.
    destruct (TeamManager.getTeam (Sessions.store state) teamId) as [team|];
      [|reflexivity].
    rewrite Hold. by destruct (Sessions.getSession state (Team.sessionId team)).
  - intros id session Hsession Hstatus. rewrite Hsessions, Hsession.
    unfold Sessions.isOld. by destruct (Session.status session).
Qed.

Lemma cleanupOldSessions_removes_witness :
  (Sessions.cleanupOldSessions 10 Scenarios.threeSessions).2 = 1%nat /\
  Sessions.getSession
    (Sessions.cleanupOldSessions 10 Scenarios.threeSessions).1 "group-3"
  = Some (Scenarios.sessionIn "group-3" archived (Some 1)).
Proof.
  destruct (cleanupOldSessions_removes 10 Scenarios.threeSessions)
    as (_ & Hcleaned & _ & Hkept).
  - apply (@bool_decide_unpack _ (NoDup_dec _)). vm_compute. reflexivity.
  - apply (@bool_decide_unpack _ (NoDup_dec _)). vm_compute. reflexivity.
  - split; [exact Hcleaned|]. apply Hkept; [reflexivity|discriminate].
Defined.

Example cleanupOldSessions_example :
  Sessions.cleanupOldSessions 10 Scenarios.threeSessions
  = (Sessions.mkState
       (Store.mk [("team-1", Examples.team)] []
          [("group-1", Examples.group);
           ("group-3", Scenarios.sessionIn "group-3" archived (Some 1))])
       [("ABC123", "group-1")],
     1%nat) /\
  Sessions.cleanupOldSessions 5 Scenarios.threeSessions
  = (Scenarios.threeSessions, 0%nat).
Proof. split; vm_compute; reflexivity. Qed.
